(** * The ORM core of nango: fields, query sets, active records, registry
      and permission checks

    A shallow embedding of
      - [api/src/core/fields.ts]      (Field and its subclasses),
      - [api/src/core/model.ts]       (QuerySet, Model),
      - [api/src/core/ModelRegistry.ts] (ModelRegistryClass),
      - [api/src/apps/auth/permissionService.ts] (PermissionService),
      - [api/src/apps/auth/models.ts] (the auth model classes),
    followed by the properties proved about them.

    Conventions of the embedding.
      - A JavaScript value is a [JSValue]; [undefined] is a value of its own,
        so an optional property that is absent reads as [VUndefined].
      - A JavaScript number is a [number]: an integral value [Num z] or [NaN].
        These are the numbers the code meets (row ids, row counts, the result
        of [parseInt]); [Num z] prints in decimal, as JavaScript prints an
        integral number below 10^21.
      - A JavaScript object used as a record ([filters], [data], [fields], a
        result row, a model instance) is an [obj]: its own properties in
        insertion order.  This is the order in which [Object.keys],
        [Object.entries], [Object.values] and [for ... in] visit property
        names that are not canonical array indices; column and field names
        are identifiers, never array indices.
      - A zero-argument producer function (a callable default) is a state
        transformer on an ambient state of type [Ambient] (the clock, a
        counter, ...), about which nothing is assumed.
      - The database driver (better-sqlite3) is outside the repository: the
        code is embedded over an arbitrary [Driver]; every statement handed
        to the driver is recorded in the session's [executed] trace. *)

From Stdlib Require Import ZArith List String Ascii Bool Lia.
From Stdlib Require Import DecimalString.
Import ListNotations.
Open Scope list_scope.
Open Scope string_scope.

Set Implicit Arguments.
Set Warnings "-register-all".

(* ================================================================== *)
(** ** JavaScript values *)
(* ================================================================== *)

Module JS.

Inductive number : Type :=
| Num (z : Z)
| NaN.

(** [Boolean(n)] for a number: 0 and NaN are falsy. *)
Definition number_truthy (n : number) : bool :=
  match n with
  | Num z => negb (Z.eqb z 0)
  | NaN => false
  end.

(** [String(n)], as in a template literal. *)
Definition number_toString (n : number) : string :=
  match n with
  | Num z => NilZero.string_of_int (Z.to_int z)
  | NaN => "NaN"
  end.

(** The concrete subclasses of [Field] that the repository defines. *)
Inductive FieldClass : Type :=
| CharField | TextField | IntegerField | FloatField | BooleanField
| DateTimeField | DateField | EmailField | AutoField | ForeignKey
| ManyToManyField.

Inductive ReferentialAction : Type :=
| CASCADE | SET_NULL | RESTRICT | NO_ACTION.

(** [interface FieldOptions]; an absent optional boolean is [None], the
    [default] slot ([default?: any]) holds a value, [undefined] when absent. *)
Record FieldOptions (V : Type) : Type := mkFieldOptions {
  primaryKey : option bool;
  unique : option bool;
  nullable : option bool;
  default : V;
  autoIncrement : option bool;
  maxLength : option number;
  minLength : option number;
  onDelete : option ReferentialAction;
  onUpdate : option ReferentialAction
}.

(** An instance of (a subclass of) [Field]: its late-bound [fieldName], the
    class it was constructed from, its [options], and for the relation fields
    the name of the related model. *)
Record FieldOf (V : Type) : Type := mkField {
  fieldName : string;
  fieldClass : FieldClass;
  options : FieldOptions V;
  relatedModel : string
}.

Inductive JSValue {Ambient : Type} : Type :=
| VUndefined
| VNull
| VBool (b : bool)
| VNum (n : number)
| VStr (s : string)
| VField (f : FieldOf JSValue)
| VObject (props : list string) (repr : string)
| VFun (src : string) (call : Ambient -> JSValue * Ambient).

Arguments JSValue : clear implicits.

Definition Field (Ambient : Type) : Type := FieldOf (JSValue Ambient).

Section Values.
Context {Ambient : Type}.
Local Abbreviation value := (JSValue Ambient).

Inductive TypeTag : Type :=
| TUndefined | TObject | TBoolean | TNumber | TString | TFunction.

(** [typeof v]. *)
Definition typeof (v : value) : TypeTag :=
  match v with
  | VUndefined => TUndefined
  | VNull => TObject
  | VBool _ => TBoolean
  | VNum _ => TNumber
  | VStr _ => TString
  | VField _ => TObject
  | VObject _ _ => TObject
  | VFun _ _ => TFunction
  end.

Definition is_function (v : value) : bool :=
  match v with VFun _ _ => true | _ => false end.

Definition is_undefined (v : value) : bool :=
  match v with VUndefined => true | _ => false end.

Definition is_null (v : value) : bool :=
  match v with VNull => true | _ => false end.

(** [v instanceof Field]. *)
Definition instanceof_Field (v : value) : bool :=
  match v with VField _ => true | _ => false end.

(** ['fieldName' in v] for an object [v]; every [Field] has the property. *)
Definition has_fieldName (v : value) : bool :=
  match v with
  | VField _ => true
  | VObject props _ => existsb (String.eqb "fieldName") props
  | _ => false
  end.

(** [Boolean(v)]. *)
Definition truthy (v : value) : bool :=
  match v with
  | VUndefined | VNull => false
  | VBool b => b
  | VNum n => number_truthy n
  | VStr s => negb (String.eqb s "")
  | VField _ | VObject _ _ | VFun _ _ => true
  end.

(** [String(v)], the conversion a template literal applies. *)
Definition toString (v : value) : string :=
  match v with
  | VUndefined => "undefined"
  | VNull => "null"
  | VBool true => "true"
  | VBool false => "false"
  | VNum n => number_toString n
  | VStr s => s
  | VField _ => "[object Object]"
  | VObject _ repr => repr
  | VFun src _ => src
  end.

(** Truthiness of an optional boolean option ([undefined] is falsy). *)
Definition flag (o : option bool) : bool :=
  match o with Some b => b | None => false end.

End Values.

(** *** Objects as ordered records *)

Section Objects.
Variable V : Type.

Definition obj : Type := list (string * V).

(** [o[k]], with [dflt] standing for [undefined]. *)
Fixpoint obj_get (dflt : V) (o : obj) (k : string) : V :=
  match o with
  | [] => dflt
  | (k', v) :: o' => if String.eqb k' k then v else obj_get dflt o' k
  end.

(** [o[k]] with absence made explicit. *)
Fixpoint obj_lookup (o : obj) (k : string) : option V :=
  match o with
  | [] => None
  | (k', v) :: o' => if String.eqb k' k then Some v else obj_lookup o' k
  end.

Fixpoint obj_has (o : obj) (k : string) : bool :=
  match o with
  | [] => false
  | (k', _) :: o' => if String.eqb k' k then true else obj_has o' k
  end.

(** [o[k] = v]: an existing property keeps its place, a new one is
    appended. *)
Fixpoint obj_set (o : obj) (k : string) (v : V) : obj :=
  match o with
  | [] => [(k, v)]
  | (k', v') :: o' =>
      if String.eqb k' k then (k', v) :: o' else (k', v') :: obj_set o' k v
  end.

(** [Object.assign(target, source)], also the spread [{...target, ...source}]. *)
Definition obj_assign (target source : obj) : obj :=
  fold_left (fun o kv => obj_set o (fst kv) (snd kv)) source target.

Definition obj_keys (o : obj) : list string := map fst o.
Definition obj_values (o : obj) : list V := map snd o.

End Objects.

(** [s.toLowerCase()] on the ASCII letters (class names are identifiers). *)
Definition lower_ascii (c : ascii) : ascii :=
  let n := nat_of_ascii c in
  if Nat.leb 65 n && Nat.leb n 90 then ascii_of_nat (n + 32) else c.

Fixpoint toLowerCase (s : string) : string :=
  match s with
  | EmptyString => EmptyString
  | String c s' => String (lower_ascii c) (toLowerCase s')
  end.

End JS.

Import JS.

(* ================================================================== *)
(** ** fields.ts *)
(* ================================================================== *)

Module Fields.
Section Defs.
Context {Ambient : Type}.
Local Abbreviation value := (JSValue Ambient).
Local Abbreviation Field := (JS.Field Ambient).

(** The options every [Field] constructor starts from:
    [{ nullable: false, ...options }] with [options = {}]. *)
Definition base_options : FieldOptions value :=
  {| primaryKey := None; unique := None; nullable := Some false;
     default := VUndefined; autoIncrement := None;
     maxLength := None; minLength := None;
     onDelete := None; onUpdate := None |}.

(** [new AutoField()]:
    [super({ primaryKey: true, autoIncrement: true, ...options })]. *)
Definition new_AutoField : Field :=
  {| fieldName := "";
     fieldClass := AutoField;
     options :=
       {| primaryKey := Some true; unique := None; nullable := Some false;
          default := VUndefined; autoIncrement := Some true;
          maxLength := None; minLength := None;
          onDelete := None; onUpdate := None |};
     relatedModel := "" |}.

(** [field.fieldName = key]. *)
Definition set_fieldName (f : Field) (key : string) : Field :=
  {| fieldName := key; fieldClass := fieldClass f;
     options := options f; relatedModel := relatedModel f |}.

(** [field.constructor.name]. *)
Definition constructor_name (c : FieldClass) : string :=
  match c with
  | CharField => "CharField"
  | TextField => "TextField"
  | IntegerField => "IntegerField"
  | FloatField => "FloatField"
  | BooleanField => "BooleanField"
  | DateTimeField => "DateTimeField"
  | DateField => "DateField"
  | EmailField => "EmailField"
  | AutoField => "AutoField"
  | ForeignKey => "ForeignKey"
  | ManyToManyField => "ManyToManyField"
  end.

(** [constraints.push(s)]. *)
Definition push (constraints : list string) (s : string) : list string :=
  (constraints ++ [s])%list.

(** The [DEFAULT] fragment pushed for a default [d] that is neither
    [undefined] nor a function. *)
Definition default_clause (d : value) : string :=
  match d with
  | VStr s => "DEFAULT '" ++ s ++ "'"
  | VBool b => "DEFAULT " ++ number_toString (Num (if b then 1 else 0))
  | _ => "DEFAULT " ++ toString d
  end.

(** [Field.getConstraints], statement by statement. *)
Definition getConstraints_list (f : Field) : list string :=
  let o := options f in
  let constraints := [] in
  let constraints :=
    if flag (primaryKey o) then push constraints "PRIMARY KEY"
    else constraints in
  let constraints :=
    if flag (autoIncrement o) then push constraints "AUTOINCREMENT"
    else constraints in
  let constraints :=
    if flag (unique o) then push constraints "UNIQUE"
    else constraints in
  let constraints :=
    if negb (flag (nullable o)) && negb (flag (primaryKey o))
    then push constraints "NOT NULL"
    else constraints in
  let constraints :=
    if negb (is_undefined (default o)) && negb (is_function (default o))
    then push constraints (default_clause (default o))
    else constraints in
  constraints.

Definition getConstraints (f : Field) : string :=
  String.concat " " (getConstraints_list f).

(** *** The contract of section 4.1, written from the specification *)

Inductive Marker : Type :=
| MPrimaryKey | MAutoIncrement | MUnique | MNotNull | MDefault.

(** The order in which the specification lists the markers. *)
Definition marker_order : list Marker :=
  [MPrimaryKey; MAutoIncrement; MUnique; MNotNull; MDefault].

(** The text of one marker for a field, [None] when the marker is not
    emitted. *)
Definition marker_text (f : Field) (m : Marker) : option string :=
  let o := options f in
  match m with
  | MPrimaryKey =>
      if flag (primaryKey o) then Some "PRIMARY KEY" else None
  | MAutoIncrement =>
      if flag (autoIncrement o) then Some "AUTOINCREMENT" else None
  | MUnique =>
      if flag (unique o) then Some "UNIQUE" else None
  | MNotNull =>
      if flag (nullable o) || flag (primaryKey o) then None
      else Some "NOT NULL"
  | MDefault =>
      match default o with
      | VUndefined => None
      | VFun _ _ => None
      | VStr s => Some ("DEFAULT '" ++ s ++ "'")
      | VBool true => Some "DEFAULT 1"
      | VBool false => Some "DEFAULT 0"
      | d => Some ("DEFAULT " ++ toString d)
      end
  end.

Fixpoint emitted (f : Field) (ms : list Marker) : list string :=
  match ms with
  | [] => []
  | m :: ms' =>
      match marker_text f m with
      | Some s => s :: emitted f ms'
      | None => emitted f ms'
      end
  end.

End Defs.
End Fields.

(* ================================================================== *)
(** ** The driver and the session in which the code runs *)
(* ================================================================== *)

Module Runtime.

(** What a call can throw: [new Error(message)] raised by the application
    code, or an error raised inside the driver. *)
Inductive JSError : Type :=
| Error (message : string)
| DriverError (message : string).

Inductive Completion (A : Type) : Type :=
| Normal (a : A)
| Throw (e : JSError).

Arguments Throw {A} e.

(** How a prepared statement is run: [stmt.all], [stmt.get], [stmt.run]. *)
Inductive Mode : Type := StmtAll | StmtGet | StmtRun.

Section Defs.
Context {Ambient : Type}.
Local Abbreviation value := (JSValue Ambient).

(** [db.prepare(sql)] followed by one run with [params]. *)
Record Call : Type := mkCall {
  mode : Mode;
  sql : string;
  params : list value
}.

(** What the driver hands back: the rows of [all]/[get], and the
    [{ changes, lastInsertRowid }] of [run]. *)
Record Reply : Type := mkReply {
  rows : list (obj value);
  changes : number;
  lastInsertRowid : number
}.

Record Driver : Type := mkDriver {
  Db : Type;
  exec : Call -> Db -> Completion Reply * Db
}.

Variable drv : Driver.

Record Session : Type := mkSession {
  ambient : Ambient;
  db : Db drv;
  executed : list Call
}.

(** Computations of the embedded code: state passing with exceptions; a
    thrown error keeps the state reached so far. *)
Definition M (A : Type) : Type := Session -> Completion A * Session.

Definition ret {A : Type} (a : A) : M A := fun s => (Normal a, s).

Definition bind {A B : Type} (m : M A) (k : A -> M B) : M B :=
  fun s =>
    match m s with
    | (Normal a, s') => k a s'
    | (Throw e, s') => (Throw e, s')
    end.

Definition throw {A : Type} (e : JSError) : M A := fun s => (Throw e, s).

(** [db.prepare(q)] followed by [stmt.all/get/run(...ps)]. *)
Definition statement (m : Mode) (q : string) (ps : list value) : M Reply :=
  fun s =>
    let c := mkCall m q ps in
    let (r, d) := exec drv c (db s) in
    (r, {| ambient := ambient s; db := d;
           executed := (executed s ++ [c])%list |}).

(** The session with its ambient state replaced. *)
Definition with_ambient (s : Session) (a : Ambient) : Session :=
  {| ambient := a; db := db s; executed := executed s |}.

(** Calling a producer function [f()]; calling a non-function is a
    [TypeError], which the code never does. *)
Definition call_function (f : value) : M value :=
  fun s =>
    match f with
    | VFun _ call =>
        let (v, a) := call (ambient s) in (Normal v, with_ambient s a)
    | _ => (Throw (Error "TypeError: not a function"), s)
    end.

End Defs.

Arguments Session {Ambient} drv.
Arguments M {Ambient} drv A.
Arguments ret {Ambient drv A} a.
Arguments bind {Ambient drv A B} m k.
Arguments throw {Ambient drv A} e.
Arguments statement {Ambient} drv m q ps.
Arguments call_function {Ambient} drv f.
Arguments with_ambient {Ambient drv} s a.

End Runtime.

Import Runtime.

Notation "x <- m ;; k" := (Runtime.bind m (fun x => k))
  (at level 61, m at next level, right associativity).

(* ================================================================== *)
(** ** model.ts: the static side of [Model] *)
(* ================================================================== *)

Module ModelStatic.
Section Defs.
Context {Ambient : Type}.
Local Abbreviation value := (JSValue Ambient).
Local Abbreviation Field := (JS.Field Ambient).

(** The base class declares [id?: number]: a property named [id] that a
    class body initialises holds a number or [undefined]. *)
Definition id_is_number (declared : obj value) : bool :=
  forallb
    (fun kv =>
       if String.eqb (fst kv) "id"
       then match snd kv with VUndefined | VNum _ => true | _ => false end
       else true)
    declared.

(** A class extending [Model]: its [name], what its static [getTableName()]
    returns, and the properties its constructor initialises, in the order of
    the class body. *)
Record ModelClass : Type := mkModelClass {
  name : string;
  getTableName : string;
  declared : obj value;
  id_typed : id_is_number declared = true
}.

(** [Model.getTableName] as inherited when a class does not override it. *)
Definition default_getTableName (className : string) : string :=
  toLowerCase className ++ "s".

(** A model instance: [this.constructor] and the own properties. *)
Record Instance : Type := mkInstance {
  class_of : ModelClass;
  props : obj value
}.

(** [new (cls as any)()]. *)
Definition construct (cls : ModelClass) : Instance :=
  {| class_of := cls; props := obj_assign [] (declared cls) |}.

(** [instance[key]]. *)
Definition get (i : Instance) (key : string) : value :=
  obj_get VUndefined (props i) key.

(** [instance[key] = v]. *)
Definition set (i : Instance) (key : string) (v : value) : Instance :=
  {| class_of := class_of i; props := obj_set (props i) key v |}.

(** [Object.assign(instance, row)]. *)
Definition assign (i : Instance) (row : obj value) : Instance :=
  {| class_of := class_of i; props := obj_assign (props i) row |}.

(** The body of the [for (const key in instance)] loop of [getFields]. *)
Definition getFields_step (instance : Instance) (fields : obj Field)
    (key : string) : obj Field :=
  match get instance key with
  | VField field => obj_set fields key (Fields.set_fieldName field key)
  | _ => fields
  end.

(** [Model.getFields]. *)
Definition getFields (cls : ModelClass) : obj Field :=
  let fields := [] in
  let idField := Fields.set_fieldName Fields.new_AutoField "id" in
  let fields := obj_set fields "id" idField in
  let instance := construct cls in
  fold_left (getFields_step instance) (obj_keys (props instance)) fields.

(** The properties of an object that hold a [Field], each with the name it
    is stored under. *)
Definition fields_in (o : obj value) : obj Field :=
  flat_map
    (fun kv =>
       match snd kv with
       | VField f => [(fst kv, Fields.set_fieldName f (fst kv))]
       | _ => []
       end) o.

(** The fields a class declares: the [Field] properties of a fresh
    instance. *)
Definition field_properties (cls : ModelClass) : obj Field :=
  fields_in (props (construct cls)).

End Defs.

Arguments ModelClass : clear implicits.
Arguments Instance : clear implicits.

End ModelStatic.

(* ================================================================== *)
(** ** model.ts: [QuerySet] *)
(* ================================================================== *)

Module QuerySet.

Inductive Direction : Type := ASC | DESC.

Definition direction_text (d : Direction) : string :=
  match d with ASC => "ASC" | DESC => "DESC" end.

(** [interface QueryOptions]. *)
Record QueryOptions : Type := mkQueryOptions {
  limit_of : option number;
  offset_of : option number;
  orderBy_of : option string;
  orderDirection_of : option Direction
}.

Section Defs.
Context {Ambient : Type}.
Local Abbreviation value := (JSValue Ambient).
Local Abbreviation ModelClass := (ModelStatic.ModelClass Ambient).
Local Abbreviation Instance := (ModelStatic.Instance Ambient).

Record QuerySet : Type := mkQuerySet {
  model : ModelClass;
  filters : obj value;
  options : QueryOptions
}.

(** [new QuerySet(model)]. *)
Definition new (m : ModelClass) : QuerySet :=
  {| model := m; filters := [];
     options := {| limit_of := None; offset_of := None;
                   orderBy_of := None; orderDirection_of := None |} |}.

(** [this.filters = { ...this.filters, ...filters }; return this]. *)
Definition filter (q : QuerySet) (fs : obj value) : QuerySet :=
  {| model := model q;
     filters := obj_assign (obj_assign [] (filters q)) fs;
     options := options q |}.

Definition orderBy (q : QuerySet) (field : string) (direction : Direction)
    : QuerySet :=
  {| model := model q; filters := filters q;
     options := {| limit_of := limit_of (options q);
                   offset_of := offset_of (options q);
                   orderBy_of := Some field;
                   orderDirection_of := Some direction |} |}.

Definition limit (q : QuerySet) (count : number) : QuerySet :=
  {| model := model q; filters := filters q;
     options := {| limit_of := Some count;
                   offset_of := offset_of (options q);
                   orderBy_of := orderBy_of (options q);
                   orderDirection_of := orderDirection_of (options q) |} |}.

Definition offset (q : QuerySet) (count : number) : QuerySet :=
  {| model := model q; filters := filters q;
     options := {| limit_of := limit_of (options q);
                   offset_of := Some count;
                   orderBy_of := orderBy_of (options q);
                   orderDirection_of := orderDirection_of (options q) |} |}.

(** The block shared by [all], [count] and [delete]: when the filter object
    has keys, one [key = ?] per key joined by [AND], each key's value pushed
    onto [params]. *)
Definition add_where (q : QuerySet) (query : string) (params : list value)
    : string * list value :=
  if Nat.ltb 0 (List.length (obj_keys (filters q))) then
    let conditions := map (fun key => key ++ " = ?") (obj_keys (filters q)) in
    let params :=
      (params ++ map (fun key => obj_get VUndefined (filters q) key)
                     (obj_keys (filters q)))%list in
    (query ++ " WHERE " ++ String.concat " AND " conditions, params)
  else (query, params).

(** [if (this.options.orderBy)]. *)
Definition string_truthy (o : option string) : bool :=
  match o with Some s => negb (String.eqb s "") | None => false end.

(** [if (this.options.limit)]. *)
Definition count_truthy (o : option number) : bool :=
  match o with Some n => number_truthy n | None => false end.

(** [`${this.options.limit}`]. *)
Definition count_text (o : option number) : string :=
  match o with Some n => number_toString n | None => "undefined" end.

(** The statement text and parameters that [all] builds before it prepares
    the statement. *)
Definition all_query (q : QuerySet) : string * list value :=
  let tableName := ModelStatic.getTableName (model q) in
  let query := "SELECT * FROM " ++ tableName in
  let params := [] in
  let '(query, params) := add_where q query params in
  let query :=
    if string_truthy (orderBy_of (options q)) then
      query ++ " ORDER BY "
        ++ match orderBy_of (options q) with Some f => f | None => "" end
        ++ " "
        ++ match orderDirection_of (options q) with
           | Some d => direction_text d
           | None => "ASC"
           end
    else query in
  let query :=
    if count_truthy (limit_of (options q))
    then query ++ " LIMIT " ++ count_text (limit_of (options q))
    else query in
  let query :=
    if count_truthy (offset_of (options q))
    then query ++ " OFFSET " ++ count_text (offset_of (options q))
    else query in
  (query, params).

(** The hydration of one result row. *)
Definition hydrate (m : ModelClass) (row : obj value) : Instance :=
  let instance := ModelStatic.construct m in
  ModelStatic.assign instance row.

Definition count_query (q : QuerySet) : string * list value :=
  let tableName := ModelStatic.getTableName (model q) in
  add_where q ("SELECT COUNT(*) as count FROM " ++ tableName) [].

Definition delete_query (q : QuerySet) : string * list value :=
  let tableName := ModelStatic.getTableName (model q) in
  add_where q ("DELETE FROM " ++ tableName) [].

Variable drv : @Driver Ambient.

Definition all (q : QuerySet) : M drv (list Instance) :=
  let '(query, params) := all_query q in
  results <- statement drv StmtAll query params ;;
  ret (map (hydrate (model q)) (rows results)).

(** [first] sets the limit of [this] and so hands back the changed query
    set next to its result ([None] for [null]). *)
Definition first (q : QuerySet) : M drv (option Instance * QuerySet) :=
  let q := limit q (Num 1) in
  results <- all q ;;
  ret (if Nat.ltb 0 (List.length results) then List.hd_error results else None,
       q).

(** [count]: the [count] column of the row [stmt.get] returns. *)
Definition count (q : QuerySet) : M drv value :=
  let '(query, params) := count_query q in
  result <- statement drv StmtGet query params ;;
  match rows result with
  | row :: _ => ret (obj_get VUndefined row "count")
  | [] => throw (Error "TypeError: Cannot read properties of undefined")
  end.

Definition delete (q : QuerySet) : M drv number :=
  let '(query, params) := delete_query q in
  result <- statement drv StmtRun query params ;;
  ret (changes result).

End Defs.

Arguments QuerySet : clear implicits.
Arguments all {Ambient} drv q.
Arguments first {Ambient} drv q.
Arguments count {Ambient} drv q.
Arguments delete {Ambient} drv q.

End QuerySet.

(* ================================================================== *)
(** ** model.ts: the instance side of [Model] and the [objects] manager *)
(* ================================================================== *)

Module Model.
Section Defs.
Context {Ambient : Type}.
Local Abbreviation value := (JSValue Ambient).
Local Abbreviation Field := (JS.Field Ambient).
Local Abbreviation ModelClass := (ModelStatic.ModelClass Ambient).
Local Abbreviation Instance := (ModelStatic.Instance Ambient).
Variable drv : @Driver Ambient.

(** The test that guards the first block of the loop of [save]:
    [value !== undefined && value !== null && typeof value === 'object'
     && 'fieldName' in value]. *)
Definition still_descriptor (v : value) : bool :=
  negb (is_undefined v) && negb (is_null v)
  && match typeof v with TObject => true | _ => false end
  && has_fieldName v.

(** [typeof d === 'function' ? d() : d] for the default [d] of a field. *)
Definition take_default (d : value) : M drv value :=
  if is_function d then call_function drv d else ret d.

(** [typeof value === 'boolean' ? (value ? 1 : 0) : value]. *)
Definition to_storage (v : value) : value :=
  match v with
  | VBool b => VNum (Num (if b then 1 else 0))
  | _ => v
  end.

(** One turn of the loop of [save] for a field other than [id]: the value
    to store under the field's name, or [None] when the turn ends in
    [continue]. *)
Definition resolve (field : Field) (value0 : value) : M drv (option value) :=
  let d := default (options field) in
  r <- (if still_descriptor value0 then
          if negb (is_undefined d) then
            v <- take_default d ;; ret (Some v)
          else ret None
        else ret (Some value0)) ;;
  match r with
  | None => ret None
  | Some v =>
      v <- (if (is_undefined v || is_null v) && negb (is_undefined d)
            then take_default d
            else ret v) ;;
      ret (Some (to_storage v))
  end.

(** The loop [for (const fieldName of Object.keys(fields))] of [save]. *)
Fixpoint collect (this : Instance) (fields : obj Field)
    (keys : list string) (data : obj value) : M drv (obj value) :=
  match keys with
  | [] => ret data
  | fieldName :: rest =>
      if negb (String.eqb fieldName "id") then
        match obj_lookup fields fieldName with
        | Some field =>
            r <- resolve field (ModelStatic.get this fieldName) ;;
            match r with
            | Some v => collect this fields rest (obj_set data fieldName v)
            | None => collect this fields rest data
            end
        | None => throw (Error "TypeError: Cannot read properties of undefined")
        end
      else collect this fields rest data
  end.

Definition update_sql (tableName : string) (data : obj value) : string :=
  let setClause :=
    String.concat ", " (map (fun key => key ++ " = ?") (obj_keys data)) in
  "UPDATE " ++ tableName ++ " SET " ++ setClause ++ " WHERE id = ?".

Definition insert_sql (tableName : string) (data : obj value) : string :=
  let keys := obj_keys data in
  let placeholders := String.concat ", " (map (fun _ => "?") keys) in
  "INSERT INTO " ++ tableName ++ " (" ++ String.concat ", " keys
    ++ ") VALUES (" ++ placeholders ++ ")".

(** [Model.save]; the instance is handed back because the insert path
    assigns [this.id]. *)
Definition save (this : Instance) : M drv Instance :=
  let tableName := ModelStatic.getTableName (ModelStatic.class_of this) in
  let fields := ModelStatic.getFields (ModelStatic.class_of this) in
  data <- collect this fields (obj_keys fields) [] ;;
  if truthy (ModelStatic.get this "id") then
    let values := (obj_values data ++ [ModelStatic.get this "id"])%list in
    _ <- statement drv StmtRun (update_sql tableName data) values ;;
    ret this
  else
    let values := obj_values data in
    result <- statement drv StmtRun (insert_sql tableName data) values ;;
    ret (ModelStatic.set this "id" (VNum (lastInsertRowid result))).

Definition delete_sql (tableName : string) : string :=
  "DELETE FROM " ++ tableName ++ " WHERE id = ?".

(** [Model.delete]; it assigns nothing to [this]. *)
Definition delete (this : Instance) : M drv unit :=
  if negb (truthy (ModelStatic.get this "id")) then
    throw (Error "Cannot delete unsaved object")
  else
    let tableName := ModelStatic.getTableName (ModelStatic.class_of this) in
    _ <- statement drv StmtRun (delete_sql tableName)
           [ModelStatic.get this "id"] ;;
    ret tt.

(** *** [Model.objects] *)

Definition objects_all (cls : ModelClass) : QuerySet.QuerySet Ambient :=
  QuerySet.new cls.

Definition objects_filter (cls : ModelClass) (fs : obj value)
    : QuerySet.QuerySet Ambient :=
  QuerySet.filter (QuerySet.new cls) fs.

Definition objects_get (cls : ModelClass) (fs : obj value)
    : M drv (option Instance) :=
  r <- QuerySet.first drv (QuerySet.filter (QuerySet.new cls) fs) ;;
  ret (fst r).

Definition objects_create (cls : ModelClass) (data : obj value)
    : M drv Instance :=
  let instance := ModelStatic.construct cls in
  let instance := ModelStatic.assign instance data in
  save instance.

Definition objects_count (cls : ModelClass) : M drv value :=
  QuerySet.count drv (QuerySet.new cls).

End Defs.

Arguments take_default {Ambient} drv d.
Arguments resolve {Ambient} drv field value0.
Arguments collect {Ambient} drv this fields keys data.
Arguments save {Ambient} drv this.
Arguments delete {Ambient} drv this.
Arguments objects_get {Ambient} drv cls fs.
Arguments objects_create {Ambient} drv cls data.
Arguments objects_count {Ambient} drv cls.

End Model.

(* ================================================================== *)
(** ** ModelRegistry.ts *)
(* ================================================================== *)

Module ModelRegistry.

(** [interface AdminOptions]. *)
Record AdminOptions : Type := mkAdminOptions {
  opt_appName : option string;
  opt_displayName : option string;
  opt_icon : option string;
  opt_permissions : option (list string);
  opt_listDisplay : option (list string);
  opt_searchFields : option (list string);
  opt_filterFields : option (list string);
  opt_orderBy : option string;
  opt_readonly : option bool;
  opt_excludeFields : option (list string)
}.

(** [options = {}]. *)
Definition no_options : AdminOptions :=
  {| opt_appName := None; opt_displayName := None; opt_icon := None;
     opt_permissions := None; opt_listDisplay := None;
     opt_searchFields := None; opt_filterFields := None;
     opt_orderBy := None; opt_readonly := None; opt_excludeFields := None |}.

(** [s || fallback] for an optional string: absent and empty are falsy. *)
Definition or_string (s : option string) (fallback : string) : string :=
  match s with
  | Some x => if String.eqb x "" then fallback else x
  | None => fallback
  end.

Definition action_text (a : ReferentialAction) : string :=
  match a with
  | CASCADE => "CASCADE"
  | SET_NULL => "SET NULL"
  | RESTRICT => "RESTRICT"
  | NO_ACTION => "NO ACTION"
  end.

Section Defs.
Context {Ambient : Type}.
Local Abbreviation value := (JSValue Ambient).
Local Abbreviation Field := (JS.Field Ambient).
Local Abbreviation ModelClass := (ModelStatic.ModelClass Ambient).

(** [interface FieldMetadata]. *)
Record FieldMetadata : Type := mkFieldMetadata {
  meta_name : string;
  meta_type : string;
  meta_required : bool;
  meta_maxLength : option number;
  meta_unique : option bool;
  meta_default : value;
  meta_nullable : option bool;
  meta_choices : value;
  meta_relatedModel : option string;
  meta_onDelete : option string
}.

(** [interface ModelMetadata]. *)
Record ModelMetadata : Type := mkModelMetadata {
  meta_model : ModelClass;
  meta_tableName : string;
  meta_appName : string;
  meta_displayName : string;
  meta_icon : string;
  meta_permissions : list string;
  meta_fields : obj FieldMetadata;
  meta_adminOptions : AdminOptions
}.

(** The [Map<string, ModelMetadata>] of the registry, in insertion order. *)
Definition Registry : Type := obj ModelMetadata.

(** The metadata built for one entry of [Object.entries(fields)]. *)
Definition field_metadata (fieldName : string) (field : Field)
    : FieldMetadata :=
  let o := options field in
  let is_fk :=
    String.eqb (Fields.constructor_name (fieldClass field)) "ForeignKey" in
  {| meta_name := fieldName;
     meta_type := Fields.constructor_name (fieldClass field);
     meta_required := negb (flag (nullable o));
     meta_maxLength := maxLength o;
     meta_unique := unique o;
     meta_default := default o;
     meta_nullable := nullable o;
     meta_choices := VUndefined;
     meta_relatedModel := if is_fk then Some (relatedModel field) else None;
     meta_onDelete :=
       if is_fk then
         Some (match onDelete o with
               | Some a => action_text a
               | None => "CASCADE"
               end)
       else None |}.

(** The loop [for (const [fieldName, field] of Object.entries(fields))]. *)
Definition field_metadata_all (fields : obj Field) : obj FieldMetadata :=
  fold_left
    (fun fieldMetadata entry =>
       obj_set fieldMetadata (fst entry)
               (field_metadata (fst entry) (snd entry)))
    fields [].

(** [ModelRegistryClass.registerModel]; the line it logs is not part of the
    registry and is left out. *)
Definition registerModel (models : Registry) (model : ModelClass)
    (options : AdminOptions) : Registry :=
  let tableName := ModelStatic.getTableName model in
  let modelName := ModelStatic.name model in
  let appName := or_string (opt_appName options) "General" in
  let fields := ModelStatic.getFields model in
  let fieldMetadata := field_metadata_all fields in
  let metadata :=
    {| meta_model := model;
       meta_tableName := tableName;
       meta_appName := appName;
       meta_displayName := or_string (opt_displayName options) modelName;
       meta_icon := or_string (opt_icon options) "database";
       meta_permissions :=
         match opt_permissions options with
         | Some ps => ps
         | None => ["view"; "add"; "change"; "delete"]
         end;
       meta_fields := fieldMetadata;
       meta_adminOptions := options |} in
  obj_set models modelName metadata.

Definition getModel (models : Registry) (modelName : string)
    : option ModelMetadata :=
  obj_lookup models modelName.

Definition getAllModels (models : Registry) : list ModelMetadata :=
  obj_values models.

Definition getModelNames (models : Registry) : list string :=
  obj_keys models.

Definition hasModel (models : Registry) (modelName : string) : bool :=
  obj_has models modelName.

(** A sequence of [registerModel] calls on a registry. *)
Definition register_all (models : Registry)
    (calls : list (ModelClass * AdminOptions)) : Registry :=
  fold_left (fun ms c => registerModel ms (fst c) (snd c)) calls models.

End Defs.

Arguments FieldMetadata : clear implicits.
Arguments ModelMetadata : clear implicits.
Arguments Registry : clear implicits.

End ModelRegistry.

(* ================================================================== *)
(** ** apps/auth/models.ts: the classes the permission service reads *)
(* ================================================================== *)

Module AuthModels.
Section Defs.
Context {Ambient : Type}.
Local Abbreviation value := (JSValue Ambient).
Local Abbreviation Field := (JS.Field Ambient).
Local Abbreviation ModelClass := (ModelStatic.ModelClass Ambient).

(** [() => new Date().toISOString()], a reading of the ambient clock. *)
Variable now_iso : Ambient -> value * Ambient.

(** [new C(options)] for a field class without constructor defaults of its
    own, the options given over [{ nullable: false }]. *)
Definition field (c : FieldClass) (uniq nul : option bool) (d : value)
    (maxLen : option number) : value :=
  VField
    {| fieldName := "";
       fieldClass := c;
       options :=
         {| primaryKey := None; unique := uniq;
            nullable := match nul with Some b => Some b | None => Some false end;
            default := d; autoIncrement := None;
            maxLength := maxLen; minLength := None;
            onDelete := None; onUpdate := None |};
       relatedModel := "" |}.

Definition User : ModelClass :=
  @ModelStatic.mkModelClass Ambient "User" "users"
    [ ("username", field CharField (Some true) None VUndefined (Some (Num 150)));
      ("email", field EmailField (Some true) None VUndefined (Some (Num 254)));
      ("password", field TextField None None VUndefined None);
      ("firstName", field CharField None (Some true) VUndefined (Some (Num 150)));
      ("lastName", field CharField None (Some true) VUndefined (Some (Num 150)));
      ("isActive", field BooleanField None None (VBool false) None);
      ("isStaff", field BooleanField None None (VBool false) None);
      ("isSuperuser", field BooleanField None None (VBool false) None);
      ("dateJoined",
        field DateTimeField None None
              (VFun "() => new Date().toISOString()" now_iso) None);
      ("lastLogin", field DateTimeField None (Some true) VUndefined None) ]
    eq_refl.

Definition Permission : ModelClass :=
  @ModelStatic.mkModelClass Ambient "Permission" "permissions"
    [ ("name", field CharField None None VUndefined (Some (Num 255)));
      ("codename", field CharField (Some true) None VUndefined (Some (Num 100)));
      ("modelName", field CharField None None VUndefined (Some (Num 100))) ]
    eq_refl.

Definition Group : ModelClass :=
  @ModelStatic.mkModelClass Ambient "Group" "groups"
    [ ("name", field CharField (Some true) None VUndefined (Some (Num 150)));
      ("description", field TextField None (Some true) VUndefined None) ]
    eq_refl.

Definition UserPermission : ModelClass :=
  @ModelStatic.mkModelClass Ambient "UserPermission" "user_permissions"
    [ ("userId", field IntegerField None None VUndefined None);
      ("permissionId", field IntegerField None None VUndefined None) ]
    eq_refl.

Definition GroupPermission : ModelClass :=
  @ModelStatic.mkModelClass Ambient "GroupPermission" "group_permissions"
    [ ("groupId", field IntegerField None None VUndefined None);
      ("permissionId", field IntegerField None None VUndefined None) ]
    eq_refl.

Definition UserGroup : ModelClass :=
  @ModelStatic.mkModelClass Ambient "UserGroup" "user_groups"
    [ ("userId", field IntegerField None None VUndefined None);
      ("groupId", field IntegerField None None VUndefined None) ]
    eq_refl.

End Defs.
End AuthModels.

(* ================================================================== *)
(** ** apps/auth/permissionService.ts *)
(* ================================================================== *)

Module PermissionService.
Section Defs.
Context {Ambient : Type}.
Local Abbreviation value := (JSValue Ambient).
Local Abbreviation Instance := (ModelStatic.Instance Ambient).
Variable now_iso : Ambient -> value * Ambient.
Variable drv : @Driver Ambient.

(** [v === codename] for a string [codename]. *)
Definition strict_equal_string (v : value) (codename : string) : bool :=
  match v with
  | VStr s => String.eqb s codename
  | _ => false
  end.

(** The loop over junction rows, shared by the direct and the group part:
    it returns [true] at the first row whose permission carries the
    codename. *)
Fixpoint scan_permissions (codename : string) (links : list Instance)
    : M drv bool :=
  match links with
  | [] => ret false
  | link :: rest =>
      permission <-
        Model.objects_get drv AuthModels.Permission
          [("id", ModelStatic.get link "permissionId")] ;;
      match permission with
      | Some p =>
          if strict_equal_string (ModelStatic.get p "codename") codename
          then ret true
          else scan_permissions codename rest
      | None => scan_permissions codename rest
      end
  end.

(** The loop over the groups of the user. *)
Fixpoint scan_groups (codename : string) (userGroups : list Instance)
    : M drv bool :=
  match userGroups with
  | [] => ret false
  | userGroup :: rest =>
      groupPerms <-
        QuerySet.all drv
          (Model.objects_filter AuthModels.GroupPermission
             [("groupId", ModelStatic.get userGroup "groupId")]) ;;
      found <- scan_permissions codename groupPerms ;;
      if found then ret true else scan_groups codename rest
  end.

(** [PermissionService.hasPermission]. *)
Definition hasPermission (userId : number) (codename : string) : M drv bool :=
  user <- Model.objects_get drv (AuthModels.User now_iso)
            [("id", VNum userId)] ;;
  match user with
  | None => ret false
  | Some user =>
      if truthy (ModelStatic.get user "isSuperuser") then ret true
      else
        userPerms <-
          QuerySet.all drv
            (Model.objects_filter AuthModels.UserPermission
               [("userId", VNum userId)]) ;;
        found <- scan_permissions codename userPerms ;;
        if found then ret true
        else
          userGroups <-
            QuerySet.all drv
              (Model.objects_filter AuthModels.UserGroup
                 [("userId", VNum userId)]) ;;
          scan_groups codename userGroups
  end.

(** [PermissionService.hasModelPermission]. *)
Definition hasModelPermission (userId : number) (action modelName : string)
    : M drv bool :=
  let codename := action ++ "_" ++ toLowerCase modelName in
  hasPermission userId codename.

End Defs.

Arguments hasPermission {Ambient} now_iso drv userId codename.
Arguments hasModelPermission {Ambient} now_iso drv userId action modelName.
Arguments scan_permissions {Ambient} drv codename links.
Arguments scan_groups {Ambient} drv codename userGroups.

End PermissionService.

(* ================================================================== *)
(** ** A relational reading of the statements the ORM emits *)
(* ================================================================== *)

(** The driver is not part of the repository.  [Sqlite.driver] is a small
    in-memory store that understands exactly the statement shapes [QuerySet]
    and [Model] build, with SQLite's meaning for them: rows of a table
    selected by a conjunction of equalities, counted, deleted, updated by
    id, or inserted under the next row id.  Constraint checking and column
    defaults are not modelled.  It gives the concrete scenarios something to
    run on and gives the SELECT statements of the permission service their
    relational meaning. *)

Module Sqlite.

Inductive SqlValue : Type :=
| SNull
| SInt (z : Z)
| SText (s : string).

Record Table : Type := mkTable {
  columns : list string;
  seq : Z;
  table_rows : list (obj SqlValue)
}.

Definition Store : Type := obj Table.

Inductive Stmt : Type :=
| SSelect (table : string) (conds : list string)
          (order : option (string * bool))
          (lim : option Z) (off : option Z)
| SCount (table : string) (conds : list string)
| SDelete (table : string) (conds : list string)
| SUpdate (table : string) (cols : list string)
| SInsert (table : string) (cols : list string).

(** *** Reading the statement text *)

Fixpoint tokens_from (s : string) (cur : string) : list string :=
  match s with
  | EmptyString => [cur]
  | String c s' =>
      if Ascii.eqb c " "%char then cur :: tokens_from s' ""
      else tokens_from s' (cur ++ String c "")
  end.

Definition tokens (s : string) : list string := tokens_from s "".

Fixpoint strip_prefix (pre ts : list string) : option (list string) :=
  match pre, ts with
  | [], _ => Some ts
  | p :: pre', t :: ts' =>
      if String.eqb p t then strip_prefix pre' ts' else None
  | _ :: _, [] => None
  end.

(** [k = ? AND k = ? ...]: the column names and what follows them. *)
Fixpoint read_conds (ts : list string) : list string * list string :=
  match ts with
  | k :: eq :: qm :: rest =>
      if String.eqb eq "=" && String.eqb qm "?" then
        match rest with
        | a :: rest' =>
            if String.eqb a "AND" then
              let (ks, r) := read_conds rest' in (k :: ks, r)
            else ([k], rest)
        | [] => ([k], [])
        end
      else ([], ts)
  | _ => ([], ts)
  end.

Definition read_where (ts : list string)
    : option (list string * list string) :=
  match strip_prefix ["WHERE"] ts with
  | Some r =>
      match read_conds r with
      | ([], _) => None
      | (ks, r') => Some (ks, r')
      end
  | None => Some ([], ts)
  end.

Definition read_order (ts : list string)
    : option (option (string * bool) * list string) :=
  match strip_prefix ["ORDER"; "BY"] ts with
  | Some (f :: d :: r) =>
      if String.eqb d "ASC" then Some (Some (f, false), r)
      else if String.eqb d "DESC" then Some (Some (f, true), r)
      else None
  | Some _ => None
  | None => Some (None, ts)
  end.

Definition read_count (kw : string) (ts : list string)
    : option (option Z * list string) :=
  match strip_prefix [kw] ts with
  | Some (n :: r) =>
      match NilZero.int_of_string n with
      | Some i => Some (Some (Z.of_int i), r)
      | None => None
      end
  | Some [] => None
  | None => Some (None, ts)
  end.

(** [k = ?, k = ?, ... k = ?] of an UPDATE. *)
Fixpoint read_assignments (ts : list string) : list string * list string :=
  match ts with
  | k :: eq :: qm :: rest =>
      if String.eqb eq "=" then
        if String.eqb qm "?," then
          let (ks, r) := read_assignments rest in (k :: ks, r)
        else if String.eqb qm "?" then ([k], rest)
        else ([], ts)
      else ([], ts)
  | _ => ([], ts)
  end.

Fixpoint but_last (s : string) : option (string * ascii) :=
  match s with
  | EmptyString => None
  | String c EmptyString => Some (EmptyString, c)
  | String c s' =>
      match but_last s' with
      | Some (init, l) => Some (String c init, l)
      | None => None
      end
  end.

(** [(a, b, c)] split at the blanks: the names between the parentheses. *)
Fixpoint read_list_items (ts : list string) : option (list string * list string) :=
  match ts with
  | [] => None
  | t :: rest =>
      match but_last t with
      | Some (item, l) =>
          if String.eqb item "" then None
          else if Ascii.eqb l ","%char then
            match read_list_items rest with
            | Some (items, r) => Some (item :: items, r)
            | None => None
            end
          else if Ascii.eqb l ")"%char then Some ([item], rest)
          else None
      | None => None
      end
  end.

Definition read_list (ts : list string) : option (list string * list string) :=
  match ts with
  | String c t :: rest =>
      if Ascii.eqb c "("%char then read_list_items (t :: rest) else None
  | _ => None
  end.

Definition parse (text : string) : option Stmt :=
  let ts := tokens text in
  match strip_prefix ["SELECT"; "*"; "FROM"] ts with
  | Some (t :: r) =>
      match read_where r with
      | Some (ks, r1) =>
          match read_order r1 with
          | Some (o, r2) =>
              match read_count "LIMIT" r2 with
              | Some (Some l, r3) =>
                  match read_count "OFFSET" r3 with
                  | Some (off, []) => Some (SSelect t ks o (Some l) off)
                  | _ => None
                  end
              | Some (None, []) => Some (SSelect t ks o None None)
              | _ => None
              end
          | None => None
          end
      | None => None
      end
  | Some [] => None
  | None =>
  match strip_prefix ["SELECT"; "COUNT(*)"; "as"; "count"; "FROM"] ts with
  | Some (t :: r) =>
      match read_where r with
      | Some (ks, []) => Some (SCount t ks)
      | _ => None
      end
  | Some [] => None
  | None =>
  match strip_prefix ["DELETE"; "FROM"] ts with
  | Some (t :: r) =>
      match read_where r with
      | Some (ks, []) => Some (SDelete t ks)
      | _ => None
      end
  | Some [] => None
  | None =>
  match strip_prefix ["UPDATE"] ts with
  | Some (t :: r) =>
      match strip_prefix ["SET"] r with
      | Some r1 =>
          match read_assignments r1 with
          | ([], _) => None
          | (ks, r2) =>
              match strip_prefix ["WHERE"; "id"; "="; "?"] r2 with
              | Some [] => Some (SUpdate t ks)
              | _ => None
              end
          end
      | None => None
      end
  | Some [] => None
  | None =>
  match strip_prefix ["INSERT"; "INTO"] ts with
  | Some (t :: r) =>
      match read_list r with
      | Some (ks, r1) =>
          match strip_prefix ["VALUES"] r1 with
          | Some r2 =>
              match read_list r2 with
              | Some (qs, []) =>
                  if forallb (String.eqb "?") qs
                     && Nat.eqb (List.length qs) (List.length ks)
                  then Some (SInsert t ks) else None
              | _ => None
              end
          | None => None
          end
      | None => None
      end
  | _ => None
  end end end end end.

(** *** Running a statement *)

Definition sql_eq (a b : SqlValue) : bool :=
  match a, b with
  | SInt x, SInt y => Z.eqb x y
  | SText x, SText y => String.eqb x y
  | _, _ => false
  end.

(** The order of ORDER BY: NULL, then integers, then text. *)
Definition sql_leb (a b : SqlValue) : bool :=
  match a, b with
  | SNull, _ => true
  | SInt _, SNull => false
  | SInt x, SInt y => Z.leb x y
  | SInt _, SText _ => true
  | SText x, SText y => String.leb x y
  | SText _, _ => false
  end.

Definition cell (r : obj SqlValue) (c : string) : SqlValue :=
  obj_get SNull r c.

Definition matches (conds : list string) (ps : list SqlValue)
    (r : obj SqlValue) : bool :=
  forallb (fun cp => sql_eq (cell r (fst cp)) (snd cp)) (combine conds ps).

Fixpoint insert_by (le : SqlValue -> SqlValue -> bool) (c : string)
    (r : obj SqlValue) (rs : list (obj SqlValue)) : list (obj SqlValue) :=
  match rs with
  | [] => [r]
  | r' :: rs' =>
      if le (cell r' c) (cell r c) then r' :: insert_by le c r rs'
      else r :: rs
  end.

Definition sort_by (order : option (string * bool))
    (rs : list (obj SqlValue)) : list (obj SqlValue) :=
  match order with
  | None => rs
  | Some (c, desc) =>
      let le := if desc then (fun a b => sql_leb b a) else sql_leb in
      fold_left (fun acc r => insert_by le c r acc) rs []
  end.

Definition drop_offset (off : option Z) (rs : list (obj SqlValue))
    : list (obj SqlValue) :=
  match off with
  | Some o => skipn (Z.to_nat o) rs
  | None => rs
  end.

Definition take_limit (lim : option Z) (rs : list (obj SqlValue))
    : list (obj SqlValue) :=
  match lim with
  | Some l => if Z.ltb l 0 then rs else firstn (Z.to_nat l) rs
  | None => rs
  end.

Definition known (tb : Table) (cs : list string) : bool :=
  forallb (fun c => existsb (String.eqb c) (columns tb)) cs.

(** The rows a SELECT over table [tb] yields, as stored. *)
Definition select (tb : Table) (conds : list string) (ps : list SqlValue)
    (order : option (string * bool)) (lim off : option Z)
    : list (obj SqlValue) :=
  take_limit lim
    (drop_offset off (sort_by order (List.filter (matches conds ps)
                                                 (table_rows tb)))).

Definition with_rows (tb : Table) (rs : list (obj SqlValue)) : Table :=
  {| columns := columns tb; seq := seq tb; table_rows := rs |}.

Definition update_row (cols : list string) (vals : list SqlValue)
    (r : obj SqlValue) : obj SqlValue :=
  obj_assign r (combine cols vals).

Section Exec.
Context {Ambient : Type}.
Local Abbreviation value := (JSValue Ambient).

Definition js_of_sql (v : SqlValue) : value :=
  match v with
  | SNull => VNull
  | SInt z => VNum (Num z)
  | SText s => VStr s
  end.

(** What the driver accepts as a bound parameter. *)
Definition bind_param (v : value) : option SqlValue :=
  match v with
  | VNull => Some SNull
  | VNum (Num z) => Some (SInt z)
  | VNum NaN => Some SNull
  | VStr s => Some (SText s)
  | _ => None
  end.

Fixpoint bind_params (vs : list value) : option (list SqlValue) :=
  match vs with
  | [] => Some []
  | v :: vs' =>
      match bind_param v, bind_params vs' with
      | Some x, Some xs => Some (x :: xs)
      | _, _ => None
      end
  end.

(** A stored row as the driver returns it: one property per column. *)
Definition result_row (tb : Table) (r : obj SqlValue) : obj value :=
  map (fun c => (c, js_of_sql (cell r c))) (columns tb).

Definition reads (rs : list (obj value)) : Reply :=
  @mkReply Ambient rs (Num 0) (Num 0).

Definition writes (n : Z) (rowid : Z) : Reply :=
  @mkReply Ambient [] (Num n) (Num rowid).

Definition fail (d : Store) (message : string)
    : Completion (@Reply Ambient) * Store :=
  (Throw (DriverError message), d).

Definition run (st : Stmt) (m : Mode) (ps : list SqlValue) (d : Store)
    : Completion (@Reply Ambient) * Store :=
  match st with
  | SSelect t conds order lim off =>
      match obj_lookup d t with
      | None => fail d "no such table"
      | Some tb =>
          if negb (known tb conds
                   && known tb (match order with
                                | Some (c, _) => [c] | None => [] end))
          then fail d "no such column"
          else if negb (Nat.eqb (List.length ps) (List.length conds))
          then fail d "wrong number of parameter values"
          else
            let rs := map (result_row tb) (select tb conds ps order lim off) in
            match m with
            | StmtAll => (Normal (reads rs), d)
            | StmtGet => (Normal (reads (firstn 1 rs)), d)
            | StmtRun => (Normal (writes 0 0), d)
            end
      end
  | SCount t conds =>
      match obj_lookup d t with
      | None => fail d "no such table"
      | Some tb =>
          if negb (known tb conds) then fail d "no such column"
          else if negb (Nat.eqb (List.length ps) (List.length conds))
          then fail d "wrong number of parameter values"
          else
            let n := List.length (List.filter (matches conds ps)
                                              (table_rows tb)) in
            match m with
            | StmtRun => (Normal (writes 0 0), d)
            | _ => (Normal (reads [[("count", VNum (Num (Z.of_nat n)))]]), d)
            end
      end
  | SDelete t conds =>
      match obj_lookup d t with
      | None => fail d "no such table"
      | Some tb =>
          if negb (known tb conds) then fail d "no such column"
          else if negb (Nat.eqb (List.length ps) (List.length conds))
          then fail d "wrong number of parameter values"
          else
            match m with
            | StmtRun =>
                let gone := List.filter (matches conds ps) (table_rows tb) in
                let kept :=
                  List.filter (fun r => negb (matches conds ps r))
                              (table_rows tb) in
                (Normal (writes (Z.of_nat (List.length gone)) (seq tb)),
                 obj_set d t (with_rows tb kept))
            | _ => fail d "This statement does not return data"
            end
      end
  | SUpdate t cols =>
      match obj_lookup d t with
      | None => fail d "no such table"
      | Some tb =>
          if negb (known tb cols && known tb ["id"])
          then fail d "no such column"
          else if negb (Nat.eqb (List.length ps) (S (List.length cols)))
          then fail d "wrong number of parameter values"
          else
            match m with
            | StmtRun =>
                let vals := firstn (List.length cols) ps in
                let key := skipn (List.length cols) ps in
                let hit := matches ["id"] key in
                let n := List.length (List.filter hit (table_rows tb)) in
                (Normal (writes (Z.of_nat n) (seq tb)),
                 obj_set d t
                   (with_rows tb
                      (map (fun r => if hit r then update_row cols vals r
                                     else r)
                           (table_rows tb))))
            | _ => fail d "This statement does not return data"
            end
      end
  | SInsert t cols =>
      match obj_lookup d t with
      | None => fail d "no such table"
      | Some tb =>
          if negb (known tb cols) then fail d "no such column"
          else if negb (Nat.eqb (List.length ps) (List.length cols))
          then fail d "wrong number of parameter values"
          else
            match m with
            | StmtRun =>
                let rowid := (seq tb + 1)%Z in
                let r := obj_assign [("id", SInt rowid)] (combine cols ps) in
                (Normal (writes 1 rowid),
                 obj_set d t
                   {| columns := columns tb; seq := rowid;
                      table_rows := (table_rows tb ++ [r])%list |})
            | _ => fail d "This statement does not return data"
            end
      end
  end.

Definition execute (c : @Call Ambient) (d : Store)
    : Completion (@Reply Ambient) * Store :=
  match parse (sql c) with
  | None => fail d "syntax error"
  | Some st =>
      match bind_params (params c) with
      | None =>
          fail d "SQLite3 can only bind numbers, strings, bigints, buffers, and null"
      | Some ps => run st (mode c) ps d
      end
  end.

Definition driver : @Driver Ambient :=
  {| Db := Store; exec := execute |}.

End Exec.

Arguments driver : clear implicits.

End Sqlite.

(* ================================================================== *)
(** ** Method calls on a query set, and the statement shapes of 4.3 *)
(* ================================================================== *)

Module Chain.

(** The statement shape of section 4.3, written from the specification:
    [SELECT * FROM <table> [WHERE c1 = ? AND c2 = ? ...] [ORDER BY f dir]
     [LIMIT n] [OFFSET m]]. *)
Definition where_text (cs : list string) : string :=
  match cs with
  | [] => ""
  | _ => " WHERE " ++ String.concat " AND " (map (fun c => c ++ " = ?") cs)
  end.

Definition order_text (o : option (string * QuerySet.Direction)) : string :=
  match o with
  | Some (f, d) => " ORDER BY " ++ f ++ " " ++ QuerySet.direction_text d
  | None => ""
  end.

Definition bound_text (keyword : string) (n : option number) : string :=
  match n with
  | Some k => " " ++ keyword ++ " " ++ number_toString k
  | None => ""
  end.

Definition select_text (table : string) (cs : list string)
    (o : option (string * QuerySet.Direction)) (n m : option number)
    : string :=
  "SELECT * FROM " ++ table ++ where_text cs ++ order_text o
    ++ bound_text "LIMIT" n ++ bound_text "OFFSET" m.

(** The bound that takes effect: a stored count that is absent, zero or NaN
    emits no clause. *)
Definition effective (n : option number) : option number :=
  match n with
  | Some k => if number_truthy k then Some k else None
  | None => None
  end.

Definition effective_order (o : QuerySet.QueryOptions)
    : option (string * QuerySet.Direction) :=
  match QuerySet.orderBy_of o with
  | Some f =>
      if String.eqb f "" then None
      else Some (f, match QuerySet.orderDirection_of o with
                    | Some d => d
                    | None => QuerySet.ASC
                    end)
  | None => None
  end.

Section Defs.
Context {Ambient : Type}.
Local Abbreviation value := (JSValue Ambient).
Local Abbreviation Instance := (ModelStatic.Instance Ambient).
Local Abbreviation QuerySet := (QuerySet.QuerySet Ambient).
Variable drv : @Driver Ambient.

(** The non-terminal methods. *)
Inductive Builder : Type :=
| Filter (fs : obj value)
| OrderBy (field : string) (direction : QuerySet.Direction)
| Limit (count : number)
| Offset (count : number).

(** The terminal methods. *)
Inductive Terminal : Type := All | First | Count | Delete.

Inductive Method : Type :=
| Build (b : Builder)
| Run (t : Terminal).

(** What a method call returns. *)
Inductive Returned : Type :=
| This
| Instances (l : list Instance)
| InstanceOrNull (o : option Instance)
| CountValue (v : value)
| Changes (n : number).

Definition apply_builder (q : QuerySet) (b : Builder) : QuerySet :=
  match b with
  | Filter fs => QuerySet.filter q fs
  | OrderBy f d => QuerySet.orderBy q f d
  | Limit n => QuerySet.limit q n
  | Offset n => QuerySet.offset q n
  end.

(** A query set as a chain of builder calls leaves it. *)
Definition build (q : QuerySet) (bs : list Builder) : QuerySet :=
  fold_left apply_builder bs q.

(** One method call on the query set [q]: what it returns and the query set
    as the call leaves it. *)
Definition call (q : QuerySet) (m : Method) : M drv (Returned * QuerySet) :=
  match m with
  | Build b => ret (This, apply_builder q b)
  | Run All => l <- QuerySet.all drv q ;; ret (Instances l, q)
  | Run First =>
      r <- QuerySet.first drv q ;; ret (InstanceOrNull (fst r), snd r)
  | Run Count => v <- QuerySet.count drv q ;; ret (CountValue v, q)
  | Run Delete => n <- QuerySet.delete drv q ;; ret (Changes n, q)
  end.

(** [q] with its stored limit (offset) removed. *)
Definition without_limit (q : QuerySet) : QuerySet :=
  {| QuerySet.model := QuerySet.model q;
     QuerySet.filters := QuerySet.filters q;
     QuerySet.options :=
       {| QuerySet.limit_of := None;
          QuerySet.offset_of := QuerySet.offset_of (QuerySet.options q);
          QuerySet.orderBy_of := QuerySet.orderBy_of (QuerySet.options q);
          QuerySet.orderDirection_of :=
            QuerySet.orderDirection_of (QuerySet.options q) |} |}.

Definition without_offset (q : QuerySet) : QuerySet :=
  {| QuerySet.model := QuerySet.model q;
     QuerySet.filters := QuerySet.filters q;
     QuerySet.options :=
       {| QuerySet.limit_of := QuerySet.limit_of (QuerySet.options q);
          QuerySet.offset_of := None;
          QuerySet.orderBy_of := QuerySet.orderBy_of (QuerySet.options q);
          QuerySet.orderDirection_of :=
            QuerySet.orderDirection_of (QuerySet.options q) |} |}.

End Defs.

Arguments Builder : clear implicits.
Arguments Method : clear implicits.
Arguments Returned : clear implicits.
Arguments call {Ambient} drv q m.

End Chain.

(* ================================================================== *)
(** ** The resolution order of section 4.4, written from the specification *)
(* ================================================================== *)

Module Resolution.
Section Defs.
Context {Ambient : Type}.
Local Abbreviation value := (JSValue Ambient).
Local Abbreviation Field := (JS.Field Ambient).

(** A default exists when the option is not [undefined]. *)
Definition has_default (d : value) : bool := negb (is_undefined d).

Definition nullish (v : value) : bool := is_undefined v || is_null v.

(** Applying a default: a callable default is invoked on the ambient state
    of the moment, a literal is taken as it is. *)
Definition apply_default (d : value) (a : Ambient) : value * Ambient :=
  match d with
  | VFun _ produce => produce a
  | _ => (d, a)
  end.

(** Rule 1: a value that is still the field descriptor falls back to the
    default when one exists, else the column is skipped ([None]). *)
Definition rule1 (d v : value) (a : Ambient) : option (value * Ambient) :=
  if Model.still_descriptor v then
    if has_default d then Some (apply_default d a) else None
  else Some (v, a).

(** Rule 2: a null or undefined value takes the default when one exists. *)
Definition rule2 (d v : value) (a : Ambient) : value * Ambient :=
  if nullish v && has_default d then apply_default d a else (v, a).

(** Rule 3: a boolean is stored as 1 or 0. *)
Definition rule3 (v : value) : value :=
  match v with
  | VBool true => VNum (Num 1)
  | VBool false => VNum (Num 0)
  | _ => v
  end.

(** The three rules in the order the specification gives them. *)
Definition in_order (d v : value) (a : Ambient) : option value * Ambient :=
  match rule1 d v a with
  | None => (None, a)
  | Some (v1, a1) =>
      let (v2, a2) := rule2 d v1 a1 in (Some (rule3 v2), a2)
  end.

(** The fields [getFields] lists after the implicit [id]. *)
Definition declared_fields (cls : ModelStatic.ModelClass Ambient)
    : obj Field :=
  List.tl (ModelStatic.getFields cls).

(** The columns and values [save] collects, field by field. *)
Fixpoint stored (this : ModelStatic.Instance Ambient) (fields : obj Field)
    (data : obj value) (a : Ambient) : obj value * Ambient :=
  match fields with
  | [] => (data, a)
  | (fieldName, field) :: rest =>
      match in_order (default (options field))
                     (ModelStatic.get this fieldName) a with
      | (Some v, a') => stored this rest (obj_set data fieldName v) a'
      | (None, a') => stored this rest data a'
      end
  end.

(** The statement [save] prepares, given the collected [data]. *)
Definition save_call (this : ModelStatic.Instance Ambient) (data : obj value) : @Call Ambient :=
  let tableName := ModelStatic.getTableName (ModelStatic.class_of this) in
  if truthy (ModelStatic.get this "id") then
    mkCall StmtRun (Model.update_sql tableName data)
           (obj_values data ++ [ModelStatic.get this "id"])%list
  else
    mkCall StmtRun (Model.insert_sql tableName data) (obj_values data).

End Defs.
End Resolution.

(* ================================================================== *)
(** ** Grants, read off the stored tables *)
(* ================================================================== *)

Module Grants.

Import Sqlite.

Definition stored_rows (d : Store) (t : string) : list (obj SqlValue) :=
  match obj_lookup d t with
  | Some tb => table_rows tb
  | None => []
  end.

(** No two rows carry the same [id] (the column is the PRIMARY KEY). *)
Fixpoint unique_ids (rs : list (obj SqlValue)) : bool :=
  match rs with
  | [] => true
  | r :: rest =>
      negb (existsb (fun r' => sql_eq (cell r' "id") (cell r "id")) rest)
      && unique_ids rest
  end.

(** The permission with codename [c] is linked to user [uid] by a row of
    [user_permissions]. *)
Definition granted_directly (d : Store) (uid : Z) (c : string) : Prop :=
  exists link p,
    In link (stored_rows d "user_permissions")
    /\ cell link "userId" = SInt uid
    /\ In p (stored_rows d "permissions")
    /\ sql_eq (cell p "id") (cell link "permissionId") = true
    /\ cell p "codename" = SText c.

(** The permission with codename [c] is linked to a group that user [uid]
    belongs to. *)
Definition granted_by_group (d : Store) (uid : Z) (c : string) : Prop :=
  exists membership link p,
    In membership (stored_rows d "user_groups")
    /\ cell membership "userId" = SInt uid
    /\ In link (stored_rows d "group_permissions")
    /\ sql_eq (cell link "groupId") (cell membership "groupId") = true
    /\ In p (stored_rows d "permissions")
    /\ sql_eq (cell p "id") (cell link "permissionId") = true
    /\ cell p "codename" = SText c.

Definition granted (d : Store) (uid : Z) (c : string) : Prop :=
  granted_directly d uid c \/ granted_by_group d uid c.

(** The same grants, computed: the permission a link resolves to is the
    first stored permission with the link's [permissionId]. *)
Definition permission_of (d : Store) (pid : SqlValue)
    : option (obj SqlValue) :=
  hd_error (List.filter (fun p => sql_eq (cell p "id") pid)
                        (stored_rows d "permissions")).

Definition carries (d : Store) (c : string) (link : obj SqlValue) : bool :=
  match permission_of d (cell link "permissionId") with
  | Some p =>
      match cell p "codename" with
      | SText x => String.eqb x c
      | _ => false
      end
  | None => false
  end.

Definition links_of_user (d : Store) (uid : Z) : list (obj SqlValue) :=
  List.filter (fun l => sql_eq (cell l "userId") (SInt uid))
              (stored_rows d "user_permissions").

Definition memberships_of_user (d : Store) (uid : Z)
    : list (obj SqlValue) :=
  List.filter (fun m => sql_eq (cell m "userId") (SInt uid))
              (stored_rows d "user_groups").

Definition links_of_group (d : Store) (gid : SqlValue)
    : list (obj SqlValue) :=
  List.filter (fun l => sql_eq (cell l "groupId") gid)
              (stored_rows d "group_permissions").

Definition holds_directly (d : Store) (uid : Z) (c : string) : bool :=
  existsb (carries d c) (links_of_user d uid).

Definition holds_by_group (d : Store) (uid : Z) (c : string) : bool :=
  existsb
    (fun m => existsb (carries d c) (links_of_group d (cell m "groupId")))
    (memberships_of_user d uid).

(** A stored flag that reads as false: it is what [save] writes for
    [false], or what an absent value reads as. *)
Definition falsy (v : SqlValue) : bool :=
  match v with
  | SNull => true
  | SInt z => Z.eqb z 0
  | SText s => String.eqb s ""
  end.

(** User [uid] exists and is not a superuser. *)
Definition plain_user (d : Store) (uid : Z) : Prop :=
  exists u,
    In u (stored_rows d "users")
    /\ cell u "id" = SInt uid
    /\ falsy (cell u "isSuperuser") = true.

Section Defs.
Context {Ambient : Type}.
Variable now_iso : Ambient -> JSValue Ambient * Ambient.

(** The table of a class has one column per field of the class, as
    [createTable] lays it out. *)
Definition laid_out (d : Store) (cls : ModelStatic.ModelClass Ambient)
    : Prop :=
  exists tb,
    obj_lookup d (ModelStatic.getTableName cls) = Some tb
    /\ columns tb = obj_keys (ModelStatic.getFields cls).

(** The instances [all] builds from stored rows of the table [tb]. *)
Definition answer (cls : ModelStatic.ModelClass Ambient) (tb : Table)
    (rs : list (obj SqlValue)) : list (ModelStatic.Instance Ambient) :=
  map (fun r => QuerySet.hydrate cls (result_row tb r)) rs.

Definition auth_schema (d : Store) : Prop :=
  laid_out d (AuthModels.User now_iso)
  /\ laid_out d AuthModels.Permission
  /\ laid_out d AuthModels.UserPermission
  /\ laid_out d AuthModels.UserGroup
  /\ laid_out d AuthModels.GroupPermission
  /\ unique_ids (stored_rows d "users") = true
  /\ unique_ids (stored_rows d "permissions") = true.

End Defs.
End Grants.

(* ================================================================== *)
(** ** Concrete scenarios *)
(* ================================================================== *)

Module Scenario.

Import Sqlite.

(** The ambient state of the scenarios is a clock that every reading
    advances. *)
Definition Clock : Type := nat.

Definition now : Clock -> JSValue Clock * Clock :=
  fun t => (VNum (Num (Z.of_nat t)), S t).

Definition sqlite : @Driver Clock := Sqlite.driver Clock.

(** [class Post extends Model] of section 8, with a timestamp. *)
Definition Post : ModelStatic.ModelClass Clock :=
  @ModelStatic.mkModelClass Clock "Post"
    (ModelStatic.default_getTableName "Post")
    [ ("title",
        AuthModels.field CharField None None VUndefined (Some (Num 200)));
      ("isPublished",
        AuthModels.field BooleanField None None (VBool false) None);
      ("createdAt",
        AuthModels.field DateTimeField None None (VFun "now" now) None);
      ("subtitle",
        AuthModels.field CharField None (Some true) VUndefined None) ]
    eq_refl.

Definition blog : Store :=
  [ ("posts",
      {| columns := ["id"; "title"; "isPublished"; "createdAt"; "subtitle"];
         seq := 0; table_rows := [] |}) ].

Definition start : Session sqlite :=
  @mkSession Clock sqlite 100%nat blog [].

(** [new Post()] with a title and [isPublished = true]. *)
Definition draft : ModelStatic.Instance Clock :=
  ModelStatic.assign (ModelStatic.construct Post)
    [("title", VStr "Hello"); ("isPublished", VBool true)].

(** save; delete; save; delete on one instance. *)
Definition save_delete_save_delete
    : Completion (ModelStatic.Instance Clock) * Session sqlite :=
  (p <- Model.save sqlite draft ;;
   _ <- Model.delete sqlite p ;;
   p' <- Model.save sqlite p ;;
   _ <- Model.delete sqlite p' ;;
   ret p') start.

(** save, then read the row back through [objects.get]. *)
Definition save_then_get
    : Completion (option (ModelStatic.Instance Clock)) * Session sqlite :=
  (p <- Model.save sqlite draft ;;
   Model.objects_get sqlite Post [("id", ModelStatic.get p "id")]) start.

Definition limited : QuerySet.QuerySet Clock :=
  QuerySet.limit (QuerySet.new Post) (Num 5).

Definition skipping : QuerySet.QuerySet Clock :=
  QuerySet.offset (QuerySet.limit (QuerySet.new Post) (Num 5)) (Num 2).

Definition published : QuerySet.QuerySet Clock :=
  QuerySet.orderBy
    (QuerySet.filter (QuerySet.new Post) [("isPublished", VNum (Num 1))])
    "title" QuerySet.DESC.

(** An auth database: user 1 holds [add_post] directly, user 2 holds
    [change_post] through group 7, user 3 holds nothing. *)
Definition user_row (id : Z) (name : string) (super : Z) : obj SqlValue :=
  [ ("id", SInt id); ("username", SText name); ("email", SText name);
    ("password", SText "x"); ("firstName", SNull); ("lastName", SNull);
    ("isActive", SInt 1); ("isStaff", SInt 0); ("isSuperuser", SInt super);
    ("dateJoined", SText "2024-01-01T00:00:00.000Z"); ("lastLogin", SNull) ].

Definition auth_db : Store :=
  [ ("users",
      {| columns := ["id"; "username"; "email"; "password"; "firstName";
                     "lastName"; "isActive"; "isStaff"; "isSuperuser";
                     "dateJoined"; "lastLogin"];
         seq := 3;
         table_rows := [user_row 1 "ann" 0; user_row 2 "bob" 0;
                        user_row 3 "cy" 0] |});
    ("permissions",
      {| columns := ["id"; "name"; "codename"; "modelName"];
         seq := 2;
         table_rows :=
           [ [("id", SInt 1); ("name", SText "Can add Post");
              ("codename", SText "add_post"); ("modelName", SText "Post")];
             [("id", SInt 2); ("name", SText "Can change Post");
              ("codename", SText "change_post");
              ("modelName", SText "Post")] ] |});
    ("user_permissions",
      {| columns := ["id"; "userId"; "permissionId"];
         seq := 1;
         table_rows :=
           [ [("id", SInt 1); ("userId", SInt 1); ("permissionId", SInt 1)] ]
      |});
    ("user_groups",
      {| columns := ["id"; "userId"; "groupId"];
         seq := 1;
         table_rows :=
           [ [("id", SInt 1); ("userId", SInt 2); ("groupId", SInt 7)] ] |});
    ("group_permissions",
      {| columns := ["id"; "groupId"; "permissionId"];
         seq := 1;
         table_rows :=
           [ [("id", SInt 1); ("groupId", SInt 7); ("permissionId", SInt 2)] ]
      |}) ].

Definition auth_start : Session sqlite :=
  @mkSession Clock sqlite 0%nat auth_db [].

(** The instance [draft] once saved, and the sessions after the save and
    after the delete that follows it. *)
Definition persisted : ModelStatic.Instance Clock :=
  ModelStatic.set draft "id" (VNum (Num 1)).

Definition after_save : Session sqlite := snd (Model.save sqlite draft start).

Definition after_delete : Session sqlite :=
  snd (Model.delete sqlite persisted after_save).

(** Six stored posts. *)
Definition post_row (id : Z) : obj SqlValue :=
  [ ("id", SInt id); ("title", SText "t"); ("isPublished", SInt 1);
    ("createdAt", SInt 0); ("subtitle", SNull) ].

Definition crowded : Session sqlite :=
  @mkSession Clock sqlite 0%nat
    [ ("posts",
        {| columns := ["id"; "title"; "isPublished"; "createdAt"; "subtitle"];
           seq := 6;
           table_rows := map post_row [1; 2; 3; 4; 5; 6]%Z |}) ]
    [].

(** How many instances [all] returns on the six posts. *)
Definition returned (q : QuerySet.QuerySet Clock) : option nat :=
  match fst (QuerySet.all sqlite q crowded) with
  | Normal l => Some (List.length l)
  | Throw _ => None
  end.

(** [new BooleanField({ default: false })] and a timestamp field. *)
Definition flag_field : JS.Field Clock :=
  {| fieldName := "isPublished"; fieldClass := BooleanField;
     options :=
       {| primaryKey := None; unique := None; nullable := Some false;
          default := VBool false; autoIncrement := None;
          maxLength := None; minLength := None;
          onDelete := None; onUpdate := None |};
     relatedModel := "" |}.

Definition stamp_field : JS.Field Clock :=
  {| fieldName := "createdAt"; fieldClass := DateTimeField;
     options :=
       {| primaryKey := None; unique := Some true; nullable := Some false;
          default := VFun "now" now; autoIncrement := None;
          maxLength := None; minLength := None;
          onDelete := None; onUpdate := None |};
     relatedModel := "" |}.

(** Three registrations, the first class registered twice. *)
Definition registrations
    : list (ModelStatic.ModelClass Clock * ModelRegistry.AdminOptions) :=
  [ (Post, ModelRegistry.no_options);
    (AuthModels.User now, ModelRegistry.no_options);
    (Post,
      {| ModelRegistry.opt_appName := Some "Blog";
         ModelRegistry.opt_displayName := Some "Posts";
         ModelRegistry.opt_icon := None;
         ModelRegistry.opt_permissions := None;
         ModelRegistry.opt_listDisplay := None;
         ModelRegistry.opt_searchFields := None;
         ModelRegistry.opt_filterFields := None;
         ModelRegistry.opt_orderBy := None;
         ModelRegistry.opt_readonly := None;
         ModelRegistry.opt_excludeFields := None |}) ].

End Scenario.

(* ================================================================== *)
(** ** More of JavaScript: deleting a property, string methods, sets *)
(* ================================================================== *)

Module JSMore.

(** [delete o[k]]. *)
Definition obj_remove (V : Type) (o : obj V) (k : string) : obj V :=
  List.filter (fun kv => negb (String.eqb (fst kv) k)) o.

(** The ASCII white space [trim] strips: blank, tab, line feed, vertical
    tab, form feed, carriage return. *)
Definition is_whitespace (c : ascii) : bool :=
  let n := nat_of_ascii c in
  Nat.eqb n 32 || (Nat.leb 9 n && Nat.leb n 13).

Fixpoint trimStart (s : string) : string :=
  match s with
  | EmptyString => EmptyString
  | String c s' => if is_whitespace c then trimStart s' else s
  end.

Fixpoint trimEnd (s : string) : string :=
  match s with
  | EmptyString => EmptyString
  | String c s' =>
      match trimEnd s' with
      | EmptyString => if is_whitespace c then EmptyString
                       else String c EmptyString
      | rest => String c rest
      end
  end.

(** [s.trim()]. *)
Definition trim (s : string) : string := trimEnd (trimStart s).

(** [s.includes(sub)]. *)
Fixpoint includes (s sub : string) : bool :=
  if String.prefix sub s then true
  else match s with
       | EmptyString => false
       | String _ s' => includes s' sub
       end.

(** [s.split(sep)] for a separator that is not empty: [skip] counts the
    characters of a separator just matched that are still to be passed
    over, [cur] is the part being read. *)
Fixpoint split_from (sep : string) (skip : nat) (s cur : string)
    : list string :=
  match s with
  | EmptyString => [cur]
  | String c s' =>
      match skip with
      | S n => split_from sep n s' cur
      | O =>
          if String.prefix sep s
          then cur :: split_from sep (String.length sep - 1) s' ""
          else split_from sep 0 s' (cur ++ String c "")
      end
  end.

Definition split (s sep : string) : list string := split_from sep 0 s "".

(** [parts[i]] inside a template or a concatenation: a missing part reads
    as [undefined]. *)
Definition part (parts : list string) (i : nat) : string :=
  match nth_error parts i with
  | Some p => p
  | None => "undefined"
  end.

Section Sets.
Context {Ambient : Type}.
Local Abbreviation value := (JSValue Ambient).

(** The equality of [Set] (SameValueZero) on the values a column read
    yields: primitives by value, [NaN] equal to itself.  Objects and
    functions are equal only to themselves by reference; the sets built
    here receive them from distinct instances, whose descriptors are
    distinct objects. *)
Definition same_value_zero (a b : value) : bool :=
  match a, b with
  | VUndefined, VUndefined => true
  | VNull, VNull => true
  | VBool x, VBool y => Bool.eqb x y
  | VNum (Num x), VNum (Num y) => Z.eqb x y
  | VNum NaN, VNum NaN => true
  | VStr x, VStr y => String.eqb x y
  | _, _ => false
  end.

(** [set.add(v)] on a [Set] kept in insertion order. *)
Definition set_add (set : list value) (v : value) : list value :=
  if existsb (same_value_zero v) set then set else (set ++ [v])%list.

End Sets.

End JSMore.

(* ================================================================== *)
(** ** fields.ts: types and definitions of the columns *)
(* ================================================================== *)

Module FieldsMore.
Section Defs.
Context {Ambient : Type}.
Local Abbreviation value := (JSValue Ambient).
Local Abbreviation Field := (JS.Field Ambient).

(** [this.options.maxLength || 255] inside the template of [CharField]. *)
Definition maxLength_text (o : option number) : string :=
  match o with
  | Some n => if number_truthy n then number_toString n else "255"
  | None => "255"
  end.

(** [getSQLType()], by the class of the field; [EmailField] inherits it
    from [CharField], [AutoField] from [IntegerField]. *)
Definition getSQLType (f : Field) : string :=
  match fieldClass f with
  | CharField | EmailField =>
      "VARCHAR(" ++ maxLength_text (maxLength (options f)) ++ ")"
  | TextField => "TEXT"
  | IntegerField | AutoField | ForeignKey => "INTEGER"
  | FloatField => "REAL"
  | BooleanField => "BOOLEAN"
  | DateTimeField => "DATETIME"
  | DateField => "DATE"
  | ManyToManyField => ""
  end.

(** [Field.getFullDefinition]. *)
Definition base_definition (f : Field) : string :=
  let sqlType := getSQLType f in
  let constraints := Fields.getConstraints f in
  JSMore.trim (fieldName f ++ " " ++ sqlType ++ " " ++ constraints).

(** [this.options.onDelete || 'CASCADE']. *)
Definition action_or_cascade (a : option ReferentialAction) : string :=
  match a with
  | Some x => ModelRegistry.action_text x
  | None => "CASCADE"
  end.

(** [getFullDefinition()] as each class has it: [ForeignKey] appends its
    clause, [ManyToManyField] returns the empty string. *)
Definition getFullDefinition (f : Field) : string :=
  match fieldClass f with
  | ForeignKey =>
      let baseDefinition := base_definition f in
      let onDelete := action_or_cascade (onDelete (options f)) in
      let onUpdate := action_or_cascade (onUpdate (options f)) in
      baseDefinition ++ ", FOREIGN KEY (" ++ fieldName f ++ ") REFERENCES "
        ++ toLowerCase (relatedModel f) ++ "s(" ++ "id" ++ ") ON DELETE "
        ++ onDelete ++ " ON UPDATE " ++ onUpdate
  | ManyToManyField => ""
  | _ => base_definition f
  end.

End Defs.
End FieldsMore.

(* ================================================================== *)
(** ** model.ts: [createTable], [dropTable] and [toJSON] *)
(* ================================================================== *)

Module ModelMore.
Section Defs.
Context {Ambient : Type}.
Local Abbreviation value := (JSValue Ambient).
Local Abbreviation Field := (JS.Field Ambient).
Local Abbreviation ModelClass := (ModelStatic.ModelClass Ambient).
Local Abbreviation Instance := (ModelStatic.Instance Ambient).
Variable drv : @Driver Ambient.

(** One turn of the loop of [createTable] over [Object.entries(fields)]:
    the column definitions and the foreign-key clauses collected so far. *)
Definition createTable_step (acc : list string * list string)
    (entry : string * Field) : list string * list string :=
  let '(fieldDefinitions, foreignKeys) := acc in
  let definition := FieldsMore.getFullDefinition (snd entry) in
  if JSMore.includes definition "FOREIGN KEY" then
    let parts := JSMore.split definition ", FOREIGN KEY" in
    (Fields.push fieldDefinitions (JSMore.part parts 0),
     Fields.push foreignKeys ("FOREIGN KEY" ++ JSMore.part parts 1))
  else (Fields.push fieldDefinitions definition, foreignKeys).

Definition createTable_parts (cls : ModelClass) : list string * list string :=
  fold_left createTable_step (ModelStatic.getFields cls) ([], []).

Definition createTable_sql (cls : ModelClass) : string :=
  let tableName := ModelStatic.getTableName cls in
  let '(fieldDefinitions, foreignKeys) := createTable_parts cls in
  let allDefinitions :=
    String.concat ", " (fieldDefinitions ++ foreignKeys)%list in
  "CREATE TABLE IF NOT EXISTS " ++ tableName ++ " (" ++ allDefinitions ++ ")".

(** [db.exec(sql)]: the statement run as it is, without parameters. *)
Definition db_exec (text : string) : M drv unit :=
  _ <- statement drv StmtRun text [] ;; ret tt.

(** [Model.createTable]. *)
Definition createTable (cls : ModelClass) : M drv unit :=
  db_exec (createTable_sql cls).

(** [Model.dropTable]. *)
Definition dropTable (cls : ModelClass) : M drv unit :=
  db_exec ("DROP TABLE IF EXISTS " ++ ModelStatic.getTableName cls).

(** The test of [toJSON]: the value is not a function, and is null,
    undefined, not an object, or an object without [fieldName]. *)
Definition serialised (v : value) : bool :=
  negb (match typeof v with TFunction => true | _ => false end)
  && (is_null v || is_undefined v
      || negb (match typeof v with TObject => true | _ => false end)
      || negb (has_fieldName v)).

(** [Model.toJSON]. *)
Definition toJSON (this : Instance) : obj value :=
  fold_left
    (fun result key =>
       let v := ModelStatic.get this key in
       if serialised v then obj_set result key v else result)
    (obj_keys (ModelStatic.props this)) [].

End Defs.

Arguments createTable {Ambient} drv cls.
Arguments dropTable {Ambient} drv cls.
Arguments db_exec {Ambient} drv text.

End ModelMore.

(* ================================================================== *)
(** ** ModelRegistry.ts and adminRegistry.ts: the remaining operations *)
(* ================================================================== *)

Module RegistryMore.
Section Defs.
Context {Ambient : Type}.
Local Abbreviation ModelClass := (ModelStatic.ModelClass Ambient).
Local Abbreviation Registry := (ModelRegistry.Registry Ambient).

(** [ModelRegistryClass.unregisterModel]: [this.models.delete(modelName)]. *)
Definition unregisterModel (models : Registry) (modelName : string)
    : Registry :=
  JSMore.obj_remove models modelName.

(** [ModelRegistryClass.clear]. *)
Definition clear (models : Registry) : Registry := [].

(** [registerAdmin(options)(constructor)] of adminRegistry.ts: it registers
    the class and returns it. *)
Definition registerAdmin (options : ModelRegistry.AdminOptions)
    (models : Registry) (constructor : ModelClass) : Registry * ModelClass :=
  (ModelRegistry.registerModel models constructor options, constructor).

End Defs.
End RegistryMore.

(* ================================================================== *)
(** ** apps/admin/routes.ts: the data the two GET handlers send of an
       instance *)
(* ================================================================== *)

Module AdminData.
Section Defs.
Context {Ambient : Type}.
Local Abbreviation value := (JSValue Ambient).
Local Abbreviation Instance := (ModelStatic.Instance Ambient).

(** [metadata.adminOptions.excludeFields || []]. *)
Definition excluded_of (options : ModelRegistry.AdminOptions)
    : list string :=
  match ModelRegistry.opt_excludeFields options with
  | Some l => l
  | None => []
  end.

(** The body of [instances.map(instance => ...)] in the list handler, and
    of the single-instance handler: [toJSON()] (every model instance has
    the method), then [delete data[key]] for each excluded key. *)
Definition safe_data (options : ModelRegistry.AdminOptions)
    (instance : Instance) : obj value :=
  let data := ModelMore.toJSON instance in
  let excluded := excluded_of options in
  fold_left (fun data key => JSMore.obj_remove data key) excluded data.

End Defs.
End AdminData.

(* ================================================================== *)
(** ** permissionService.ts: the remaining operations *)
(* ================================================================== *)

Module PermissionMore.
Section Defs.
Context {Ambient : Type}.
Local Abbreviation value := (JSValue Ambient).
Local Abbreviation Instance := (ModelStatic.Instance Ambient).
Variable now_iso : Ambient -> value * Ambient.
Variable drv : @Driver Ambient.

(** [for (const x of rows) permissionIds.add(x.permissionId)]. *)
Definition add_permission_ids (permissionIds : list value)
    (links : list Instance) : list value :=
  fold_left
    (fun ids link => JSMore.set_add ids (ModelStatic.get link "permissionId"))
    links permissionIds.

(** The loop over the groups of the user in [getUserPermissions]. *)
Fixpoint add_group_permission_ids (permissionIds : list value)
    (userGroups : list Instance) : M drv (list value) :=
  match userGroups with
  | [] => ret permissionIds
  | userGroup :: rest =>
      groupPerms <-
        QuerySet.all drv
          (Model.objects_filter AuthModels.GroupPermission
             [("groupId", ModelStatic.get userGroup "groupId")]) ;;
      add_group_permission_ids
        (add_permission_ids permissionIds groupPerms) rest
  end.

(** The loop [for (const permId of permissionIds)]. *)
Fixpoint fetch_permissions (permissionIds : list value)
    (permissions : list Instance) : M drv (list Instance) :=
  match permissionIds with
  | [] => ret permissions
  | permId :: rest =>
      perm <- Model.objects_get drv AuthModels.Permission [("id", permId)] ;;
      match perm with
      | Some p => fetch_permissions rest (permissions ++ [p])%list
      | None => fetch_permissions rest permissions
      end
  end.

(** [PermissionService.getUserPermissions]. *)
Definition getUserPermissions (userId : number) : M drv (list Instance) :=
  user <- Model.objects_get drv (AuthModels.User now_iso)
            [("id", VNum userId)] ;;
  match user with
  | None => ret []
  | Some user =>
      if truthy (ModelStatic.get user "isSuperuser") then
        QuerySet.all drv (Model.objects_all AuthModels.Permission)
      else
        let permissions := [] in
        let permissionIds := [] in
        userPerms <-
          QuerySet.all drv
            (Model.objects_filter AuthModels.UserPermission
               [("userId", VNum userId)]) ;;
        let permissionIds := add_permission_ids permissionIds userPerms in
        userGroups <-
          QuerySet.all drv
            (Model.objects_filter AuthModels.UserGroup
               [("userId", VNum userId)]) ;;
        permissionIds <- add_group_permission_ids permissionIds userGroups ;;
        fetch_permissions permissionIds permissions
  end.

(** [PermissionService.assignPermission]. *)
Definition assignPermission (userId permissionId : number) : M drv unit :=
  existing <-
    Model.objects_get drv AuthModels.UserPermission
      [("userId", VNum userId); ("permissionId", VNum permissionId)] ;;
  match existing with
  | None =>
      _ <- Model.objects_create drv AuthModels.UserPermission
             [("userId", VNum userId); ("permissionId", VNum permissionId)] ;;
      ret tt
  | Some _ => ret tt
  end.

(** [PermissionService.revokePermission]. *)
Definition revokePermission (userId permissionId : number) : M drv unit :=
  userPerm <-
    Model.objects_get drv AuthModels.UserPermission
      [("userId", VNum userId); ("permissionId", VNum permissionId)] ;;
  match userPerm with
  | Some up => Model.delete drv up
  | None => ret tt
  end.

(** [PermissionService.assignGroup]. *)
Definition assignGroup (userId groupId : number) : M drv unit :=
  existing <-
    Model.objects_get drv AuthModels.UserGroup
      [("userId", VNum userId); ("groupId", VNum groupId)] ;;
  match existing with
  | None =>
      _ <- Model.objects_create drv AuthModels.UserGroup
             [("userId", VNum userId); ("groupId", VNum groupId)] ;;
      ret tt
  | Some _ => ret tt
  end.

(** [PermissionService.removeFromGroup]. *)
Definition removeFromGroup (userId groupId : number) : M drv unit :=
  userGroup <-
    Model.objects_get drv AuthModels.UserGroup
      [("userId", VNum userId); ("groupId", VNum groupId)] ;;
  match userGroup with
  | Some ug => Model.delete drv ug
  | None => ret tt
  end.

(** The loop of [createModelPermissions] over the actions; the line it
    logs for a created permission is left out. *)
Fixpoint create_for_actions (actions : list string)
    (modelName displayName : string) : M drv unit :=
  match actions with
  | [] => ret tt
  | action :: rest =>
      let codename := action ++ "_" ++ toLowerCase modelName in
      let name := "Can " ++ action ++ " " ++ displayName in
      existing <-
        Model.objects_get drv AuthModels.Permission
          [("codename", VStr codename)] ;;
      match existing with
      | None =>
          _ <- Model.objects_create drv AuthModels.Permission
                 [("name", VStr name); ("codename", VStr codename);
                  ("modelName", VStr modelName)] ;;
          create_for_actions rest modelName displayName
      | Some _ => create_for_actions rest modelName displayName
      end
  end.

(** [PermissionService.createModelPermissions]. *)
Definition createModelPermissions (modelName displayName : string)
    : M drv unit :=
  let actions := ["view"; "add"; "change"; "delete"] in
  create_for_actions actions modelName displayName.

End Defs.

Arguments getUserPermissions {Ambient} now_iso drv userId.
Arguments add_group_permission_ids {Ambient} drv permissionIds userGroups.
Arguments fetch_permissions {Ambient} drv permissionIds permissions.
Arguments assignPermission {Ambient} drv userId permissionId.
Arguments revokePermission {Ambient} drv userId permissionId.
Arguments assignGroup {Ambient} drv userId groupId.
Arguments removeFromGroup {Ambient} drv userId groupId.
Arguments create_for_actions {Ambient} drv actions modelName displayName.
Arguments createModelPermissions {Ambient} drv modelName displayName.

End PermissionMore.

(* ================================================================== *)
(** ** Reading and writing the stored tables *)
(* ================================================================== *)

Module Stored.

Import Sqlite.

(** The rows of [rs] without the first one that satisfies [hit]. *)
Fixpoint without_first (hit : obj SqlValue -> bool)
    (rs : list (obj SqlValue)) : list (obj SqlValue) :=
  match rs with
  | [] => []
  | r :: rest => if hit r then rest else r :: without_first hit rest
  end.

(** Every row has an [id] that reads as true: a non-zero integer or a
    non-empty text, as a rowid assigned by the database is. *)
Definition ids_set (rs : list (obj SqlValue)) : bool :=
  forallb (fun r => negb (Grants.falsy (cell r "id"))) rs.

(** The next rowid of the table is not in use. *)
Definition next_id_free (tb : Table) : bool :=
  forallb (fun r => negb (sql_eq (cell r "id") (SInt (seq tb + 1))))
          (table_rows tb).

(** The table [t] of [d] with the row [r] appended under the next rowid. *)
Definition appended (d : Store) (t : string) (tb : Table)
    (r : obj SqlValue) : Store :=
  obj_set d t
    {| columns := columns tb; seq := (seq tb + 1)%Z;
       table_rows := (table_rows tb ++ [r])%list |}.

(** The rows of a junction table that link [x] and [y] through the columns
    [a] and [b]. *)
Definition links (a b : string) (x y : Z) (r : obj SqlValue) : bool :=
  sql_eq (cell r a) (SInt x) && sql_eq (cell r b) (SInt y).

(** The row an INSERT of [x] and [y] into the columns [a] and [b] stores
    in the table [tb]. *)
Definition link_row (tb : Table) (a b : string) (x y : Z) : obj SqlValue :=
  [("id", SInt (seq tb + 1)); (a, SInt x); (b, SInt y)].

(** The rows of a junction table that belong to [x] through the column
    [a]. *)
Definition owned (a : string) (x : Z) (r : obj SqlValue) : bool :=
  sql_eq (cell r a) (SInt x).

(** The rows that successive INSERTs of [x] with each of [ys] store, from
    the rowid after [n]. *)
Fixpoint link_rows (n : Z) (a b : string) (x : Z) (ys : list Z)
    : list (obj SqlValue) :=
  match ys with
  | [] => []
  | y :: rest =>
      [("id", SInt (n + 1)); (a, SInt x); (b, SInt y)]
        :: link_rows (n + 1) a b x rest
  end.

(** A row of [permissions] with the codename [c]. *)
Definition has_codename (c : string) (r : obj SqlValue) : bool :=
  sql_eq (cell r "codename") (SText c).

(** A row of [permissions] for the model name [m]. *)
Definition has_model (m : string) (r : obj SqlValue) : bool :=
  sql_eq (cell r "modelName") (SText m).

(** The row an INSERT of a permission stores in the table [tb]. *)
Definition permission_row (tb : Table) (name codename modelName : string)
    : obj SqlValue :=
  [("id", SInt (seq tb + 1)); ("name", SText name);
   ("codename", SText codename); ("modelName", SText modelName)].

(** Two stored values are the same value. *)
Definition same_sql (a b : SqlValue) : bool :=
  match a, b with
  | SNull, SNull => true
  | SInt x, SInt y => Z.eqb x y
  | SText x, SText y => String.eqb x y
  | _, _ => false
  end.

(** The permission ids of the links [links], added to [ids] in order,
    each once. *)
Definition add_id (ids : list SqlValue) (x : SqlValue) : list SqlValue :=
  if existsb (same_sql x) ids then ids else (ids ++ [x])%list.

Definition ids_of_links (ids : list SqlValue)
    (links : list (obj SqlValue)) : list SqlValue :=
  fold_left (fun ids l => add_id ids (cell l "permissionId")) links ids.

Definition ids_of_groups (d : Store) (ids : list SqlValue)
    (memberships : list (obj SqlValue)) : list SqlValue :=
  fold_left
    (fun ids m =>
       ids_of_links ids (Grants.links_of_group d (cell m "groupId")))
    memberships ids.

(** The ids of the permissions linked to user [uid], directly and then
    through the user's groups, each once, in the order met. *)
Definition permission_ids (d : Store) (uid : Z) : list SqlValue :=
  ids_of_groups d (ids_of_links [] (Grants.links_of_user d uid))
                (Grants.memberships_of_user d uid).

(** The permission id [x] resolves to a stored permission with codename
    [c]. *)
Definition resolves_to (d : Store) (c : string) (x : SqlValue) : bool :=
  match Grants.permission_of d x with
  | Some p =>
      match cell p "codename" with
      | SText t => String.eqb t c
      | _ => false
      end
  | None => false
  end.

(** The stored permissions those ids resolve to. *)
Definition resolved (d : Store) (ids : list SqlValue)
    : list (obj SqlValue) :=
  flat_map
    (fun x => match Grants.permission_of d x with
              | Some p => [p]
              | None => []
              end) ids.

Section Defs.
Context {Ambient : Type}.

(** The session after one more statement that left the database as it
    was. *)
Definition asked (s : Session (Sqlite.driver Ambient))
    (c : @Call Ambient) : Session (Sqlite.driver Ambient) :=
  {| ambient := ambient s; db := db s;
     executed := (executed s ++ [c])%list |}.

(** The session after one more statement that left the database as
    [d]. *)
Definition wrote (s : Session (Sqlite.driver Ambient))
    (c : @Call Ambient) (d : Store) : Session (Sqlite.driver Ambient) :=
  @mkSession Ambient (Sqlite.driver Ambient) (ambient s) d
    (executed s ++ [c])%list.

End Defs.
End Stored.
(* ================================================================== *)
(** ** apps/admin/permissionsRoutes.ts: replacing links *)
(* ================================================================== *)

Module PermissionsRoutes.
Section Defs.
Context {Ambient : Type}.
Local Abbreviation value := (JSValue Ambient).
Local Abbreviation ModelClass := (ModelStatic.ModelClass Ambient).
Local Abbreviation Instance := (ModelStatic.Instance Ambient).
Variable drv : @Driver Ambient.

(** [existing.forEach((x: any) => x.delete())]. *)
Fixpoint delete_each (existing : list Instance) : M drv unit :=
  match existing with
  | [] => ret tt
  | x :: rest =>
      _ <- Model.delete drv x ;;
      delete_each rest
  end.

(** [ids.forEach(id => { const link = new C(); link.<owner> = ...;
    link.<item> = id; link.save(); })], for the junction class [C] and
    its two properties. *)
Fixpoint create_each (C : ModelClass) (ownerKey itemKey : string)
    (owner : number) (ids : list number) : M drv unit :=
  match ids with
  | [] => ret tt
  | id :: rest =>
      let link := ModelStatic.construct C in
      let link := ModelStatic.set link ownerKey (VNum owner) in
      let link := ModelStatic.set link itemKey (VNum id) in
      _ <- Model.save drv link ;;
      create_each C ownerKey itemKey owner rest
  end.

(** The handler of [PUT /api/admin/users/:userId/groups]; [userId] is
    [parseInt] of the route parameter, and the result is the [success] it
    sends. *)
Definition update_user_groups (userId : number) (groupIds : list number)
    : M drv bool :=
  existing <-
    QuerySet.all drv
      (Model.objects_filter AuthModels.UserGroup
         [("userId", VNum userId)]) ;;
  _ <- delete_each existing ;;
  _ <- create_each AuthModels.UserGroup "userId" "groupId" userId
         groupIds ;;
  ret true.

(** The handler of [PUT /api/admin/users/:userId/permissions]. *)
Definition update_user_permissions (userId : number)
    (permissionIds : list number) : M drv bool :=
  existing <-
    QuerySet.all drv
      (Model.objects_filter AuthModels.UserPermission
         [("userId", VNum userId)]) ;;
  _ <- delete_each existing ;;
  _ <- create_each AuthModels.UserPermission "userId" "permissionId" userId
         permissionIds ;;
  ret true.

(** The handler of [PUT /api/admin/groups/:groupId/permissions]. *)
Definition update_group_permissions (groupId : number)
    (permissionIds : list number) : M drv bool :=
  existing <-
    QuerySet.all drv
      (Model.objects_filter AuthModels.GroupPermission
         [("groupId", VNum groupId)]) ;;
  _ <- delete_each existing ;;
  _ <- create_each AuthModels.GroupPermission "groupId" "permissionId"
         groupId permissionIds ;;
  ret true.

End Defs.

Arguments delete_each {Ambient} drv existing.
Arguments create_each {Ambient} drv C ownerKey itemKey owner ids.
Arguments update_user_groups {Ambient} drv userId groupIds.
Arguments update_user_permissions {Ambient} drv userId permissionIds.
Arguments update_group_permissions {Ambient} drv groupId permissionIds.

End PermissionsRoutes.
(* ================================================================== *)
(** ** apps/admin/routes.ts: which models a user reaches *)
(* ================================================================== *)

Module AdminRoutes.

(** [interface TokenPayload] of apps/auth/service.ts: what [request.user]
    holds once [requireStaff] has let the request through. *)
Record TokenPayload : Type := mkTokenPayload {
  userId : number;
  email : string;
  username : string;
  isStaff : bool;
  isSuperuser : bool
}.

(** An entry of [accessibleModels]. *)
Record ModelSummary : Type := mkModelSummary {
  name : string;
  tableName : string;
  appName : string;
  displayName : string;
  icon : string;
  permissions : list string
}.

(** The codename is held by the user, directly or through a group. *)
Definition holds (d : Sqlite.Store) (uid : Z) (c : string) : bool :=
  Grants.holds_directly d uid c || Grants.holds_by_group d uid c.

(** Some action on the model is held by the user. *)
Definition any_held (d : Sqlite.Store) (uid : Z) (modelName : string)
    : bool :=
  existsb (fun action => holds d uid (action ++ "_" ++ toLowerCase modelName))
          ["view"; "add"; "change"; "delete"].

Section Defs.
Context {Ambient : Type}.
Local Abbreviation value := (JSValue Ambient).
Local Abbreviation ModelMetadata := (ModelRegistry.ModelMetadata Ambient).
Local Abbreviation Registry := (ModelRegistry.Registry Ambient).
Variable now_iso : Ambient -> value * Ambient.
Variable drv : @Driver Ambient.

Definition summary (model : ModelMetadata) : ModelSummary :=
  {| name := ModelStatic.name (ModelRegistry.meta_model model);
     tableName := ModelRegistry.meta_tableName model;
     appName := ModelRegistry.meta_appName model;
     displayName := ModelRegistry.meta_displayName model;
     icon := ModelRegistry.meta_icon model;
     permissions := ModelRegistry.meta_permissions model |}.

(** The loop [for (const action of actions)] that stops at the first
    action the user has on the model. *)
Fixpoint any_action (userId : number) (modelName : string)
    (actions : list string) : M drv bool :=
  match actions with
  | [] => ret false
  | action :: rest =>
      granted <-
        PermissionService.hasModelPermission now_iso drv userId action
          modelName ;;
      if granted then ret true else any_action userId modelName rest
  end.

(** The loop [for (const model of models)] of the handler of
    [GET /api/admin/models]. *)
Fixpoint accessible (user : TokenPayload) (models : list ModelMetadata)
    (accessibleModels : list ModelSummary) : M drv (list ModelSummary) :=
  match models with
  | [] => ret accessibleModels
  | model :: rest =>
      let modelName := ModelStatic.name (ModelRegistry.meta_model model) in
      if isSuperuser user then
        accessible user rest (accessibleModels ++ [summary model])%list
      else
        let actions := ["view"; "add"; "change"; "delete"] in
        hasPermission <- any_action (userId user) modelName actions ;;
        if hasPermission then
          accessible user rest (accessibleModels ++ [summary model])%list
        else accessible user rest accessibleModels
  end.

(** The handler of [GET /api/admin/models]: the [models] it sends. *)
Definition list_models (registry : Registry) (user : TokenPayload)
    : M drv (list ModelSummary) :=
  let models := ModelRegistry.getAllModels registry in
  accessible user models [].

(** What a handler sends: the status code and the body. *)
Inductive Body : Type :=
| ErrorBody (error : string)
| MetadataBody (metadata : ModelMetadata).

(** The handler of [GET /api/admin/models/:modelName]. *)
Definition model_metadata (registry : Registry) (user : TokenPayload)
    (modelName : string) : M drv (nat * Body) :=
  let metadata := ModelRegistry.getModel registry modelName in
  match metadata with
  | None => ret (404%nat, ErrorBody "Model not found")
  | Some metadata =>
      if negb (isSuperuser user) then
        let actions := ["view"; "add"; "change"; "delete"] in
        hasPermission <- any_action (userId user) modelName actions ;;
        if negb hasPermission then
          ret (403%nat, ErrorBody "Permission denied")
        else ret (200%nat, MetadataBody metadata)
      else ret (200%nat, MetadataBody metadata)
  end.

End Defs.

Arguments any_action {Ambient} now_iso drv userId modelName actions.
Arguments accessible {Ambient} now_iso drv user models accessibleModels.
Arguments list_models {Ambient} now_iso drv registry user.
Arguments model_metadata {Ambient} now_iso drv registry user modelName.

End AdminRoutes.
(* ================================================================== *)
(** ** scripts: the permissions cleanup *)
(* ================================================================== *)

Module PermissionsCleanup.
Section Defs.
Context {Ambient : Type}.
Local Abbreviation value := (JSValue Ambient).

(** [count > 0], the comparison of JavaScript; of it the properties use
    only how it reads on numbers. *)
Variable greater_than_zero : value -> bool.
Variable drv : @Driver Ambient.

(** [try { body } catch (e) { handler }]. *)
Definition try_catch (A : Type) (body : M drv A)
    (handler : JSError -> M drv A) : M drv A :=
  fun s =>
    match body s with
    | (Throw e, s') => handler e s'
    | r => r
    end.

(** One block of the script: count the permissions of the model name and
    delete them when there are some; the lines it logs are left out. *)
Definition delete_stale (target : string) : M drv unit :=
  count <-
    QuerySet.count drv
      (Model.objects_filter AuthModels.Permission
         [("modelName", VStr target)]) ;;
  if greater_than_zero count then
    _ <- QuerySet.delete drv
           (Model.objects_filter AuthModels.Permission
              [("modelName", VStr target)]) ;;
    ret tt
  else ret tt.

(** The body of the script between the initialisation of the database and
    [process.exit(0)]. *)
Definition cleanup : M drv unit :=
  try_catch
    (let targetModel := "Product" in
     _ <- delete_stale targetModel ;;
     let targetLower := "product" in
     delete_stale targetLower)
    (fun e => ret tt).

End Defs.

Arguments delete_stale {Ambient} greater_than_zero drv target.
Arguments cleanup {Ambient} greater_than_zero drv.

End PermissionsCleanup.

(* ================================================================== *)
(** ** Scenarios for the permission service and the admin routes *)
(* ================================================================== *)

Module AuthScenario.

Import Sqlite Scenario.

(** The database of [auth_db] with one more user, a superuser. *)
Definition root_db : Store :=
  obj_set auth_db "users"
    {| columns := ["id"; "username"; "email"; "password"; "firstName";
                   "lastName"; "isActive"; "isStaff"; "isSuperuser";
                   "dateJoined"; "lastLogin"];
       seq := 4;
       table_rows := [user_row 1 "ann" 0; user_row 2 "bob" 0;
                      user_row 3 "cy" 0; user_row 4 "root" 1] |}.

Definition root_start : Session sqlite :=
  @mkSession Clock sqlite 0%nat root_db [].

(** The junction tables of [auth_db]. *)
Definition user_links : Table :=
  {| columns := ["id"; "userId"; "permissionId"];
     seq := 1;
     table_rows :=
       [ [("id", SInt 1); ("userId", SInt 1); ("permissionId", SInt 1)] ] |}.

Definition memberships : Table :=
  {| columns := ["id"; "userId"; "groupId"];
     seq := 1;
     table_rows :=
       [ [("id", SInt 1); ("userId", SInt 2); ("groupId", SInt 7)] ] |}.

(** The session after the permissions of a model [Product] were
    created. *)
Definition shop_start : Session sqlite :=
  snd (PermissionMore.createModelPermissions sqlite "Product" "Products"
         auth_start).

(** [count > 0] on the values a count select yields. *)
Definition positive (v : JSValue Clock) : bool :=
  match v with
  | VNum (Num z) => Z.ltb 0 z
  | _ => false
  end.

(** The registry after the registrations of [Scenario.registrations]. *)
Definition registry : ModelRegistry.Registry Clock :=
  ModelRegistry.register_all [] registrations.

(** The tokens of the user [ann] and of a superuser. *)
Definition ann_token : AdminRoutes.TokenPayload :=
  {| AdminRoutes.userId := Num 1; AdminRoutes.email := "ann";
     AdminRoutes.username := "ann"; AdminRoutes.isStaff := true;
     AdminRoutes.isSuperuser := false |}.

Definition root_token : AdminRoutes.TokenPayload :=
  {| AdminRoutes.userId := Num 4; AdminRoutes.email := "root";
     AdminRoutes.username := "root"; AdminRoutes.isStaff := true;
     AdminRoutes.isSuperuser := true |}.

End AuthScenario.

(* ================================================================== *)
(** * Properties *)
(* ================================================================== *)

(** ** Objects *)

Module ObjFacts.
Section Facts.
Variable V : Type.
Implicit Types (o : obj V) (k : string) (v : V).

Lemma has_iff_In o k : obj_has o k = true <-> In k (obj_keys o).
Proof.
  induction o as [|[k' v'] o IH]; simpl.
  - split; [discriminate | tauto].
  - destruct (String.eqb_spec k' k) as [->|Hne].
    + split; auto.
    + rewrite IH. split; [auto | intros [H|H]; [contradiction | exact H]].
Qed.

Lemma has_false_iff o k : obj_has o k = false <-> ~ In k (obj_keys o).
Proof.
  rewrite <- has_iff_In. destruct (obj_has o k); split; intros; congruence.
Qed.

Lemma set_fresh o k v :
  ~ In k (obj_keys o) -> obj_set o k v = (o ++ [(k, v)])%list.
Proof.
  induction o as [|[k' v'] o IH]; simpl; intros Hn; [reflexivity|].
  destruct (String.eqb_spec k' k) as [->|Hne].
  - exfalso; apply Hn; now left.
  - rewrite IH; [reflexivity|]. intros H; apply Hn; now right.
Qed.

Lemma keys_set_present o k v :
  In k (obj_keys o) -> obj_keys (obj_set o k v) = obj_keys o.
Proof.
  induction o as [|[k' v'] o IH]; simpl; intros Hin; [contradiction|].
  destruct (String.eqb_spec k' k) as [->|Hne]; simpl; [reflexivity|].
  f_equal. apply IH. destruct Hin; [contradiction | assumption].
Qed.

Lemma keys_set o k v :
  obj_keys (obj_set o k v)
  = if obj_has o k then obj_keys o else (obj_keys o ++ [k])%list.
Proof.
  destruct (obj_has o k) eqn:E.
  - apply keys_set_present, has_iff_In, E.
  - rewrite set_fresh by (apply has_false_iff, E).
    unfold obj_keys. now rewrite map_app.
Qed.

Lemma In_keys_set o k v k' :
  In k' (obj_keys (obj_set o k v)) <-> In k' (obj_keys o) \/ k' = k.
Proof.
  rewrite keys_set. destruct (obj_has o k) eqn:E.
  - apply has_iff_In in E. split; [auto | intros [H| ->]; assumption].
  - rewrite in_app_iff. simpl. intuition congruence.
Qed.

Lemma NoDup_keys_set o k v :
  NoDup (obj_keys o) -> NoDup (obj_keys (obj_set o k v)).
Proof.
  intros Hnd. rewrite keys_set. destruct (obj_has o k) eqn:E; [assumption|].
  apply has_false_iff in E.
  apply NoDup_app; [assumption | repeat constructor; simpl; tauto |].
  intros x Hx [<- |[]]. contradiction.
Qed.

Lemma NoDup_keys_assign (t src : obj V) :
  NoDup (obj_keys t) -> NoDup (obj_keys (obj_assign t src)).
Proof.
  unfold obj_assign. revert t.
  induction src as [|[k v] src IH]; simpl; intros t Hnd; [assumption|].
  apply IH, NoDup_keys_set, Hnd.
Qed.

Lemma In_keys_assign (t src : obj V) k :
  In k (obj_keys (obj_assign t src))
  <-> In k (obj_keys t) \/ In k (obj_keys src).
Proof.
  unfold obj_assign. revert t.
  induction src as [|[k' v] src IH]; simpl; intros t; [tauto|].
  rewrite IH, In_keys_set. intuition congruence.
Qed.

Lemma lookup_set_same o k v : obj_lookup (obj_set o k v) k = Some v.
Proof.
  induction o as [|[k' v'] o IH]; simpl.
  - now rewrite String.eqb_refl.
  - destruct (String.eqb_spec k' k) as [->|Hne]; simpl.
    + now rewrite String.eqb_refl.
    + destruct (String.eqb_spec k' k); [contradiction | exact IH].
Qed.

Lemma lookup_set_other o k v k' :
  k <> k' -> obj_lookup (obj_set o k v) k' = obj_lookup o k'.
Proof.
  intros Hne. induction o as [|[k0 v0] o IH]; simpl.
  - destruct (String.eqb_spec k k'); [contradiction | reflexivity].
  - destruct (String.eqb_spec k0 k) as [->|Hne0]; simpl.
    + destruct (String.eqb_spec k k'); [contradiction | reflexivity].
    + now rewrite IH.
Qed.

Lemma get_lookup (d : V) o k :
  obj_get d o k = match obj_lookup o k with Some v => v | None => d end.
Proof.
  induction o as [|[k' v'] o IH]; simpl; [reflexivity|].
  destruct (String.eqb k' k); [reflexivity | exact IH].
Qed.

Lemma lookup_In o k v :
  NoDup (obj_keys o) -> In (k, v) o -> obj_lookup o k = Some v.
Proof.
  induction o as [|[k' v'] o IH]; simpl; intros Hnd Hin; [contradiction|].
  inversion Hnd as [|? ? Hfresh Hnd']; subst.
  destruct Hin as [Heq|Hin].
  - inversion Heq; subst. now rewrite String.eqb_refl.
  - destruct (String.eqb_spec k' k) as [->|Hne].
    + exfalso. apply Hfresh. apply (in_map fst) in Hin. exact Hin.
    + now apply IH.
Qed.

Lemma lookup_Some_In o k v : obj_lookup o k = Some v -> In (k, v) o.
Proof.
  induction o as [|[k' v'] o IH]; simpl; [discriminate|].
  destruct (String.eqb_spec k' k) as [->|Hne].
  - intros H; inversion H; now left.
  - intros H; right; now apply IH.
Qed.

Lemma lookup_None o k : obj_lookup o k = None <-> ~ In k (obj_keys o).
Proof.
  induction o as [|[k' v'] o IH]; simpl; [tauto|].
  destruct (String.eqb_spec k' k) as [->|Hne].
  - split; [discriminate | intros H; exfalso; apply H; now left].
  - rewrite IH. intuition.
Qed.

(** Assigning a source whose keys are new and distinct appends it. *)
Lemma assign_fresh (t src : obj V) :
  NoDup (obj_keys src) ->
  (forall k, In k (obj_keys src) -> ~ In k (obj_keys t)) ->
  obj_assign t src = (t ++ src)%list.
Proof.
  unfold obj_assign. revert t.
  induction src as [|[k v] src IH]; simpl; intros t Hnd Hdis.
  - now rewrite app_nil_r.
  - inversion Hnd as [|? ? Hk Hnd']; subst.
    rewrite set_fresh by (apply Hdis; now left).
    rewrite IH; [now rewrite <- app_assoc | assumption |].
    intros k' Hk' Hin. unfold obj_keys in Hin.
    rewrite map_app, in_app_iff in Hin. simpl in Hin.
    destruct Hin as [Hin|[<- |[]]]; [|contradiction].
    apply (Hdis k'); [now right | exact Hin].
Qed.

Lemma assign_empty (src : obj V) :
  NoDup (obj_keys src) -> obj_assign [] src = src.
Proof.
  intros Hnd. rewrite assign_fresh; [reflexivity | assumption |].
  intros k _ [].
Qed.

(** After [Object.assign(t, src)] a property of the source reads as the
    source has it. *)
Lemma lookup_assign_source (t src : obj V) k v :
  NoDup (obj_keys src) -> obj_lookup src k = Some v ->
  obj_lookup (obj_assign t src) k = Some v.
Proof.
  unfold obj_assign. revert t.
  induction src as [|[k' v'] src IH]; simpl; intros t Hnd Hl; [discriminate|].
  inversion Hnd as [|? ? Hk Hnd']; subst.
  destruct (String.eqb_spec k' k) as [->|Hne].
  - inversion Hl; subst.
    assert (Hkeep : forall (s : obj V) (t0 : obj V),
               ~ In k (obj_keys s) -> obj_lookup t0 k = Some v ->
               obj_lookup
                 (fold_left (fun o kv => obj_set o (fst kv) (snd kv)) s t0) k
               = Some v).
    { induction s as [|[k1 v1] s IHs]; simpl; intros t0 Hn H0; [exact H0|].
      apply IHs; [tauto|]. rewrite lookup_set_other; [exact H0|].
      intros ->. apply Hn. now left. }
    apply Hkeep; [exact Hk | apply lookup_set_same].
  - now apply IH.
Qed.

End Facts.
End ObjFacts.

(* ================================================================== *)
(** ** fields.ts: the constraints fragment *)
(* ================================================================== *)

Module FieldsFacts.
Section Facts.
Context {Ambient : Type}.
Local Abbreviation Field := (JS.Field Ambient).

Lemma list_as_emitted (f : Field) :
  Fields.getConstraints_list f = Fields.emitted f Fields.marker_order.
Proof.
  unfold Fields.getConstraints_list, Fields.emitted, Fields.marker_order,
    Fields.marker_text, Fields.push, Fields.default_clause.
  destruct (flag (primaryKey (options f))), (flag (autoIncrement (options f))),
    (flag (unique (options f))), (flag (nullable (options f)));
    destruct (default (options f)) as [| |[|]| | | | |]; reflexivity.
Qed.

(** C4.  For every field and every options record, [getConstraints] joins
    with blanks the markers PRIMARY KEY, AUTOINCREMENT, UNIQUE, NOT NULL and
    the DEFAULT clause, in exactly this order, each one present or absent as
    [marker_text] says: NOT NULL is absent exactly when the field is
    nullable or a primary key; the DEFAULT clause single-quotes a string,
    renders a boolean as 1 or 0 and any other literal as its text; and when
    the default is a function (or absent) no DEFAULT clause is emitted at
    all. *)
Theorem getConstraints_marker_order (f : Field) :
  Fields.getConstraints f
  = String.concat " " (Fields.emitted f Fields.marker_order)
  /\ Fields.marker_order
     = [Fields.MPrimaryKey; Fields.MAutoIncrement; Fields.MUnique;
        Fields.MNotNull; Fields.MDefault]
  /\ (Fields.marker_text f Fields.MNotNull = None
      <-> flag (nullable (options f)) = true
          \/ flag (primaryKey (options f)) = true)
  /\ (forall s, default (options f) = VStr s ->
        Fields.marker_text f Fields.MDefault = Some ("DEFAULT '" ++ s ++ "'"))
  /\ (forall b, default (options f) = VBool b ->
        Fields.marker_text f Fields.MDefault
        = Some (if b then "DEFAULT 1" else "DEFAULT 0"))
  /\ match default (options f) with
     | VUndefined | VFun _ _ | VStr _ | VBool _ => True
     | d => Fields.marker_text f Fields.MDefault
            = Some ("DEFAULT " ++ toString d)
     end
  /\ (is_function (default (options f)) = true ->
        forall c, In c (Fields.getConstraints_list f) ->
                  String.prefix "DEFAULT" c = false).
Proof.
  split; [unfold Fields.getConstraints; now rewrite list_as_emitted|].
  split; [reflexivity|].
  split.
  { unfold Fields.marker_text.
    destruct (flag (nullable (options f))), (flag (primaryKey (options f)));
      simpl; intuition congruence. }
  split; [intros s E; unfold Fields.marker_text; now rewrite E|].
  split; [intros [|] E; unfold Fields.marker_text; now rewrite E|].
  split; [unfold Fields.marker_text; now destruct (default (options f))|].
  intros Hfun c. rewrite list_as_emitted.
  unfold Fields.emitted, Fields.marker_order, Fields.marker_text.
  destruct (default (options f)); try discriminate Hfun.
  destruct (flag (primaryKey (options f))), (flag (autoIncrement (options f))),
    (flag (unique (options f))), (flag (nullable (options f))); simpl;
    intuition (subst; reflexivity).
Qed.

End Facts.
End FieldsFacts.

(* ================================================================== *)
(** ** model.ts: query sets *)
(* ================================================================== *)

Module QueryFacts.

Lemma append_assoc (a b c : string) : (a ++ b) ++ c = a ++ (b ++ c).
Proof. induction a as [|x a IH]; simpl; [reflexivity | now rewrite IH]. Qed.

Lemma append_empty_r (a : string) : a ++ "" = a.
Proof. induction a as [|x a IH]; simpl; [reflexivity | now rewrite IH]. Qed.

Section Facts.
Context {Ambient : Type}.
Local Abbreviation value := (JSValue Ambient).
Local Abbreviation QuerySet := (QuerySet.QuerySet Ambient).
Variable drv : @Driver Ambient.

Lemma values_by_key (d : value) (o : obj value) :
  NoDup (obj_keys o) -> map (fun k => obj_get d o k) (obj_keys o) = obj_values o.
Proof.
  induction o as [|[k v] o IH]; simpl; intros Hnd; [reflexivity|].
  inversion Hnd as [|? ? Hk Hnd']; subst.
  rewrite String.eqb_refl. f_equal.
  rewrite <- IH by assumption.
  apply map_ext_in. intros k' Hk'.
  destruct (String.eqb_spec k k') as [->|_]; [contradiction | reflexivity].
Qed.

Lemma model_build (q : QuerySet) bs :
  QuerySet.model (Chain.build q bs) = QuerySet.model q.
Proof.
  unfold Chain.build. revert q.
  induction bs as [|b bs IH]; simpl; intros q; [reflexivity|].
  rewrite IH. now destruct b.
Qed.

Lemma NoDup_filters_apply (q : QuerySet) b :
  NoDup (obj_keys (QuerySet.filters q)) ->
  NoDup (obj_keys (QuerySet.filters (Chain.apply_builder q b))).
Proof.
  intros Hnd. destruct b; simpl; try assumption.
  apply ObjFacts.NoDup_keys_assign, ObjFacts.NoDup_keys_assign. constructor.
Qed.

Lemma NoDup_filters_build (q : QuerySet) bs :
  NoDup (obj_keys (QuerySet.filters q)) ->
  NoDup (obj_keys (QuerySet.filters (Chain.build q bs))).
Proof.
  unfold Chain.build. revert q.
  induction bs as [|b bs IH]; simpl; intros q Hnd; [assumption|].
  apply IH, NoDup_filters_apply, Hnd.
Qed.

Lemma filter_keys_apply (q : QuerySet) b k :
  In k (obj_keys (QuerySet.filters (Chain.apply_builder q b)))
  <-> In k (obj_keys (QuerySet.filters q))
      \/ exists fs, b = Chain.Filter fs /\ In k (obj_keys fs).
Proof.
  destruct b as [fs| | |]; simpl.
  - rewrite !ObjFacts.In_keys_assign. simpl. split.
    + intros [[[]|H]|H]; [now left | right; now exists fs].
    + intros [H|[fs' [E H]]]; [left; now right|].
      inversion E; subst. now right.
  - split; [now left | intros [H|[fs [E _]]]; [assumption | discriminate]].
  - split; [now left | intros [H|[fs [E _]]]; [assumption | discriminate]].
  - split; [now left | intros [H|[fs [E _]]]; [assumption | discriminate]].
Qed.

Lemma filter_keys_build (q : QuerySet) bs k :
  In k (obj_keys (QuerySet.filters (Chain.build q bs)))
  <-> In k (obj_keys (QuerySet.filters q))
      \/ exists fs, In (Chain.Filter fs) bs /\ In k (obj_keys fs).
Proof.
  unfold Chain.build. revert q.
  induction bs as [|b bs IH]; simpl; intros q.
  - split; [now left | intros [H|[fs [[] _]]]; assumption].
  - rewrite IH, filter_keys_apply. split.
    + intros [[H|[fs [-> H]]]|[fs [Hin H]]].
      * now left.
      * right. exists fs. split; [now left | assumption].
      * right. exists fs. split; [now right | assumption].
    + intros [H|[fs [[->|Hin] H]]].
      * left. now left.
      * left. right. now exists fs.
      * right. now exists fs.
Qed.

(** The text [all] builds is the shape of the specification. *)
Lemma all_query_shape (q : QuerySet) :
  NoDup (obj_keys (QuerySet.filters q)) ->
  QuerySet.all_query q
  = (Chain.select_text (ModelStatic.getTableName (QuerySet.model q))
       (obj_keys (QuerySet.filters q))
       (Chain.effective_order (QuerySet.options q))
       (Chain.effective (QuerySet.limit_of (QuerySet.options q)))
       (Chain.effective (QuerySet.offset_of (QuerySet.options q))),
     obj_values (QuerySet.filters q)).
Proof.
  intros Hnd.
  unfold QuerySet.all_query, QuerySet.add_where, Chain.select_text.
  rewrite values_by_key by assumption.
  unfold Chain.effective_order, Chain.effective, Chain.order_text,
    Chain.bound_text, Chain.where_text, QuerySet.string_truthy,
    QuerySet.count_truthy, QuerySet.count_text, obj_values.
  remember "SELECT * FROM " as select_from.
  remember " WHERE " as where_kw.
  remember " ORDER BY " as order_kw.
  remember " LIMIT " as limit_kw.
  remember " OFFSET " as offset_kw.
  remember " " as blank.
  destruct (QuerySet.options q) as [l o ob od];
    cbv beta iota zeta delta [QuerySet.limit_of QuerySet.offset_of
                               QuerySet.orderBy_of QuerySet.orderDirection_of].
  destruct (QuerySet.filters q) as [|[k v] fs];
    cbv beta iota zeta delta [obj_keys List.length Nat.ltb Nat.leb map fst snd
                               List.app];
    (destruct ob as [f|]; [destruct (String.eqb f "")|]);
    destruct od as [[|]|];
    (destruct l as [n|]; [destruct (number_truthy n)|]);
    (destruct o as [m|]; [destruct (number_truthy m)|]);
    cbv beta iota zeta delta [negb];
    rewrite ?append_assoc, ?append_empty_r; subst; reflexivity.
Qed.

(** Every call of [all] hands exactly one statement to the driver. *)
Lemma all_executes (q : QuerySet) (s : Session drv) :
  executed (snd (QuerySet.all drv q s))
  = (executed s
       ++ [mkCall StmtAll (fst (QuerySet.all_query q))
                  (snd (QuerySet.all_query q))])%list.
Proof.
  unfold QuerySet.all. destruct (QuerySet.all_query q) as [query ps]. simpl.
  unfold bind, statement.
  destruct (exec drv (mkCall StmtAll query ps) (db s)) as [[r|e] d];
    reflexivity.
Qed.

(** C2.  For every query set reached from [new QuerySet(model)] by any
    chain of [filter], [orderBy], [limit] and [offset] calls, [all] hands
    exactly one statement to the driver, run with [stmt.all]: its text is
    [SELECT * FROM <table>], then [WHERE c1 = ? AND c2 = ? ...] over the
    filter keys when there are any, then [ORDER BY f dir], [LIMIT n] and
    [OFFSET m] for the order and bounds in effect; its parameters are the
    filter values.  The filter keys are pairwise distinct, there is one
    parameter per key in the same order, and the keys are exactly the keys
    given to the [filter] calls of the chain. *)
Theorem all_compiles_one_select (cls : ModelStatic.ModelClass Ambient)
    (bs : list (Chain.Builder Ambient)) (s : Session drv) :
  let q := Chain.build (QuerySet.new cls) bs in
  executed (snd (QuerySet.all drv q s))
  = (executed s
       ++ [mkCall StmtAll
             (Chain.select_text (ModelStatic.getTableName cls)
                (obj_keys (QuerySet.filters q))
                (Chain.effective_order (QuerySet.options q))
                (Chain.effective (QuerySet.limit_of (QuerySet.options q)))
                (Chain.effective (QuerySet.offset_of (QuerySet.options q))))
             (obj_values (QuerySet.filters q))])%list
  /\ NoDup (obj_keys (QuerySet.filters q))
  /\ List.length (obj_values (QuerySet.filters q))
     = List.length (obj_keys (QuerySet.filters q))
  /\ (forall k, In k (obj_keys (QuerySet.filters q))
                <-> exists fs, In (Chain.Filter fs) bs /\ In k (obj_keys fs)).
Proof.
  intros q.
  assert (Hnd : NoDup (obj_keys (QuerySet.filters q))).
  { apply NoDup_filters_build. constructor. }
  split.
  { rewrite all_executes, all_query_shape by assumption.
    unfold q at 1. now rewrite model_build. }
  split; [assumption|].
  split.
  { unfold obj_values, obj_keys. now rewrite !length_map. }
  intros k. unfold q. rewrite filter_keys_build. simpl.
  split; [intros [[]|H]; exact H | now right].
Qed.

(** C9.  Every builder call ([filter], [orderBy], [limit], [offset])
    returns [this] and leaves the session as it was: nothing is handed to
    the driver and the database state is unchanged.  Every terminal call
    ([all], [first], [count], [delete]) hands exactly one statement to the
    driver. *)
Theorem builders_execute_nothing (q : QuerySet) (m : Chain.Method Ambient)
    (s : Session drv) :
  match m with
  | Chain.Build b =>
      Chain.call drv q m s = (Normal (Chain.This, Chain.apply_builder q b), s)
  | Chain.Run t =>
      exists c, executed (snd (Chain.call drv q m s))
                = (executed s ++ [c])%list
  end.
Proof.
  destruct m as [b|[| | |]]; [reflexivity| | | |]; simpl;
    unfold bind, QuerySet.first, QuerySet.all, QuerySet.count,
      QuerySet.delete, bind.
  - destruct (QuerySet.all_query q) as [query ps].
    exists (mkCall StmtAll query ps). unfold statement.
    destruct (exec drv _ (db s)) as [[r|e] d]; reflexivity.
  - destruct (QuerySet.all_query (QuerySet.limit q (Num 1))) as [query ps].
    exists (mkCall StmtAll query ps). unfold statement.
    destruct (exec drv _ (db s)) as [[r|e] d]; reflexivity.
  - destruct (QuerySet.count_query q) as [query ps].
    exists (mkCall StmtGet query ps). unfold statement.
    destruct (exec drv _ (db s)) as [[r|e] d]; [|reflexivity].
    destruct (rows r); reflexivity.
  - destruct (QuerySet.delete_query q) as [query ps].
    exists (mkCall StmtRun query ps). unfold statement.
    destruct (exec drv _ (db s)) as [[r|e] d]; reflexivity.
Qed.

Lemma all_by_query (q q' : QuerySet) (s : Session drv) :
  QuerySet.model q = QuerySet.model q' ->
  QuerySet.all_query q = QuerySet.all_query q' ->
  QuerySet.all drv q s = QuerySet.all drv q' s.
Proof.
  intros Hm Hq. unfold QuerySet.all. now rewrite Hm, Hq.
Qed.

Lemma all_query_limit_falsy (q : QuerySet) (n : number) :
  number_truthy n = false ->
  QuerySet.all_query (QuerySet.limit q n)
  = QuerySet.all_query (Chain.without_limit q).
Proof.
  intros Hn. unfold QuerySet.all_query, QuerySet.add_where; simpl.
  now rewrite Hn.
Qed.

Lemma all_query_offset_falsy (q : QuerySet) (n : number) :
  number_truthy n = false ->
  QuerySet.all_query (QuerySet.offset q n)
  = QuerySet.all_query (Chain.without_offset q).
Proof.
  intros Hn. unfold QuerySet.all_query, QuerySet.add_where; simpl.
  now rewrite Hn.
Qed.

Lemma all_query_no_limit (q : QuerySet) :
  Chain.effective (QuerySet.limit_of (QuerySet.options q)) = None ->
  QuerySet.all_query (Chain.without_limit q) = QuerySet.all_query q.
Proof.
  unfold Chain.effective, QuerySet.all_query, QuerySet.add_where; simpl.
  destruct (QuerySet.limit_of (QuerySet.options q)) as [n|]; simpl;
    [|reflexivity].
  destruct (number_truthy n); [discriminate | reflexivity].
Qed.

Lemma all_query_no_offset (q : QuerySet) :
  Chain.effective (QuerySet.offset_of (QuerySet.options q)) = None ->
  QuerySet.all_query (Chain.without_offset q) = QuerySet.all_query q.
Proof.
  unfold Chain.effective, QuerySet.all_query, QuerySet.add_where; simpl.
  destruct (QuerySet.offset_of (QuerySet.options q)) as [n|]; simpl;
    [|reflexivity].
  destruct (number_truthy n); [discriminate | reflexivity].
Qed.

(** C10, as the code has it.  [limit(0)] emits no LIMIT clause: the
    statement [q.limit(0).all()] compiles is the one [q] compiles once its
    stored limit is removed; likewise [offset(0)] and the OFFSET clause.
    When [q] has no limit in effect (none stored, or a stored 0 or NaN),
    that is the statement of [q.all()], and both calls return the same rows
    and leave the same session; likewise for the offset. *)
Theorem limit_zero_emits_no_clause (q : QuerySet) :
  QuerySet.all_query (QuerySet.limit q (Num 0))
  = QuerySet.all_query (Chain.without_limit q)
  /\ QuerySet.all_query (QuerySet.offset q (Num 0))
     = QuerySet.all_query (Chain.without_offset q)
  /\ (Chain.effective (QuerySet.limit_of (QuerySet.options q)) = None ->
      QuerySet.all_query (QuerySet.limit q (Num 0)) = QuerySet.all_query q
      /\ forall s : Session drv,
           QuerySet.all drv (QuerySet.limit q (Num 0)) s
           = QuerySet.all drv q s)
  /\ (Chain.effective (QuerySet.offset_of (QuerySet.options q)) = None ->
      QuerySet.all_query (QuerySet.offset q (Num 0)) = QuerySet.all_query q
      /\ forall s : Session drv,
           QuerySet.all drv (QuerySet.offset q (Num 0)) s
           = QuerySet.all drv q s).
Proof.
  split; [now apply all_query_limit_falsy|].
  split; [now apply all_query_offset_falsy|].
  split; intros He.
  - assert (E : QuerySet.all_query (QuerySet.limit q (Num 0))
                = QuerySet.all_query q).
    { rewrite all_query_limit_falsy by reflexivity.
      now apply all_query_no_limit. }
    split; [exact E|]. intros s. now apply all_by_query.
  - assert (E : QuerySet.all_query (QuerySet.offset q (Num 0))
                = QuerySet.all_query q).
    { rewrite all_query_offset_falsy by reflexivity.
      now apply all_query_no_offset. }
    split; [exact E|]. intros s. now apply all_by_query.
Qed.

End Facts.
End QueryFacts.

(* ================================================================== *)
(** ** model.ts: the fields of a class *)
(* ================================================================== *)

Module ClassFacts.
Section Facts.
Context {Ambient : Type}.
Local Abbreviation value := (JSValue Ambient).
Local Abbreviation Field := (JS.Field Ambient).
Local Abbreviation ModelClass := (ModelStatic.ModelClass Ambient).

Lemma In_set_inv (V : Type) (o : obj V) k v a b :
  In (a, b) (obj_set o k v) -> In (a, b) o \/ (a = k /\ b = v).
Proof.
  induction o as [|[k' v'] o IH]; simpl.
  - intros [H|[]]. inversion H. now right.
  - destruct (String.eqb_spec k' k) as [->|Hne]; simpl.
    + intros [H|H]; [inversion H; now right | left; now right].
    + intros [H|H]; [left; now left|].
      destruct (IH H) as [H'|H']; [left; now right | now right].
Qed.

Lemma In_assign_inv (V : Type) (t src : obj V) a b :
  In (a, b) (obj_assign t src) -> In (a, b) t \/ In (a, b) src.
Proof.
  unfold obj_assign. revert t.
  induction src as [|[k v] src IH]; simpl; intros t H; [now left|].
  destruct (IH _ H) as [H'|H']; [|right; now right].
  destruct (In_set_inv _ _ _ _ _ H') as [H''|[-> ->]];
    [now left | right; now left].
Qed.

(** A fresh instance never holds a [Field] under the name [id]. *)
Lemma id_never_a_field (cls : ModelClass) (f : Field) :
  ~ In ("id", VField f) (ModelStatic.props (ModelStatic.construct cls)).
Proof.
  simpl. intros H. apply In_assign_inv in H. destruct H as [[]|H].
  pose proof (ModelStatic.id_typed cls) as Ht.
  unfold ModelStatic.id_is_number in Ht. rewrite forallb_forall in Ht.
  specialize (Ht _ H). simpl in Ht. discriminate.
Qed.

Lemma NoDup_props (cls : ModelClass) :
  NoDup (obj_keys (ModelStatic.props (ModelStatic.construct cls))).
Proof. simpl. apply ObjFacts.NoDup_keys_assign. constructor. Qed.

Local Abbreviation fields_in := (@ModelStatic.fields_in Ambient).

Lemma keys_fields_in (o : obj value) k :
  In k (obj_keys (fields_in o)) -> In k (obj_keys o).
Proof.
  induction o as [|[k' v] o IH]; simpl; [tauto|].
  unfold obj_keys in *. rewrite map_app, in_app_iff.
  intros [H|H]; [|right; now apply IH].
  destruct v; simpl in H; try contradiction.
  destruct H as [H|[]]. now left.
Qed.

Lemma NoDup_fields_in (o : obj value) :
  NoDup (obj_keys o) -> NoDup (obj_keys (fields_in o)).
Proof.
  induction o as [|[k v] o IH]; simpl; intros Hnd; [constructor|].
  inversion Hnd as [|? ? Hk Hnd']; subst.
  unfold obj_keys in *. rewrite map_app.
  destruct v; simpl; try (now apply IH).
  constructor; [|now apply IH].
  intros H. apply Hk. now apply keys_fields_in.
Qed.

Lemma getFields_loop (inst : ModelStatic.Instance Ambient)
    (pre suf : obj value) (acc : obj Field) :
  ModelStatic.props inst = (pre ++ suf)%list ->
  NoDup (obj_keys (ModelStatic.props inst)) ->
  (forall f, ~ In ("id", VField f) (ModelStatic.props inst)) ->
  (forall k, In k (obj_keys acc) -> k = "id" \/ In k (obj_keys pre)) ->
  fold_left (ModelStatic.getFields_step inst) (obj_keys suf) acc
  = (acc ++ fields_in suf)%list.
Proof.
  revert pre acc.
  induction suf as [|[k v] suf IH]; simpl; intros pre acc Hp Hnd Hid Hacc.
  - now rewrite app_nil_r.
  - assert (Hget : ModelStatic.get inst k = v).
    { unfold ModelStatic.get. rewrite ObjFacts.get_lookup.
      rewrite (ObjFacts.lookup_In _ k v Hnd); [reflexivity|].
      rewrite Hp. apply in_or_app. right. now left. }
    assert (Hstep : ModelStatic.getFields_step inst acc k
                    = (acc ++ fields_in [(k, v)])%list).
    { unfold ModelStatic.getFields_step. rewrite Hget.
      destruct v; simpl; rewrite ?app_nil_r; try reflexivity.
      apply ObjFacts.set_fresh. intros Hin.
      destruct (Hacc _ Hin) as [->|Hpre].
      - apply (Hid f). rewrite Hp. apply in_or_app. right. now left.
      - rewrite Hp in Hnd. unfold obj_keys in Hnd.
        rewrite map_app in Hnd. simpl in Hnd.
        apply NoDup_remove_2 in Hnd. apply Hnd.
        apply in_or_app. now left. }
    rewrite Hstep.
    rewrite (IH (pre ++ [(k, v)])%list).
    + rewrite <- app_assoc. f_equal. simpl. now rewrite app_nil_r.
    + now rewrite <- app_assoc.
    + assumption.
    + assumption.
    + intros k' Hk'. unfold obj_keys in Hk'.
      rewrite map_app, in_app_iff in Hk'. unfold obj_keys.
      rewrite map_app, in_app_iff. simpl.
      destruct Hk' as [Hk'|Hk'].
      * destruct (Hacc _ Hk') as [->|H]; [now left | right; now left].
      * right. right. left.
        simpl in Hk'. rewrite app_nil_r in Hk'.
        destruct v; simpl in Hk'; try contradiction.
        destruct Hk' as [H|[]]. exact H.
Qed.

(** [getFields] is the implicit [id] followed by the declared fields, in
    the order of the class body, under pairwise distinct names other than
    [id]. *)
Lemma getFields_layout (cls : ModelClass) :
  ModelStatic.getFields cls
  = ("id", Fields.set_fieldName Fields.new_AutoField "id")
      :: ModelStatic.field_properties cls
  /\ ~ In "id" (obj_keys (ModelStatic.field_properties cls))
  /\ NoDup (obj_keys (ModelStatic.field_properties cls)).
Proof.
  split; [|split].
  - unfold ModelStatic.getFields. cbv zeta.
    change (obj_set [] "id" (Fields.set_fieldName Fields.new_AutoField "id"))
      with [("id", Fields.set_fieldName (@Fields.new_AutoField Ambient) "id")].
    rewrite (getFields_loop (ModelStatic.construct cls) []
               (ModelStatic.props (ModelStatic.construct cls))).
    + reflexivity.
    + reflexivity.
    + apply NoDup_props.
    + intros f. apply id_never_a_field.
    + simpl. intros k [H|[]]. now left.
  - intros Hin.
    change (ModelStatic.field_properties cls)
      with (fields_in (ModelStatic.props (ModelStatic.construct cls))) in Hin.
    unfold obj_keys in Hin. rewrite in_map_iff in Hin.
    destruct Hin as [[k f] [Hk Hin]]. simpl in Hk. subst k.
    unfold ModelStatic.fields_in in Hin. rewrite in_flat_map in Hin.
    destruct Hin as [[k v] [Hin Hv]]. simpl in Hv.
    destruct v; simpl in Hv; try contradiction.
    destruct Hv as [Hv|[]]. inversion Hv; subst.
    exact (id_never_a_field cls _ Hin).
  - apply NoDup_fields_in, NoDup_props.
Qed.

End Facts.
End ClassFacts.

(* ================================================================== *)
(** ** model.ts: [save] and [delete] *)
(* ================================================================== *)

Module ModelFacts.
Section Facts.
Context {Ambient : Type}.
Local Abbreviation value := (JSValue Ambient).
Local Abbreviation Field := (JS.Field Ambient).
Local Abbreviation ModelClass := (ModelStatic.ModelClass Ambient).
Local Abbreviation Instance := (ModelStatic.Instance Ambient).
Variable drv : @Driver Ambient.

Lemma with_same_ambient (s : Session drv) : with_ambient s (ambient s) = s.
Proof. now destruct s. Qed.

Lemma with_ambient_twice (s : Session drv) a b :
  with_ambient (with_ambient s a) b = with_ambient s b.
Proof. reflexivity. Qed.

Lemma take_default_applies (d : value) (s : Session drv) :
  Model.take_default drv d s
  = (Normal (fst (Resolution.apply_default d (ambient s))),
     with_ambient s (snd (Resolution.apply_default d (ambient s)))).
Proof.
  unfold Model.take_default, Resolution.apply_default.
  destruct d; simpl; unfold ret; rewrite ?with_same_ambient; try reflexivity.
  now destruct (call (ambient s)).
Qed.

(** One turn of the loop of [save] follows the three rules in order. *)
Lemma resolve_in_order (field : Field) (v : value) (s : Session drv) :
  Model.resolve drv field v s
  = (Normal (fst (Resolution.in_order (default (options field)) v (ambient s))),
     with_ambient s
       (snd (Resolution.in_order (default (options field)) v (ambient s)))).
Proof.
  unfold Model.resolve, Resolution.in_order, Resolution.rule1,
    Resolution.rule2, Resolution.has_default, Resolution.nullish.
  set (d := default (options field)).
  assert (Hstore : forall x : value, Model.to_storage x = Resolution.rule3 x).
  { intros [| |[|]| | | | |]; reflexivity. }
  destruct (Model.still_descriptor v) eqn:Hd.
  - destruct (is_undefined d) eqn:Hu; simpl.
    + unfold bind, ret. now rewrite with_same_ambient.
    + unfold bind at 1 2. rewrite take_default_applies.
      destruct (Resolution.apply_default d (ambient s)) as [v1 a1]; simpl.
      unfold ret at 1.
      destruct (is_undefined v1 || is_null v1); simpl.
      * unfold bind. rewrite take_default_applies. simpl.
        destruct (Resolution.apply_default d a1) as [v2 a2]; simpl.
        unfold ret. now rewrite Hstore.
      * unfold bind, ret. now rewrite Hstore.
  - unfold bind at 1, ret at 1.
    destruct ((is_undefined v || is_null v) && negb (is_undefined d)); simpl.
    + unfold bind. rewrite take_default_applies.
      destruct (Resolution.apply_default d (ambient s)) as [v2 a2]; simpl.
      unfold ret. now rewrite Hstore.
    + unfold bind, ret. now rewrite Hstore, with_same_ambient.
Qed.

Lemma collect_declared (this : Instance) (fields es : obj Field)
    (data : obj value) (s : Session drv) :
  (forall k f, In (k, f) es -> obj_lookup fields k = Some f) ->
  ~ In "id" (obj_keys es) ->
  Model.collect drv this fields (obj_keys es) data s
  = (Normal (fst (Resolution.stored this es data (ambient s))),
     with_ambient s (snd (Resolution.stored this es data (ambient s)))).
Proof.
  revert data s.
  induction es as [|[k f] es IH]; simpl; intros data s Hl Hid.
  - unfold ret. simpl. now rewrite with_same_ambient.
  - destruct (String.eqb_spec k "id") as [->|Hne]; [exfalso; apply Hid; now left|].
    simpl. rewrite (Hl k f) by now left.
    unfold bind. rewrite resolve_in_order.
    destruct (Resolution.in_order (default (options f))
                (ModelStatic.get this k) (ambient s)) as [[v|] a]; simpl.
    + rewrite IH; [reflexivity | intros; apply Hl; now right | tauto].
    + rewrite IH; [reflexivity | intros; apply Hl; now right | tauto].
Qed.

(** The loop of [save] visits every declared field other than [id], once
    and in the order of the class body. *)
Lemma collect_of_class (this : Instance) (s : Session drv) :
  let cls := ModelStatic.class_of this in
  let outcome :=
    Resolution.stored this (Resolution.declared_fields cls) [] (ambient s) in
  Model.collect drv this (ModelStatic.getFields cls)
    (obj_keys (ModelStatic.getFields cls)) [] s
  = (Normal (fst outcome), with_ambient s (snd outcome)).
Proof.
  intros cls outcome. subst outcome. unfold Resolution.declared_fields.
  destruct (ClassFacts.getFields_layout cls) as [E [Hid Hnd]].
  rewrite E. simpl.
  apply collect_declared; [|exact Hid].
  intros k f Hin.
  destruct (String.eqb_spec "id" k) as [<-|Hne].
  - exfalso. apply Hid. apply (in_map fst) in Hin. exact Hin.
  - apply ObjFacts.lookup_In; [simpl; now constructor | now right].
Qed.

(** The outcome a driver reply turns into. *)
Lemma save_runs (this : Instance) (s : Session drv) :
  let outcome :=
    Resolution.stored this
      (Resolution.declared_fields (ModelStatic.class_of this)) []
      (ambient s) in
  let c := Resolution.save_call this (fst outcome) in
  Model.save drv this s
  = (match fst (exec drv c (db s)) with
     | Normal r =>
         Normal (if truthy (ModelStatic.get this "id") then this
                 else ModelStatic.set this "id" (VNum (lastInsertRowid r)))
     | Throw e => Throw e
     end,
     {| ambient := snd outcome;
        db := snd (exec drv c (db s));
        executed := (executed s ++ [c])%list |}).
Proof.
  intros outcome c. unfold Model.save, bind at 1.
  rewrite collect_of_class. fold outcome.
  subst c. unfold Resolution.save_call.
  destruct (truthy (ModelStatic.get this "id")); unfold bind, statement; simpl.
  - destruct (exec drv _ (db s)) as [[r|e] d]; reflexivity.
  - destruct (exec drv _ (db s)) as [[r|e] d]; reflexivity.
Qed.

Lemma delete_runs (this : Instance) (s : Session drv) :
  truthy (ModelStatic.get this "id") = true ->
  let c :=
    mkCall StmtRun
      (Model.delete_sql (ModelStatic.getTableName (ModelStatic.class_of this)))
      [ModelStatic.get this "id"] in
  Model.delete drv this s
  = (match fst (exec drv c (db s)) with
     | Normal _ => Normal tt
     | Throw e => Throw e
     end,
     {| ambient := ambient s;
        db := snd (exec drv c (db s));
        executed := (executed s ++ [c])%list |}).
Proof.
  intros Hid c. unfold Model.delete. rewrite Hid. simpl.
  unfold bind, statement. fold c.
  destruct (exec drv c (db s)) as [[r|e] d]; reflexivity.
Qed.

Lemma stored_keeps (this : Instance) (es : obj Field) (data : obj value)
    (a : Ambient) (k : string) :
  ~ In k (obj_keys es) ->
  obj_lookup (fst (Resolution.stored this es data a)) k = obj_lookup data k.
Proof.
  revert data a.
  induction es as [|[k' f] es IH]; simpl; intros data a Hn; [reflexivity|].
  destruct (Resolution.in_order (default (options f))
              (ModelStatic.get this k') a) as [[v|] a'].
  - rewrite IH by tauto. apply ObjFacts.lookup_set_other. tauto.
  - apply IH. tauto.
Qed.

Lemma in_order_plain (d v : value) (a : Ambient) :
  Model.still_descriptor v = false -> Resolution.nullish v = false ->
  Resolution.in_order d v a = (Some (Resolution.rule3 v), a).
Proof.
  intros Hd Hn. unfold Resolution.in_order, Resolution.rule1, Resolution.rule2.
  now rewrite Hd, Hn.
Qed.

Lemma stored_true_as_one (this : Instance) (es : obj Field)
    (data : obj value) (a : Ambient) (k : string) (f : Field) :
  NoDup (obj_keys es) -> In (k, f) es ->
  ModelStatic.get this k = VBool true ->
  obj_lookup (fst (Resolution.stored this es data a)) k = Some (VNum (Num 1)).
Proof.
  revert data a.
  induction es as [|[k' f'] es IH]; simpl; intros data a Hnd Hin Hv;
    [contradiction|].
  inversion Hnd as [|? ? Hk Hnd']; subst.
  destruct Hin as [E|Hin].
  - inversion E; subst. rewrite Hv.
    rewrite in_order_plain by reflexivity. simpl.
    rewrite stored_keeps by assumption. apply ObjFacts.lookup_set_same.
  - destruct (Resolution.in_order (default (options f'))
                (ModelStatic.get this k') a) as [[v|] a']; now apply IH.
Qed.

(** The fields [save] iterates after [id] are the [Field] properties of a
    fresh instance. *)
Lemma declared_as_properties (cls : ModelClass) :
  Resolution.declared_fields cls = ModelStatic.field_properties cls.
Proof.
  unfold Resolution.declared_fields.
  destruct (ClassFacts.getFields_layout cls) as [E _]. now rewrite E.
Qed.

(** What the loop leaves under the name of a field it visits: the outcome
    of the three rules for that field, at the ambient state of its turn. *)
Lemma stored_by_field (this : Instance) (es : obj Field) (k : string)
    (f : Field) :
  NoDup (obj_keys es) -> In (k, f) es ->
  forall (data : obj value) (a : Ambient),
    ~ In k (obj_keys data) ->
    exists a' : Ambient,
      obj_lookup (fst (Resolution.stored this es data a)) k
      = fst (Resolution.in_order (default (options f))
                                 (ModelStatic.get this k) a').
Proof.
  induction es as [|[k' f'] es IH]; simpl; intros Hnd Hin data a Hfree;
    [contradiction|].
  inversion Hnd as [|? ? Hk Hnd']; subst.
  destruct Hin as [E|Hin].
  - inversion E; subst. exists a.
    destruct (Resolution.in_order (default (options f))
                (ModelStatic.get this k) a) as [[v|] a1]; simpl.
    + rewrite stored_keeps by assumption. apply ObjFacts.lookup_set_same.
    + rewrite stored_keeps by assumption.
      now apply ObjFacts.lookup_None.
  - assert (Hne : k' <> k).
    { intros ->. apply Hk. apply (in_map fst) in Hin. exact Hin. }
    destruct (Resolution.in_order (default (options f'))
                (ModelStatic.get this k') a) as [[v|] a1].
    + apply IH; [assumption | assumption |].
      intros H. apply ObjFacts.In_keys_set in H. destruct H as [H|H];
        [now apply Hfree | congruence].
    + now apply IH.
Qed.

(** C1.  [save] visits the declared fields of the class other than [id]
    (the [Field] properties of a fresh instance), each once and in the
    order of the class body, and what it writes under the name of each is
    the outcome of the three rules in this order; a field for which the
    rules give nothing gets no column.  Rule 1: an attribute that still
    holds the field descriptor takes the field's default when one exists
    (a callable default is invoked on the ambient state of that moment),
    and otherwise the column is skipped.  Rule 2: a null or undefined value
    takes the default when one exists (a callable default is invoked at
    that save, not once per class).  Rule 3: a boolean is stored as 1 for
    true and 0 for false.  A value that is neither a descriptor nor null or
    undefined is stored as it is, up to rule 3, and invokes nothing. *)
Theorem save_resolves_in_order (this : Instance) (s : Session drv) :
  let cls := ModelStatic.class_of this in
  let outcome :=
    Resolution.stored this (ModelStatic.field_properties cls) []
                      (ambient s) in
  ModelStatic.getFields cls
    = ("id", Fields.set_fieldName Fields.new_AutoField "id")
        :: ModelStatic.field_properties cls
  /\ ~ In "id" (obj_keys (ModelStatic.field_properties cls))
  /\ NoDup (obj_keys (ModelStatic.field_properties cls))
  /\ Model.collect drv this (ModelStatic.getFields cls)
       (obj_keys (ModelStatic.getFields cls)) [] s
     = (Normal (fst outcome), with_ambient s (snd outcome))
  /\ executed (snd (Model.save drv this s))
     = (executed s ++ [Resolution.save_call this (fst outcome)])%list
  /\ (forall (k : string) (field : Field),
        In (k, field) (ModelStatic.field_properties cls) ->
        exists a : Ambient,
          obj_lookup (fst outcome) k
          = fst (Resolution.in_order (default (options field))
                                     (ModelStatic.get this k) a))
  /\ (forall k : string,
        In k (obj_keys (fst outcome)) ->
        In k (obj_keys (ModelStatic.field_properties cls)))
  /\ (forall (field : Field) (v : value) (s' : Session drv),
        let d := default (options field) in
        Model.resolve drv field v s'
        = (Normal (fst (Resolution.in_order d v (ambient s'))),
           with_ambient s' (snd (Resolution.in_order d v (ambient s')))))
  /\ (forall (v : value) (a : Ambient),
        Model.still_descriptor v = true ->
        Resolution.in_order VUndefined v a = (None, a))
  /\ (forall (d v : value) (a : Ambient),
        Model.still_descriptor v = true ->
        Resolution.has_default d = true -> is_function d = false ->
        Resolution.in_order d v a = (Some (Resolution.rule3 d), a))
  /\ (forall src produce (v : value) (a : Ambient),
        Model.still_descriptor v = true ->
        Resolution.nullish (fst (produce a)) = false ->
        Resolution.in_order (VFun src produce) v a
        = (Some (Resolution.rule3 (fst (produce a))), snd (produce a)))
  /\ (forall src produce (v : value) (a : Ambient),
        Resolution.nullish v = true ->
        Resolution.in_order (VFun src produce) v a
        = (Some (Resolution.rule3 (fst (produce a))), snd (produce a)))
  /\ (forall (d v : value) (a : Ambient),
        Resolution.nullish v = true ->
        Resolution.has_default d = true -> is_function d = false ->
        Resolution.in_order d v a = (Some (Resolution.rule3 d), a))
  /\ (forall (d v : value) (a : Ambient),
        Model.still_descriptor v = false -> Resolution.nullish v = false ->
        Resolution.in_order d v a = (Some (Resolution.rule3 v), a))
  /\ Resolution.rule3 (@VBool Ambient true) = VNum (Num 1)
  /\ Resolution.rule3 (@VBool Ambient false) = VNum (Num 0).
Proof.
  intros cls outcome.
  destruct (ClassFacts.getFields_layout cls) as [Elayout [Hid Hnd]].
  split; [exact Elayout|]. split; [exact Hid|]. split; [exact Hnd|].
  split.
  { unfold outcome. rewrite <- declared_as_properties.
    apply collect_of_class. }
  split.
  { rewrite save_runs. cbn [executed]. unfold outcome.
    now rewrite <- declared_as_properties. }
  split.
  { intros k field Hin. unfold outcome.
    apply (@stored_by_field this _ _ _ Hnd Hin). simpl. tauto. }
  split.
  { intros k Hin. unfold outcome in Hin.
    clear - Hin.
    assert (Hgen : forall es data a,
              In k (obj_keys (fst (Resolution.stored this es data a))) ->
              In k (obj_keys data) \/ In k (obj_keys es)).
    { induction es as [|[k' f] es IH]; simpl; intros data a H;
        [now left|].
      destruct (Resolution.in_order (default (options f))
                  (ModelStatic.get this k') a) as [[v|] a'].
      - destruct (IH _ _ H) as [H1|H1]; [|right; now right].
        apply ObjFacts.In_keys_set in H1. destruct H1 as [H1| ->];
          [now left | right; now left].
      - destruct (IH _ _ H) as [H1|H1]; [now left | right; now right]. }
    destruct (Hgen _ _ _ Hin) as [[]|H]. exact H. }
  split; [intros; apply resolve_in_order|].
  split.
  { intros v a Hd. unfold Resolution.in_order, Resolution.rule1.
    now rewrite Hd. }
  split.
  { intros d v a Hd Hh Hf.
    unfold Resolution.in_order, Resolution.rule1, Resolution.rule2.
    rewrite Hd, Hh.
    destruct d; try discriminate; reflexivity. }
  split.
  { intros src produce v a Hd Hn.
    unfold Resolution.in_order, Resolution.rule1, Resolution.rule2.
    rewrite Hd. simpl. destruct (produce a) as [r a1]. simpl in *.
    now rewrite Hn. }
  split.
  { intros src produce v a Hn.
    assert (Hd : Model.still_descriptor v = false).
    { destruct v; try discriminate; reflexivity. }
    unfold Resolution.in_order, Resolution.rule1, Resolution.rule2.
    rewrite Hd, Hn. simpl. now destruct (produce a). }
  split.
  { intros d v a Hn Hh Hf.
    assert (Hd : Model.still_descriptor v = false).
    { destruct v; try discriminate; reflexivity. }
    unfold Resolution.in_order, Resolution.rule1, Resolution.rule2.
    rewrite Hd, Hn, Hh.
    destruct d; try discriminate; reflexivity. }
  split; [intros; now apply in_order_plain|].
  split; reflexivity.
Qed.

(** C6.  [delete] on an instance whose [id] is not populated (undefined,
    null, 0 or NaN) throws [Error('Cannot delete unsaved object')] and
    hands nothing to the driver: the session is as it was.  On an instance
    with a populated [id] it hands the driver exactly the statement
    [DELETE FROM <table> WHERE id = ?] bound to that id, and completes as
    the driver does. *)
Theorem delete_requires_populated_id (this : Instance) (s : Session drv) :
  let tableName := ModelStatic.getTableName (ModelStatic.class_of this) in
  let c := mkCall StmtRun ("DELETE FROM " ++ tableName ++ " WHERE id = ?")
                  [ModelStatic.get this "id"] in
  if truthy (ModelStatic.get this "id") then
    executed (snd (Model.delete drv this s)) = (executed s ++ [c])%list
    /\ fst (Model.delete drv this s)
       = match fst (exec drv c (db s)) with
         | Normal _ => Normal tt
         | Throw e => Throw e
         end
  else
    Model.delete drv this s
    = (Throw (Error "Cannot delete unsaved object"), s).
Proof.
  intros tableName c.
  destruct (truthy (ModelStatic.get this "id")) eqn:Hid.
  - rewrite delete_runs by assumption. split; reflexivity.
  - unfold Model.delete. now rewrite Hid.
Qed.

(** C3, as the code has it.  An instance without a populated [id] is
    unpersisted: [save] runs one INSERT and, when the driver accepts it,
    sets [id] to the generated row id.  An instance with a populated [id]
    is persisted: [save] runs one UPDATE ending in [WHERE id = ?] bound to
    that id and leaves the instance as it is.  [delete] assigns nothing to
    the instance, so there is no deleted state: after a [delete] that
    succeeded the instance is still persisted, a further [save] runs the
    same UPDATE and a further [delete] the same DELETE, and each completes
    exactly as the driver does. *)
Theorem save_and_delete_follow_id (this : Instance) (s : Session drv) :
  let cls := ModelStatic.class_of this in
  let tableName := ModelStatic.getTableName cls in
  let id := ModelStatic.get this "id" in
  let data :=
    fst (Resolution.stored this (Resolution.declared_fields cls) []
                           (ambient s)) in
  let written :=
    if truthy id
    then mkCall StmtRun (Model.update_sql tableName data)
                (obj_values data ++ [id])%list
    else mkCall StmtRun (Model.insert_sql tableName data) (obj_values data) in
  let removed := mkCall StmtRun (Model.delete_sql tableName) [id] in
  executed (snd (Model.save drv this s)) = (executed s ++ [written])%list
  /\ fst (Model.save drv this s)
     = match fst (exec drv written (db s)) with
       | Normal r =>
           Normal (if truthy id then this
                   else ModelStatic.set this "id" (VNum (lastInsertRowid r)))
       | Throw e => Throw e
       end
  /\ (forall r : @Reply Ambient,
        ModelStatic.get
          (ModelStatic.set this "id" (VNum (lastInsertRowid r))) "id"
        = VNum (lastInsertRowid r))
  /\ (truthy id = true ->
      forall s1 s2 : Session drv,
        Model.delete drv this s1 = (Normal tt, s2) ->
        executed s2 = (executed s1 ++ [removed])%list
        /\ fst (Model.delete drv this s2)
           = match fst (exec drv removed (db s2)) with
             | Normal _ => Normal tt
             | Throw e => Throw e
             end
        /\ executed (snd (Model.delete drv this s2))
           = (executed s2 ++ [removed])%list
        /\ (exists data',
              let again :=
                mkCall StmtRun (Model.update_sql tableName data')
                       (obj_values data' ++ [id])%list in
              executed (snd (Model.save drv this s2))
              = (executed s2 ++ [again])%list
              /\ fst (Model.save drv this s2)
                 = match fst (exec drv again (db s2)) with
                   | Normal _ => Normal this
                   | Throw e => Throw e
                   end)).
Proof.
  intros cls tableName id data written removed.
  assert (Hw : written = Resolution.save_call this data).
  { unfold written, Resolution.save_call. fold id tableName cls.
    now destruct (truthy id). }
  split; [now rewrite save_runs, Hw|].
  split; [now rewrite save_runs, Hw|].
  split.
  { intros r. unfold ModelStatic.get, ModelStatic.set. simpl.
    rewrite ObjFacts.get_lookup. now rewrite ObjFacts.lookup_set_same. }
  intros Hid s1 s2 Hdel.
  rewrite delete_runs in Hdel by assumption.
  split.
  { inversion Hdel; subst s2; reflexivity. }
  split; [now rewrite delete_runs|].
  split; [now rewrite delete_runs|].
  exists (fst (Resolution.stored this (Resolution.declared_fields cls) []
                                  (ambient s2))).
  rewrite save_runs. unfold Resolution.save_call.
  fold cls tableName id. rewrite Hid. split; reflexivity.
Qed.

(** [all] hands back one hydrated instance per row of the reply. *)
Lemma all_reads (q : QuerySet.QuerySet Ambient) (s : Session drv) :
  fst (QuerySet.all drv q s)
  = match fst (exec drv
                 (mkCall StmtAll (fst (QuerySet.all_query q))
                         (snd (QuerySet.all_query q))) (db s)) with
    | Normal r =>
        Normal (map (QuerySet.hydrate (QuerySet.model q)) (rows r))
    | Throw e => Throw e
    end.
Proof.
  unfold QuerySet.all. destruct (QuerySet.all_query q) as [query ps].
  cbn [fst snd]. unfold bind, statement, ret.
  destruct (exec drv (mkCall StmtAll query ps) (db s)) as [[r|e] d];
    reflexivity.
Qed.

(** A hydrated instance reads under every key of the row as the row
    does. *)
Lemma hydrate_reads (cls : ModelClass) (row : obj value) (k : string)
    (v : value) :
  NoDup (obj_keys row) -> obj_lookup row k = Some v ->
  ModelStatic.get (QuerySet.hydrate cls row) k = v.
Proof.
  intros Hnd Hl.
  unfold QuerySet.hydrate, ModelStatic.assign, ModelStatic.get.
  cbn [ModelStatic.props]. rewrite ObjFacts.get_lookup.
  now rewrite ObjFacts.lookup_assign_source with (v := v).
Qed.

(** The value an object holds under a key is the one [Object.values]
    lists at the place where [Object.keys] lists the key. *)
Lemma bound_at (o : obj value) (k : string) (v : value) :
  obj_lookup o k = Some v ->
  exists i : nat,
    nth_error (obj_keys o) i = Some k /\ nth_error (obj_values o) i = Some v.
Proof.
  induction o as [|[k' v'] o IH]; simpl; [discriminate|].
  destruct (String.eqb_spec k' k) as [->|Hne].
  - intros H. inversion H; subst. now exists 0%nat.
  - intros H. destruct (IH H) as [i [Hk Hv]]. now exists (S i).
Qed.

(** C7.  For every class and every declared field [f] of it (a
    [BooleanField] in particular), saving an instance whose [f] is [true]
    binds the number 1 to column [f] in the one statement [save] runs.
    Reading goes through [all]: it returns one instance per row the driver
    hands back, and each instance reads under every key of its row as the
    row does, unchanged.  So for a row that holds under [f] what [save]
    bound there, the instance [all] returns, and the one [objects.get]
    returns when that row comes first, reads [f] as the number 1, which
    is truthy as [true] is, and is not the boolean [true]. *)
Theorem true_round_trips_as_truthy (this : Instance) (f : string)
    (field : Field) (s : Session drv) :
  let cls := ModelStatic.class_of this in
  In (f, field) (ModelStatic.field_properties cls) ->
  ModelStatic.get this f = VBool true ->
  let data :=
    fst (Resolution.stored this (ModelStatic.field_properties cls) []
                           (ambient s)) in
  let written := Resolution.save_call this data in
  executed (snd (Model.save drv this s)) = (executed s ++ [written])%list
  /\ obj_lookup data f = Some (VNum (Num 1))
  /\ (exists i : nat,
        nth_error (obj_keys data) i = Some f
        /\ nth_error (params written) i = Some (VNum (Num 1)))
  /\ (forall (q : QuerySet.QuerySet Ambient) (s' : Session drv)
        (r : @Reply Ambient),
        QuerySet.model q = cls ->
        fst (exec drv
               (mkCall StmtAll (fst (QuerySet.all_query q))
                       (snd (QuerySet.all_query q))) (db s'))
        = Normal r ->
        exists instances : list Instance,
          fst (QuerySet.all drv q s') = Normal instances
          /\ List.length instances = List.length (rows r)
          /\ (forall (i : nat) (row : obj value),
                nth_error (rows r) i = Some row ->
                NoDup (obj_keys row) ->
                exists instance : Instance,
                  nth_error instances i = Some instance
                  /\ (forall k v,
                        obj_lookup row k = Some v ->
                        ModelStatic.get instance k = v)
                  /\ (obj_lookup row f = obj_lookup data f ->
                      ModelStatic.get instance f = VNum (Num 1)
                      /\ truthy (ModelStatic.get instance f)
                         = truthy (@VBool Ambient true)
                      /\ ModelStatic.get instance f <> VBool true)))
  /\ (forall (filters : obj value) (s' : Session drv) (r : @Reply Ambient)
        (row : obj value) (rest : list (obj value)),
        let q :=
          QuerySet.limit (QuerySet.filter (QuerySet.new cls) filters)
                         (Num 1) in
        fst (exec drv
               (mkCall StmtAll (fst (QuerySet.all_query q))
                       (snd (QuerySet.all_query q))) (db s'))
        = Normal r ->
        rows r = row :: rest ->
        NoDup (obj_keys row) ->
        obj_lookup row f = obj_lookup data f ->
        exists instance : Instance,
          fst (Model.objects_get drv cls filters s') = Normal (Some instance)
          /\ ModelStatic.get instance f = VNum (Num 1)
          /\ truthy (ModelStatic.get instance f)
             = truthy (@VBool Ambient true)
          /\ ModelStatic.get instance f <> VBool true).
Proof.
  intros cls Hin Hv data written.
  destruct (ClassFacts.getFields_layout cls) as [_ [_ Hnd]].
  assert (Hone : obj_lookup data f = Some (VNum (Num 1))).
  { unfold data. now apply stored_true_as_one with (f := field). }
  split.
  { rewrite save_runs. cbn [executed]. unfold written, data.
    now rewrite <- declared_as_properties. }
  split; [exact Hone|].
  split.
  { destruct (bound_at _ _ Hone) as [i [Hk Hval]]. exists i.
    split; [exact Hk|]. unfold written, Resolution.save_call.
    destruct (truthy (ModelStatic.get this "id")); cbn [params];
      [|exact Hval].
    rewrite nth_error_app1; [exact Hval|].
    apply nth_error_Some. now rewrite Hval. }
  split.
  { intros q s' r Hm Hr.
    exists (map (QuerySet.hydrate cls) (rows r)).
    split; [rewrite all_reads, Hr, Hm; reflexivity|].
    split; [apply length_map|].
    intros i row Hrow Hkeys. exists (QuerySet.hydrate cls row).
    split; [now rewrite nth_error_map, Hrow|].
    split; [intros k v Hl; now apply hydrate_reads|].
    intros Hsame. rewrite Hone in Hsame.
    rewrite (hydrate_reads cls row f Hkeys Hsame).
    split; [reflexivity|]. split; [reflexivity | discriminate]. }
  intros filters s' r row rest q Hr Hrows Hkeys Hsame.
  exists (QuerySet.hydrate cls row).
  rewrite Hone in Hsame.
  rewrite (hydrate_reads cls row f Hkeys Hsame).
  split; [|split; [reflexivity | split; [reflexivity | discriminate]]].
  unfold Model.objects_get, QuerySet.first, bind.
  fold q.
  pose proof (all_reads q s') as Hall. rewrite Hr in Hall.
  destruct (QuerySet.all drv q s') as [c s2]. cbn [fst] in Hall.
  subst c. unfold ret. cbn [fst]. rewrite Hrows. reflexivity.
Qed.

End Facts.
End ModelFacts.

(* ================================================================== *)
(** ** ModelRegistry.ts *)
(* ================================================================== *)

Module RegistryFacts.
Section Facts.
Context {Ambient : Type}.
Local Abbreviation value := (JSValue Ambient).
Local Abbreviation Field := (JS.Field Ambient).
Local Abbreviation ModelClass := (ModelStatic.ModelClass Ambient).
Local Abbreviation Registry := (ModelRegistry.Registry Ambient).
Local Abbreviation AdminOptions := ModelRegistry.AdminOptions.

Lemma metadata_loop (fields : obj Field)
    (acc : obj (ModelRegistry.FieldMetadata Ambient)) :
  NoDup (obj_keys fields) ->
  (forall k, In k (obj_keys fields) -> ~ In k (obj_keys acc)) ->
  fold_left
    (fun fieldMetadata entry =>
       obj_set fieldMetadata (fst entry)
               (ModelRegistry.field_metadata (fst entry) (snd entry)))
    fields acc
  = (acc ++ map (fun entry =>
                   (fst entry,
                    ModelRegistry.field_metadata (fst entry) (snd entry)))
                fields)%list.
Proof.
  revert acc.
  induction fields as [|[k f] fields IH]; simpl; intros acc Hnd Hdis.
  - now rewrite app_nil_r.
  - inversion Hnd as [|? ? Hk Hnd']; subst.
    rewrite ObjFacts.set_fresh by (apply Hdis; now left).
    rewrite IH; [now rewrite <- app_assoc | assumption |].
    intros k' Hk' Hin. unfold obj_keys in Hin.
    rewrite map_app, in_app_iff in Hin. simpl in Hin.
    destruct Hin as [Hin|[<- |[]]]; [|contradiction].
    apply (Hdis k'); [now right | exact Hin].
Qed.

(** The field metadata of a class: one entry per field of [getFields], in
    the same order, the implicit [id] first. *)
Lemma metadata_layout (cls : ModelClass) :
  ModelRegistry.field_metadata_all (ModelStatic.getFields cls)
  = ("id", ModelRegistry.field_metadata "id"
             (Fields.set_fieldName Fields.new_AutoField "id"))
      :: map (fun entry =>
                (fst entry,
                 ModelRegistry.field_metadata (fst entry) (snd entry)))
             (ModelStatic.field_properties cls).
Proof.
  destruct (ClassFacts.getFields_layout cls) as [E [Hid Hnd]].
  unfold ModelRegistry.field_metadata_all. rewrite E.
  rewrite metadata_loop; [reflexivity | simpl; now constructor |].
  intros k _ [].
Qed.

Lemma names_register (models : Registry) (model : ModelClass)
    (options : AdminOptions) n :
  In n (ModelRegistry.getModelNames
          (ModelRegistry.registerModel models model options))
  <-> In n (ModelRegistry.getModelNames models) \/ n = ModelStatic.name model.
Proof. apply ObjFacts.In_keys_set. Qed.

Lemma NoDup_register_all (models : Registry)
    (calls : list (ModelClass * AdminOptions)) :
  NoDup (ModelRegistry.getModelNames models) ->
  NoDup (ModelRegistry.getModelNames (ModelRegistry.register_all models calls)).
Proof.
  unfold ModelRegistry.register_all. revert models.
  induction calls as [|[m o] calls IH]; simpl; intros models Hnd;
    [assumption|].
  apply IH. now apply ObjFacts.NoDup_keys_set.
Qed.

Lemma names_register_all (models : Registry)
    (calls : list (ModelClass * AdminOptions)) n :
  In n (ModelRegistry.getModelNames (ModelRegistry.register_all models calls))
  <-> In n (ModelRegistry.getModelNames models)
      \/ exists c, In c calls /\ ModelStatic.name (fst c) = n.
Proof.
  unfold ModelRegistry.register_all. revert models.
  induction calls as [|[m o] calls IH]; simpl; intros models.
  - split; [now left | intros [H|[c [[] _]]]; exact H].
  - rewrite IH, names_register. split.
    + intros [[H| ->]|[c [Hc E]]].
      * now left.
      * right. exists (m, o). split; [now left | reflexivity].
      * right. exists c. split; [now right | exact E].
    + intros [H|[c [[<- |Hc] E]]].
      * left. now left.
      * left. right. now rewrite <- E.
      * right. now exists c.
Qed.

Lemma lookup_register_all_other (models : Registry)
    (calls : list (ModelClass * AdminOptions)) n :
  (forall c, In c calls -> ModelStatic.name (fst c) <> n) ->
  ModelRegistry.getModel (ModelRegistry.register_all models calls) n
  = ModelRegistry.getModel models n.
Proof.
  unfold ModelRegistry.register_all, ModelRegistry.getModel. revert models.
  induction calls as [|[m o] calls IH]; simpl; intros models Hne;
    [reflexivity|].
  rewrite IH by (intros c Hc; apply Hne; now right).
  apply ObjFacts.lookup_set_other. apply (Hne (m, o)). now left.
Qed.

Lemma entries_register_all (P : ModelRegistry.ModelMetadata Ambient -> Prop)
    (models : Registry) (calls : list (ModelClass * AdminOptions)) :
  (forall md, In md (ModelRegistry.getAllModels models) -> P md) ->
  (forall ms m o md,
      ModelRegistry.getModel (ModelRegistry.registerModel ms m o)
                             (ModelStatic.name m) = Some md -> P md) ->
  forall md,
    In md (ModelRegistry.getAllModels
             (ModelRegistry.register_all models calls)) -> P md.
Proof.
  unfold ModelRegistry.register_all. revert models.
  induction calls as [|[m o] calls IH]; simpl; intros models H0 Hreg;
    [exact H0|].
  apply IH; [|exact Hreg].
  intros md Hin. unfold ModelRegistry.getAllModels, obj_values in Hin.
  rewrite in_map_iff in Hin. destruct Hin as [[k md'] [E Hin]].
  simpl in E. subst md'.
  unfold ModelRegistry.registerModel in Hin.
  apply ClassFacts.In_set_inv in Hin. destruct Hin as [Hin|[-> ->]].
  - apply H0. unfold ModelRegistry.getAllModels, obj_values.
    apply in_map_iff. now exists (k, md).
  - apply (Hreg models m o). unfold ModelRegistry.getModel.
    unfold ModelRegistry.registerModel. apply ObjFacts.lookup_set_same.
Qed.

(** C5.  After any sequence of [registerModel] calls on an empty registry
    the registered names are pairwise distinct, so the registry holds
    exactly one entry per model name, and they are the names of the classes
    registered.  The entry under a name is the one the last call for that
    name built.  In every entry the field metadata starts with the implicit
    [id] of type [AutoField] (an auto-incrementing primary key in
    [getFields]), and the declared fields follow it, in the order of the
    class body, none of them named [id] (a class extending [Model] inherits
    [id?: number], which [ModelClass] records as [id_typed]). *)
Theorem registry_one_entry_per_name
    (calls : list (ModelClass * AdminOptions)) :
  let models := ModelRegistry.register_all [] calls in
  let idField := Fields.set_fieldName (@Fields.new_AutoField Ambient) "id" in
  NoDup (ModelRegistry.getModelNames models)
  /\ List.length (ModelRegistry.getAllModels models)
     = List.length (ModelRegistry.getModelNames models)
  /\ (forall n, In n (ModelRegistry.getModelNames models)
                <-> exists c, In c calls /\ ModelStatic.name (fst c) = n)
  /\ (forall before model options after,
        calls = (before ++ (model, options) :: after)%list ->
        (forall c, In c after ->
                   ModelStatic.name (fst c) <> ModelStatic.name model) ->
        ModelRegistry.getModel models (ModelStatic.name model)
        = ModelRegistry.getModel
            (ModelRegistry.registerModel [] model options)
            (ModelStatic.name model))
  /\ (forall md, In md (ModelRegistry.getAllModels models) ->
        let cls := ModelRegistry.meta_model md in
        ModelRegistry.meta_fields md
        = ("id",
           {| ModelRegistry.meta_name := "id";
              ModelRegistry.meta_type := "AutoField";
              ModelRegistry.meta_required := true;
              ModelRegistry.meta_maxLength := None;
              ModelRegistry.meta_unique := None;
              ModelRegistry.meta_default := VUndefined;
              ModelRegistry.meta_nullable := Some false;
              ModelRegistry.meta_choices := VUndefined;
              ModelRegistry.meta_relatedModel := None;
              ModelRegistry.meta_onDelete := None |})
            :: map (fun entry =>
                      (fst entry,
                       ModelRegistry.field_metadata (fst entry) (snd entry)))
                   (ModelStatic.field_properties cls)
        /\ ~ In "id" (obj_keys (ModelStatic.field_properties cls))
        /\ ModelStatic.getFields cls
           = ("id", idField) :: ModelStatic.field_properties cls)
  /\ fieldClass idField = AutoField
  /\ primaryKey (options idField) = Some true
  /\ autoIncrement (options idField) = Some true.
Proof.
  intros models idField.
  split; [apply NoDup_register_all; constructor|].
  split.
  { unfold ModelRegistry.getAllModels, ModelRegistry.getModelNames,
      obj_values, obj_keys. now rewrite !length_map. }
  split.
  { intros n. unfold models. rewrite names_register_all. simpl.
    split; [intros [[]|H]; exact H | now right]. }
  split.
  { intros before model options after E Hlast. unfold models. rewrite E.
    unfold ModelRegistry.register_all. rewrite fold_left_app. simpl.
    fold (ModelRegistry.register_all
            (ModelRegistry.registerModel
               (fold_left
                  (fun ms c => ModelRegistry.registerModel ms (fst c) (snd c))
                  before []) model options) after).
    rewrite lookup_register_all_other by assumption.
    unfold ModelRegistry.getModel, ModelRegistry.registerModel.
    rewrite ObjFacts.lookup_set_same. simpl. now rewrite String.eqb_refl. }
  split; [|repeat split].
  apply entries_register_all.
  - intros md [].
  - intros ms m o md Hl.
    unfold ModelRegistry.getModel, ModelRegistry.registerModel in Hl.
    rewrite ObjFacts.lookup_set_same in Hl. inversion Hl; subst md. simpl.
    destruct (ClassFacts.getFields_layout m) as [E [Hid Hnd]].
    split; [apply metadata_layout|]. split; assumption.
Qed.

End Facts.
End RegistryFacts.

(* ================================================================== *)
(** ** permissionService.ts over the relational store *)
(* ================================================================== *)

Module PermissionFacts.

Import Sqlite.

Section Facts.
Context {Ambient : Type}.
Local Abbreviation value := (JSValue Ambient).
Local Abbreviation ModelClass := (ModelStatic.ModelClass Ambient).
Local Abbreviation Instance := (ModelStatic.Instance Ambient).
Local Abbreviation D := (Sqlite.driver Ambient).
Variable now_iso : Ambient -> value * Ambient.

Lemma bind_stored (x : SqlValue) :
  bind_param (@js_of_sql Ambient x) = Some x.
Proof. now destruct x. Qed.

Lemma matches_one (k : string) (x : SqlValue) (r : obj SqlValue) :
  matches [k] [x] r = sql_eq (cell r k) x.
Proof. unfold matches. simpl. apply andb_true_r. Qed.

(** What the store answers to a SELECT with one equality and no order. *)
Lemma select_one_column (q : QuerySet.QuerySet Ambient) (cls : ModelClass)
    (k text : string) (v : value) (x : SqlValue) (lim : option Z)
    (tb : Table) (s : Session D) :
  QuerySet.model q = cls ->
  QuerySet.all_query q = (text, [v]) ->
  bind_param v = Some x ->
  parse text = Some (SSelect (ModelStatic.getTableName cls) [k] None lim None) ->
  obj_lookup (db s) (ModelStatic.getTableName cls) = Some tb ->
  known tb [k] = true ->
  QuerySet.all D q s
  = (Normal (Grants.answer cls tb
               (take_limit lim
                  (List.filter (fun r => sql_eq (cell r k) x)
                               (table_rows tb)))),
     {| ambient := ambient s; db := db s;
        executed := (executed s ++ [mkCall StmtAll text [v]])%list |}).
Proof.
  intros Hm Hq Hb Hp Ht Hk.
  unfold QuerySet.all. rewrite Hq. unfold bind, statement.
  cbn [exec D Sqlite.driver]. unfold execute.
  cbn [sql params mode]. rewrite Hp. cbn [bind_params]. rewrite Hb.
  unfold run. rewrite Ht.
  cbn [known forallb andb negb] in *. rewrite Hk. cbn [negb List.length Nat.eqb].
  unfold ret, reads. cbn [rows]. rewrite Hm.
  unfold Grants.answer, select, sort_by, drop_offset.
  cbn [negb andb rows]. rewrite map_map.
  do 4 f_equal.
  apply List.filter_ext. intros r. apply matches_one.
Qed.

Lemma hd_error_map (A B : Type) (g : A -> B) (l : list A) :
  hd_error (map g l) = option_map g (hd_error l).
Proof. now destruct l. Qed.

Lemma hd_error_firstn_1 (A : Type) (l : list A) :
  hd_error (firstn 1 l) = hd_error l.
Proof. now destruct l. Qed.

(** What [objects.get] with one equality returns: the first match. *)
Lemma get_one_column (cls : ModelClass) (k text : string) (v : value)
    (x : SqlValue) (tb : Table) (s : Session D) :
  QuerySet.all_query
    (QuerySet.limit (QuerySet.filter (QuerySet.new cls) [(k, v)]) (Num 1))
  = (text, [v]) ->
  bind_param v = Some x ->
  parse text
  = Some (SSelect (ModelStatic.getTableName cls) [k] None (Some 1%Z) None) ->
  obj_lookup (db s) (ModelStatic.getTableName cls) = Some tb ->
  known tb [k] = true ->
  exists s',
    Model.objects_get D cls [(k, v)] s
    = (Normal (option_map
                 (fun r => QuerySet.hydrate cls (result_row tb r))
                 (hd_error (List.filter (fun r => sql_eq (cell r k) x)
                                        (table_rows tb)))),
       s')
    /\ db s' = db s.
Proof.
  intros Hq Hb Hp Ht Hk.
  unfold Model.objects_get, QuerySet.first, bind.
  rewrite (select_one_column _ _ eq_refl Hq Hb Hp Ht Hk).
  unfold ret. cbn [fst].
  exists {| ambient := ambient s; db := db s;
            executed := (executed s ++ [mkCall StmtAll text [v]])%list |}.
  split; [|reflexivity].
  apply (f_equal (fun o => (Normal o, _))).
  unfold Grants.answer, take_limit.
  set (l := List.filter _ _).
  destruct l as [|r l']; reflexivity.
Qed.

Lemma strict_equal_stored (y : SqlValue) (c : string) :
  PermissionService.strict_equal_string (@js_of_sql Ambient y) c
  = match y with SText x => String.eqb x c | _ => false end.
Proof. now destruct y. Qed.

Lemma truthy_stored (y : SqlValue) :
  truthy (@js_of_sql Ambient y) = negb (Grants.falsy y).
Proof. now destruct y. Qed.

(** A column of the table reads in the hydrated instance as it is stored. *)
Lemma hydrated_column (cls : ModelClass) (tb : Table) (r : obj SqlValue)
    (c : string) :
  NoDup (columns tb) -> In c (columns tb) ->
  ModelStatic.get (QuerySet.hydrate cls (result_row tb r)) c
  = js_of_sql (cell r c).
Proof.
  intros Hnd Hin.
  unfold QuerySet.hydrate, ModelStatic.assign, ModelStatic.get. cbn [ModelStatic.props].
  rewrite ObjFacts.get_lookup.
  rewrite ObjFacts.lookup_assign_source with (v := js_of_sql (cell r c));
    [reflexivity | |].
  - unfold result_row, obj_keys. rewrite map_map. simpl. now rewrite map_id.
  - apply ObjFacts.lookup_In.
    + unfold result_row, obj_keys. rewrite map_map. simpl. now rewrite map_id.
    + unfold result_row. apply in_map_iff. now exists c.
Qed.

Ltac distinct_columns :=
  simpl; repeat constructor; simpl; intuition discriminate.

Lemma stored_rows_of (d : Store) (t : string) (tb : Table) :
  obj_lookup d t = Some tb -> Grants.stored_rows d t = table_rows tb.
Proof. intros H. unfold Grants.stored_rows. now rewrite H. Qed.

(** [Permission.objects.get({ id })] and the comparison of its codename. *)
Lemma permission_codename (x : SqlValue) (c : string) (s : Session D) :
  Grants.laid_out (db s) (@AuthModels.Permission Ambient) ->
  exists o s',
    Model.objects_get D AuthModels.Permission [("id", js_of_sql x)] s
    = (Normal o, s')
    /\ db s' = db s
    /\ match o with
       | Some p =>
           PermissionService.strict_equal_string
             (ModelStatic.get p "codename") c
       | None => false
       end
       = match Grants.permission_of (db s) x with
         | Some p =>
             match cell p "codename" with
             | SText t => String.eqb t c
             | _ => false
             end
         | None => false
         end.
Proof.
  intros [tb [Ht Hc]]. simpl in Ht, Hc.
  destruct (@get_one_column AuthModels.Permission "id"
              "SELECT * FROM permissions WHERE id = ? LIMIT 1"
              (js_of_sql x) x tb s) as [s' [E Hdb]];
    [reflexivity | apply bind_stored | reflexivity | exact Ht
     | unfold known; rewrite Hc; reflexivity |].
  eexists. exists s'. split; [exact E|]. split; [exact Hdb|].
  unfold Grants.permission_of. rewrite (stored_rows_of _ _ Ht).
  destruct (hd_error _) as [p|]; [|reflexivity]. cbn [option_map].
  rewrite hydrated_column;
    [apply strict_equal_stored | rewrite Hc; distinct_columns
     | rewrite Hc; simpl; tauto].
Qed.

(** The loop over junction rows finds the codename exactly when one of
    the rows carries it. *)
Lemma scan_permissions_carries (J : ModelClass) (tb : Table) (c : string)
    (rs : list (obj SqlValue)) (s : Session D) :
  Grants.laid_out (db s) (@AuthModels.Permission Ambient) ->
  NoDup (columns tb) -> In "permissionId" (columns tb) ->
  exists s',
    PermissionService.scan_permissions D c (Grants.answer J tb rs) s
    = (Normal (existsb (Grants.carries (db s) c) rs), s')
    /\ db s' = db s.
Proof.
  intros Hp Hnd Hin. revert s Hp.
  induction rs as [|r rs IH]; intros s Hp.
  - exists s. split; reflexivity.
  - cbn [Grants.answer map PermissionService.scan_permissions existsb].
    rewrite (@hydrated_column J tb r "permissionId" Hnd Hin).
    destruct (permission_codename (cell r "permissionId") c s Hp)
      as [o [s1 [E [Hdb Hcmp]]]].
    unfold bind at 1. rewrite E.
    assert (Hp1 : Grants.laid_out (db s1) (@AuthModels.Permission Ambient))
      by now rewrite Hdb.
    destruct (IH s1 Hp1) as [s2 [E2 Hdb2]].
    fold (Grants.answer J tb rs).
    unfold Grants.carries at 1. rewrite <- Hcmp.
    destruct o as [p|].
    + destruct (PermissionService.strict_equal_string
                  (ModelStatic.get p "codename") c).
      * exists s1. split; [reflexivity | exact Hdb].
      * exists s2. rewrite E2, Hdb. split; [reflexivity | congruence].
    + exists s2. rewrite E2, Hdb. split; [reflexivity | congruence].
Qed.

(** The loop over the user's groups. *)
Lemma scan_groups_holds (tb : Table) (c : string)
    (ms : list (obj SqlValue)) (s : Session D) :
  Grants.laid_out (db s) (@AuthModels.Permission Ambient) ->
  Grants.laid_out (db s) (@AuthModels.GroupPermission Ambient) ->
  NoDup (columns tb) -> In "groupId" (columns tb) ->
  exists s',
    PermissionService.scan_groups D c
      (Grants.answer AuthModels.UserGroup tb ms) s
    = (Normal
         (existsb
            (fun m =>
               existsb (Grants.carries (db s) c)
                       (Grants.links_of_group (db s) (cell m "groupId")))
            ms),
       s')
    /\ db s' = db s.
Proof.
  intros Hp Hg Hnd Hin. revert s Hp Hg.
  induction ms as [|m ms IH]; intros s Hp Hg.
  - exists s. split; reflexivity.
  - cbn [Grants.answer map PermissionService.scan_groups existsb].
    fold (Grants.answer (@AuthModels.UserGroup Ambient) tb ms).
    rewrite (@hydrated_column AuthModels.UserGroup tb m "groupId" Hnd Hin).
    destruct Hg as [tg [Htg Hcg]]. simpl in Htg, Hcg.
    unfold bind at 1.
    rewrite (@select_one_column
               (Model.objects_filter AuthModels.GroupPermission
                  [("groupId", js_of_sql (cell m "groupId"))])
               AuthModels.GroupPermission "groupId"
               "SELECT * FROM group_permissions WHERE groupId = ?"
               (js_of_sql (cell m "groupId")) (cell m "groupId") None tg s);
      [| reflexivity | reflexivity | apply bind_stored | reflexivity
       | exact Htg | unfold known; rewrite Hcg; reflexivity].
    cbn [take_limit].
    set (s1 := {| ambient := ambient s; db := db s; executed := _ |}).
    assert (Hp1 : Grants.laid_out (db s1) (@AuthModels.Permission Ambient))
      by exact Hp.
    destruct (@scan_permissions_carries AuthModels.GroupPermission tg c
                (List.filter
                   (fun r => sql_eq (cell r "groupId") (cell m "groupId"))
                   (table_rows tg)) s1 Hp1)
      as [s2 [E2 Hdb2]];
      [rewrite Hcg; distinct_columns | rewrite Hcg; simpl; tauto |].
    unfold bind at 1. rewrite E2.
    unfold Grants.links_of_group at 1. rewrite (stored_rows_of _ _ Htg).
    change (db s1) with (db s).
    destruct (existsb (Grants.carries (db s) c) _).
    + exists s2. split; [reflexivity | exact Hdb2].
    + assert (Hp2 : Grants.laid_out (db s2) (@AuthModels.Permission Ambient))
        by (rewrite Hdb2; exact Hp).
      assert (Hg2 : Grants.laid_out (db s2)
                      (@AuthModels.GroupPermission Ambient)).
      { rewrite Hdb2. exists tg. split; assumption. }
      destruct (IH s2 Hp2 Hg2) as [s3 [E3 Hdb3]].
      exists s3. rewrite E3, Hdb2.
      split; [reflexivity | now rewrite Hdb3, Hdb2].
Qed.

Lemma sql_eq_SInt (a : SqlValue) (z : Z) :
  sql_eq a (SInt z) = true <-> a = SInt z.
Proof.
  destruct a; simpl; split; try discriminate.
  - intros H. apply Z.eqb_eq in H. now subst.
  - intros H. inversion H. apply Z.eqb_refl.
Qed.

Lemma sql_eq_common (a b x : SqlValue) :
  sql_eq a x = true -> sql_eq b x = true -> sql_eq a b = true.
Proof.
  destruct a, b, x; simpl; try discriminate; intros H1 H2.
  - apply Z.eqb_eq in H1, H2. subst. apply Z.eqb_refl.
  - apply String.eqb_eq in H1, H2. subst. apply String.eqb_refl.
Qed.

Lemma first_match (A : Type) (P : A -> bool) (l : list A) (p : A) :
  hd_error (List.filter P l) = Some p -> In p l /\ P p = true.
Proof.
  intros H. apply filter_In.
  destruct (List.filter P l) as [|q l'] eqn:E; [discriminate|].
  inversion H; subst. now left.
Qed.

(** Under a primary key the first match is the only match. *)
Lemma first_match_unique (l : list (obj SqlValue)) (p : obj SqlValue)
    (x : SqlValue) :
  Grants.unique_ids l = true -> In p l -> sql_eq (cell p "id") x = true ->
  hd_error (List.filter (fun r => sql_eq (cell r "id") x) l) = Some p.
Proof.
  induction l as [|r l IH]; simpl; intros Hu Hin Hx; [contradiction|].
  apply andb_true_iff in Hu. destruct Hu as [Hfresh Hu].
  destruct (sql_eq (cell r "id") x) eqn:Hr.
  - destruct Hin as [->|Hin]; [reflexivity|].
    exfalso. apply negb_true_iff in Hfresh.
    assert (existsb (fun r' => sql_eq (cell r' "id") (cell r "id")) l = true).
    { apply existsb_exists. exists p. split; [assumption|].
      now apply sql_eq_common with (x := x). }
    congruence.
  - destruct Hin as [->|Hin]; [congruence | now apply IH].
Qed.

Lemma carries_iff (d : Store) (c : string) (link : obj SqlValue) :
  Grants.unique_ids (Grants.stored_rows d "permissions") = true ->
  Grants.carries d c link = true
  <-> exists p,
        In p (Grants.stored_rows d "permissions")
        /\ sql_eq (cell p "id") (cell link "permissionId") = true
        /\ cell p "codename" = SText c.
Proof.
  intros Hu. unfold Grants.carries, Grants.permission_of. split.
  - destruct (hd_error _) as [p|] eqn:E; [|discriminate].
    apply first_match in E. destruct E as [Hin Hid].
    destruct (cell p "codename") as [| |t] eqn:Hc; try discriminate.
    intros H. apply String.eqb_eq in H. subst t. now exists p.
  - intros [p [Hin [Hid Hc]]].
    rewrite (first_match_unique _ _ _ Hu Hin Hid). rewrite Hc.
    apply String.eqb_refl.
Qed.

Lemma holds_directly_iff (d : Store) (uid : Z) (c : string) :
  Grants.unique_ids (Grants.stored_rows d "permissions") = true ->
  Grants.holds_directly d uid c = true <-> Grants.granted_directly d uid c.
Proof.
  intros Hu. unfold Grants.holds_directly, Grants.granted_directly,
    Grants.links_of_user.
  rewrite existsb_exists. split.
  - intros [link [Hin Hc]]. apply filter_In in Hin. destruct Hin as [Hin Huid].
    apply sql_eq_SInt in Huid. apply (carries_iff _ _ _ Hu) in Hc.
    destruct Hc as [p [Hp [Hid Hcode]]]. exists link, p. tauto.
  - intros [link [p [Hin [Huid [Hp [Hid Hcode]]]]]]. exists link. split.
    + apply filter_In. split; [assumption | now apply sql_eq_SInt].
    + apply (carries_iff _ _ _ Hu). now exists p.
Qed.

Lemma holds_by_group_iff (d : Store) (uid : Z) (c : string) :
  Grants.unique_ids (Grants.stored_rows d "permissions") = true ->
  Grants.holds_by_group d uid c = true <-> Grants.granted_by_group d uid c.
Proof.
  intros Hu. unfold Grants.holds_by_group, Grants.granted_by_group,
    Grants.memberships_of_user, Grants.links_of_group.
  rewrite existsb_exists. split.
  - intros [m [Hin Hex]]. apply filter_In in Hin. destruct Hin as [Hin Huid].
    apply sql_eq_SInt in Huid. apply existsb_exists in Hex.
    destruct Hex as [link [Hl Hc]]. apply filter_In in Hl.
    destruct Hl as [Hl Hg]. apply (carries_iff _ _ _ Hu) in Hc.
    destruct Hc as [p [Hp [Hid Hcode]]]. exists m, link, p. tauto.
  - intros [m [link [p [Hin [Huid [Hl [Hg [Hp [Hid Hcode]]]]]]]]].
    exists m. split.
    + apply filter_In. split; [assumption | now apply sql_eq_SInt].
    + apply existsb_exists. exists link. split.
      * apply filter_In. now split.
      * apply (carries_iff _ _ _ Hu). now exists p.
Qed.

(** [hasPermission] for a user who exists and is not a superuser. *)
Lemma hasPermission_computed (uid : Z) (c : string) (s : Session D) :
  Grants.auth_schema now_iso (db s) -> Grants.plain_user (db s) uid ->
  exists s',
    PermissionService.hasPermission now_iso D (Num uid) c s
    = (Normal (Grants.holds_directly (db s) uid c
               || Grants.holds_by_group (db s) uid c), s')
    /\ db s' = db s.
Proof.
  intros [Hu [Hp [Hup [Hug [Hgp [Huu Hpu]]]]]] [u [Hin [Hid Hsuper]]].
  destruct Hu as [tu [Htu Hcu]]. simpl in Htu, Hcu.
  destruct Hup as [tl [Htl Hcl]]. simpl in Htl, Hcl.
  destruct Hug as [tm [Htm Hcm]]. simpl in Htm, Hcm.
  unfold PermissionService.hasPermission.
  destruct (@get_one_column (AuthModels.User now_iso) "id"
              "SELECT * FROM users WHERE id = ? LIMIT 1"
              (VNum (Num uid)) (SInt uid) tu s) as [s1 [E1 Hdb1]];
    [reflexivity | reflexivity | reflexivity | exact Htu
     | unfold known; rewrite Hcu; reflexivity |].
  unfold bind at 1. rewrite E1.
  rewrite (stored_rows_of _ _ Htu) in Hin, Huu.
  rewrite (first_match_unique _ _ _ Huu Hin) by (now apply sql_eq_SInt).
  cbn [option_map].
  rewrite hydrated_column;
    [| rewrite Hcu; distinct_columns | rewrite Hcu; simpl; tauto].
  rewrite truthy_stored, Hsuper. cbn [negb].
  unfold bind at 1.
  rewrite (@select_one_column
             (Model.objects_filter AuthModels.UserPermission
                [("userId", VNum (Num uid))])
             AuthModels.UserPermission "userId"
             "SELECT * FROM user_permissions WHERE userId = ?"
             (VNum (Num uid)) (SInt uid) None tl s1);
    [| reflexivity | reflexivity | reflexivity | reflexivity
     | rewrite Hdb1; exact Htl | unfold known; rewrite Hcl; reflexivity].
  cbn [take_limit].
  set (s2 := {| ambient := ambient s1; db := db s1; executed := _ |}).
  assert (Hdb2 : db s2 = db s) by exact Hdb1.
  assert (Hp2 : Grants.laid_out (db s2) (@AuthModels.Permission Ambient))
    by (rewrite Hdb2; exact Hp).
  destruct (@scan_permissions_carries AuthModels.UserPermission tl c
              (List.filter (fun r => sql_eq (cell r "userId") (SInt uid))
                           (table_rows tl)) s2 Hp2)
    as [s3 [E3 Hdb3]];
    [rewrite Hcl; distinct_columns | rewrite Hcl; simpl; tauto |].
  unfold bind at 1. rewrite E3.
  unfold Grants.holds_directly, Grants.links_of_user.
  rewrite (stored_rows_of _ _ Htl). rewrite Hdb2.
  destruct (existsb (Grants.carries (db s) c) _).
  { exists s3. split; [reflexivity | now rewrite Hdb3]. }
  cbn [orb]. unfold bind at 1.
  rewrite (@select_one_column
             (Model.objects_filter AuthModels.UserGroup
                [("userId", VNum (Num uid))])
             AuthModels.UserGroup "userId"
             "SELECT * FROM user_groups WHERE userId = ?"
             (VNum (Num uid)) (SInt uid) None tm s3);
    [| reflexivity | reflexivity | reflexivity | reflexivity
     | rewrite Hdb3, Hdb2; exact Htm | unfold known; rewrite Hcm; reflexivity].
  cbn [take_limit].
  set (s4 := {| ambient := ambient s3; db := db s3; executed := _ |}).
  assert (Hdb4 : db s4 = db s) by (now rewrite <- Hdb2, <- Hdb3).
  destruct (@scan_groups_holds tm c
              (List.filter (fun r => sql_eq (cell r "userId") (SInt uid))
                           (table_rows tm)) s4)
    as [s5 [E5 Hdb5]];
    [rewrite Hdb4; exact Hp | rewrite Hdb4; exact Hgp
     | rewrite Hcm; distinct_columns | rewrite Hcm; simpl; tauto |].
  exists s5. rewrite E5. rewrite Hdb4.
  unfold Grants.holds_by_group, Grants.memberships_of_user.
  rewrite (stored_rows_of _ _ Htm).
  split; [reflexivity | now rewrite Hdb5].
Qed.

(** C8.  On a database laid out for the auth classes, for a user who
    exists and is not a superuser, [hasModelPermission(userId, action,
    modelName)] returns, changes nothing in the database, and returns
    [true] exactly when the codename [<action>_<lower-cased model name>] is
    granted: directly, by a [user_permissions] row of the user whose
    permission has that codename, or through a group, by a
    [group_permissions] row of a group in which the user has a
    [user_groups] row.  So a user with no grant for a model is denied each
    of view, add, change and delete on it, and a user granted only
    [add_post] may add but not change [Post]. *)
Theorem hasModelPermission_iff_granted (uid : Z) (s : Session D) :
  Grants.auth_schema now_iso (db s) -> Grants.plain_user (db s) uid ->
  (forall action modelName : string,
      exists (b : bool) (s' : Session D),
        PermissionService.hasModelPermission now_iso D (Num uid)
          action modelName s = (Normal b, s')
        /\ db s' = db s
        /\ (b = true
            <-> Grants.granted (db s) uid
                  (action ++ "_" ++ toLowerCase modelName)))
  /\ (forall modelName : string,
        (forall action, In action ["view"; "add"; "change"; "delete"] ->
           ~ Grants.granted (db s) uid
               (action ++ "_" ++ toLowerCase modelName)) ->
        forall action, In action ["view"; "add"; "change"; "delete"] ->
          fst (PermissionService.hasModelPermission now_iso D (Num uid)
                 action modelName s) = Normal false)
  /\ (Grants.granted (db s) uid "add_post" ->
      ~ Grants.granted (db s) uid "change_post" ->
      fst (PermissionService.hasModelPermission now_iso D (Num uid)
             "add" "Post" s) = Normal true
      /\ fst (PermissionService.hasModelPermission now_iso D (Num uid)
                "change" "Post" s) = Normal false).
Proof.
  intros Hschema Huser.
  assert (Hpu : Grants.unique_ids (Grants.stored_rows (db s) "permissions")
                = true) by apply Hschema.
  assert (Hmain : forall c,
    exists s',
      PermissionService.hasPermission now_iso D (Num uid) c s
      = (Normal (Grants.holds_directly (db s) uid c
                 || Grants.holds_by_group (db s) uid c), s')
      /\ db s' = db s
      /\ (Grants.holds_directly (db s) uid c
          || Grants.holds_by_group (db s) uid c = true
          <-> Grants.granted (db s) uid c)).
  { intros c. destruct (@hasPermission_computed uid c s Hschema Huser)
      as [s' [E H]].
    exists s'. split; [exact E|]. split; [exact H|].
    unfold Grants.granted.
    rewrite orb_true_iff, holds_directly_iff, holds_by_group_iff by assumption.
    reflexivity. }
  split; [|split].
  - intros action modelName.
    destruct (Hmain (action ++ "_" ++ toLowerCase modelName))
      as [s' [E [Hdb Hiff]]].
    eexists. exists s'. split; [exact E|]. split; assumption.
  - intros modelName Hnone action Hin.
    destruct (Hmain (action ++ "_" ++ toLowerCase modelName))
      as [s' [E [Hdb Hiff]]].
    unfold PermissionService.hasModelPermission. rewrite E. cbn [fst].
    destruct (Grants.holds_directly _ _ _ || Grants.holds_by_group _ _ _);
      [|reflexivity].
    exfalso. apply (Hnone action Hin). now apply Hiff.
  - intros Hadd Hchange.
    destruct (Hmain "add_post") as [sa [Ea [_ Ha]]].
    destruct (Hmain "change_post") as [sc [Ec [_ Hc]]].
    unfold PermissionService.hasModelPermission.
    change ("add" ++ "_" ++ toLowerCase "Post") with "add_post".
    change ("change" ++ "_" ++ toLowerCase "Post") with "change_post".
    rewrite Ea, Ec. cbn [fst]. split.
    + apply Ha in Hadd. now rewrite Hadd.
    + destruct (Grants.holds_directly _ _ "change_post"
                || Grants.holds_by_group _ _ "change_post");
        [|reflexivity].
      exfalso. apply Hchange. now apply Hc.
Qed.

End Facts.
End PermissionFacts.

(* ================================================================== *)
(** ** The properties at work on the scenarios *)
(* ================================================================== *)

Module Examples.

Import Scenario.

(** The flag field renders as [NOT NULL DEFAULT 0]; the timestamp field,
    whose default is a function, renders no DEFAULT clause. *)
Lemma getConstraints_marker_order_witness :
  Fields.getConstraints flag_field = "NOT NULL DEFAULT 0"
  /\ Fields.getConstraints stamp_field = "UNIQUE NOT NULL"
  /\ forall c, In c (Fields.getConstraints_list stamp_field) ->
               String.prefix "DEFAULT" c = false.
Proof.
  split; [|split].
  - rewrite (proj1 (@FieldsFacts.getConstraints_marker_order Clock flag_field)).
    reflexivity.
  - rewrite (proj1 (@FieldsFacts.getConstraints_marker_order Clock stamp_field)).
    reflexivity.
  - apply (@FieldsFacts.getConstraints_marker_order Clock stamp_field). reflexivity.
Defined.

(** The statement of a filtered, ordered chain. *)
Lemma all_compiles_one_select_witness :
  executed
    (snd (QuerySet.all sqlite
            (Chain.build (QuerySet.new Post)
               [Chain.Filter [("isPublished", VNum (Num 1))];
                Chain.OrderBy "title" QuerySet.DESC;
                Chain.Limit (Num 0)])
            start))
  = [mkCall StmtAll
       "SELECT * FROM posts WHERE isPublished = ? ORDER BY title DESC"
       [VNum (Num 1)]].
Proof.
  rewrite (proj1 (@QueryFacts.all_compiles_one_select Clock sqlite Post
                    [Chain.Filter [("isPublished", VNum (Num 1))];
                     Chain.OrderBy "title" QuerySet.DESC;
                     Chain.Limit (Num 0)] start)).
  reflexivity.
Defined.

(** The one INSERT of the draft: the title as given, [true] as 1, the
    timestamp read at that save and no column for the subtitle, whose
    descriptor has no default; a descriptor with a callable default takes
    the reading of the clock at each save. *)
Lemma save_resolves_in_order_witness :
  map sql (executed (snd (Model.save sqlite draft start)))
  = ["INSERT INTO posts (title, isPublished, createdAt) VALUES (?, ?, ?)"]
  /\ map (@params Clock) (executed (snd (Model.save sqlite draft start)))
     = [[VStr "Hello"; VNum (Num 1); VNum (Num 100)]]
  /\ (exists a : Clock,
        obj_lookup
          (fst (Resolution.stored draft (ModelStatic.field_properties Post)
                                  [] 100%nat)) "subtitle"
        = fst (Resolution.in_order VUndefined
                 (ModelStatic.get draft "subtitle") a))
  /\ Resolution.in_order VUndefined (VField flag_field) 7%nat = (None, 7%nat)
  /\ Resolution.in_order (VFun "now" now) (VField stamp_field) 7%nat
     = (Some (VNum (Num 7)), 8%nat)
  /\ Resolution.in_order (VFun "now" now) (VField stamp_field) 8%nat
     = (Some (VNum (Num 8)), 9%nat).
Proof.
  pose proof (@ModelFacts.save_resolves_in_order Clock sqlite draft start) as H.
  destruct H as (_ & _ & _ & _ & Hexec & Hfield & _ & _ & Hskip & _ & Hcall
                 & _).
  split; [rewrite Hexec; reflexivity|].
  split; [rewrite Hexec; reflexivity|].
  split.
  { apply (Hfield "subtitle"
             {| fieldName := "subtitle"; fieldClass := CharField;
                options :=
                  {| primaryKey := None; unique := None;
                     nullable := Some true; default := VUndefined;
                     autoIncrement := None; maxLength := None;
                     minLength := None; onDelete := None;
                     onUpdate := None |};
                relatedModel := "" |}).
    right; right; right; left; reflexivity. }
  split; [apply Hskip; reflexivity|].
  split.
  - apply (Hcall "now" now (VField stamp_field) 7%nat); reflexivity.
  - apply (Hcall "now" now (VField stamp_field) 8%nat); reflexivity.
Defined.

(** After the delete, [save] on the same instance runs an UPDATE again. *)
Lemma save_and_delete_follow_id_witness :
  truthy (ModelStatic.get persisted "id") = true
  /\ Model.delete sqlite persisted after_save = (Normal tt, after_delete)
  /\ exists data',
       executed (snd (Model.save sqlite persisted after_delete))
       = (executed after_delete
            ++ [mkCall StmtRun (Model.update_sql "posts" data')
                       (obj_values data' ++ [VNum (Num 1)])%list])%list.
Proof.
  assert (Hid : truthy (ModelStatic.get persisted "id") = true)
    by reflexivity.
  assert (Hdel : Model.delete sqlite persisted after_save
                 = (Normal tt, after_delete)) by reflexivity.
  split; [exact Hid|]. split; [exact Hdel|].
  destruct (@ModelFacts.save_and_delete_follow_id Clock sqlite persisted start)
    as (_ & _ & _ & H).
  destruct (H Hid after_save after_delete Hdel) as (_ & _ & _ & data' & E & _).
  exists data'. exact E.
Defined.

(** C3 as stated fails: after a delete that succeeded, a further [save] and
    a further [delete] on the same instance both complete normally. *)
Lemma deleted_instance_saves_and_deletes_again :
  Model.save sqlite draft start = (Normal persisted, after_save)
  /\ Model.delete sqlite persisted after_save = (Normal tt, after_delete)
  /\ fst (Model.save sqlite persisted after_delete) = Normal persisted
  /\ fst (Model.delete sqlite persisted after_delete) = Normal tt
  /\ map sql (executed (snd (Model.delete sqlite persisted
                               (snd (Model.save sqlite persisted
                                                after_delete)))))
     = [ "INSERT INTO posts (title, isPublished, createdAt) VALUES (?, ?, ?)";
         "DELETE FROM posts WHERE id = ?";
         "UPDATE posts SET title = ?, isPublished = ?, createdAt = ? WHERE id = ?";
         "DELETE FROM posts WHERE id = ?" ].
Proof. repeat split; reflexivity. Qed.

(** Saving [isPublished = true] binds 1, and [objects.get] on the store
    after that save reads the row back with [isPublished] the number 1,
    which is truthy. *)
Lemma true_round_trips_as_truthy_witness :
  In ("isPublished", flag_field) (ModelStatic.field_properties Post)
  /\ ModelStatic.get draft "isPublished" = VBool true
  /\ map (@params Clock) (executed after_save)
     = [[VStr "Hello"; VNum (Num 1); VNum (Num 100)]]
  /\ exists instance,
       fst (Model.objects_get sqlite Post [("id", VNum (Num 1))] after_save)
       = Normal (Some instance)
       /\ ModelStatic.get instance "isPublished" = VNum (Num 1)
       /\ truthy (ModelStatic.get instance "isPublished") = true.
Proof.
  assert (H1 : In ("isPublished", flag_field)
                  (ModelStatic.field_properties Post))
    by (right; left; reflexivity).
  assert (H2 : ModelStatic.get draft "isPublished" = VBool true)
    by reflexivity.
  split; [exact H1|]. split; [exact H2|].
  destruct (@ModelFacts.true_round_trips_as_truthy Clock sqlite draft
              "isPublished" flag_field start H1 H2)
    as (Hexec & _ & _ & _ & Hget).
  split; [unfold after_save; rewrite Hexec; reflexivity|].
  assert (Hkeys : NoDup (obj_keys
                           [("id", @VNum Clock (Num 1));
                            ("title", VStr "Hello");
                            ("isPublished", VNum (Num 1));
                            ("createdAt", VNum (Num 100));
                            ("subtitle", VNull)])).
  { simpl. repeat constructor; simpl; intuition discriminate. }
  destruct (Hget [("id", VNum (Num 1))] after_save
              (@mkReply Clock
                 [[("id", VNum (Num 1)); ("title", VStr "Hello");
                   ("isPublished", VNum (Num 1));
                   ("createdAt", VNum (Num 100)); ("subtitle", VNull)]]
                 (Num 0) (Num 0))
              _ [] eq_refl eq_refl Hkeys eq_refl)
    as (instance & E & Hread & Htruthy & _).
  exists instance. split; [exact E|]. split; [exact Hread | exact Htruthy].
Defined.

(** The same round trip run on the relational store: the instance read
    back holds 1 under [isPublished]. *)
Example save_then_get_reads_one :
  match fst save_then_get with
  | Normal (Some p) => ModelStatic.get p "isPublished"
  | _ => VUndefined
  end = VNum (Num 1).
Proof. reflexivity. Qed.

(** Re-registering [Post] keeps one entry per name. *)
Lemma registry_one_entry_per_name_witness :
  ModelRegistry.getModelNames (ModelRegistry.register_all [] registrations)
  = ["Post"; "User"]
  /\ NoDup (ModelRegistry.getModelNames
              (ModelRegistry.register_all [] registrations))
  /\ option_map (@ModelRegistry.meta_appName Clock)
       (ModelRegistry.getModel
          (ModelRegistry.register_all [] registrations) "Post")
     = Some "Blog".
Proof.
  split; [reflexivity|].
  destruct (@RegistryFacts.registry_one_entry_per_name Clock registrations)
    as (Hnd & _ & _ & Hlast & _).
  split; [exact Hnd|].
  exact (f_equal (option_map (@ModelRegistry.meta_appName Clock))
           (Hlast [(Post, ModelRegistry.no_options);
                   (AuthModels.User now, ModelRegistry.no_options)]
                  Post
                  (snd (List.last registrations
                                  (Post, ModelRegistry.no_options)))
                  [] eq_refl (fun c H => match H with end))).
Defined.

(** Without a stored limit, [limit(0)] leaves the statement as it is. *)
Lemma limit_zero_emits_no_clause_witness :
  Chain.effective
    (QuerySet.limit_of (QuerySet.options published)) = None
  /\ QuerySet.all_query (QuerySet.limit published (Num 0))
     = QuerySet.all_query published
  /\ QuerySet.all sqlite (QuerySet.limit published (Num 0)) crowded
     = QuerySet.all sqlite published crowded.
Proof.
  assert (H : Chain.effective
                (QuerySet.limit_of (QuerySet.options published)) = None)
    by reflexivity.
  split; [exact H|].
  destruct (@QueryFacts.limit_zero_emits_no_clause Clock sqlite published)
    as (_ & _ & Hl & _).
  destruct (Hl H) as [E1 E2]. split; [exact E1 | apply E2].
Defined.

(** C10 as stated fails: on a query set that carries a limit, [limit(0)]
    changes the statement and the rows returned. *)
Lemma limit_zero_lifts_a_stored_limit :
  QuerySet.all_query limited = ("SELECT * FROM posts LIMIT 5", [])
  /\ QuerySet.all_query (QuerySet.limit limited (Num 0))
     = ("SELECT * FROM posts", [])
  /\ QuerySet.all_query (QuerySet.limit limited (Num 0))
     <> QuerySet.all_query limited
  /\ returned limited = Some 5%nat
  /\ returned (QuerySet.limit limited (Num 0)) = Some 6%nat.
Proof.
  split; [reflexivity|]. split; [reflexivity|].
  split; [discriminate|]. split; reflexivity.
Qed.

(** User 1 of the auth scenario holds only [add_post]. *)
Lemma hasModelPermission_iff_granted_witness :
  Grants.auth_schema now auth_db
  /\ Grants.plain_user auth_db 1
  /\ fst (PermissionService.hasModelPermission now sqlite (Num 1)
            "add" "Post" auth_start) = Normal true
  /\ fst (PermissionService.hasModelPermission now sqlite (Num 1)
            "change" "Post" auth_start) = Normal false.
Proof.
  assert (Hs : Grants.auth_schema now (db auth_start)).
  { repeat split; try (eexists; split; reflexivity). }
  assert (Hu : Grants.plain_user (db auth_start) 1).
  { exists (user_row 1 "ann" 0). split; [now left | split; reflexivity]. }
  split; [exact Hs|]. split; [exact Hu|].
  destruct (@PermissionFacts.hasModelPermission_iff_granted Clock now 1
              auth_start Hs Hu) as (_ & _ & H).
  apply H.
  - left.
    exists [("id", Sqlite.SInt 1); ("userId", Sqlite.SInt 1);
            ("permissionId", Sqlite.SInt 1)],
           [("id", Sqlite.SInt 1); ("name", Sqlite.SText "Can add Post");
            ("codename", Sqlite.SText "add_post");
            ("modelName", Sqlite.SText "Post")].
    repeat split; try reflexivity; now left.
  - intros [(link & p & Hl & _ & Hp & Hid & Hc)
           |(m & link & p & Hm & Hmu & _)].
    + destruct Hl as [<- |[]].
      destruct Hp as [<- |[<- |[]]]; discriminate.
    + destruct Hm as [<- |[]]. discriminate.
Defined.

(** [delete] on the unsaved draft throws and runs nothing. *)
Example delete_unsaved_draft :
  Model.delete sqlite draft start
  = (Throw (Error "Cannot delete unsaved object"), start).
Proof. reflexivity. Qed.

End Examples.

(* ================================================================== *)
(** ** More on objects *)
(* ================================================================== *)

Module ObjMore.
Section Facts.
Variable V : Type.
Implicit Types (o : obj V) (k : string) (v : V).

Lemma lookup_remove_same o k : obj_lookup (JSMore.obj_remove o k) k = None.
Proof.
  induction o as [|[k' v'] o IH]; simpl; [reflexivity|].
  destruct (String.eqb_spec k' k) as [->|Hne]; simpl; [exact IH|].
  destruct (String.eqb_spec k' k); [contradiction | exact IH].
Qed.

Lemma lookup_remove_other o k k' :
  k <> k' -> obj_lookup (JSMore.obj_remove o k) k' = obj_lookup o k'.
Proof.
  intros Hne. induction o as [|[k0 v0] o IH]; simpl; [reflexivity|].
  destruct (String.eqb_spec k0 k) as [->|Hne0]; simpl.
  - destruct (String.eqb_spec k k'); [contradiction | exact IH].
  - now rewrite IH.
Qed.

Lemma keys_remove o k :
  obj_keys (JSMore.obj_remove o k)
  = List.filter (fun x => negb (String.eqb x k)) (obj_keys o).
Proof.
  induction o as [|[k' v'] o IH]; simpl; [reflexivity|].
  destruct (String.eqb k' k); simpl; now rewrite IH.
Qed.

Lemma remove_absent o k : ~ In k (obj_keys o) -> JSMore.obj_remove o k = o.
Proof.
  induction o as [|[k' v'] o IH]; simpl; intros Hn; [reflexivity|].
  destruct (String.eqb_spec k' k) as [->|Hne]; simpl.
  - exfalso. apply Hn. now left.
  - rewrite IH; [reflexivity | tauto].
Qed.

Lemma lookup_assign_absent (t src : obj V) k :
  ~ In k (obj_keys src) ->
  obj_lookup (obj_assign t src) k = obj_lookup t k.
Proof.
  unfold obj_assign. revert t.
  induction src as [|[k' v'] src IH]; simpl; intros t Hn; [reflexivity|].
  rewrite IH by tauto. apply ObjFacts.lookup_set_other. tauto.
Qed.

(** [Object.assign(t, src)]: a key of the source reads as in the source,
    any other key as in the target. *)
Lemma lookup_assign (t src : obj V) k :
  NoDup (obj_keys src) ->
  obj_lookup (obj_assign t src) k
  = match obj_lookup src k with
    | Some v => Some v
    | None => obj_lookup t k
    end.
Proof.
  intros Hnd. destruct (obj_lookup src k) as [v|] eqn:E.
  - now apply ObjFacts.lookup_assign_source.
  - apply lookup_assign_absent. now apply ObjFacts.lookup_None.
Qed.

Lemma has_set_other o k v k' :
  k <> k' -> obj_has (obj_set o k v) k' = obj_has o k'.
Proof.
  intros Hne. destruct (obj_has o k') eqn:E.
  - apply ObjFacts.has_iff_In. apply ObjFacts.In_keys_set. left.
    now apply ObjFacts.has_iff_In.
  - apply ObjFacts.has_false_iff. intros H.
    apply ObjFacts.In_keys_set in H. destruct H as [H|H]; [|congruence].
    apply ObjFacts.has_iff_In in H. congruence.
Qed.

(** The keys after [Object.assign]: those of the target in their places,
    then the new keys of the source in its order. *)
Lemma keys_assign (t src : obj V) :
  NoDup (obj_keys src) ->
  obj_keys (obj_assign t src)
  = (obj_keys t
       ++ List.filter (fun k => negb (obj_has t k)) (obj_keys src))%list.
Proof.
  unfold obj_assign. revert t.
  induction src as [|[k v] src IH]; simpl; intros t Hnd.
  - now rewrite app_nil_r.
  - inversion Hnd as [|? ? Hk Hnd']; subst.
    rewrite IH by assumption. rewrite ObjFacts.keys_set.
    assert (Hf : List.filter (fun k0 => negb (obj_has (obj_set t k v) k0))
                             (obj_keys src)
                 = List.filter (fun k0 => negb (obj_has t k0)) (obj_keys src)).
    { apply filter_ext_in. intros k' Hk'.
      rewrite has_set_other; [reflexivity|]. intros ->. contradiction. }
    rewrite Hf. destruct (obj_has t k); simpl; [reflexivity|].
    now rewrite <- app_assoc.
Qed.

End Facts.
End ObjMore.

(* ================================================================== *)
(** ** model.ts: [filter], [first], [count] and [delete] of a query set *)
(* ================================================================== *)

Module QueryMore.
Section Facts.
Context {Ambient : Type}.
Local Abbreviation value := (JSValue Ambient).
Local Abbreviation QuerySet := (QuerySet.QuerySet Ambient).
Variable drv : @Driver Ambient.

Lemma add_where_shape (q : QuerySet) (text : string) :
  NoDup (obj_keys (QuerySet.filters q)) ->
  QuerySet.add_where q text []
  = (text ++ Chain.where_text (obj_keys (QuerySet.filters q)),
     obj_values (QuerySet.filters q)).
Proof.
  intros Hnd. unfold QuerySet.add_where.
  rewrite QueryFacts.values_by_key by assumption.
  destruct (QuerySet.filters q) as [|[k v] fs]; simpl;
    [now rewrite QueryFacts.append_empty_r | reflexivity].
Qed.

(** X1.  [count] on a query set built by any chain of builder calls hands
    the driver exactly one statement, run with [stmt.get]:
    the COUNT select over [<table>] followed by the WHERE clause
    over the filter keys, bound to the filter values.  No ORDER BY, LIMIT
    or OFFSET is ever part of it, whatever the chain stored.  It returns
    the [count] column of the row the driver hands back. *)
Theorem count_ignores_order_and_bounds
    (cls : ModelStatic.ModelClass Ambient)
    (bs : list (Chain.Builder Ambient)) (s : Session drv) :
  let q := Chain.build (QuerySet.new cls) bs in
  let c :=
    mkCall StmtGet
      ("SELECT COUNT(*) as count FROM " ++ ModelStatic.getTableName cls
         ++ Chain.where_text (obj_keys (QuerySet.filters q)))
      (obj_values (QuerySet.filters q)) in
  executed (snd (QuerySet.count drv q s)) = (executed s ++ [c])%list
  /\ fst (QuerySet.count drv q s)
     = match fst (exec drv c (db s)) with
       | Normal r =>
           match rows r with
           | row :: _ => Normal (obj_get VUndefined row "count")
           | [] => Throw (Error "TypeError: Cannot read properties of undefined")
           end
       | Throw e => Throw e
       end.
Proof.
  intros q c.
  assert (Hnd : NoDup (obj_keys (QuerySet.filters q))).
  { apply QueryFacts.NoDup_filters_build. constructor. }
  assert (Hq : QuerySet.count_query q = (sql c, params c)).
  { unfold QuerySet.count_query. rewrite add_where_shape by assumption.
    unfold q at 1. rewrite QueryFacts.model_build.
    unfold c. cbn [sql params QuerySet.model QuerySet.new].
    now rewrite QueryFacts.append_assoc. }
  unfold QuerySet.count. rewrite Hq. unfold bind, statement.
  change (mkCall StmtGet (sql c) (params c)) with c.
  destruct (exec drv c (db s)) as [[r|e] d]; simpl; [|split; reflexivity].
  destruct (rows r); split; reflexivity.
Qed.

(** X2.  [delete] on a query set built by any chain of builder calls hands
    the driver exactly one statement, run with [stmt.run]:
    [DELETE FROM <table>] followed by the WHERE clause over the filter
    keys.  A stored limit, offset or order never restricts it, and without
    filters the text is [DELETE FROM <table>] alone.  It returns the
    [changes] the driver reports. *)
Theorem delete_ignores_order_and_bounds
    (cls : ModelStatic.ModelClass Ambient)
    (bs : list (Chain.Builder Ambient)) (s : Session drv) :
  let q := Chain.build (QuerySet.new cls) bs in
  let c :=
    mkCall StmtRun
      ("DELETE FROM " ++ ModelStatic.getTableName cls
         ++ Chain.where_text (obj_keys (QuerySet.filters q)))
      (obj_values (QuerySet.filters q)) in
  executed (snd (QuerySet.delete drv q s)) = (executed s ++ [c])%list
  /\ fst (QuerySet.delete drv q s)
     = match fst (exec drv c (db s)) with
       | Normal r => Normal (changes r)
       | Throw e => Throw e
       end
  /\ ((forall fs, ~ In (Chain.Filter fs) bs) ->
      sql c = "DELETE FROM " ++ ModelStatic.getTableName cls).
Proof.
  intros q c.
  assert (Hnd : NoDup (obj_keys (QuerySet.filters q))).
  { apply QueryFacts.NoDup_filters_build. constructor. }
  assert (Hq : QuerySet.delete_query q = (sql c, params c)).
  { unfold QuerySet.delete_query. rewrite add_where_shape by assumption.
    unfold q at 1. rewrite QueryFacts.model_build.
    unfold c. cbn [sql params QuerySet.model QuerySet.new].
    now rewrite QueryFacts.append_assoc. }
  split; [|split].
  - unfold QuerySet.delete. rewrite Hq. unfold bind, statement.
    change (mkCall StmtRun (sql c) (params c)) with c.
    destruct (exec drv c (db s)) as [[r|e] d]; reflexivity.
  - unfold QuerySet.delete. rewrite Hq. unfold bind, statement.
    change (mkCall StmtRun (sql c) (params c)) with c.
    destruct (exec drv c (db s)) as [[r|e] d]; reflexivity.
  - intros Hnone. unfold c. cbn [sql].
    destruct (obj_keys (QuerySet.filters q)) as [|k ks] eqn:E.
    + unfold Chain.where_text. now rewrite QueryFacts.append_empty_r.
    + exfalso.
      assert (Hk : In k (obj_keys (QuerySet.filters q)))
        by (rewrite E; now left).
      unfold q in Hk. apply QueryFacts.filter_keys_build in Hk.
      destruct Hk as [[]|[fs [Hin _]]]. exact (Hnone fs Hin).
Qed.

(** X3.  [first] runs [all] with the limit set to 1, whatever limit the
    query set carried: it hands the driver the one SELECT of the query set
    with [LIMIT 1] (filters, order and offset kept), returns the first
    hydrated row or [null] when the driver returns none, and leaves the
    query set itself limited to 1, so that a later [all] on the same
    object compiles the same [LIMIT 1] statement. *)
Theorem first_limits_the_query_set
    (cls : ModelStatic.ModelClass Ambient)
    (bs : list (Chain.Builder Ambient)) (s : Session drv) :
  let q := Chain.build (QuerySet.new cls) bs in
  let c :=
    mkCall StmtAll
      (Chain.select_text (ModelStatic.getTableName cls)
         (obj_keys (QuerySet.filters q))
         (Chain.effective_order (QuerySet.options q))
         (Some (Num 1))
         (Chain.effective (QuerySet.offset_of (QuerySet.options q))))
      (obj_values (QuerySet.filters q)) in
  executed (snd (QuerySet.first drv q s)) = (executed s ++ [c])%list
  /\ fst (QuerySet.first drv q s)
     = match fst (exec drv c (db s)) with
       | Normal r =>
           Normal (hd_error (map (QuerySet.hydrate cls) (rows r)),
                   QuerySet.limit q (Num 1))
       | Throw e => Throw e
       end
  /\ QuerySet.all_query (QuerySet.limit q (Num 1)) = (sql c, params c).
Proof.
  intros q c.
  assert (Hnd : NoDup (obj_keys (QuerySet.filters q))).
  { apply QueryFacts.NoDup_filters_build. constructor. }
  assert (Hq : QuerySet.all_query (QuerySet.limit q (Num 1))
               = (sql c, params c)).
  { rewrite QueryFacts.all_query_shape by exact Hnd.
    unfold c. cbn [sql params QuerySet.limit QuerySet.model QuerySet.filters
                   QuerySet.options QuerySet.limit_of QuerySet.offset_of].
    unfold q at 1. rewrite QueryFacts.model_build. reflexivity. }
  assert (Hm : QuerySet.model q = cls).
  { unfold q. now rewrite QueryFacts.model_build. }
  split; [|split; [|exact Hq]].
  - unfold QuerySet.first, QuerySet.all. rewrite Hq.
    unfold bind, statement.
    change (mkCall StmtAll (sql c) (params c)) with c.
    destruct (exec drv c (db s)) as [[r|e] d]; reflexivity.
  - unfold QuerySet.first, QuerySet.all. rewrite Hq.
    unfold bind, statement.
    change (mkCall StmtAll (sql c) (params c)) with c.
    destruct (exec drv c (db s)) as [[r|e] d]; [|reflexivity].
    unfold ret. cbn [fst rows QuerySet.limit QuerySet.model]. rewrite Hm.
    destruct (map (QuerySet.hydrate cls) (rows r)); reflexivity.
Qed.

(** X4.  [filter(fs)] merges into the filters already stored: a key of
    [fs] reads as [fs] has it (a later value replaces an earlier one), any
    other key keeps the value stored before; the keys stored before keep
    their places and the new keys follow in the order of [fs].  So the
    WHERE clause lists each key once, in the order the keys first
    appeared. *)
Theorem filter_merges_by_key
    (cls : ModelStatic.ModelClass Ambient)
    (bs : list (Chain.Builder Ambient)) (fs : obj value) :
  NoDup (obj_keys fs) ->
  let q := Chain.build (QuerySet.new cls) bs in
  (forall k,
      obj_lookup (QuerySet.filters (QuerySet.filter q fs)) k
      = match obj_lookup fs k with
        | Some v => Some v
        | None => obj_lookup (QuerySet.filters q) k
        end)
  /\ obj_keys (QuerySet.filters (QuerySet.filter q fs))
     = (obj_keys (QuerySet.filters q)
          ++ List.filter (fun k => negb (obj_has (QuerySet.filters q) k))
                         (obj_keys fs))%list
  /\ QuerySet.filters (QuerySet.filter q []) = QuerySet.filters q.
Proof.
  intros Hfs q.
  assert (Hnd : NoDup (obj_keys (QuerySet.filters q))).
  { apply QueryFacts.NoDup_filters_build. constructor. }
  assert (Hcopy : obj_assign [] (QuerySet.filters q) = QuerySet.filters q)
    by now apply ObjFacts.assign_empty.
  cbn [QuerySet.filter QuerySet.filters]. rewrite Hcopy.
  split; [|split].
  - intros k. now apply ObjMore.lookup_assign.
  - now apply ObjMore.keys_assign.
  - reflexivity.
Qed.

End Facts.
End QueryMore.

(* ================================================================== *)
(** ** model.ts: [toJSON], [objects.create], what [save] writes *)
(* ================================================================== *)

Module ModelMoreFacts.
Section Facts.
Context {Ambient : Type}.
Local Abbreviation value := (JSValue Ambient).
Local Abbreviation Field := (JS.Field Ambient).
Local Abbreviation ModelClass := (ModelStatic.ModelClass Ambient).
Local Abbreviation Instance := (ModelStatic.Instance Ambient).
Variable drv : @Driver Ambient.

Lemma toJSON_loop (this : Instance) (ks : list string) (acc : obj value)
    (k : string) :
  obj_lookup
    (fold_left
       (fun result key =>
          let v := ModelStatic.get this key in
          if ModelMore.serialised v then obj_set result key v else result)
       ks acc) k
  = if existsb (String.eqb k) ks
       && ModelMore.serialised (ModelStatic.get this k)
    then Some (ModelStatic.get this k)
    else obj_lookup acc k.
Proof.
  revert acc. induction ks as [|k0 ks IH]; intros acc; [reflexivity|].
  cbn [fold_left existsb]. rewrite IH.
  destruct (String.eqb_spec k k0) as [->|Hne]; cbn [orb].
  - destruct (ModelMore.serialised (ModelStatic.get this k0)) eqn:Hs.
    + rewrite andb_true_r. rewrite ObjFacts.lookup_set_same.
      now destruct (existsb (String.eqb k0) ks).
    + now rewrite andb_false_r.
  - destruct (existsb (String.eqb k) ks && _); [reflexivity|].
    destruct (ModelMore.serialised (ModelStatic.get this k0));
      [|reflexivity].
    apply ObjFacts.lookup_set_other. congruence.
Qed.

Lemma toJSON_NoDup (this : Instance) (ks : list string) (acc : obj value) :
  NoDup (obj_keys acc) ->
  NoDup (obj_keys
           (fold_left
              (fun result key =>
                 let v := ModelStatic.get this key in
                 if ModelMore.serialised v then obj_set result key v
                 else result)
              ks acc)).
Proof.
  revert acc. induction ks as [|k0 ks IH]; intros acc Hnd; [exact Hnd|].
  cbn [fold_left]. apply IH.
  destruct (ModelMore.serialised (ModelStatic.get this k0));
    [now apply ObjFacts.NoDup_keys_set | exact Hnd].
Qed.

Lemma existsb_key (V : Type) (o : obj V) (k : string) :
  existsb (String.eqb k) (obj_keys o)
  = match obj_lookup o k with Some _ => true | None => false end.
Proof.
  induction o as [|[k' v] o IH]; simpl; [reflexivity|].
  rewrite String.eqb_sym.
  destruct (String.eqb k' k); [reflexivity | exact IH].
Qed.

Lemma toJSON_lookup (this : Instance) (k : string) :
  obj_lookup (ModelMore.toJSON this) k
  = match obj_lookup (ModelStatic.props this) k with
    | Some v => if ModelMore.serialised v then Some v else None
    | None => None
    end.
Proof.
  unfold ModelMore.toJSON. rewrite toJSON_loop, existsb_key.
  unfold ModelStatic.get. rewrite ObjFacts.get_lookup.
  destruct (obj_lookup (ModelStatic.props this) k) as [v|]; [|reflexivity].
  cbn [andb]. now destruct (ModelMore.serialised v).
Qed.

(** X5.  [toJSON] keeps exactly the attributes that hold data: every own
    attribute whose value is not a function and not an object carrying
    [fieldName] (a field descriptor still unassigned) is kept under its
    name with its value, [null] and [undefined] included; a descriptor or a
    function never appears in the result; each name appears once. *)
Theorem toJSON_keeps_data_only (this : Instance) (k : string) :
  obj_lookup (ModelMore.toJSON this) k
  = match obj_lookup (ModelStatic.props this) k with
    | Some v => if ModelMore.serialised v then Some v else None
    | None => None
    end
  /\ (forall f : Field,
        obj_lookup (ModelMore.toJSON this) k <> Some (VField f))
  /\ (forall src call,
        obj_lookup (ModelMore.toJSON this) k <> Some (VFun src call))
  /\ NoDup (obj_keys (ModelMore.toJSON this)).
Proof.
  split; [apply toJSON_lookup|]. split; [|split].
  - intros f H. rewrite toJSON_lookup in H.
    destruct (obj_lookup (ModelStatic.props this) k) as [v|];
      [|discriminate].
    destruct (ModelMore.serialised v) eqn:Hs; [|discriminate].
    inversion H; subst. discriminate.
  - intros src call H. rewrite toJSON_lookup in H.
    destruct (obj_lookup (ModelStatic.props this) k) as [v|];
      [|discriminate].
    destruct (ModelMore.serialised v) eqn:Hs; [|discriminate].
    inversion H; subst. discriminate.
  - unfold ModelMore.toJSON. apply toJSON_NoDup. constructor.
Qed.

(** X6.  Serialising an instance just read gives the row back: for a class
    whose declared properties are all fields and a row (an object, keys
    distinct) whose values are data, [toJSON] of the hydrated instance
    reads under every name as the row does; columns the row lacks stay
    absent rather than showing a descriptor. *)
Theorem toJSON_of_hydrated_row (cls : ModelClass) (row : obj value) :
  NoDup (obj_keys row) ->
  (forall k v, In (k, v) row -> ModelMore.serialised v = true) ->
  (forall k v, In (k, v) (ModelStatic.declared cls) ->
               instanceof_Field v = true) ->
  forall k,
    obj_lookup (ModelMore.toJSON (QuerySet.hydrate cls row)) k
    = obj_lookup row k.
Proof.
  intros Hnd Hdata Hfields k.
  rewrite toJSON_lookup. unfold QuerySet.hydrate, ModelStatic.assign.
  cbn [ModelStatic.props ModelStatic.construct].
  rewrite ObjMore.lookup_assign by assumption.
  destruct (obj_lookup row k) as [v|] eqn:Hr.
  - rewrite (Hdata k v); [reflexivity|]. now apply ObjFacts.lookup_Some_In.
  - destruct (obj_lookup (obj_assign [] (ModelStatic.declared cls)) k)
      as [v|] eqn:Hd; [|reflexivity].
    apply ObjFacts.lookup_Some_In in Hd.
    apply ClassFacts.In_assign_inv in Hd. destruct Hd as [[]|Hd].
    specialize (Hfields k v Hd). destruct v; try discriminate. reflexivity.
Qed.

Lemma redact_loop (excluded : list string) (data : obj value) (k : string) :
  obj_lookup
    (fold_left (fun d key => JSMore.obj_remove d key) excluded data) k
  = if existsb (String.eqb k) excluded then None else obj_lookup data k.
Proof.
  revert data. induction excluded as [|e ex IH]; intros data; [reflexivity|].
  cbn [fold_left existsb]. rewrite IH.
  destruct (String.eqb_spec k e) as [->|Hne]; cbn [orb].
  - rewrite ObjMore.lookup_remove_same.
    now destruct (existsb (String.eqb e) ex).
  - destruct (existsb (String.eqb k) ex); [reflexivity|].
    apply ObjMore.lookup_remove_other. congruence.
Qed.

(** X7.  The data the two GET handlers build for an instance (the list
    handler [GET /api/admin/models/:modelName/data] and the single-instance
    handler [GET /api/admin/models/:modelName/data/:id]) never holds an
    excluded field: under every key listed in [excludeFields] the data is
    absent, whatever the instance holds there, and under every other key
    it is what [toJSON] gives.  Without an [excludeFields] option nothing
    is removed.  The handlers that create and update send the instance
    itself and are not covered. *)
Theorem safe_data_drops_excluded (options : ModelRegistry.AdminOptions)
    (instance : Instance) (k : string) :
  (In k (AdminData.excluded_of options) ->
   obj_lookup (AdminData.safe_data options instance) k = None)
  /\ (~ In k (AdminData.excluded_of options) ->
      obj_lookup (AdminData.safe_data options instance) k
      = obj_lookup (ModelMore.toJSON instance) k)
  /\ (ModelRegistry.opt_excludeFields options = None ->
      AdminData.safe_data options instance = ModelMore.toJSON instance).
Proof.
  unfold AdminData.safe_data. split; [|split].
  - intros Hin. rewrite redact_loop.
    assert (E : existsb (String.eqb k) (AdminData.excluded_of options) = true).
    { apply existsb_exists. exists k. split; [exact Hin|].
      apply String.eqb_refl. }
    now rewrite E.
  - intros Hn. rewrite redact_loop.
    destruct (existsb (String.eqb k) (AdminData.excluded_of options)) eqn:E;
      [|reflexivity].
    apply existsb_exists in E. destruct E as [x [Hx Hk]].
    apply String.eqb_eq in Hk. subst x. contradiction.
  - intros Hnone. unfold AdminData.excluded_of. now rewrite Hnone.
Qed.

Lemma stored_keys (this : Instance) (es : obj Field) (data : obj value)
    (a : Ambient) (k : string) :
  In k (obj_keys (fst (Resolution.stored this es data a))) ->
  In k (obj_keys data) \/ In k (obj_keys es).
Proof.
  revert data a. induction es as [|[k' f] es IH]; simpl; intros data a Hin;
    [now left|].
  destruct (Resolution.in_order (default (options f))
              (ModelStatic.get this k') a) as [[v|] a'].
  - destruct (IH _ _ Hin) as [H|H]; [|right; now right].
    apply ObjFacts.In_keys_set in H. destruct H as [H| ->];
      [now left | right; now left].
  - destruct (IH _ _ Hin) as [H|H]; [now left | right; now right].
Qed.

Lemma stored_NoDup (this : Instance) (es : obj Field) (data : obj value)
    (a : Ambient) :
  NoDup (obj_keys data) ->
  NoDup (obj_keys (fst (Resolution.stored this es data a))).
Proof.
  revert data a. induction es as [|[k' f] es IH]; simpl; intros data a Hnd;
    [exact Hnd|].
  destruct (Resolution.in_order (default (options f))
              (ModelStatic.get this k') a) as [[v|] a'].
  - apply IH. now apply ObjFacts.NoDup_keys_set.
  - now apply IH.
Qed.

Lemma declared_fields_are_properties (cls : ModelClass) :
  Resolution.declared_fields cls = ModelStatic.field_properties cls.
Proof.
  unfold Resolution.declared_fields.
  destruct (ClassFacts.getFields_layout cls) as [E _]. now rewrite E.
Qed.

(** X8.  [save] writes declared fields only: the columns of the one
    statement it runs are pairwise distinct names of fields the class
    declares, so an attribute of the instance that is not a declared field
    is never written, and the [id] column is never among the columns
    written; the statement binds one parameter per column, plus the id at
    the end on the update path. *)
Theorem save_writes_declared_columns (this : Instance) (s : Session drv) :
  let cls := ModelStatic.class_of this in
  exists data : obj value,
    executed (snd (Model.save drv this s))
    = (executed s ++ [Resolution.save_call this data])%list
    /\ sql (Resolution.save_call this data)
       = (if truthy (ModelStatic.get this "id")
          then Model.update_sql (ModelStatic.getTableName cls) data
          else Model.insert_sql (ModelStatic.getTableName cls) data)
    /\ NoDup (obj_keys data)
    /\ (forall k, In k (obj_keys data) ->
          k <> "id" /\ In k (obj_keys (ModelStatic.field_properties cls)))
    /\ List.length (params (Resolution.save_call this data))
       = (List.length (obj_keys data)
          + (if truthy (ModelStatic.get this "id") then 1 else 0))%nat.
Proof.
  intros cls.
  exists (fst (Resolution.stored this (Resolution.declared_fields cls) []
                                 (ambient s))).
  split; [now rewrite ModelFacts.save_runs|].
  split.
  { unfold Resolution.save_call. fold cls.
    now destruct (truthy (ModelStatic.get this "id")). }
  split; [apply stored_NoDup; constructor|].
  split.
  { intros k Hk. apply stored_keys in Hk. destruct Hk as [[]|Hk].
    rewrite declared_fields_are_properties in Hk.
    split; [|exact Hk].
    intros ->. destruct (ClassFacts.getFields_layout cls) as [_ [Hid _]].
    contradiction. }
  unfold Resolution.save_call, obj_values, obj_keys.
  destruct (truthy (ModelStatic.get this "id")); cbn [params].
  - rewrite length_app, !length_map. reflexivity.
  - rewrite !length_map. now rewrite Nat.add_0_r.
Qed.

(** X9.  [objects.create(data)] assigns [data] onto a new instance and
    saves it, so the [id] of the instance is the one [data] carries, if
    any.  When that id is populated, [create] runs an UPDATE bound to it,
    inserts nothing and returns the instance with that id; otherwise it
    runs an INSERT and returns the instance with the generated id. *)
Theorem create_follows_id_of_data (cls : ModelClass) (data : obj value)
    (s : Session drv) :
  NoDup (obj_keys data) ->
  let this := ModelStatic.assign (ModelStatic.construct cls) data in
  let tableName := ModelStatic.getTableName cls in
  ModelStatic.get this "id"
  = match obj_lookup data "id" with
    | Some v => v
    | None => ModelStatic.get (ModelStatic.construct cls) "id"
    end
  /\ exists written : obj value,
       let c :=
         if truthy (ModelStatic.get this "id")
         then mkCall StmtRun (Model.update_sql tableName written)
                     (obj_values written ++ [ModelStatic.get this "id"])%list
         else mkCall StmtRun (Model.insert_sql tableName written)
                     (obj_values written) in
       executed (snd (Model.objects_create drv cls data s))
       = (executed s ++ [c])%list
       /\ fst (Model.objects_create drv cls data s)
          = match fst (exec drv c (db s)) with
            | Normal r =>
                Normal (if truthy (ModelStatic.get this "id") then this
                        else ModelStatic.set this "id"
                               (VNum (lastInsertRowid r)))
            | Throw e => Throw e
            end.
Proof.
  intros Hnd this tableName. split.
  - unfold ModelStatic.get, this, ModelStatic.assign.
    cbn [ModelStatic.props]. rewrite !ObjFacts.get_lookup.
    rewrite ObjMore.lookup_assign by assumption.
    now destruct (obj_lookup data "id").
  - exists (fst (Resolution.stored this
                   (Resolution.declared_fields (ModelStatic.class_of this))
                   [] (ambient s))).
    unfold Model.objects_create. fold this. rewrite ModelFacts.save_runs.
    unfold Resolution.save_call.
    change (ModelStatic.getTableName (ModelStatic.class_of this))
      with tableName.
    destruct (truthy (ModelStatic.get this "id")); split; reflexivity.
Qed.

(** X10.  [getFields] binds every field to the name it is declared under:
    each entry's [fieldName] is its key, the keys are pairwise distinct,
    the first is the implicit [id], and every other entry is a [Field]
    property of a fresh instance with its class and options untouched. *)
Theorem getFields_binds_names (cls : ModelClass) :
  NoDup (obj_keys (ModelStatic.getFields cls))
  /\ hd_error (obj_keys (ModelStatic.getFields cls)) = Some "id"
  /\ forall k (f : Field),
       In (k, f) (ModelStatic.getFields cls) ->
       fieldName f = k
       /\ (k = "id" /\ fieldClass f = AutoField
           \/ exists f0 : Field,
                In (k, VField f0)
                   (ModelStatic.props (ModelStatic.construct cls))
                /\ fieldClass f = fieldClass f0
                /\ options f = options f0
                /\ relatedModel f = relatedModel f0).
Proof.
  destruct (ClassFacts.getFields_layout cls) as [E [Hid Hnd]].
  rewrite E. split; [|split].
  - simpl. now constructor.
  - reflexivity.
  - intros k f [H|H].
    + inversion H; subst. split; [reflexivity|]. left. now split.
    + unfold ModelStatic.field_properties, ModelStatic.fields_in in H.
      apply in_flat_map in H. destruct H as [[k0 v] [Hin Hv]].
      cbn [fst snd] in Hv. destruct v; try contradiction.
      destruct Hv as [Hv|[]]. inversion Hv; subst.
      split; [reflexivity|]. right. exists f0. repeat split. exact Hin.
Qed.

Lemma createTable_loop (es : obj Field) (defs fks : list string) :
  fold_left ModelMore.createTable_step es (defs, fks)
  = ((defs
        ++ map (fun e =>
                  let d := FieldsMore.getFullDefinition (snd e) in
                  if JSMore.includes d "FOREIGN KEY"
                  then JSMore.part (JSMore.split d ", FOREIGN KEY") 0
                  else d) es)%list,
     (fks
        ++ flat_map
             (fun e =>
                let d := FieldsMore.getFullDefinition (snd e) in
                if JSMore.includes d "FOREIGN KEY"
                then [("FOREIGN KEY"
                         ++ JSMore.part (JSMore.split d ", FOREIGN KEY") 1)%string]
                else []) es)%list).
Proof.
  revert defs fks. induction es as [|e es IH]; intros defs fks.
  - simpl. now rewrite !app_nil_r.
  - cbn [fold_left map flat_map]. unfold ModelMore.createTable_step at 2.
    cbv zeta.
    destruct (JSMore.includes (FieldsMore.getFullDefinition (snd e))
                              "FOREIGN KEY");
      rewrite IH; unfold Fields.push; rewrite <- ?app_assoc; reflexivity.
Qed.

(** X11.  [createTable] hands the driver exactly one statement, without
    parameters: [CREATE TABLE IF NOT EXISTS <table> (...)] listing the
    column definitions and then the foreign-key clauses, separated by
    commas.  There is one column definition per field of [getFields], the
    first being [id INTEGER PRIMARY KEY AUTOINCREMENT]; a field whose
    definition does not mention FOREIGN KEY contributes that definition as
    it is, and a [ManyToManyField], whose definition is empty,
    contributes an empty column definition. *)
Theorem createTable_lists_one_definition_per_field (cls : ModelClass)
    (s : Session drv) :
  let defs := fst (ModelMore.createTable_parts cls) in
  let fks := snd (ModelMore.createTable_parts cls) in
  executed (snd (ModelMore.createTable drv cls s))
  = (executed s ++ [mkCall StmtRun (ModelMore.createTable_sql cls) []])%list
  /\ ModelMore.createTable_sql cls
     = "CREATE TABLE IF NOT EXISTS " ++ ModelStatic.getTableName cls ++ " ("
         ++ String.concat ", " (defs ++ fks)%list ++ ")"
  /\ hd_error defs = Some "id INTEGER PRIMARY KEY AUTOINCREMENT"
  /\ List.length defs = List.length (ModelStatic.getFields cls)
  /\ (forall k (f : Field),
        In (k, f) (ModelStatic.getFields cls) ->
        JSMore.includes (FieldsMore.getFullDefinition f) "FOREIGN KEY" = false ->
        In (FieldsMore.getFullDefinition f) defs)
  /\ (forall k (f : Field),
        In (k, f) (ModelStatic.getFields cls) ->
        fieldClass f = ManyToManyField -> In "" defs)
  /\ ((forall k (f : Field),
         In (k, f) (ModelStatic.getFields cls) ->
         JSMore.includes (FieldsMore.getFullDefinition f) "FOREIGN KEY"
         = false) ->
      fks = []
      /\ defs = map (fun e => FieldsMore.getFullDefinition (snd e))
                    (ModelStatic.getFields cls)).
Proof.
  intros defs fks.
  assert (Hparts : ModelMore.createTable_parts cls = (defs, fks)).
  { unfold defs, fks. now destruct (ModelMore.createTable_parts cls). }
  assert (Hloop := createTable_loop (ModelStatic.getFields cls) [] []).
  fold (ModelMore.createTable_parts cls) in Hloop. rewrite Hparts in Hloop.
  cbn [app] in Hloop. inversion Hloop as [[Hd Hf]]. clear Hloop.
  split.
  { unfold ModelMore.createTable, ModelMore.db_exec, bind, statement.
    destruct (exec drv _ (db s)) as [[r|e] d]; reflexivity. }
  split.
  { unfold ModelMore.createTable_sql. now rewrite Hparts. }
  clear Hparts. clearbody defs fks. subst defs fks.
  split.
  { destruct (ClassFacts.getFields_layout cls) as [E _].
    rewrite E. reflexivity. }
  split; [now rewrite length_map|].
  split.
  { intros k f Hin Hno. apply in_map_iff. exists (k, f).
    cbn [snd]. rewrite Hno. now split. }
  split.
  { intros k f Hin Hm2m. apply in_map_iff. exists (k, f). cbn [snd].
    unfold FieldsMore.getFullDefinition. rewrite Hm2m. now split. }
  intros Hnone. split.
  - induction (ModelStatic.getFields cls) as [|[k f] es IH];
      [reflexivity|].
    cbn [flat_map snd]. rewrite (Hnone k f) by now left.
    apply IH. intros k' f' Hin. apply (Hnone k' f'). now right.
  - apply map_ext_in. intros [k f] Hin. cbn [snd].
    now rewrite (Hnone k f Hin).
Qed.

End Facts.
End ModelMoreFacts.

(* ================================================================== *)
(** ** ModelRegistry.ts: lookup, unregistration, clearing *)
(* ================================================================== *)

Module RegistryMoreFacts.
Section Facts.
Context {Ambient : Type}.
Local Abbreviation ModelClass := (ModelStatic.ModelClass Ambient).
Local Abbreviation Registry := (ModelRegistry.Registry Ambient).

Lemma has_as_lookup (V : Type) (o : obj V) (k : string) :
  obj_has o k = match obj_lookup o k with Some _ => true | None => false end.
Proof.
  induction o as [|[k' v] o IH]; simpl; [reflexivity|].
  destruct (String.eqb k' k); [reflexivity | exact IH].
Qed.

(** X12.  [unregisterModel(n)] removes the entry of [n] and nothing else:
    afterwards [getModel(n)] is undefined and [hasModel(n)] false, every
    other name reads as before and the remaining names keep their order;
    on a name that is not registered it changes nothing.  [hasModel] is
    true exactly for the names [getModel] finds.  Registering a class
    again keeps its place among the names, registering it after
    unregistering it puts it last.  After [clear] no name is registered. *)
Theorem unregisterModel_removes_one_name (models : Registry) (n : string) :
  ModelRegistry.getModel (RegistryMore.unregisterModel models n) n = None
  /\ ModelRegistry.hasModel (RegistryMore.unregisterModel models n) n = false
  /\ (forall n', n' <> n ->
        ModelRegistry.getModel (RegistryMore.unregisterModel models n) n'
        = ModelRegistry.getModel models n')
  /\ ModelRegistry.getModelNames (RegistryMore.unregisterModel models n)
     = List.filter (fun x => negb (String.eqb x n))
                   (ModelRegistry.getModelNames models)
  /\ (ModelRegistry.hasModel models n = false ->
      RegistryMore.unregisterModel models n = models)
  /\ (forall n', ModelRegistry.hasModel models n' = true
                 <-> exists md, ModelRegistry.getModel models n' = Some md)
  /\ (forall (model : ModelClass) options,
        ModelStatic.name model = n ->
        (ModelRegistry.hasModel models n = true ->
         ModelRegistry.getModelNames
           (ModelRegistry.registerModel models model options)
         = ModelRegistry.getModelNames models)
        /\ ModelRegistry.getModelNames
             (ModelRegistry.registerModel
                (RegistryMore.unregisterModel models n) model options)
           = (List.filter (fun x => negb (String.eqb x n))
                          (ModelRegistry.getModelNames models) ++ [n])%list)
  /\ ModelRegistry.getAllModels (RegistryMore.clear models) = []
  /\ ModelRegistry.hasModel (RegistryMore.clear models) n = false.
Proof.
  unfold RegistryMore.unregisterModel, ModelRegistry.getModel,
    ModelRegistry.hasModel, ModelRegistry.getModelNames.
  split; [apply ObjMore.lookup_remove_same|].
  split.
  { rewrite has_as_lookup. now rewrite ObjMore.lookup_remove_same. }
  split.
  { intros n' Hne. apply ObjMore.lookup_remove_other. congruence. }
  split; [apply ObjMore.keys_remove|].
  split.
  { intros Hno. apply ObjMore.remove_absent.
    now apply ObjFacts.has_false_iff. }
  split.
  { intros n'. rewrite has_as_lookup.
    destruct (obj_lookup models n') as [md|]; split; try discriminate.
    - intros _. now exists md.
    - reflexivity.
    - intros [md H]. discriminate. }
  split; [|split; reflexivity].
  intros model options Hname. unfold ModelRegistry.registerModel.
  rewrite Hname. split.
  - intros Hhas. rewrite ObjFacts.keys_set. now rewrite Hhas.
  - rewrite ObjFacts.keys_set.
    assert (Hgone : obj_has (JSMore.obj_remove models n) n = false).
    { rewrite has_as_lookup. now rewrite ObjMore.lookup_remove_same. }
    rewrite Hgone. now rewrite ObjMore.keys_remove.
Qed.

End Facts.
End RegistryMoreFacts.

Module StoreFacts.

Import Sqlite.

Section Facts.
Context {Ambient : Type}.
Local Abbreviation value := (JSValue Ambient).
Local Abbreviation ModelClass := (ModelStatic.ModelClass Ambient).
Local Abbreviation Instance := (ModelStatic.Instance Ambient).
Local Abbreviation D := (Sqlite.driver Ambient).

(** What the store answers to a SELECT with equalities and no order. *)
Lemma select_columns (q : QuerySet.QuerySet Ambient) (cls : ModelClass)
    (ks : list string) (text : string) (vs : list value)
    (xs : list SqlValue) (lim : option Z) (tb : Table) (s : Session D) :
  QuerySet.model q = cls ->
  QuerySet.all_query q = (text, vs) ->
  bind_params vs = Some xs ->
  parse text
  = Some (SSelect (ModelStatic.getTableName cls) ks None lim None) ->
  obj_lookup (db s) (ModelStatic.getTableName cls) = Some tb ->
  known tb ks = true ->
  List.length xs = List.length ks ->
  QuerySet.all D q s
  = (Normal (Grants.answer cls tb
               (take_limit lim
                  (List.filter (matches ks xs) (table_rows tb)))),
     Stored.asked s (mkCall StmtAll text vs)).
Proof.
  intros Hm Hq Hb Hp Ht Hk Hn.
  unfold QuerySet.all. rewrite Hq. unfold bind, statement.
  cbn [exec D Sqlite.driver]. unfold execute.
  cbn [sql params mode]. rewrite Hp, Hb.
  unfold run. rewrite Ht, Hk.
  cbn [known forallb andb negb].
  apply Nat.eqb_eq in Hn. rewrite Hn. cbn [negb].
  unfold ret, reads. cbn [rows]. rewrite Hm.
  unfold Grants.answer, select, sort_by, drop_offset.
  rewrite map_map. reflexivity.
Qed.

(** What [objects.get] returns: the first match. *)
Lemma get_columns (cls : ModelClass) (fs : obj value)
    (ks : list string) (text : string) (vs : list value)
    (xs : list SqlValue) (tb : Table) (s : Session D) :
  QuerySet.all_query
    (QuerySet.limit (QuerySet.filter (QuerySet.new cls) fs) (Num 1))
  = (text, vs) ->
  bind_params vs = Some xs ->
  parse text
  = Some (SSelect (ModelStatic.getTableName cls) ks None (Some 1%Z) None) ->
  obj_lookup (db s) (ModelStatic.getTableName cls) = Some tb ->
  known tb ks = true ->
  List.length xs = List.length ks ->
  Model.objects_get D cls fs s
  = (Normal (option_map
               (fun r => QuerySet.hydrate cls (result_row tb r))
               (hd_error (List.filter (matches ks xs) (table_rows tb)))),
     Stored.asked s (mkCall StmtAll text vs)).
Proof.
  intros Hq Hb Hp Ht Hk Hn.
  unfold Model.objects_get, QuerySet.first, bind.
  rewrite (select_columns _ _ eq_refl Hq Hb Hp Ht Hk Hn).
  unfold ret. cbn [fst].
  apply (f_equal (fun o => (Normal o, _))).
  unfold Grants.answer, take_limit.
  set (l := List.filter _ _).
  destruct l as [|r l']; reflexivity.
Qed.

(** What [save] does to the store for an instance without an [id]: one
    INSERT that appends a row under the next rowid. *)
Lemma insert_row (this : Instance) (xs : list SqlValue) (tb : Table)
    (s : Session D) :
  let t := ModelStatic.getTableName (ModelStatic.class_of this) in
  let outcome :=
    Resolution.stored this
      (Resolution.declared_fields (ModelStatic.class_of this)) []
      (ambient s) in
  let data := fst outcome in
  truthy (ModelStatic.get this "id") = false ->
  bind_params (obj_values data) = Some xs ->
  parse (Model.insert_sql t data) = Some (SInsert t (obj_keys data)) ->
  obj_lookup (db s) t = Some tb ->
  known tb (obj_keys data) = true ->
  Model.save D this s
  = (Normal (ModelStatic.set this "id" (VNum (Num (seq tb + 1)))),
     @mkSession Ambient D (snd outcome)
       (Stored.appended (db s) t tb
          (obj_assign [("id", SInt (seq tb + 1))]
                      (combine (obj_keys data) xs)))
       (executed s
          ++ [mkCall StmtRun (Model.insert_sql t data)
                     (obj_values data)])%list).
Proof.
  intros t outcome data Hid Hb Hp Ht Hk.
  rewrite ModelFacts.save_runs. fold outcome. fold data.
  unfold Resolution.save_call. rewrite Hid. fold t.
  cbn [exec D Sqlite.driver]. unfold execute. cbn [sql params mode].
  rewrite Hp, Hb. unfold run. rewrite Ht, Hk. cbn [negb].
  assert (Hn : Nat.eqb (List.length xs) (List.length (obj_keys data)) = true).
  { apply Nat.eqb_eq. unfold obj_keys. rewrite length_map.
    clear - Hb. unfold obj_values in Hb.
    revert xs Hb. induction data as [|[k v] l IH]; simpl; intros xs Hb.
    - now inversion Hb.
    - destruct (bind_param v); [|discriminate].
      destruct (bind_params (map snd l)) as [ys|]; [|discriminate].
      inversion Hb. simpl. f_equal. now apply IH. }
  rewrite Hn. cbn [negb fst snd writes lastInsertRowid]. reflexivity.
Qed.

(** What [delete] does to the store for an instance read from the row
    [r] (when the table was [tb0]): one DELETE that removes the rows with
    the [id] of [r]. *)
Lemma delete_row (cls : ModelClass) (tb0 tb : Table) (r : obj SqlValue)
    (s : Session D) :
  let t := ModelStatic.getTableName cls in
  let this := QuerySet.hydrate cls (result_row tb0 r) in
  NoDup (columns tb0) -> In "id" (columns tb0) ->
  In "id" (columns tb) ->
  Grants.falsy (cell r "id") = false ->
  parse (Model.delete_sql t) = Some (SDelete t ["id"]) ->
  obj_lookup (db s) t = Some tb ->
  Model.delete D this s
  = (Normal tt,
     Stored.wrote s
       (mkCall StmtRun (Model.delete_sql t) [js_of_sql (cell r "id")])
       (obj_set (db s) t
          (with_rows tb
             (List.filter
                (fun r' => negb (sql_eq (cell r' "id") (cell r "id")))
                (table_rows tb))))).
Proof.
  intros t this Hnd Hin Hin' Hid Hp Ht.
  assert (Hget : ModelStatic.get this "id" = js_of_sql (cell r "id"))
    by (apply PermissionFacts.hydrated_column; assumption).
  rewrite ModelFacts.delete_runs
    by (rewrite Hget, PermissionFacts.truthy_stored, Hid; reflexivity).
  rewrite Hget.
  change (ModelStatic.getTableName (ModelStatic.class_of this)) with t.
  cbn [exec D Sqlite.driver]. unfold execute. cbn [sql params mode].
  rewrite Hp. cbn [bind_params]. rewrite PermissionFacts.bind_stored.
  unfold run. rewrite Ht.
  assert (Hk : known tb ["id"] = true).
  { unfold known. cbn [forallb]. rewrite andb_true_r.
    apply existsb_exists. exists "id". split; [assumption|].
    apply String.eqb_refl. }
  rewrite Hk. cbn [negb List.length Nat.eqb fst snd].
  unfold Stored.wrote. do 4 f_equal.
  apply List.filter_ext. intros r'. now rewrite PermissionFacts.matches_one.
Qed.

End Facts.
End StoreFacts.

Module ServiceFacts.

Import Sqlite.

Ltac distinct_columns :=
  simpl; repeat constructor; simpl; intuition discriminate.

(** A column the stored table is known to have. *)
Ltac column Hc := rewrite Hc; simpl; tauto.

Section Facts.
Context {Ambient : Type}.
Local Abbreviation value := (JSValue Ambient).
Local Abbreviation ModelClass := (ModelStatic.ModelClass Ambient).
Local Abbreviation Instance := (ModelStatic.Instance Ambient).
Local Abbreviation D := (Sqlite.driver Ambient).
Variable now_iso : Ambient -> value * Ambient.

Lemma first_or_none (P : obj SqlValue -> bool) (l : list (obj SqlValue)) :
  match hd_error (List.filter P l) with
  | Some r => existsb P l = true /\ In r l /\ P r = true
  | None => existsb P l = false
  end.
Proof.
  induction l as [|r l IH]; simpl; [reflexivity|].
  destruct (P r) eqn:E; simpl; [tauto|].
  destruct (hd_error (List.filter P l)); tauto.
Qed.

Lemma matches_two (a b : string) (x y : Z) (r : obj SqlValue) :
  matches [a; b] [SInt x; SInt y] r = Stored.links a b x y r.
Proof. unfold matches, Stored.links. simpl. now rewrite andb_true_r. Qed.

Local Abbreviation ask_link u p :=
  (@mkCall Ambient StmtAll
     "SELECT * FROM user_permissions WHERE userId = ? AND permissionId = ? LIMIT 1"
     [VNum (Num u); VNum (Num p)]).

Local Abbreviation insert_link u p :=
  (@mkCall Ambient StmtRun
     "INSERT INTO user_permissions (userId, permissionId) VALUES (?, ?)"
     [VNum (Num u); VNum (Num p)]).

(** [assignPermission] on the store. *)
Lemma assignPermission_runs (u p : Z) (tb : Table) (s : Session D) :
  obj_lookup (db s) "user_permissions" = Some tb ->
  columns tb = ["id"; "userId"; "permissionId"] ->
  PermissionMore.assignPermission D (Num u) (Num p) s
  = (Normal tt,
     if existsb (Stored.links "userId" "permissionId" u p) (table_rows tb)
     then Stored.asked s (ask_link u p)
     else Stored.wrote (Stored.asked s (ask_link u p)) (insert_link u p)
            (Stored.appended (db s) "user_permissions" tb
               (Stored.link_row tb "userId" "permissionId" u p))).
Proof.
  intros Ht Hc. unfold PermissionMore.assignPermission, bind at 1.
  rewrite (@StoreFacts.get_columns Ambient AuthModels.UserPermission
             [("userId", VNum (Num u)); ("permissionId", VNum (Num p))]
             ["userId"; "permissionId"]
             "SELECT * FROM user_permissions WHERE userId = ? AND permissionId = ? LIMIT 1"
             [VNum (Num u); VNum (Num p)] [SInt u; SInt p] tb s);
    [| reflexivity | reflexivity | reflexivity | exact Ht
     | unfold known; rewrite Hc; reflexivity | reflexivity].
  rewrite (List.filter_ext _ _ (matches_two "userId" "permissionId" u p)).
  pose proof (first_or_none (Stored.links "userId" "permissionId" u p)
                (table_rows tb)) as Hfirst.
  destruct (hd_error _) as [r|].
  - destruct Hfirst as [-> _]. reflexivity.
  - rewrite Hfirst. cbn [option_map]. unfold bind at 1.
    unfold Model.objects_create.
    rewrite (@StoreFacts.insert_row Ambient _ [SInt u; SInt p] tb);
      [reflexivity | reflexivity | reflexivity | reflexivity | exact Ht
       | unfold known; rewrite Hc; reflexivity].
Qed.

Lemma stored_rows_set (d : Store) (t t' : string) (tb : Table) :
  Grants.stored_rows (obj_set d t tb) t'
  = if String.eqb t t' then table_rows tb else Grants.stored_rows d t'.
Proof.
  unfold Grants.stored_rows. destruct (String.eqb_spec t t') as [<-|Hne].
  - now rewrite ObjFacts.lookup_set_same.
  - now rewrite ObjFacts.lookup_set_other.
Qed.

Lemma laid_out_set (d : Store) (t : string) (tb tb' : Table)
    (cls : ModelClass) :
  obj_lookup d t = Some tb -> columns tb' = columns tb ->
  Grants.laid_out d cls -> Grants.laid_out (obj_set d t tb') cls.
Proof.
  intros Ht Hc [tc [Htc Hcc]].
  destruct (String.eqb_spec t (ModelStatic.getTableName cls)) as [E|Hne].
  - exists tb'. rewrite <- E, ObjFacts.lookup_set_same. split; [reflexivity|].
    rewrite Hc. rewrite <- E in Htc. congruence.
  - exists tc. now rewrite ObjFacts.lookup_set_other.
Qed.

(** A write to a junction table that keeps its columns keeps the layout
    of the auth tables and the keys of users and permissions. *)
Lemma auth_schema_set (d : Store) (t : string) (tb tb' : Table) :
  obj_lookup d t = Some tb -> columns tb' = columns tb ->
  t <> "users" -> t <> "permissions" ->
  Grants.auth_schema now_iso d ->
  Grants.auth_schema now_iso (obj_set d t tb').
Proof.
  intros Ht Hc Hu Hp [H1 [H2 [H3 [H4 [H5 [H6 H7]]]]]].
  unfold Grants.auth_schema. rewrite !stored_rows_set.
  destruct (String.eqb_spec t "users"); [contradiction|].
  destruct (String.eqb_spec t "permissions"); [contradiction|].
  repeat split; try assumption; now apply (laid_out_set _ _ Ht Hc).
Qed.



Local Abbreviation ask_user uid :=
  (@mkCall Ambient StmtAll "SELECT * FROM users WHERE id = ? LIMIT 1"
           [VNum (Num uid)]).

(** [User.objects.get({ id: userId })] on the stored users. *)
Lemma get_user (uid : Z) (s : Session D) :
  Grants.laid_out (db s) (AuthModels.User now_iso) ->
  exists tu,
    obj_lookup (db s) "users" = Some tu
    /\ columns tu = obj_keys (ModelStatic.getFields (AuthModels.User now_iso))
    /\ Model.objects_get D (AuthModels.User now_iso)
         [("id", VNum (Num uid))] s
       = (Normal (option_map
                    (fun r => QuerySet.hydrate (AuthModels.User now_iso)
                                (result_row tu r))
                    (hd_error
                       (List.filter
                          (fun u => sql_eq (cell u "id") (SInt uid))
                          (table_rows tu)))),
          Stored.asked s (ask_user uid)).
Proof.
  intros [tu [Htu Hcu]]. exists tu. split; [exact Htu|]. split; [exact Hcu|].
  simpl in Htu, Hcu.
  rewrite (@StoreFacts.get_columns Ambient (AuthModels.User now_iso)
             [("id", VNum (Num uid))] ["id"]
             "SELECT * FROM users WHERE id = ? LIMIT 1"
             [VNum (Num uid)] [SInt uid] tu s);
    [| reflexivity | reflexivity | reflexivity | exact Htu
     | unfold known; rewrite Hcu; reflexivity | reflexivity].
  rewrite (List.filter_ext (matches ["id"] [SInt uid])
             (fun u => sql_eq (cell u "id") (SInt uid)));
    [reflexivity|].
  intros r. apply PermissionFacts.matches_one.
Qed.

(** X13.  [hasPermission] decides for an unknown user and for a superuser
    from the one statement that reads the user: a user id no stored user
    has gives [false], the first stored user with the id being a superuser
    gives [true], for every codename, also one no permission carries, and
    no other table is read. *)
Theorem hasPermission_decided_by_user_row (uid : Z) (c : string)
    (s : Session D) :
  Grants.laid_out (db s) (AuthModels.User now_iso) ->
  match hd_error (List.filter (fun u => sql_eq (cell u "id") (SInt uid))
                              (Grants.stored_rows (db s) "users")) with
  | None =>
      PermissionService.hasPermission now_iso D (Num uid) c s
      = (Normal false, Stored.asked s (ask_user uid))
  | Some u =>
      Grants.falsy (cell u "isSuperuser") = false ->
      PermissionService.hasPermission now_iso D (Num uid) c s
      = (Normal true, Stored.asked s (ask_user uid))
  end.
Proof.
  intros Hu. destruct (get_user uid s Hu) as [tu [Htu [Hcu E]]].
  rewrite (PermissionFacts.stored_rows_of _ _ Htu).
  destruct (hd_error _) as [u|].
  2:{ unfold PermissionService.hasPermission, bind. now rewrite E. }
  intros Hsuper. unfold PermissionService.hasPermission, bind at 1.
  rewrite E. cbn [option_map].
  rewrite PermissionFacts.hydrated_column;
    [| rewrite Hcu; distinct_columns
     | rewrite Hcu; simpl; tauto].
  rewrite PermissionFacts.truthy_stored, Hsuper. reflexivity.
Qed.

(** X14.  [getUserPermissions] returns no permission for a user id no
    stored user has, after the one statement that reads the user; for a
    superuser it returns every stored permission, in stored order, read by
    one select without a condition. *)
Theorem getUserPermissions_decided_by_user_row (uid : Z) (s : Session D) :
  Grants.laid_out (db s) (AuthModels.User now_iso) ->
  forall tp,
  obj_lookup (db s) "permissions" = Some tp ->
  match hd_error (List.filter (fun u => sql_eq (cell u "id") (SInt uid))
                              (Grants.stored_rows (db s) "users")) with
  | None =>
      PermissionMore.getUserPermissions now_iso D (Num uid) s
      = (Normal [], Stored.asked s (ask_user uid))
  | Some u =>
      Grants.falsy (cell u "isSuperuser") = false ->
      PermissionMore.getUserPermissions now_iso D (Num uid) s
      = (Normal (Grants.answer AuthModels.Permission tp (table_rows tp)),
         Stored.asked (Stored.asked s (ask_user uid))
           (mkCall StmtAll "SELECT * FROM permissions" []))
  end.
Proof.
  intros Hu tp Htp. destruct (get_user uid s Hu) as [tu [Htu [Hcu E]]].
  rewrite (PermissionFacts.stored_rows_of _ _ Htu).
  destruct (hd_error _) as [u|].
  2:{ unfold PermissionMore.getUserPermissions, bind. now rewrite E. }
  intros Hsuper. unfold PermissionMore.getUserPermissions, bind at 1.
  rewrite E. cbn [option_map].
  rewrite PermissionFacts.hydrated_column;
    [| rewrite Hcu; distinct_columns
     | rewrite Hcu; simpl; tauto].
  rewrite PermissionFacts.truthy_stored, Hsuper. cbn [negb].
  rewrite (@StoreFacts.select_columns Ambient
             (Model.objects_all AuthModels.Permission)
             AuthModels.Permission [] "SELECT * FROM permissions" [] []
             None tp (Stored.asked s (ask_user uid)));
    try reflexivity; [| exact Htp].
  cbn [take_limit]. do 3 f_equal.
  unfold matches. simpl.
  induction (table_rows tp) as [|r l IH]; simpl; [reflexivity|].
  now rewrite IH.
Qed.

(** X15.  [assignPermission] links a user and a permission once: when a
    [user_permissions] row for the pair is stored it writes nothing, and
    otherwise it appends one row for the pair under the next rowid; no
    other table changes; the number of rows for the pair afterwards is the
    number before, or one if there was none; and a second call with the
    same arguments writes nothing. *)
Theorem assignPermission_links_once (u p : Z) (s : Session D) :
  Grants.laid_out (db s) (@AuthModels.UserPermission Ambient) ->
  let linked := Stored.links "userId" "permissionId" u p in
  exists tb s1 s2,
    obj_lookup (db s) "user_permissions" = Some tb
    /\ PermissionMore.assignPermission D (Num u) (Num p) s = (Normal tt, s1)
    /\ Grants.stored_rows (db s1) "user_permissions"
       = (if existsb linked (table_rows tb) then table_rows tb
          else table_rows tb
                 ++ [Stored.link_row tb "userId" "permissionId" u p])%list
    /\ (forall t, t <> "user_permissions" ->
          obj_lookup (db s1) t = obj_lookup (db s) t)
    /\ List.length
         (List.filter linked (Grants.stored_rows (db s1) "user_permissions"))
       = Nat.max 1 (List.length (List.filter linked (table_rows tb)))
    /\ PermissionMore.assignPermission D (Num u) (Num p) s1 = (Normal tt, s2)
    /\ db s2 = db s1.
Proof.
  intros [tb [Ht Hc]] linked. simpl in Ht, Hc.
  exists tb. rewrite (assignPermission_runs u p s Ht Hc). fold linked.
  assert (Hnew : linked (Stored.link_row tb "userId" "permissionId" u p)
                 = true).
  { unfold linked, Stored.links, Stored.link_row, cell. simpl.
    now rewrite !Z.eqb_refl. }
  destruct (existsb linked (table_rows tb)) eqn:Hex.
  - eexists. exists (Stored.asked (Stored.asked s (ask_link u p))
                                  (ask_link u p)).
    split; [exact Ht|]. split; [reflexivity|].
    cbn [Stored.asked db]. rewrite (PermissionFacts.stored_rows_of _ _ Ht).
    split; [reflexivity|]. split; [reflexivity|]. split.
    + apply existsb_exists in Hex. destruct Hex as [r [Hin Hr]].
      assert (In r (List.filter linked (table_rows tb)))
        by (apply filter_In; now split).
      destruct (List.filter linked (table_rows tb)); [contradiction|].
      simpl. now destruct (List.length l).
    + rewrite (@assignPermission_runs u p tb (Stored.asked s (ask_link u p))
                 Ht Hc).
      fold linked. rewrite Hex. split; reflexivity.
  - set (d1 := Stored.appended (db s) "user_permissions" tb
                 (Stored.link_row tb "userId" "permissionId" u p)).
    set (s1 := Stored.wrote (Stored.asked s (ask_link u p))
                 (insert_link u p) d1).
    set (tb1 := {| columns := columns tb; seq := (seq tb + 1)%Z;
                   table_rows :=
                     (table_rows tb
                        ++ [Stored.link_row tb "userId" "permissionId" u p])%list
                |}).
    assert (Ht1 : obj_lookup (db s1) "user_permissions" = Some tb1)
      by apply ObjFacts.lookup_set_same.
    exists s1, (Stored.asked s1 (ask_link u p)).
    split; [exact Ht|]. split; [reflexivity|].
    rewrite (PermissionFacts.stored_rows_of _ _ Ht1). cbn [tb1 table_rows].
    split; [reflexivity|]. split.
    { intros t Hne. now apply ObjFacts.lookup_set_other. }
    split.
    { rewrite List.filter_app, length_app. cbn [List.filter]. rewrite Hnew.
      assert (List.filter linked (table_rows tb) = []) as ->.
      { clear - Hex. induction (table_rows tb) as [|r l IH]; simpl in *;
          [reflexivity|].
        apply orb_false_iff in Hex. destruct Hex as [-> Hex]. now apply IH. }
      reflexivity. }
    rewrite (@assignPermission_runs u p tb1 s1 Ht1 Hc).
    cbn [tb1 table_rows]. fold linked.
    rewrite existsb_app. cbn [existsb]. rewrite Hnew, orb_true_r.
    split; reflexivity.
Qed.

(** X16.  After [assignPermission(userId, permissionId)], for a user who
    exists and is not a superuser and a stored permission with that id,
    [hasPermission(userId, codename)] returns [true] for the codename of
    the permission; and what any other user is granted is as before. *)
Theorem assignPermission_then_hasPermission (u pid : Z) (c : string)
    (s : Session D) :
  Grants.auth_schema now_iso (db s) -> Grants.plain_user (db s) u ->
  (exists p,
      In p (Grants.stored_rows (db s) "permissions")
      /\ cell p "id" = SInt pid /\ cell p "codename" = SText c) ->
  exists s1 s2,
    PermissionMore.assignPermission D (Num u) (Num pid) s = (Normal tt, s1)
    /\ PermissionService.hasPermission now_iso D (Num u) c s1
       = (Normal true, s2)
    /\ db s2 = db s1
    /\ (forall v c', v <> u ->
          Grants.granted (db s1) v c' <-> Grants.granted (db s) v c').
Proof.
  intros Hschema Huser [p [Hp [Hpid Hcode]]].
  assert (Hl : Grants.laid_out (db s) (@AuthModels.UserPermission Ambient))
    by apply Hschema.
  destruct Hl as [tb [Ht Hc]]. simpl in Ht, Hc.
  rewrite (assignPermission_runs u pid s Ht Hc).
  set (linked := Stored.links "userId" "permissionId" u pid).
  set (row := Stored.link_row tb "userId" "permissionId" u pid).
  set (d1 := if existsb linked (table_rows tb) then db s
             else Stored.appended (db s) "user_permissions" tb row).
  set (s1 := if existsb linked (table_rows tb) then _ else _).
  assert (Hdb1 : db s1 = d1)
    by (unfold s1, d1; now destruct (existsb linked (table_rows tb))).
  (* the tables after the call *)
  assert (Hother : forall t, t <> "user_permissions" ->
            Grants.stored_rows d1 t = Grants.stored_rows (db s) t).
  { intros t Hne. unfold d1.
    destruct (existsb linked (table_rows tb)); [reflexivity|].
    unfold Stored.appended. rewrite stored_rows_set.
    destruct (String.eqb_spec "user_permissions" t); [congruence|reflexivity].
  }
  assert (Hlinks : forall l,
            In l (Grants.stored_rows d1 "user_permissions")
            <-> In l (table_rows tb) \/ (l = row /\ existsb linked (table_rows tb) = false)).
  { intros l. unfold d1. destruct (existsb linked (table_rows tb)).
    - rewrite (PermissionFacts.stored_rows_of _ _ Ht).
      intuition discriminate.
    - unfold Stored.appended. rewrite stored_rows_set. cbn [String.eqb Ascii.eqb Bool.eqb table_rows].
      rewrite in_app_iff. simpl. intuition. }
  assert (Hschema1 : Grants.auth_schema now_iso d1).
  { unfold d1. destruct (existsb linked (table_rows tb)); [assumption|].
    apply (auth_schema_set _ Ht); [reflexivity | discriminate | discriminate
                                   | assumption]. }
  assert (Huser1 : Grants.plain_user d1 u).
  { destruct Huser as [x Hx]. exists x.
    rewrite (Hother "users") by discriminate. exact Hx. }
  rewrite <- Hdb1 in Hschema1, Huser1.
  destruct (@PermissionFacts.hasPermission_computed Ambient now_iso u c s1
              Hschema1 Huser1) as [s2 [E2 Hdb2]].
  exists s1, s2. split; [reflexivity|].
  assert (Hpu : Grants.unique_ids (Grants.stored_rows (db s1) "permissions")
                = true) by apply Hschema1.
  assert (Hheld : Grants.holds_directly (db s1) u c = true).
  { apply (PermissionFacts.holds_directly_iff _ _ _ Hpu).
    rewrite Hdb1.
    assert (Hsome : exists l, In l (Grants.stored_rows d1 "user_permissions")
                              /\ linked l = true).
    { destruct (existsb linked (table_rows tb)) eqn:Hex.
      - apply existsb_exists in Hex. destruct Hex as [l [Hin Hl]].
        exists l. split; [apply Hlinks; now left | exact Hl].
      - exists row. split; [apply Hlinks; now right|].
        unfold linked, Stored.links, row, Stored.link_row, cell. simpl.
        now rewrite !Z.eqb_refl. }
    destruct Hsome as [l [Hin Hl]].
    unfold linked, Stored.links in Hl. apply andb_true_iff in Hl.
    destruct Hl as [Hlu Hlp].
    apply PermissionFacts.sql_eq_SInt in Hlu.
    apply PermissionFacts.sql_eq_SInt in Hlp.
    exists l, p. split; [exact Hin|]. split; [exact Hlu|].
    rewrite (Hother "permissions") by discriminate. split; [exact Hp|]. split; [|exact Hcode].
    rewrite Hpid, Hlp. simpl. apply Z.eqb_refl. }
  rewrite E2, Hheld. split; [reflexivity|]. split; [exact Hdb2|].
  intros v c' Hne. rewrite Hdb1.
  unfold Grants.granted, Grants.granted_directly, Grants.granted_by_group.
  rewrite (Hother "permissions"), (Hother "user_groups"),
    (Hother "group_permissions") by discriminate.
  assert (Hdirect :
    (exists link q,
        In link (Grants.stored_rows d1 "user_permissions")
        /\ cell link "userId" = SInt v
        /\ In q (Grants.stored_rows (db s) "permissions")
        /\ sql_eq (cell q "id") (cell link "permissionId") = true
        /\ cell q "codename" = SText c')
    <-> (exists link q,
            In link (Grants.stored_rows (db s) "user_permissions")
            /\ cell link "userId" = SInt v
            /\ In q (Grants.stored_rows (db s) "permissions")
            /\ sql_eq (cell q "id") (cell link "permissionId") = true
            /\ cell q "codename" = SText c')).
  { rewrite (PermissionFacts.stored_rows_of _ _ Ht). split.
    - intros [link [q [Hin H]]]. exists link, q. split; [|exact H].
      apply Hlinks in Hin. destruct Hin as [Hin|[-> _]]; [exact Hin|].
      exfalso. destruct H as [Hv _]. unfold row, Stored.link_row, cell in Hv.
      simpl in Hv. congruence.
    - intros [link [q [Hin H]]]. exists link, q. split; [|exact H].
      apply Hlinks. now left. }
  rewrite Hdirect. reflexivity.
Qed.

Local Abbreviation delete_link x :=
  (@mkCall Ambient StmtRun "DELETE FROM user_permissions WHERE id = ?"
     [js_of_sql x]).

(** [revokePermission] on the store, for a link with an [id] that reads as
    true. *)
Lemma revokePermission_runs (u p : Z) (tb : Table) (s : Session D) :
  obj_lookup (db s) "user_permissions" = Some tb ->
  columns tb = ["id"; "userId"; "permissionId"] ->
  PermissionMore.revokePermission D (Num u) (Num p) s
  = match hd_error (List.filter (Stored.links "userId" "permissionId" u p)
                                (table_rows tb)) with
    | None => (Normal tt, Stored.asked s (ask_link u p))
    | Some r =>
        if Grants.falsy (cell r "id") then
          (Throw (Error "Cannot delete unsaved object"),
           Stored.asked s (ask_link u p))
        else
          (Normal tt,
           Stored.wrote (Stored.asked s (ask_link u p))
             (delete_link (cell r "id"))
             (obj_set (db s) "user_permissions"
                (with_rows tb
                   (List.filter
                      (fun r' => negb (sql_eq (cell r' "id") (cell r "id")))
                      (table_rows tb)))))
    end.
Proof.
  intros Ht Hc.
  destruct (hd_error _) as [r|] eqn:Hfirst.
  2:{ unfold PermissionMore.revokePermission, bind at 1.
      rewrite (@StoreFacts.get_columns Ambient AuthModels.UserPermission
                 [("userId", VNum (Num u)); ("permissionId", VNum (Num p))]
                 ["userId"; "permissionId"]
                 "SELECT * FROM user_permissions WHERE userId = ? AND permissionId = ? LIMIT 1"
                 [VNum (Num u); VNum (Num p)] [SInt u; SInt p] tb s);
        [| reflexivity | reflexivity | reflexivity | exact Ht
         | unfold known; rewrite Hc; reflexivity | reflexivity].
      rewrite (List.filter_ext _ _ (matches_two "userId" "permissionId" u p)).
      now rewrite Hfirst. }
  unfold PermissionMore.revokePermission, bind at 1.
  rewrite (@StoreFacts.get_columns Ambient AuthModels.UserPermission
             [("userId", VNum (Num u)); ("permissionId", VNum (Num p))]
             ["userId"; "permissionId"]
             "SELECT * FROM user_permissions WHERE userId = ? AND permissionId = ? LIMIT 1"
             [VNum (Num u); VNum (Num p)] [SInt u; SInt p] tb s);
    [| reflexivity | reflexivity | reflexivity | exact Ht
     | unfold known; rewrite Hc; reflexivity | reflexivity].
  rewrite (List.filter_ext _ _ (matches_two "userId" "permissionId" u p)).
  rewrite Hfirst. cbn [option_map].
  destruct (Grants.falsy (cell r "id")) eqn:Hid.
  { unfold Model.delete.
    rewrite PermissionFacts.hydrated_column;
      [| rewrite Hc; distinct_columns | column Hc].
    rewrite PermissionFacts.truthy_stored, Hid. reflexivity. }
  rewrite (@StoreFacts.delete_row Ambient AuthModels.UserPermission tb tb r);
    [reflexivity | rewrite Hc; distinct_columns | column Hc | column Hc
     | exact Hid | reflexivity | exact Ht].
Qed.

Lemma sql_eq_sym (a b : SqlValue) : sql_eq a b = sql_eq b a.
Proof.
  destruct a, b; simpl; try reflexivity;
    [apply Z.eqb_sym | apply String.eqb_sym].
Qed.

Lemma sql_eq_refl (a : SqlValue) :
  Grants.falsy a = false -> sql_eq a a = true.
Proof.
  destruct a; simpl; [discriminate | intros _; apply Z.eqb_refl
                      | intros _; apply String.eqb_refl].
Qed.

(** Under a primary key, removing the rows with the [id] of the first
    match removes the first match only. *)
Lemma without_first_by_id (hit : obj SqlValue -> bool)
    (rs : list (obj SqlValue)) (r : obj SqlValue) :
  Grants.unique_ids rs = true -> Stored.ids_set rs = true ->
  hd_error (List.filter hit rs) = Some r ->
  List.filter (fun r' => negb (sql_eq (cell r' "id") (cell r "id"))) rs
  = Stored.without_first hit rs.
Proof.
  induction rs as [|r0 rest IH]; simpl; intros Hu Hs Hfirst; [discriminate|].
  apply andb_true_iff in Hu. destruct Hu as [Hfresh Hu].
  apply andb_true_iff in Hs. destruct Hs as [Hid0 Hs].
  apply negb_true_iff in Hfresh, Hid0.
  destruct (hit r0) eqn:Hhit.
  - inversion Hfirst; subst r0. rewrite (sql_eq_refl _ Hid0). simpl.
    clear - Hfresh. induction rest as [|x rest IH]; simpl in *;
      [reflexivity|].
    apply orb_false_iff in Hfresh. destruct Hfresh as [-> Hfresh].
    simpl. f_equal. now apply IH.
  - assert (Hin : In r rest).
    { apply (PermissionFacts.first_match hit rest Hfirst). }
    assert (Hne : sql_eq (cell r0 "id") (cell r "id") = false).
    { rewrite sql_eq_sym.
      destruct (sql_eq (cell r "id") (cell r0 "id")) eqn:E; [|reflexivity].
      assert (existsb (fun r' => sql_eq (cell r' "id") (cell r0 "id")) rest
              = true)
        by (apply existsb_exists; now exists r).
      congruence. }
    rewrite Hne. simpl. f_equal. now apply IH.
Qed.

Lemma length_without_first (hit : obj SqlValue -> bool)
    (rs : list (obj SqlValue)) :
  List.length (List.filter hit (Stored.without_first hit rs))
  = Nat.pred (List.length (List.filter hit rs)).
Proof.
  induction rs as [|r rest IH]; simpl; [reflexivity|].
  destruct (hit r) eqn:E; simpl; [reflexivity|].
  now rewrite E.
Qed.

(** X17.  [revokePermission] removes one link: on a [user_permissions]
    table whose rows have distinct ids that read as true, it returns, the
    first stored row for the pair is gone and every other row stays in
    place, so a pair linked by several rows stays linked; no other table
    changes; and for a pair that is not linked nothing is written. *)
Theorem revokePermission_removes_first_link (u p : Z) (s : Session D) :
  Grants.laid_out (db s) (@AuthModels.UserPermission Ambient) ->
  Grants.unique_ids (Grants.stored_rows (db s) "user_permissions") = true ->
  Stored.ids_set (Grants.stored_rows (db s) "user_permissions") = true ->
  let linked := Stored.links "userId" "permissionId" u p in
  exists s1,
    PermissionMore.revokePermission D (Num u) (Num p) s = (Normal tt, s1)
    /\ Grants.stored_rows (db s1) "user_permissions"
       = Stored.without_first linked
           (Grants.stored_rows (db s) "user_permissions")
    /\ List.length
         (List.filter linked (Grants.stored_rows (db s1) "user_permissions"))
       = Nat.pred
           (List.length
              (List.filter linked
                 (Grants.stored_rows (db s) "user_permissions")))
    /\ (forall t, t <> "user_permissions" ->
          obj_lookup (db s1) t = obj_lookup (db s) t)
    /\ (existsb linked (Grants.stored_rows (db s) "user_permissions") = false
        -> db s1 = db s).
Proof.
  intros [tb [Ht Hc]] Hu Hs linked. simpl in Ht, Hc.
  rewrite (PermissionFacts.stored_rows_of _ _ Ht) in *.
  rewrite (revokePermission_runs u p s Ht Hc). fold linked.
  pose proof (first_or_none linked (table_rows tb)) as Hfirst.
  destruct (hd_error (List.filter linked (table_rows tb))) as [r|] eqn:E.
  - destruct Hfirst as [Hex [Hin Hr]].
    assert (Hid : Grants.falsy (cell r "id") = false).
    { unfold Stored.ids_set in Hs. rewrite forallb_forall in Hs.
      apply negb_true_iff. now apply Hs. }
    rewrite Hid. eexists. split; [reflexivity|].
    cbn [Stored.wrote db]. rewrite stored_rows_set. cbn [String.eqb Ascii.eqb Bool.eqb].
    cbn [with_rows table_rows].
    rewrite (without_first_by_id linked _ Hu Hs E).
    split; [reflexivity|]. split; [apply length_without_first|]. split.
    + intros t Hne. now apply ObjFacts.lookup_set_other.
    + congruence.
  - eexists. split; [reflexivity|]. cbn [Stored.asked db].
    rewrite (PermissionFacts.stored_rows_of _ _ Ht).
    assert (Hsame : Stored.without_first linked (table_rows tb)
                    = table_rows tb).
    { clear - Hfirst. induction (table_rows tb) as [|x l IH]; simpl in *;
        [reflexivity|].
      apply orb_false_iff in Hfirst. destruct Hfirst as [-> H].
      f_equal. now apply IH. }
    rewrite Hsame. split; [reflexivity|]. split.
    + assert (List.filter linked (table_rows tb) = []) as ->; [|reflexivity].
      destruct (List.filter linked (table_rows tb)); [reflexivity|discriminate].
    + split; reflexivity.
Qed.

Lemma filter_none (P : obj SqlValue -> bool) (l : list (obj SqlValue)) :
  existsb P l = false -> List.filter P l = [].
Proof.
  induction l as [|r l IH]; simpl; [reflexivity|].
  intros H. apply orb_false_iff in H. destruct H as [-> H]. now apply IH.
Qed.

Lemma filter_every (P : obj SqlValue -> bool) (l : list (obj SqlValue)) :
  forallb P l = true -> List.filter P l = l.
Proof.
  induction l as [|r l IH]; simpl; [reflexivity|].
  intros H. apply andb_true_iff in H. destruct H as [-> H].
  f_equal. now apply IH.
Qed.

(** X18.  [revokePermission] undoes [assignPermission]: for a pair that is
    not linked, on a [user_permissions] table whose next rowid is positive
    and not in use, the two calls in a row return and leave the rows of the
    table, and every other table, as they were. *)
Theorem revokePermission_undoes_assignPermission (u p : Z) (tb : Table)
    (s : Session D) :
  obj_lookup (db s) "user_permissions" = Some tb ->
  columns tb = ["id"; "userId"; "permissionId"] ->
  existsb (Stored.links "userId" "permissionId" u p) (table_rows tb)
  = false ->
  Stored.next_id_free tb = true ->
  (0 <= seq tb)%Z ->
  exists s1 s2,
    PermissionMore.assignPermission D (Num u) (Num p) s = (Normal tt, s1)
    /\ PermissionMore.revokePermission D (Num u) (Num p) s1 = (Normal tt, s2)
    /\ Grants.stored_rows (db s2) "user_permissions" = table_rows tb
    /\ (forall t, t <> "user_permissions" ->
          obj_lookup (db s2) t = obj_lookup (db s) t).
Proof.
  intros Ht Hc Hex Hfree Hseq.
  rewrite (assignPermission_runs u p s Ht Hc), Hex.
  set (linked := Stored.links "userId" "permissionId" u p) in *.
  set (row := Stored.link_row tb "userId" "permissionId" u p).
  set (s1 := Stored.wrote _ _ _).
  set (tb1 := {| columns := columns tb; seq := (seq tb + 1)%Z;
                 table_rows := (table_rows tb ++ [row])%list |}).
  assert (Ht1 : obj_lookup (db s1) "user_permissions" = Some tb1)
    by apply ObjFacts.lookup_set_same.
  assert (Hrow : linked row = true).
  { unfold linked, Stored.links, row, Stored.link_row, cell. simpl.
    now rewrite !Z.eqb_refl. }
  exists s1. rewrite (@revokePermission_runs u p tb1 s1 Ht1 Hc).
  fold linked. cbn [tb1 table_rows].
  rewrite List.filter_app, (filter_none _ _ Hex). cbn [List.filter app].
  rewrite Hrow. cbn [hd_error].
  assert (Hid : cell row "id" = SInt (seq tb + 1)) by reflexivity.
  rewrite Hid. cbn [Grants.falsy].
  destruct (Z.eqb_spec (seq tb + 1) 0) as [E|_]; [lia|].
  eexists. split; [reflexivity|]. split; [reflexivity|].
  cbn [Stored.wrote db]. rewrite stored_rows_set.
  cbn [String.eqb Ascii.eqb Bool.eqb with_rows table_rows].
  split.
  - rewrite List.filter_app. cbn [List.filter]. rewrite Hid.
    cbn [sql_eq]. rewrite Z.eqb_refl. cbn [negb].
    rewrite (filter_every _ _ Hfree). apply app_nil_r.
  - intros t Hne. rewrite ObjFacts.lookup_set_other by congruence.
    unfold s1. cbn [Stored.wrote db]. unfold Stored.appended.
    now apply ObjFacts.lookup_set_other.
Qed.

Local Abbreviation ask_codename c :=
  (@mkCall Ambient StmtAll
     "SELECT * FROM permissions WHERE codename = ? LIMIT 1" [VStr c]).

Local Abbreviation insert_permission name c modelName :=
  (@mkCall Ambient StmtRun
     "INSERT INTO permissions (name, codename, modelName) VALUES (?, ?, ?)"
     [VStr name; VStr c; VStr modelName]).

(** [Permission.objects.get({ codename })] on the store. *)
Lemma get_by_codename (c : string) (tb : Table) (s : Session D) :
  obj_lookup (db s) "permissions" = Some tb ->
  columns tb = ["id"; "name"; "codename"; "modelName"] ->
  Model.objects_get D AuthModels.Permission [("codename", VStr c)] s
  = (Normal (option_map
               (fun r => QuerySet.hydrate AuthModels.Permission
                           (result_row tb r))
               (hd_error (List.filter (Stored.has_codename c)
                                      (table_rows tb)))),
     Stored.asked s (ask_codename c)).
Proof.
  intros Ht Hc.
  rewrite (@StoreFacts.get_columns Ambient AuthModels.Permission
             [("codename", VStr c)] ["codename"]
             "SELECT * FROM permissions WHERE codename = ? LIMIT 1"
             [VStr c] [SText c] tb s);
    [| reflexivity | reflexivity | reflexivity | exact Ht
     | unfold known; rewrite Hc; reflexivity | reflexivity].
  rewrite (List.filter_ext (matches ["codename"] [SText c])
             (Stored.has_codename c)); [reflexivity|].
  intros r. apply PermissionFacts.matches_one.
Qed.

(** [Permission.objects.create({ name, codename, modelName })] on the
    store. *)
Lemma create_permission (name c modelName : string) (tb : Table)
    (s : Session D) :
  obj_lookup (db s) "permissions" = Some tb ->
  columns tb = ["id"; "name"; "codename"; "modelName"] ->
  exists p,
    Model.objects_create D AuthModels.Permission
      [("name", VStr name); ("codename", VStr c);
       ("modelName", VStr modelName)] s
    = (Normal p,
       Stored.wrote s (insert_permission name c modelName)
         (Stored.appended (db s) "permissions" tb
            (Stored.permission_row tb name c modelName))).
Proof.
  intros Ht Hc. eexists. unfold Model.objects_create.
  rewrite (@StoreFacts.insert_row Ambient _
             [SText name; SText c; SText modelName] tb);
    [reflexivity | reflexivity | reflexivity | reflexivity | exact Ht
     | unfold known; rewrite Hc; reflexivity].
Qed.

(** The loop of [createModelPermissions]: rows are only appended, at most
    one per action, and afterwards each action has a row. *)
Lemma create_for_actions_runs (modelName displayName : string)
    (actions : list string) :
  forall (tb : Table) (s : Session D),
    obj_lookup (db s) "permissions" = Some tb ->
    columns tb = ["id"; "name"; "codename"; "modelName"] ->
    exists (s1 : Session D) (tb1 : Table) (extra : list (obj SqlValue)),
      PermissionMore.create_for_actions D actions modelName displayName s
      = (Normal tt, s1)
      /\ obj_lookup (db s1) "permissions" = Some tb1
      /\ columns tb1 = columns tb
      /\ table_rows tb1 = (table_rows tb ++ extra)%list
      /\ (List.length extra <= List.length actions)%nat
      /\ (forall r, In r extra ->
            cell r "modelName" = SText modelName
            /\ exists a, In a actions
                 /\ cell r "codename"
                    = SText (a ++ "_" ++ toLowerCase modelName)
                 /\ cell r "name" = SText ("Can " ++ a ++ " " ++ displayName))
      /\ (forall a, In a actions ->
            existsb (Stored.has_codename (a ++ "_" ++ toLowerCase modelName))
                    (table_rows tb1) = true)
      /\ (forall t, t <> "permissions" ->
            obj_lookup (db s1) t = obj_lookup (db s) t).
Proof.
  induction actions as [|a rest IH]; intros tb s Ht Hc.
  - exists s, tb, []. cbn [PermissionMore.create_for_actions].
    rewrite app_nil_r.
    split; [reflexivity|]. split; [exact Ht|]. split; [reflexivity|].
    split; [reflexivity|]. split; [simpl; lia|].
    split; [intros r []|]. split; [intros a []|]. reflexivity.
  - cbn [PermissionMore.create_for_actions]. unfold bind at 1.
    rewrite (get_by_codename _ s Ht Hc).
    set (c := a ++ "_" ++ toLowerCase modelName).
    pose proof (first_or_none (Stored.has_codename c) (table_rows tb))
      as Hfirst.
    destruct (hd_error _) as [r|]; cbn [option_map].
    + destruct Hfirst as [Hex _].
      destruct (IH tb (Stored.asked s (ask_codename c)) Ht Hc)
        as [s1 [tb1 [extra [E [Ht1 [Hc1 [Hrows [Hlen [Hextra [Hall Hother]]]]]]]]]].
      exists s1, tb1, extra. split; [exact E|]. split; [exact Ht1|].
      split; [exact Hc1|]. split; [exact Hrows|].
      split; [simpl; lia|]. split.
      { intros x Hx. destruct (Hextra x Hx) as [Hm [a' [Hin H]]].
        split; [exact Hm|]. exists a'. split; [now right | exact H]. }
      split; [|exact Hother].
      intros a' [<-|Hin]; [|now apply Hall].
      rewrite Hrows, existsb_app. fold c. now rewrite Hex.
    + destruct (create_permission ("Can " ++ a ++ " " ++ displayName) c
                  modelName (Stored.asked s (ask_codename c)) Ht Hc)
        as [p Ecreate].
      unfold bind at 1. rewrite Ecreate.
      set (row := Stored.permission_row tb
                    ("Can " ++ a ++ " " ++ displayName) c modelName).
      set (s0 := Stored.wrote _ _ _).
      set (tb0 := {| columns := columns tb; seq := (seq tb + 1)%Z;
                     table_rows := (table_rows tb ++ [row])%list |}).
      assert (Ht0 : obj_lookup (db s0) "permissions" = Some tb0)
        by apply ObjFacts.lookup_set_same.
      destruct (IH tb0 s0 Ht0 Hc)
        as [s1 [tb1 [extra [E [Ht1 [Hc1 [Hrows [Hlen [Hextra [Hall Hother]]]]]]]]]].
      exists s1, tb1, (row :: extra). split; [exact E|]. split; [exact Ht1|].
      split; [exact Hc1|]. split.
      { rewrite Hrows. cbn [tb0 table_rows]. now rewrite <- app_assoc. }
      split; [simpl; lia|]. split.
      { intros x [<-|Hx].
        - split; [reflexivity|]. exists a. split; [now left|].
          split; reflexivity.
        - destruct (Hextra x Hx) as [Hm [a' [Hin H]]].
          split; [exact Hm|]. exists a'. split; [now right | exact H]. }
      split.
      { intros a' [<-|Hin]; [|now apply Hall].
        rewrite Hrows. cbn [tb0 table_rows]. rewrite !existsb_app.
        cbn [existsb]. fold c.
        assert (Stored.has_codename c row = true) as ->.
        { unfold Stored.has_codename, row, Stored.permission_row, cell.
          simpl. apply String.eqb_refl. }
        now rewrite orb_true_r. }
      intros t Hne. rewrite (Hother t Hne).
      unfold s0, Stored.wrote, Stored.appended. cbn [db].
      apply ObjFacts.lookup_set_other. congruence.
Qed.

(** The loop of [createModelPermissions] when each action has a row. *)
Lemma create_for_actions_settled (modelName displayName : string)
    (actions : list string) (tb : Table) :
  columns tb = ["id"; "name"; "codename"; "modelName"] ->
  (forall a, In a actions ->
     existsb (Stored.has_codename (a ++ "_" ++ toLowerCase modelName))
             (table_rows tb) = true) ->
  forall s : Session D,
    obj_lookup (db s) "permissions" = Some tb ->
    exists s1,
      PermissionMore.create_for_actions D actions modelName displayName s
      = (Normal tt, s1)
      /\ db s1 = db s
      /\ List.length (executed s1)
         = (List.length (executed s) + List.length actions)%nat.
Proof.
  intros Hc. induction actions as [|a rest IH]; intros Hall s Ht.
  - exists s. repeat split. simpl. lia.
  - cbn [PermissionMore.create_for_actions]. unfold bind at 1.
    rewrite (get_by_codename _ s Ht Hc).
    pose proof (first_or_none
                  (Stored.has_codename (a ++ "_" ++ toLowerCase modelName))
                  (table_rows tb)) as Hfirst.
    destruct (hd_error _) as [r|]; cbn [option_map].
    + destruct (IH (fun a' H => Hall a' (or_intror H))
                   (Stored.asked s
                      (ask_codename (a ++ "_" ++ toLowerCase modelName))) Ht)
        as [s1 [E [Hdb Hlen]]].
      exists s1. split; [exact E|]. split; [exact Hdb|].
      rewrite Hlen. cbn [Stored.asked executed]. rewrite length_app.
      simpl. lia.
    + rewrite (Hall a (or_introl eq_refl)) in Hfirst. discriminate.
Qed.

(** X19.  [createModelPermissions] is idempotent and only adds: it
    returns; afterwards, for each of view, add, change and delete, a
    permission with the codename [<action>_<lower-cased model name>] (the
    one [hasModelPermission] asks for) is stored; the rows stored before
    stay in place, followed by at most four new rows, each for the given
    model name; no other table changes; and a second call with the same
    arguments runs four selects and writes nothing. *)
Theorem createModelPermissions_idempotent (modelName displayName : string)
    (s : Session D) :
  Grants.laid_out (db s) (@AuthModels.Permission Ambient) ->
  exists s1 s2 extra,
    PermissionMore.createModelPermissions D modelName displayName s
    = (Normal tt, s1)
    /\ (forall action, In action ["view"; "add"; "change"; "delete"] ->
          exists p,
            In p (Grants.stored_rows (db s1) "permissions")
            /\ cell p "codename"
               = SText (action ++ "_" ++ toLowerCase modelName))
    /\ Grants.stored_rows (db s1) "permissions"
       = (Grants.stored_rows (db s) "permissions" ++ extra)%list
    /\ (List.length extra <= 4)%nat
    /\ (forall r, In r extra -> cell r "modelName" = SText modelName)
    /\ (forall t, t <> "permissions" ->
          obj_lookup (db s1) t = obj_lookup (db s) t)
    /\ PermissionMore.createModelPermissions D modelName displayName s1
       = (Normal tt, s2)
    /\ db s2 = db s1
    /\ List.length (executed s2) = (List.length (executed s1) + 4)%nat.
Proof.
  intros [tb [Ht Hc]]. simpl in Ht, Hc.
  unfold PermissionMore.createModelPermissions.
  destruct (@create_for_actions_runs modelName displayName
              ["view"; "add"; "change"; "delete"] tb s Ht Hc)
    as [s1 [tb1 [extra [E [Ht1 [Hc1 [Hrows [Hlen [Hextra [Hall Hother]]]]]]]]]].
  rewrite Hc in Hc1.
  destruct (@create_for_actions_settled modelName displayName
              ["view"; "add"; "change"; "delete"] tb1 Hc1 Hall s1 Ht1)
    as [s2 [E2 [Hdb2 Hlen2]]].
  exists s1, s2, extra. split; [exact E|]. split.
  { intros a Hin. specialize (Hall a Hin). apply existsb_exists in Hall.
    destruct Hall as [p [Hp Hcode]]. exists p.
    rewrite (PermissionFacts.stored_rows_of _ _ Ht1). split; [exact Hp|].
    unfold Stored.has_codename in Hcode.
    destruct (cell p "codename"); simpl in Hcode; try discriminate.
    apply String.eqb_eq in Hcode. now subst. }
  rewrite (PermissionFacts.stored_rows_of _ _ Ht1),
    (PermissionFacts.stored_rows_of _ _ Ht).
  split; [exact Hrows|]. split; [exact Hlen|]. split.
  { intros r Hr. now destruct (Hextra r Hr). }
  split; [exact Hother|]. split; [exact E2|]. split; [exact Hdb2|].
  exact Hlen2.
Qed.

Lemma same_value_zero_stored (a b : SqlValue) :
  JSMore.same_value_zero (@js_of_sql Ambient a) (js_of_sql b)
  = Stored.same_sql a b.
Proof. now destruct a, b. Qed.

Lemma same_sql_eq (a b : SqlValue) : Stored.same_sql a b = true <-> a = b.
Proof.
  destruct a, b; simpl; split; try discriminate; try reflexivity.
  - intros H. apply Z.eqb_eq in H. now subst.
  - intros H. inversion H. apply Z.eqb_refl.
  - intros H. apply String.eqb_eq in H. now subst.
  - intros H. inversion H. apply String.eqb_refl.
Qed.

Lemma set_add_stored (xs : list SqlValue) (x : SqlValue) :
  JSMore.set_add (map (@js_of_sql Ambient) xs) (js_of_sql x)
  = map (@js_of_sql Ambient) (Stored.add_id xs x).
Proof.
  unfold JSMore.set_add, Stored.add_id.
  assert (existsb (JSMore.same_value_zero (@js_of_sql Ambient x))
                  (map (@js_of_sql Ambient) xs)
          = existsb (Stored.same_sql x) xs) as ->.
  { induction xs as [|y xs IH]; simpl; [reflexivity|].
    now rewrite same_value_zero_stored, IH. }
  destruct (existsb (Stored.same_sql x) xs); [reflexivity|].
  now rewrite map_app.
Qed.

(** The loop that collects the permission ids of junction rows. *)
Lemma add_permission_ids_stored (J : ModelClass) (tb : Table)
    (rs : list (obj SqlValue)) :
  NoDup (columns tb) -> In "permissionId" (columns tb) ->
  forall xs,
    PermissionMore.add_permission_ids (map (@js_of_sql Ambient) xs)
      (Grants.answer J tb rs)
    = map (@js_of_sql Ambient) (Stored.ids_of_links xs rs).
Proof.
  intros Hnd Hin. unfold PermissionMore.add_permission_ids,
    Stored.ids_of_links, Grants.answer.
  induction rs as [|r rs IH]; intros xs; simpl; [reflexivity|].
  rewrite (@PermissionFacts.hydrated_column Ambient J tb r "permissionId"
             Hnd Hin).
  rewrite set_add_stored. apply IH.
Qed.

(** The loop over the groups of the user in [getUserPermissions]. *)
Lemma add_group_permission_ids_stored (tm : Table)
    (ms : list (obj SqlValue)) :
  NoDup (columns tm) -> In "groupId" (columns tm) ->
  forall (xs : list SqlValue) (s : Session D),
    Grants.laid_out (db s) (@AuthModels.GroupPermission Ambient) ->
    exists s',
      PermissionMore.add_group_permission_ids D
        (map (@js_of_sql Ambient) xs)
        (Grants.answer AuthModels.UserGroup tm ms) s
      = (Normal (map (@js_of_sql Ambient)
                     (Stored.ids_of_groups (db s) xs ms)), s')
      /\ db s' = db s.
Proof.
  intros Hnd Hin.
  induction ms as [|m ms IH]; intros xs s Hg.
  - exists s. split; reflexivity.
  - cbn [Grants.answer map PermissionMore.add_group_permission_ids].
    fold (Grants.answer (@AuthModels.UserGroup Ambient) tm ms).
    rewrite (@PermissionFacts.hydrated_column Ambient AuthModels.UserGroup
               tm m "groupId" Hnd Hin).
    destruct Hg as [tg [Htg Hcg]]. simpl in Htg, Hcg.
    unfold bind at 1.
    rewrite (@PermissionFacts.select_one_column Ambient
               (Model.objects_filter AuthModels.GroupPermission
                  [("groupId", js_of_sql (cell m "groupId"))])
               AuthModels.GroupPermission "groupId"
               "SELECT * FROM group_permissions WHERE groupId = ?"
               (js_of_sql (cell m "groupId")) (cell m "groupId") None tg s);
      [| reflexivity | reflexivity | apply PermissionFacts.bind_stored
       | reflexivity | exact Htg | unfold known; rewrite Hcg; reflexivity].
    cbn [take_limit].
    rewrite add_permission_ids_stored;
      [| rewrite Hcg; distinct_columns | column Hcg].
    set (s1 := {| ambient := ambient s; db := db s; executed := _ |}).
    assert (Hg1 : Grants.laid_out (db s1)
                    (@AuthModels.GroupPermission Ambient)).
    { exists tg. split; assumption. }
    destruct (IH (Stored.ids_of_links xs
                    (List.filter
                       (fun r => sql_eq (cell r "groupId") (cell m "groupId"))
                       (table_rows tg))) s1 Hg1) as [s2 [E2 Hdb2]].
    exists s2. rewrite E2. split; [|exact Hdb2].
    change (db s1) with (db s).
    change (Stored.ids_of_groups (db s) xs (m :: ms))
      with (Stored.ids_of_groups (db s)
              (Stored.ids_of_links xs
                 (Grants.links_of_group (db s) (cell m "groupId"))) ms).
    assert (Hl : Grants.links_of_group (db s) (cell m "groupId")
                 = List.filter
                     (fun r => sql_eq (cell r "groupId") (cell m "groupId"))
                     (table_rows tg)).
    { unfold Grants.links_of_group.
      now rewrite (PermissionFacts.stored_rows_of _ _ Htg). }
    now rewrite Hl.
Qed.

(** The loop that fetches the permission of each collected id. *)
Lemma fetch_permissions_stored (tp : Table) (xs : list SqlValue) :
  columns tp = ["id"; "name"; "codename"; "modelName"] ->
  forall (acc : list Instance) (s : Session D),
    obj_lookup (db s) "permissions" = Some tp ->
    exists s',
      PermissionMore.fetch_permissions D (map (@js_of_sql Ambient) xs) acc s
      = (Normal (acc ++ Grants.answer AuthModels.Permission tp
                          (Stored.resolved (db s) xs))%list, s')
      /\ db s' = db s.
Proof.
  intros Hc. induction xs as [|x xs IH]; intros acc s Ht.
  - exists s. cbn. rewrite app_nil_r. split; reflexivity.
  - cbn [map PermissionMore.fetch_permissions].
    destruct (@PermissionFacts.get_one_column Ambient AuthModels.Permission
                "id" "SELECT * FROM permissions WHERE id = ? LIMIT 1"
                (js_of_sql x) x tp s) as [s1 [E1 Hdb1]];
      [reflexivity | apply PermissionFacts.bind_stored | reflexivity
       | exact Ht | unfold known; rewrite Hc; reflexivity |].
    unfold bind at 1. rewrite E1.
    assert (Ht1 : obj_lookup (db s1) "permissions" = Some tp)
      by (now rewrite Hdb1).
    cbn [Stored.resolved flat_map]. unfold Grants.permission_of at 1.
    rewrite (PermissionFacts.stored_rows_of _ _ Ht).
    fold (Stored.resolved (db s) xs).
    destruct (hd_error _) as [p|]; cbn [option_map].
    + destruct (IH (acc ++ [QuerySet.hydrate AuthModels.Permission
                              (result_row tp p)])%list s1 Ht1)
        as [s2 [E2 Hdb2]].
      exists s2. rewrite E2, Hdb1. split; [|congruence].
      unfold Grants.answer. cbn [app map]. now rewrite <- app_assoc.
    + destruct (IH acc s1 Ht1) as [s2 [E2 Hdb2]].
      exists s2. rewrite E2, Hdb1. split; [reflexivity | congruence].
Qed.

(** [getUserPermissions] for a user who exists and is not a superuser. *)
Lemma getUserPermissions_computed (uid : Z) (s : Session D) :
  Grants.auth_schema now_iso (db s) -> Grants.plain_user (db s) uid ->
  exists tp s',
    obj_lookup (db s) "permissions" = Some tp
    /\ columns tp = ["id"; "name"; "codename"; "modelName"]
    /\ PermissionMore.getUserPermissions now_iso D (Num uid) s
       = (Normal (Grants.answer AuthModels.Permission tp
                    (Stored.resolved (db s)
                       (Stored.permission_ids (db s) uid))), s')
    /\ db s' = db s.
Proof.
  intros [Hu [Hp [Hup [Hug [Hgp [Huu Hpu]]]]]] [u [Hin [Hid Hsuper]]].
  destruct (get_user uid s Hu) as [tu [Htu [Hcu E]]].
  destruct Hp as [tp [Htp Hcp]]. simpl in Htp, Hcp.
  destruct Hup as [tl [Htl Hcl]]. simpl in Htl, Hcl.
  destruct Hug as [tm [Htm Hcm]]. simpl in Htm, Hcm.
  exists tp. unfold PermissionMore.getUserPermissions, bind at 1.
  rewrite E.
  rewrite (PermissionFacts.stored_rows_of _ _ Htu) in Hin, Huu.
  rewrite (PermissionFacts.first_match_unique _ _ _ Huu Hin)
    by (now apply PermissionFacts.sql_eq_SInt).
  cbn [option_map].
  rewrite PermissionFacts.hydrated_column;
    [| rewrite Hcu; distinct_columns | column Hcu].
  rewrite PermissionFacts.truthy_stored, Hsuper. cbn [negb].
  unfold bind at 1.
  rewrite (@PermissionFacts.select_one_column Ambient
             (Model.objects_filter AuthModels.UserPermission
                [("userId", VNum (Num uid))])
             AuthModels.UserPermission "userId"
             "SELECT * FROM user_permissions WHERE userId = ?"
             (VNum (Num uid)) (SInt uid) None tl
             (Stored.asked s (ask_user uid)));
    [| reflexivity | reflexivity | reflexivity | reflexivity
     | exact Htl | unfold known; rewrite Hcl; reflexivity].
  cbn [take_limit].
  rewrite (@add_permission_ids_stored AuthModels.UserPermission tl _
             ltac:(rewrite Hcl; distinct_columns) ltac:(column Hcl) []).
  set (s2 := {| ambient := _; db := _; executed := _ |}).
  unfold bind at 1.
  rewrite (@PermissionFacts.select_one_column Ambient
             (Model.objects_filter AuthModels.UserGroup
                [("userId", VNum (Num uid))])
             AuthModels.UserGroup "userId"
             "SELECT * FROM user_groups WHERE userId = ?"
             (VNum (Num uid)) (SInt uid) None tm s2);
    [| reflexivity | reflexivity | reflexivity | reflexivity
     | exact Htm | unfold known; rewrite Hcm; reflexivity].
  cbn [take_limit].
  set (s3 := {| ambient := _; db := _; executed := _ |}).
  destruct (@add_group_permission_ids_stored tm
              (List.filter (fun r => sql_eq (cell r "userId") (SInt uid))
                           (table_rows tm))
              ltac:(rewrite Hcm; distinct_columns) ltac:(column Hcm)
              (Stored.ids_of_links []
                 (List.filter (fun r => sql_eq (cell r "userId") (SInt uid))
                              (table_rows tl)))
              s3 Hgp) as [s4 [E4 Hdb4]].
  unfold bind at 1. rewrite E4.
  assert (Ht4 : obj_lookup (db s4) "permissions" = Some tp)
    by (rewrite Hdb4; exact Htp).
  destruct (@fetch_permissions_stored tp
              (Stored.ids_of_groups (db s3)
                 (Stored.ids_of_links []
                    (List.filter
                       (fun r => sql_eq (cell r "userId") (SInt uid))
                       (table_rows tl)))
                 (List.filter (fun r => sql_eq (cell r "userId") (SInt uid))
                              (table_rows tm)))
              Hcp [] s4 Ht4) as [s5 [E5 Hdb5]].
  exists s5. split; [exact Htp|]. split; [exact Hcp|].
  rewrite E5. cbn [app]. rewrite Hdb4.
  change (db s3) with (db s).
  unfold Stored.permission_ids, Grants.links_of_user,
    Grants.memberships_of_user.
  rewrite (PermissionFacts.stored_rows_of _ _ Htl),
    (PermissionFacts.stored_rows_of _ _ Htm).
  split; [reflexivity|]. now rewrite Hdb5, Hdb4.
Qed.

Lemma In_add_id (xs : list SqlValue) (x y : SqlValue) :
  In y (Stored.add_id xs x) <-> In y xs \/ y = x.
Proof.
  unfold Stored.add_id. destruct (existsb (Stored.same_sql x) xs) eqn:E.
  - apply existsb_exists in E. destruct E as [z [Hz Hs]].
    apply same_sql_eq in Hs. subst z.
    split; [tauto | intros [H| ->]; assumption].
  - rewrite in_app_iff. simpl. intuition congruence.
Qed.

Lemma NoDup_add_id (xs : list SqlValue) (x : SqlValue) :
  NoDup xs -> NoDup (Stored.add_id xs x).
Proof.
  intros Hnd. unfold Stored.add_id.
  destruct (existsb (Stored.same_sql x) xs) eqn:E; [assumption|].
  apply NoDup_app; [assumption | repeat constructor; simpl; tauto |].
  intros y Hy [->|[]].
  assert (existsb (Stored.same_sql y) xs = true); [|congruence].
  apply existsb_exists. exists y. split; [assumption|].
  now apply same_sql_eq.
Qed.

Lemma In_ids_of_links (rs : list (obj SqlValue)) :
  forall (xs : list SqlValue) (x : SqlValue),
    In x (Stored.ids_of_links xs rs)
    <-> In x xs \/ exists l, In l rs /\ cell l "permissionId" = x.
Proof.
  unfold Stored.ids_of_links.
  induction rs as [|r rs IH]; intros xs x; simpl.
  - split; [tauto | intros [H|[l [[] _]]]; exact H].
  - rewrite IH, In_add_id. split.
    + intros [[H|H]|[l [Hl H]]]; [now left | right | right].
      * exists r. split; [now left | now symmetry].
      * exists l. split; [now right | exact H].
    + intros [H|[l [[<-|Hl] H]]]; [tauto | left; right; now symmetry |].
      right. now exists l.
Qed.

Lemma NoDup_ids_of_links (rs : list (obj SqlValue)) :
  forall xs, NoDup xs -> NoDup (Stored.ids_of_links xs rs).
Proof.
  unfold Stored.ids_of_links.
  induction rs as [|r rs IH]; intros xs Hnd; simpl; [assumption|].
  apply IH, NoDup_add_id, Hnd.
Qed.

Lemma In_ids_of_groups (d : Store) (ms : list (obj SqlValue)) :
  forall (xs : list SqlValue) (x : SqlValue),
    In x (Stored.ids_of_groups d xs ms)
    <-> In x xs
        \/ exists m l,
             In m ms
             /\ In l (Grants.links_of_group d (cell m "groupId"))
             /\ cell l "permissionId" = x.
Proof.
  unfold Stored.ids_of_groups.
  induction ms as [|m ms IH]; intros xs x; simpl.
  - split; [tauto | intros [H|[m [l [[] _]]]]; exact H].
  - rewrite IH, In_ids_of_links. split.
    + intros [[H|[l [Hl H]]]|[m' [l [Hm H]]]].
      * now left.
      * right. exists m, l. tauto.
      * right. exists m', l. tauto.
    + intros [H|[m' [l [[<-|Hm] H]]]].
      * tauto.
      * left. right. exists l. tauto.
      * right. exists m', l. tauto.
Qed.

Lemma NoDup_ids_of_groups (d : Store) (ms : list (obj SqlValue)) :
  forall xs, NoDup xs -> NoDup (Stored.ids_of_groups d xs ms).
Proof.
  unfold Stored.ids_of_groups.
  induction ms as [|m ms IH]; intros xs Hnd; simpl; [assumption|].
  apply IH, NoDup_ids_of_links, Hnd.
Qed.

(** The collected ids resolve to the codename exactly when a link of the
    user, direct or through a group, carries it. *)
Lemma permission_ids_resolve (d : Store) (uid : Z) (c : string) :
  existsb (Stored.resolves_to d c) (Stored.permission_ids d uid)
  = Grants.holds_directly d uid c || Grants.holds_by_group d uid c.
Proof.
  apply Bool.eq_true_iff_eq.
  rewrite orb_true_iff. unfold Grants.holds_directly, Grants.holds_by_group.
  rewrite !existsb_exists. unfold Stored.permission_ids. split.
  - intros [x [Hx Hr]]. apply In_ids_of_groups in Hx.
    destruct Hx as [Hx|[m [l [Hm [Hl <-]]]]].
    + apply In_ids_of_links in Hx. destruct Hx as [[]|[l [Hl <-]]].
      left. now exists l.
    + right. exists m. split; [exact Hm|]. apply existsb_exists.
      now exists l.
  - intros [[l [Hl Hc]]|[m [Hm Hex]]].
    + exists (cell l "permissionId"). split; [|exact Hc].
      apply In_ids_of_groups. left. apply In_ids_of_links. right.
      now exists l.
    + apply existsb_exists in Hex. destruct Hex as [l [Hl Hc]].
      exists (cell l "permissionId"). split; [|exact Hc].
      apply In_ids_of_groups. right. now exists m, l.
Qed.

Lemma sql_eq_eq (a b : SqlValue) : sql_eq a b = true -> a = b.
Proof.
  destruct a, b; simpl; try discriminate.
  - intros H. apply Z.eqb_eq in H. now subst.
  - intros H. apply String.eqb_eq in H. now subst.
Qed.

Lemma js_of_sql_injective (a b : SqlValue) :
  @js_of_sql Ambient a = js_of_sql b -> a = b.
Proof. destruct a, b; simpl; intros H; now inversion H. Qed.

Lemma NoDup_stored (xs : list SqlValue) :
  NoDup xs -> NoDup (map (@js_of_sql Ambient) xs).
Proof.
  induction xs as [|x xs IH]; simpl; intros Hnd; [constructor|].
  inversion Hnd as [|? ? Hx Hxs]; subst. constructor; [|now apply IH].
  intros Hin. apply in_map_iff in Hin. destruct Hin as [y [Hy Hin]].
  apply js_of_sql_injective in Hy. now subst.
Qed.

(** The permissions the collected ids resolve to have distinct ids. *)
Lemma resolved_ids (d : Store) (xs : list SqlValue) :
  map (fun p => cell p "id") (Stored.resolved d xs)
  = List.filter
      (fun x => match Grants.permission_of d x with
                | Some _ => true
                | None => false
                end) xs.
Proof.
  unfold Stored.resolved.
  induction xs as [|x xs IH]; simpl; [reflexivity|].
  destruct (Grants.permission_of d x) as [p|] eqn:E; simpl; [|exact IH].
  rewrite IH. f_equal. unfold Grants.permission_of in E.
  apply PermissionFacts.first_match in E. now apply sql_eq_eq.
Qed.

(** X20.  [getUserPermissions] and [hasPermission] agree: for a user who
    exists and is not a superuser, [getUserPermissions] returns, changes
    nothing in the database, and lists a permission with a given codename
    exactly when [hasPermission] returns [true] for that codename, which
    is when the codename is granted directly or through a group; and no
    two permissions it lists have the same id. *)
Theorem getUserPermissions_agrees_with_hasPermission (uid : Z)
    (s : Session D) :
  Grants.auth_schema now_iso (db s) -> Grants.plain_user (db s) uid ->
  exists ps s',
    PermissionMore.getUserPermissions now_iso D (Num uid) s
    = (Normal ps, s')
    /\ db s' = db s
    /\ (forall c,
          fst (PermissionService.hasPermission now_iso D (Num uid) c s)
          = Normal
              (existsb
                 (fun p =>
                    PermissionService.strict_equal_string
                      (ModelStatic.get p "codename") c) ps))
    /\ (forall c,
          (exists p, In p ps /\ ModelStatic.get p "codename" = VStr c)
          <-> Grants.granted (db s) uid c)
    /\ NoDup (map (fun p => ModelStatic.get p "id") ps).
Proof.
  intros Hschema Huser.
  destruct (getUserPermissions_computed s Hschema Huser)
    as [tp [s' [Htp [Hcp [E Hdb]]]]].
  eexists. exists s'. split; [exact E|]. split; [exact Hdb|].
  assert (Hpu : Grants.unique_ids (Grants.stored_rows (db s) "permissions")
                = true) by apply Hschema.
  assert (Hcode : forall c p,
            PermissionService.strict_equal_string
              (ModelStatic.get
                 (QuerySet.hydrate (@AuthModels.Permission Ambient)
                    (result_row tp p)) "codename") c
            = match cell p "codename" with
              | SText t => String.eqb t c
              | _ => false
              end).
  { intros c p. rewrite PermissionFacts.hydrated_column;
      [apply PermissionFacts.strict_equal_stored
      | rewrite Hcp; distinct_columns | column Hcp]. }
  assert (Hlisted : forall c,
            existsb
              (fun p : Instance =>
                 PermissionService.strict_equal_string
                   (ModelStatic.get p "codename") c)
              (Grants.answer AuthModels.Permission tp
                 (Stored.resolved (db s) (Stored.permission_ids (db s) uid)))
            = Grants.holds_directly (db s) uid c
              || Grants.holds_by_group (db s) uid c).
  { intros c. rewrite <- permission_ids_resolve.
    unfold Grants.answer, Stored.resolved. clear - Hcode.
    induction (Stored.permission_ids (db s) uid) as [|x xs IH];
      [reflexivity|].
    cbn [flat_map]. rewrite map_app, existsb_app, IH. cbn [existsb].
    f_equal. unfold Stored.resolves_to.
    destruct (Grants.permission_of (db s) x) as [p|]; [|reflexivity].
    cbn [map existsb]. now rewrite Hcode, orb_false_r. }
  split; [|split].
  - intros c.
    destruct (@PermissionFacts.hasPermission_computed Ambient now_iso uid c
                s Hschema Huser) as [s2 [E2 _]].
    rewrite E2. cbn [fst]. now rewrite Hlisted.
  - intros c. unfold Grants.granted.
    rewrite <- (PermissionFacts.holds_directly_iff _ _ _ Hpu),
      <- (PermissionFacts.holds_by_group_iff _ _ _ Hpu),
      <- orb_true_iff, <- Hlisted, existsb_exists.
    split; intros [p [Hin H]]; exists p; (split; [exact Hin|]).
    + rewrite H. simpl. apply String.eqb_refl.
    + destruct (ModelStatic.get p "codename"); simpl in H;
        try discriminate.
      apply String.eqb_eq in H. now subst.
  - unfold Grants.answer. rewrite map_map.
    rewrite (map_ext _ (fun p => js_of_sql (cell p "id"))).
    2:{ intros p. apply PermissionFacts.hydrated_column;
          [rewrite Hcp; distinct_columns | column Hcp]. }
    rewrite <- (map_map (fun p => cell p "id") (@js_of_sql Ambient)).
    apply NoDup_stored.
    rewrite resolved_ids. apply NoDup_filter.
    unfold Stored.permission_ids.
    apply NoDup_ids_of_groups, NoDup_ids_of_links. constructor.
Qed.

Local Abbreviation ask_membership u g :=
  (@mkCall Ambient StmtAll
     "SELECT * FROM user_groups WHERE userId = ? AND groupId = ? LIMIT 1"
     [VNum (Num u); VNum (Num g)]).

Local Abbreviation insert_membership u g :=
  (@mkCall Ambient StmtRun
     "INSERT INTO user_groups (userId, groupId) VALUES (?, ?)"
     [VNum (Num u); VNum (Num g)]).

Local Abbreviation delete_membership x :=
  (@mkCall Ambient StmtRun "DELETE FROM user_groups WHERE id = ?"
     [js_of_sql x]).

(** [UserGroup.objects.get({ userId, groupId })] on the store. *)
Lemma get_membership (u g : Z) (tb : Table) (s : Session D) :
  obj_lookup (db s) "user_groups" = Some tb ->
  columns tb = ["id"; "userId"; "groupId"] ->
  Model.objects_get D AuthModels.UserGroup
    [("userId", VNum (Num u)); ("groupId", VNum (Num g))] s
  = (Normal (option_map
               (fun r => QuerySet.hydrate AuthModels.UserGroup
                           (result_row tb r))
               (hd_error (List.filter (Stored.links "userId" "groupId" u g)
                                      (table_rows tb)))),
     Stored.asked s (ask_membership u g)).
Proof.
  intros Ht Hc.
  rewrite (@StoreFacts.get_columns Ambient AuthModels.UserGroup
             [("userId", VNum (Num u)); ("groupId", VNum (Num g))]
             ["userId"; "groupId"]
             "SELECT * FROM user_groups WHERE userId = ? AND groupId = ? LIMIT 1"
             [VNum (Num u); VNum (Num g)] [SInt u; SInt g] tb s);
    [| reflexivity | reflexivity | reflexivity | exact Ht
     | unfold known; rewrite Hc; reflexivity | reflexivity].
  now rewrite (List.filter_ext _ _ (matches_two "userId" "groupId" u g)).
Qed.

(** [assignGroup] on the store. *)
Lemma assignGroup_runs (u g : Z) (tb : Table) (s : Session D) :
  obj_lookup (db s) "user_groups" = Some tb ->
  columns tb = ["id"; "userId"; "groupId"] ->
  PermissionMore.assignGroup D (Num u) (Num g) s
  = (Normal tt,
     if existsb (Stored.links "userId" "groupId" u g) (table_rows tb)
     then Stored.asked s (ask_membership u g)
     else Stored.wrote (Stored.asked s (ask_membership u g))
            (insert_membership u g)
            (Stored.appended (db s) "user_groups" tb
               (Stored.link_row tb "userId" "groupId" u g))).
Proof.
  intros Ht Hc. unfold PermissionMore.assignGroup, bind at 1.
  rewrite (get_membership u g s Ht Hc).
  pose proof (first_or_none (Stored.links "userId" "groupId" u g)
                (table_rows tb)) as Hfirst.
  destruct (hd_error _) as [r|].
  - destruct Hfirst as [-> _]. reflexivity.
  - rewrite Hfirst. cbn [option_map]. unfold bind at 1.
    unfold Model.objects_create.
    rewrite (@StoreFacts.insert_row Ambient _ [SInt u; SInt g] tb);
      [reflexivity | reflexivity | reflexivity | reflexivity | exact Ht
       | unfold known; rewrite Hc; reflexivity].
Qed.

(** [removeFromGroup] on the store. *)
Lemma removeFromGroup_runs (u g : Z) (tb : Table) (s : Session D) :
  obj_lookup (db s) "user_groups" = Some tb ->
  columns tb = ["id"; "userId"; "groupId"] ->
  PermissionMore.removeFromGroup D (Num u) (Num g) s
  = match hd_error (List.filter (Stored.links "userId" "groupId" u g)
                                (table_rows tb)) with
    | None => (Normal tt, Stored.asked s (ask_membership u g))
    | Some r =>
        if Grants.falsy (cell r "id") then
          (Throw (Error "Cannot delete unsaved object"),
           Stored.asked s (ask_membership u g))
        else
          (Normal tt,
           Stored.wrote (Stored.asked s (ask_membership u g))
             (delete_membership (cell r "id"))
             (obj_set (db s) "user_groups"
                (with_rows tb
                   (List.filter
                      (fun r' => negb (sql_eq (cell r' "id") (cell r "id")))
                      (table_rows tb)))))
    end.
Proof.
  intros Ht Hc. unfold PermissionMore.removeFromGroup, bind at 1.
  rewrite (get_membership u g s Ht Hc).
  destruct (hd_error _) as [r|]; [|reflexivity]. cbn [option_map].
  destruct (Grants.falsy (cell r "id")) eqn:Hid.
  { unfold Model.delete.
    rewrite PermissionFacts.hydrated_column;
      [| rewrite Hc; distinct_columns | column Hc].
    rewrite PermissionFacts.truthy_stored, Hid. reflexivity. }
  rewrite (@StoreFacts.delete_row Ambient AuthModels.UserGroup tb tb r);
    [reflexivity | rewrite Hc; distinct_columns | column Hc | column Hc
     | exact Hid | reflexivity | exact Ht].
Qed.

(** X21.  After [assignGroup(userId, groupId)], a user who exists and is
    not a superuser has every permission linked to the group:
    [hasPermission] returns [true] for the codename of a stored permission
    that a [group_permissions] row links to the group; a second call with
    the same arguments writes nothing; and what any other user is granted
    is as before. *)
Theorem assignGroup_then_hasPermission (u g : Z) (c : string)
    (s : Session D) :
  Grants.auth_schema now_iso (db s) -> Grants.plain_user (db s) u ->
  (exists link p,
      In link (Grants.stored_rows (db s) "group_permissions")
      /\ cell link "groupId" = SInt g
      /\ In p (Grants.stored_rows (db s) "permissions")
      /\ sql_eq (cell p "id") (cell link "permissionId") = true
      /\ cell p "codename" = SText c) ->
  exists s1 s2 s3,
    PermissionMore.assignGroup D (Num u) (Num g) s = (Normal tt, s1)
    /\ PermissionService.hasPermission now_iso D (Num u) c s1
       = (Normal true, s2)
    /\ db s2 = db s1
    /\ PermissionMore.assignGroup D (Num u) (Num g) s1 = (Normal tt, s3)
    /\ db s3 = db s1
    /\ (forall v c', v <> u ->
          Grants.granted (db s1) v c' <-> Grants.granted (db s) v c').
Proof.
  intros Hschema Huser [link [p [Hlink [Hg [Hp [Hpid Hcode]]]]]].
  assert (Hl : Grants.laid_out (db s) (@AuthModels.UserGroup Ambient))
    by apply Hschema.
  destruct Hl as [tb [Ht Hc]]. simpl in Ht, Hc.
  rewrite (assignGroup_runs u g s Ht Hc).
  set (member := Stored.links "userId" "groupId" u g).
  set (row := Stored.link_row tb "userId" "groupId" u g).
  set (d1 := if existsb member (table_rows tb) then db s
             else Stored.appended (db s) "user_groups" tb row).
  set (s1 := if existsb member (table_rows tb) then _ else _).
  assert (Hdb1 : db s1 = d1)
    by (unfold s1, d1; now destruct (existsb member (table_rows tb))).
  assert (Hrow : member row = true).
  { unfold member, Stored.links, row, Stored.link_row, cell. simpl.
    now rewrite !Z.eqb_refl. }
  assert (Hother : forall t, t <> "user_groups" ->
            Grants.stored_rows d1 t = Grants.stored_rows (db s) t).
  { intros t Hne. unfold d1.
    destruct (existsb member (table_rows tb)); [reflexivity|].
    unfold Stored.appended. rewrite stored_rows_set.
    destruct (String.eqb_spec "user_groups" t); [congruence|reflexivity]. }
  assert (Hrows : forall m,
            In m (Grants.stored_rows d1 "user_groups")
            <-> In m (table_rows tb)
                \/ (m = row /\ existsb member (table_rows tb) = false)).
  { intros m. unfold d1. destruct (existsb member (table_rows tb)).
    - rewrite (PermissionFacts.stored_rows_of _ _ Ht).
      intuition discriminate.
    - unfold Stored.appended. rewrite stored_rows_set.
      cbn [String.eqb Ascii.eqb Bool.eqb table_rows].
      rewrite in_app_iff. simpl. intuition. }
  assert (Hschema1 : Grants.auth_schema now_iso d1).
  { unfold d1. destruct (existsb member (table_rows tb)); [assumption|].
    apply (auth_schema_set _ Ht); [reflexivity | discriminate | discriminate
                                   | assumption]. }
  assert (Huser1 : Grants.plain_user d1 u).
  { destruct Huser as [x Hx]. exists x.
    rewrite (Hother "users") by discriminate. exact Hx. }
  assert (Hex1 : exists tb1,
            obj_lookup d1 "user_groups" = Some tb1
            /\ columns tb1 = ["id"; "userId"; "groupId"]
            /\ existsb member (table_rows tb1) = true).
  { unfold d1. destruct (existsb member (table_rows tb)) eqn:Hex.
    - now exists tb.
    - eexists. split; [apply ObjFacts.lookup_set_same|].
      split; [exact Hc|]. cbn [table_rows]. rewrite existsb_app.
      cbn [existsb]. fold row. now rewrite Hrow, orb_true_r. }
  rewrite <- Hdb1 in Hschema1, Huser1, Hex1.
  destruct (@PermissionFacts.hasPermission_computed Ambient now_iso u c s1
              Hschema1 Huser1) as [s2 [E2 Hdb2]].
  destruct Hex1 as [tb1 [Ht1 [Hc1 Hmember]]].
  exists s1, s2, (Stored.asked s1 (ask_membership u g)).
  split; [reflexivity|].
  assert (Hpu : Grants.unique_ids (Grants.stored_rows (db s1) "permissions")
                = true) by apply Hschema1.
  assert (Hheld : Grants.holds_by_group (db s1) u c = true).
  { apply (PermissionFacts.holds_by_group_iff _ _ _ Hpu).
    rewrite Hdb1.
    assert (Hsome : exists m, In m (Grants.stored_rows d1 "user_groups")
                              /\ member m = true).
    { destruct (existsb member (table_rows tb)) eqn:Hex.
      - apply existsb_exists in Hex. destruct Hex as [m [Hin Hm]].
        exists m. split; [apply Hrows; now left | exact Hm].
      - exists row. split; [apply Hrows; now right | exact Hrow]. }
    destruct Hsome as [m [Hin Hm]].
    unfold member, Stored.links in Hm. apply andb_true_iff in Hm.
    destruct Hm as [Hmu Hmg].
    apply PermissionFacts.sql_eq_SInt in Hmu.
    apply PermissionFacts.sql_eq_SInt in Hmg.
    exists m, link, p. split; [exact Hin|]. split; [exact Hmu|].
    rewrite (Hother "group_permissions"), (Hother "permissions")
      by discriminate.
    split; [exact Hlink|]. split; [|tauto].
    rewrite Hg, Hmg. simpl. apply Z.eqb_refl. }
  rewrite E2, Hheld, orb_true_r. split; [reflexivity|].
  split; [exact Hdb2|].
  rewrite (@assignGroup_runs u g tb1 s1 Ht1 Hc1). fold member.
  rewrite Hmember. split; [reflexivity|]. split; [reflexivity|].
  intros v c' Hne. rewrite Hdb1.
  unfold Grants.granted, Grants.granted_directly, Grants.granted_by_group.
  rewrite (Hother "permissions"), (Hother "user_permissions"),
    (Hother "group_permissions") by discriminate.
  assert (Hgroup :
    (exists m l q,
        In m (Grants.stored_rows d1 "user_groups")
        /\ cell m "userId" = SInt v
        /\ In l (Grants.stored_rows (db s) "group_permissions")
        /\ sql_eq (cell l "groupId") (cell m "groupId") = true
        /\ In q (Grants.stored_rows (db s) "permissions")
        /\ sql_eq (cell q "id") (cell l "permissionId") = true
        /\ cell q "codename" = SText c')
    <-> (exists m l q,
            In m (Grants.stored_rows (db s) "user_groups")
            /\ cell m "userId" = SInt v
            /\ In l (Grants.stored_rows (db s) "group_permissions")
            /\ sql_eq (cell l "groupId") (cell m "groupId") = true
            /\ In q (Grants.stored_rows (db s) "permissions")
            /\ sql_eq (cell q "id") (cell l "permissionId") = true
            /\ cell q "codename" = SText c')).
  { rewrite (PermissionFacts.stored_rows_of _ _ Ht). split.
    - intros [m [l [q [Hin H]]]]. exists m, l, q. split; [|exact H].
      apply Hrows in Hin. destruct Hin as [Hin|[-> _]]; [exact Hin|].
      exfalso. destruct H as [Hv _]. unfold row, Stored.link_row, cell in Hv.
      simpl in Hv. congruence.
    - intros [m [l [q [Hin H]]]]. exists m, l, q. split; [|exact H].
      apply Hrows. now left. }
  rewrite Hgroup. reflexivity.
Qed.

(** X22.  [removeFromGroup] undoes [assignGroup]: for a user who is not in
    the group, on a [user_groups] table whose next rowid is positive and
    not in use, the two calls in a row return and leave the rows of the
    table, and every other table, as they were. *)
Theorem removeFromGroup_undoes_assignGroup (u g : Z) (tb : Table)
    (s : Session D) :
  obj_lookup (db s) "user_groups" = Some tb ->
  columns tb = ["id"; "userId"; "groupId"] ->
  existsb (Stored.links "userId" "groupId" u g) (table_rows tb) = false ->
  Stored.next_id_free tb = true ->
  (0 <= seq tb)%Z ->
  exists s1 s2,
    PermissionMore.assignGroup D (Num u) (Num g) s = (Normal tt, s1)
    /\ PermissionMore.removeFromGroup D (Num u) (Num g) s1 = (Normal tt, s2)
    /\ Grants.stored_rows (db s2) "user_groups" = table_rows tb
    /\ (forall t, t <> "user_groups" ->
          obj_lookup (db s2) t = obj_lookup (db s) t).
Proof.
  intros Ht Hc Hex Hfree Hseq.
  rewrite (assignGroup_runs u g s Ht Hc), Hex.
  set (member := Stored.links "userId" "groupId" u g) in *.
  set (row := Stored.link_row tb "userId" "groupId" u g).
  set (s1 := Stored.wrote _ _ _).
  set (tb1 := {| columns := columns tb; seq := (seq tb + 1)%Z;
                 table_rows := (table_rows tb ++ [row])%list |}).
  assert (Ht1 : obj_lookup (db s1) "user_groups" = Some tb1)
    by apply ObjFacts.lookup_set_same.
  assert (Hrow : member row = true).
  { unfold member, Stored.links, row, Stored.link_row, cell. simpl.
    now rewrite !Z.eqb_refl. }
  exists s1. rewrite (@removeFromGroup_runs u g tb1 s1 Ht1 Hc).
  fold member. cbn [tb1 table_rows].
  rewrite List.filter_app, (filter_none _ _ Hex). cbn [List.filter app].
  rewrite Hrow. cbn [hd_error].
  assert (Hid : cell row "id" = SInt (seq tb + 1)) by reflexivity.
  rewrite Hid. cbn [Grants.falsy].
  destruct (Z.eqb_spec (seq tb + 1) 0) as [E|_]; [lia|].
  eexists. split; [reflexivity|]. split; [reflexivity|].
  cbn [Stored.wrote db]. rewrite stored_rows_set.
  cbn [String.eqb Ascii.eqb Bool.eqb with_rows table_rows].
  split.
  - rewrite List.filter_app. cbn [List.filter]. rewrite Hid.
    cbn [sql_eq]. rewrite Z.eqb_refl. cbn [negb].
    rewrite (filter_every _ _ Hfree). apply app_nil_r.
  - intros t Hne. rewrite ObjFacts.lookup_set_other by congruence.
    unfold s1. cbn [Stored.wrote db]. unfold Stored.appended.
    now apply ObjFacts.lookup_set_other.
Qed.

(** The loop over the actions, for a user who exists and is not a
    superuser. *)
Lemma any_action_computed (uid : Z) (modelName : string)
    (actions : list string) :
  forall s : Session D,
    Grants.auth_schema now_iso (db s) -> Grants.plain_user (db s) uid ->
    exists s',
      AdminRoutes.any_action now_iso D (Num uid) modelName actions s
      = (Normal
           (existsb
              (fun action =>
                 AdminRoutes.holds (db s) uid
                   (action ++ "_" ++ toLowerCase modelName)) actions), s')
      /\ db s' = db s.
Proof.
  induction actions as [|a rest IH]; intros s Hschema Huser.
  - exists s. split; reflexivity.
  - cbn [AdminRoutes.any_action existsb]. unfold bind at 1.
    unfold PermissionService.hasModelPermission.
    destruct (@PermissionFacts.hasPermission_computed Ambient now_iso uid
                (a ++ "_" ++ toLowerCase modelName) s Hschema Huser)
      as [s1 [E1 Hdb1]].
    rewrite E1. fold (AdminRoutes.holds (db s) uid
                        (a ++ "_" ++ toLowerCase modelName)).
    destruct (AdminRoutes.holds (db s) uid _).
    + exists s1. split; [reflexivity | exact Hdb1].
    + rewrite <- Hdb1 in Hschema, Huser.
      destruct (IH s1 Hschema Huser) as [s2 [E2 Hdb2]].
      exists s2. rewrite E2, Hdb1. split; [reflexivity | congruence].
Qed.

Lemma accessible_superuser (user : AdminRoutes.TokenPayload)
    (models : list (ModelRegistry.ModelMetadata Ambient)) :
  AdminRoutes.isSuperuser user = true ->
  forall acc (s : Session D),
    AdminRoutes.accessible now_iso D user models acc s
    = (Normal (acc ++ map (@AdminRoutes.summary Ambient) models)%list, s).
Proof.
  intros Hsuper. induction models as [|m rest IH]; intros acc s.
  - cbn. now rewrite app_nil_r.
  - cbn [AdminRoutes.accessible map]. rewrite Hsuper, IH.
    now rewrite <- app_assoc.
Qed.

Lemma accessible_plain (user : AdminRoutes.TokenPayload) (uid : Z)
    (models : list (ModelRegistry.ModelMetadata Ambient)) :
  AdminRoutes.isSuperuser user = false ->
  AdminRoutes.userId user = Num uid ->
  forall acc (s : Session D),
    Grants.auth_schema now_iso (db s) -> Grants.plain_user (db s) uid ->
    exists s',
      AdminRoutes.accessible now_iso D user models acc s
      = (Normal
           (acc ++ map (@AdminRoutes.summary Ambient)
                     (List.filter
                        (fun m =>
                           AdminRoutes.any_held (db s) uid
                             (ModelStatic.name (ModelRegistry.meta_model m)))
                        models))%list, s')
      /\ db s' = db s.
Proof.
  intros Hsuper Hid.
  induction models as [|m rest IH]; intros acc s Hschema Huser.
  - exists s. cbn. rewrite app_nil_r. split; reflexivity.
  - cbn [AdminRoutes.accessible List.filter]. rewrite Hsuper, Hid.
    destruct (@any_action_computed uid
                (ModelStatic.name (ModelRegistry.meta_model m))
                ["view"; "add"; "change"; "delete"] s Hschema Huser)
      as [s1 [E1 Hdb1]].
    unfold bind at 1. rewrite E1.
    fold (AdminRoutes.any_held (db s) uid
            (ModelStatic.name (ModelRegistry.meta_model m))).
    rewrite <- Hdb1 in Hschema, Huser.
    destruct (AdminRoutes.any_held (db s) uid _).
    + destruct (IH (acc ++ [AdminRoutes.summary m])%list s1 Hschema Huser)
        as [s2 [E2 Hdb2]].
      exists s2. rewrite E2, Hdb1. cbn [map].
      rewrite <- app_assoc. split; [reflexivity | congruence].
    + destruct (IH acc s1 Hschema Huser) as [s2 [E2 Hdb2]].
      exists s2. rewrite E2, Hdb1. split; [reflexivity | congruence].
Qed.

Lemma any_held_iff (d : Store) (uid : Z) (modelName : string) :
  Grants.unique_ids (Grants.stored_rows d "permissions") = true ->
  AdminRoutes.any_held d uid modelName = true
  <-> exists action,
        In action ["view"; "add"; "change"; "delete"]
        /\ Grants.granted d uid (action ++ "_" ++ toLowerCase modelName).
Proof.
  intros Hpu. unfold AdminRoutes.any_held. rewrite existsb_exists.
  split; intros [a [Hin H]]; exists a; (split; [exact Hin|]).
  - unfold AdminRoutes.holds in H. apply orb_true_iff in H.
    unfold Grants.granted.
    now rewrite <- (PermissionFacts.holds_directly_iff _ _ _ Hpu),
      <- (PermissionFacts.holds_by_group_iff _ _ _ Hpu).
  - unfold AdminRoutes.holds. apply orb_true_iff.
    unfold Grants.granted in H.
    now rewrite (PermissionFacts.holds_directly_iff _ _ _ Hpu),
      (PermissionFacts.holds_by_group_iff _ _ _ Hpu).
Qed.

(** X24.  The handler of [GET /api/admin/models] lists, in the order of
    the registry, every registered model for a token that says superuser,
    without a statement; and for a token that does not, of a user who
    exists and is not a superuser, exactly the models on which the user is
    granted one of view, add, change and delete, directly or through a
    group, leaving the database as it was. *)
Theorem list_models_lists_granted_models
    (registry : ModelRegistry.Registry Ambient)
    (user : AdminRoutes.TokenPayload) (uid : Z) (s : Session D) :
  (AdminRoutes.isSuperuser user = true ->
   AdminRoutes.list_models now_iso D registry user s
   = (Normal (map (@AdminRoutes.summary Ambient)
                  (ModelRegistry.getAllModels registry)), s))
  /\ (AdminRoutes.isSuperuser user = false ->
      AdminRoutes.userId user = Num uid ->
      Grants.auth_schema now_iso (db s) -> Grants.plain_user (db s) uid ->
      exists listed s',
        AdminRoutes.list_models now_iso D registry user s
        = (Normal (map (@AdminRoutes.summary Ambient) listed), s')
        /\ db s' = db s
        /\ listed
           = List.filter
               (fun m =>
                  AdminRoutes.any_held (db s) uid
                    (ModelStatic.name (ModelRegistry.meta_model m)))
               (ModelRegistry.getAllModels registry)
        /\ (forall m,
              In m listed
              <-> In m (ModelRegistry.getAllModels registry)
                  /\ exists action,
                       In action ["view"; "add"; "change"; "delete"]
                       /\ Grants.granted (db s) uid
                            (action ++ "_"
                               ++ toLowerCase
                                    (ModelStatic.name
                                       (ModelRegistry.meta_model m))))).
Proof.
  split.
  - intros Hsuper. unfold AdminRoutes.list_models.
    now rewrite accessible_superuser.
  - intros Hplain Hid Hschema Huser. unfold AdminRoutes.list_models.
    destruct (@accessible_plain user uid
                (ModelRegistry.getAllModels registry) Hplain Hid [] s
                Hschema Huser) as [s' [E Hdb]].
    eexists. exists s'. split; [exact E|]. split; [exact Hdb|].
    split; [reflexivity|].
    intros m. rewrite filter_In.
    assert (Hpu : Grants.unique_ids
                    (Grants.stored_rows (db s) "permissions") = true)
      by apply Hschema.
    now rewrite (any_held_iff _ _ _ Hpu).
Qed.

(** X25.  The handler of [GET /api/admin/models/:modelName] answers 404
    for a name that is not registered, whoever asks and without a
    statement; for a registered name it sends the metadata to a token that
    says superuser, without a statement, and to a user who exists and is
    not a superuser it sends the metadata when one of view, add, change
    and delete on the model is held and 403 otherwise, leaving the
    database as it was. *)
Theorem model_metadata_gated_by_any_action
    (registry : ModelRegistry.Registry Ambient)
    (user : AdminRoutes.TokenPayload) (uid : Z) (modelName : string)
    (s : Session D) :
  match ModelRegistry.getModel registry modelName with
  | None =>
      AdminRoutes.model_metadata now_iso D registry user modelName s
      = (Normal (404%nat, AdminRoutes.ErrorBody "Model not found"), s)
  | Some metadata =>
      if AdminRoutes.isSuperuser user then
        AdminRoutes.model_metadata now_iso D registry user modelName s
        = (Normal (200%nat, AdminRoutes.MetadataBody metadata), s)
      else
        AdminRoutes.userId user = Num uid ->
        Grants.auth_schema now_iso (db s) -> Grants.plain_user (db s) uid ->
        exists s',
          AdminRoutes.model_metadata now_iso D registry user modelName s
          = (Normal
               (if AdminRoutes.any_held (db s) uid modelName
                then (200%nat, AdminRoutes.MetadataBody metadata)
                else (403%nat, AdminRoutes.ErrorBody "Permission denied")),
             s')
          /\ db s' = db s
  end.
Proof.
  unfold AdminRoutes.model_metadata.
  destruct (ModelRegistry.getModel registry modelName) as [metadata|];
    [|reflexivity].
  destruct (AdminRoutes.isSuperuser user); [reflexivity|].
  intros Hid Hschema Huser. cbn [negb]. rewrite Hid.
  destruct (@any_action_computed uid modelName
              ["view"; "add"; "change"; "delete"] s Hschema Huser)
    as [s1 [E1 Hdb1]].
  exists s1. unfold bind. rewrite E1.
  fold (AdminRoutes.any_held (db s) uid modelName).
  split; [|exact Hdb1].
  now destruct (AdminRoutes.any_held (db s) uid modelName).
Qed.

Section Replace.
Variable J : ModelClass.
Variables (t a b select_owned insert_link : string).
Hypothesis table_of_J : ModelStatic.getTableName J = t.
Hypothesis select_of_J :
  forall v : value,
    QuerySet.all_query (Model.objects_filter J [(a, v)])
    = (select_owned, [v]).
Hypothesis select_parses :
  parse select_owned = Some (SSelect t [a] None None None).
Hypothesis delete_parses :
  parse (Model.delete_sql t) = Some (SDelete t ["id"]).
Hypothesis distinct_of_J : NoDup ["id"; a; b].
Hypothesis new_link_of_J :
  forall (x y : Z) (amb : Ambient),
    let link :=
      ModelStatic.set
        (ModelStatic.set (ModelStatic.construct J) a (VNum (Num x)))
        b (VNum (Num y)) in
    ModelStatic.class_of link = J
    /\ truthy (ModelStatic.get link "id") = false
    /\ Resolution.stored link (Resolution.declared_fields J) [] amb
       = ([(a, VNum (Num x)); (b, VNum (Num y))], amb).
Hypothesis insert_of_J :
  forall vx vy : value,
    Model.insert_sql t [(a, vx); (b, vy)] = insert_link.
Hypothesis insert_parses : parse insert_link = Some (SInsert t [a; b]).

(** Under a primary key two rows with the same [id] are one row. *)
Lemma same_id_same_row (rs : list (obj SqlValue)) (r1 r2 : obj SqlValue) :
  Grants.unique_ids rs = true -> In r1 rs -> In r2 rs ->
  sql_eq (cell r1 "id") (cell r2 "id") = true -> r1 = r2.
Proof.
  induction rs as [|r rs IH]; simpl; intros Hu H1 H2 Heq; [contradiction|].
  apply andb_true_iff in Hu. destruct Hu as [Hfresh Hu].
  apply negb_true_iff in Hfresh.
  destruct H1 as [<-|H1], H2 as [<-|H2].
  - reflexivity.
  - exfalso.
    assert (existsb (fun r' => sql_eq (cell r' "id") (cell r "id")) rs
            = true); [|congruence].
    apply existsb_exists. exists r2. split; [assumption|].
    now rewrite sql_eq_sym.
  - exfalso.
    assert (existsb (fun r' => sql_eq (cell r' "id") (cell r "id")) rs
            = true); [|congruence].
    apply existsb_exists. now exists r1.
  - now apply IH.
Qed.

(** The loop that deletes the instances read from the rows [rs]. *)
Lemma delete_each_runs (tb0 : Table) (rs : list (obj SqlValue)) :
  columns tb0 = ["id"; a; b] ->
  forall (tb : Table) (s : Session D),
    obj_lookup (db s) t = Some tb ->
    columns tb = ["id"; a; b] ->
    forallb (fun r => negb (Grants.falsy (cell r "id"))) rs = true ->
    exists s',
      PermissionsRoutes.delete_each D (Grants.answer J tb0 rs) s
      = (Normal tt, s')
      /\ obj_lookup (db s') t
         = Some (with_rows tb
                   (List.filter
                      (fun r' =>
                         negb (existsb
                                 (fun r => sql_eq (cell r' "id") (cell r "id"))
                                 rs))
                      (table_rows tb)))
      /\ (forall t', t' <> t -> obj_lookup (db s') t' = obj_lookup (db s) t').
Proof.
  intros Hc0. induction rs as [|r rs IH]; intros tb s Ht Hc Hids.
  - exists s. split; [reflexivity|]. split; [|reflexivity].
    rewrite Ht. f_equal. destruct tb as [cs n rows]. unfold with_rows.
    cbn [columns seq table_rows]. f_equal.
    symmetry. apply filter_every. now apply forallb_forall.
  - cbn [forallb] in Hids. apply andb_true_iff in Hids.
    destruct Hids as [Hid Hids]. apply negb_true_iff in Hid.
    cbn [Grants.answer map PermissionsRoutes.delete_each].
    fold (Grants.answer J tb0 rs). unfold bind at 1.
    rewrite (@StoreFacts.delete_row Ambient J tb0 tb r s);
      [| rewrite Hc0; exact distinct_of_J | rewrite Hc0; now left
       | rewrite Hc; now left | exact Hid
       | rewrite table_of_J; exact delete_parses
       | rewrite table_of_J; exact Ht].
    rewrite table_of_J.
    set (tb1 := with_rows tb _). set (s1 := Stored.wrote _ _ _).
    assert (Ht1 : obj_lookup (db s1) t = Some tb1)
      by apply ObjFacts.lookup_set_same.
    destruct (IH tb1 s1 Ht1 Hc Hids) as [s2 [E2 [Ht2 Hother2]]].
    exists s2. split; [exact E2|]. split.
    + rewrite Ht2. f_equal. unfold with_rows, tb1.
      cbn [columns seq table_rows with_rows]. f_equal.
      clear. induction (table_rows tb) as [|x l IH]; simpl; [reflexivity|].
      destruct (sql_eq (cell x "id") (cell r "id")); simpl; [exact IH|].
      destruct (existsb _ rs); simpl; [exact IH | now rewrite IH].
    + intros t' Hne. rewrite (Hother2 t' Hne).
      unfold s1, Stored.wrote. cbn [db].
      apply ObjFacts.lookup_set_other. congruence.
Qed.

Lemma new_row (n x y : Z) :
  obj_assign [("id", SInt n)] (combine [a; b] [SInt x; SInt y])
  = [("id", SInt n); (a, SInt x); (b, SInt y)].
Proof.
  pose proof distinct_of_J as Hd. apply NoDup_cons_iff in Hd.
  destruct Hd as [Hid Hab].
  apply ObjFacts.assign_fresh; [exact Hab|].
  simpl. intros k Hk [H|[]]. apply Hid. now rewrite H.
Qed.

(** The loop that saves one new link per id. *)
Lemma create_each_runs (x : Z) (ys : list Z) :
  forall (tb : Table) (s : Session D),
    obj_lookup (db s) t = Some tb ->
    columns tb = ["id"; a; b] ->
    exists s',
      PermissionsRoutes.create_each D J a b (Num x) (map Num ys) s
      = (Normal tt, s')
      /\ obj_lookup (db s') t
         = Some {| columns := columns tb;
                   seq := (seq tb + Z.of_nat (List.length ys))%Z;
                   table_rows :=
                     (table_rows tb
                        ++ Stored.link_rows (seq tb) a b x ys)%list |}
      /\ (forall t', t' <> t -> obj_lookup (db s') t' = obj_lookup (db s) t').
Proof.
  induction ys as [|y ys IH]; intros tb s Ht Hc.
  - exists s. split; [reflexivity|]. split; [|reflexivity].
    rewrite Ht. destruct tb as [cs n rows]. cbn. rewrite app_nil_r.
    now rewrite Z.add_0_r.
  - cbn [map PermissionsRoutes.create_each]. cbv zeta.
    destruct (new_link_of_J x y (ambient s)) as [Hcls [Hid Hstored]].
    unfold bind at 1.
    rewrite (@StoreFacts.insert_row Ambient _ [SInt x; SInt y] tb s);
      rewrite ?Hcls, ?Hstored, ?table_of_J; cbn [fst snd];
      [| exact Hid | reflexivity
       | rewrite (insert_of_J (VNum (Num x)) (VNum (Num y)));
         exact insert_parses
       | exact Ht | unfold known; rewrite Hc; simpl;
                    rewrite !String.eqb_refl, !orb_true_r; reflexivity].
    cbn [obj_keys map fst]. rewrite new_row.
    set (row := [("id", SInt (seq tb + 1)); (a, SInt x); (b, SInt y)]).
    set (tb1 := {| columns := columns tb; seq := (seq tb + 1)%Z;
                   table_rows := (table_rows tb ++ [row])%list |}).
    match goal with
    | |- context [PermissionsRoutes.create_each _ _ _ _ _ _ ?st] =>
        set (s1 := st)
    end.
    assert (Ht1 : obj_lookup (db s1) t = Some tb1)
      by apply ObjFacts.lookup_set_same.
    destruct (IH tb1 s1 Ht1 Hc) as [s2 [E2 [Ht2 Hother2]]].
    exists s2. split; [exact E2|]. split.
    + rewrite Ht2. f_equal. unfold tb1. cbn [columns seq table_rows].
      f_equal.
      * change (List.length (y :: ys)) with (S (List.length ys)). lia.
      * cbn [Stored.link_rows]. now rewrite <- app_assoc.
    + intros t' Hne. rewrite (Hother2 t' Hne).
      unfold s1. cbn [db]. unfold Stored.appended.
      apply ObjFacts.lookup_set_other. congruence.
Qed.

Lemma link_rows_owned (n x : Z) (ys : list Z) :
  List.filter (Stored.owned a x) (Stored.link_rows n a b x ys)
  = Stored.link_rows n a b x ys
  /\ map (fun r => cell r b) (Stored.link_rows n a b x ys) = map SInt ys.
Proof.
  pose proof distinct_of_J as Hd. apply NoDup_cons_iff in Hd.
  destruct Hd as [Hid Hab]. apply NoDup_cons_iff in Hab.
  destruct Hab as [Ha _].
  assert (Hia : "id" <> a) by (intros E; apply Hid; simpl; auto).
  assert (Hib : "id" <> b) by (intros E; apply Hid; simpl; auto).
  assert (Hab' : a <> b) by (intros E; apply Ha; simpl; auto).
  revert n. induction ys as [|y ys IH]; intros n; cbn [Stored.link_rows];
    [split; reflexivity|].
  destruct (IH (n + 1)%Z) as [IH1 IH2].
  assert (Ha1 : cell [("id", SInt (n + 1)); (a, SInt x); (b, SInt y)] a
                = SInt x).
  { unfold cell. cbn [obj_get].
    destruct (String.eqb_spec "id" a); [contradiction|].
    now rewrite String.eqb_refl. }
  assert (Hb1 : cell [("id", SInt (n + 1)); (a, SInt x); (b, SInt y)] b
                = SInt y).
  { unfold cell. cbn [obj_get].
    destruct (String.eqb_spec "id" b); [contradiction|].
    destruct (String.eqb_spec a b); [contradiction|].
    now rewrite String.eqb_refl. }
  split.
  - cbn [List.filter]. unfold Stored.owned at 1. rewrite Ha1. simpl.
    rewrite Z.eqb_refl. now rewrite IH1.
  - cbn [map]. now rewrite Hb1, IH2.
Qed.

(** Replacing the links of [x]: the body the three handlers share. *)
Lemma replace_runs (x : Z) (ys : list Z) (tb : Table) (s : Session D) :
  obj_lookup (db s) t = Some tb ->
  columns tb = ["id"; a; b] ->
  Grants.unique_ids (table_rows tb) = true ->
  Stored.ids_set (table_rows tb) = true ->
  exists s',
    (existing <-
       QuerySet.all D (Model.objects_filter J [(a, VNum (Num x))]) ;;
     _ <- PermissionsRoutes.delete_each D existing ;;
     _ <- PermissionsRoutes.create_each D J a b (Num x) (map Num ys) ;;
     ret true) s
    = (Normal true, s')
    /\ Grants.stored_rows (db s') t
       = (List.filter (fun r => negb (Stored.owned a x r)) (table_rows tb)
            ++ Stored.link_rows (seq tb) a b x ys)%list
    /\ (forall t', t' <> t -> obj_lookup (db s') t' = obj_lookup (db s) t').
Proof.
  intros Ht Hc Hu Hs.
  unfold bind at 1.
  rewrite (@PermissionFacts.select_one_column Ambient
             (Model.objects_filter J [(a, VNum (Num x))]) J a select_owned
             (VNum (Num x)) (SInt x) None tb s);
    [| reflexivity | apply select_of_J | reflexivity
     | rewrite table_of_J; exact select_parses
     | rewrite table_of_J; exact Ht
     | unfold known; rewrite Hc; simpl;
       rewrite String.eqb_refl, !orb_true_r; reflexivity].
  cbn [take_limit].
  set (s0 := {| ambient := ambient s; db := db s; executed := _ |}).
  fold (Stored.owned a x).
  assert (Hmine : forallb (fun r => negb (Grants.falsy (cell r "id")))
                    (List.filter (Stored.owned a x) (table_rows tb)) = true).
  { apply forallb_forall. intros r Hr. apply filter_In in Hr.
    unfold Stored.ids_set in Hs. rewrite forallb_forall in Hs.
    now apply Hs. }
  destruct (@delete_each_runs tb
              (List.filter (Stored.owned a x) (table_rows tb)) Hc tb s0
              Ht Hc Hmine) as [s1 [E1 [Ht1 Hother1]]].
  unfold bind at 1. rewrite E1.
  assert (Hkept :
    List.filter
      (fun r' =>
         negb (existsb (fun r => sql_eq (cell r' "id") (cell r "id"))
                       (List.filter (Stored.owned a x) (table_rows tb))))
      (table_rows tb)
    = List.filter (fun r => negb (Stored.owned a x r)) (table_rows tb)).
  { apply filter_ext_in. intros r Hr. f_equal.
    apply Bool.eq_true_iff_eq. rewrite existsb_exists. split.
    - intros [r' [Hr' Heq]]. apply filter_In in Hr'.
      destruct Hr' as [Hin' Hown].
      now rewrite (same_id_same_row _ _ _ Hu Hr Hin' Heq).
    - intros Hown. exists r. split; [apply filter_In; now split|].
      apply sql_eq_refl. unfold Stored.ids_set in Hs.
      rewrite forallb_forall in Hs. apply negb_true_iff. now apply Hs. }
  rewrite Hkept in Ht1.
  set (tb1 := with_rows tb _) in Ht1.
  destruct (@create_each_runs x ys tb1 s1 Ht1 Hc) as [s2 [E2 [Ht2 Hother2]]].
  unfold bind at 1. rewrite E2. exists s2. split; [reflexivity|]. split.
  - now rewrite (PermissionFacts.stored_rows_of _ _ Ht2).
  - intros t' Hne. now rewrite (Hother2 t' Hne), (Hother1 t' Hne).
Qed.

Lemma replaced_rows (n x : Z) (ys : list Z) (rows : list (obj SqlValue)) :
  let rows' :=
    (List.filter (fun r => negb (Stored.owned a x r)) rows
       ++ Stored.link_rows n a b x ys)%list in
  map (fun r => cell r b) (List.filter (Stored.owned a x) rows')
  = map SInt ys
  /\ (forall v, v <> x ->
        List.filter (Stored.owned a v) rows'
        = List.filter (Stored.owned a v) rows).
Proof.
  intros rows'. unfold rows'. rewrite List.filter_app.
  destruct (link_rows_owned n x ys) as [Hown Hids].
  split.
  - rewrite Hown.
    assert (List.filter (Stored.owned a x)
              (List.filter (fun r => negb (Stored.owned a x r)) rows) = [])
      as ->; [|exact Hids].
    induction rows as [|r l IH]; simpl; [reflexivity|].
    destruct (Stored.owned a x r) eqn:E; simpl; [exact IH|].
    now rewrite E.
  - intros v Hne. rewrite List.filter_app.
    assert (List.filter (Stored.owned a v) (Stored.link_rows n a b x ys)
            = []) as ->.
    { rewrite <- Hown. clear Hown Hids.
      induction (Stored.link_rows n a b x ys) as [|r l IH]; simpl;
        [reflexivity|].
      destruct (Stored.owned a x r) eqn:E; simpl; [|exact IH].
      unfold Stored.owned in *. apply PermissionFacts.sql_eq_SInt in E.
      rewrite E. simpl. destruct (Z.eqb_spec x v); [congruence | exact IH]. }
    rewrite app_nil_r.
    induction rows as [|r l IH]; simpl; [reflexivity|].
    destruct (Stored.owned a x r) eqn:E; simpl.
    + unfold Stored.owned in *. apply PermissionFacts.sql_eq_SInt in E.
      rewrite E. simpl. destruct (Z.eqb_spec x v); [congruence | exact IH].
    + now rewrite IH.
Qed.

End Replace.

(** X26.  The three handlers that update links replace them: on a
    junction table whose rows have distinct ids that read as true,
    [PUT /api/admin/users/:userId/groups] leaves the user in exactly the
    groups sent, [PUT /api/admin/users/:userId/permissions] leaves the
    user with exactly the permission ids sent, and
    [PUT /api/admin/groups/:groupId/permissions] does the same for a
    group: the ids read back in the order sent, an id sent twice is
    stored twice, the links of every other user or group are as before
    and no other table changes. *)
Theorem update_handlers_replace_links (x : Z) (ys : list Z)
    (s : Session D) :
  (Grants.laid_out (db s) (@AuthModels.UserGroup Ambient) ->
   Grants.unique_ids (Grants.stored_rows (db s) "user_groups") = true ->
   Stored.ids_set (Grants.stored_rows (db s) "user_groups") = true ->
   exists s',
     PermissionsRoutes.update_user_groups D (Num x) (map Num ys) s
     = (Normal true, s')
     /\ map (fun r => cell r "groupId")
            (Grants.memberships_of_user (db s') x) = map SInt ys
     /\ (forall v, v <> x ->
           Grants.memberships_of_user (db s') v
           = Grants.memberships_of_user (db s) v)
     /\ (forall t, t <> "user_groups" ->
           obj_lookup (db s') t = obj_lookup (db s) t))
  /\ (Grants.laid_out (db s) (@AuthModels.UserPermission Ambient) ->
      Grants.unique_ids (Grants.stored_rows (db s) "user_permissions")
      = true ->
      Stored.ids_set (Grants.stored_rows (db s) "user_permissions") = true ->
      exists s',
        PermissionsRoutes.update_user_permissions D (Num x) (map Num ys) s
        = (Normal true, s')
        /\ map (fun r => cell r "permissionId")
               (Grants.links_of_user (db s') x) = map SInt ys
        /\ (forall v, v <> x ->
              Grants.links_of_user (db s') v = Grants.links_of_user (db s) v)
        /\ (forall t, t <> "user_permissions" ->
              obj_lookup (db s') t = obj_lookup (db s) t))
  /\ (Grants.laid_out (db s) (@AuthModels.GroupPermission Ambient) ->
      Grants.unique_ids (Grants.stored_rows (db s) "group_permissions")
      = true ->
      Stored.ids_set (Grants.stored_rows (db s) "group_permissions")
      = true ->
      exists s',
        PermissionsRoutes.update_group_permissions D (Num x) (map Num ys) s
        = (Normal true, s')
        /\ map (fun r => cell r "permissionId")
               (Grants.links_of_group (db s') (SInt x)) = map SInt ys
        /\ (forall v, v <> x ->
              Grants.links_of_group (db s') (SInt v)
              = Grants.links_of_group (db s) (SInt v))
        /\ (forall t, t <> "group_permissions" ->
              obj_lookup (db s') t = obj_lookup (db s) t)).
Proof.
  split; [|split].
  - intros [tb [Ht Hc]] Hu Hs. simpl in Ht, Hc.
    rewrite (PermissionFacts.stored_rows_of _ _ Ht) in Hu, Hs.
    destruct (@replace_runs AuthModels.UserGroup "user_groups" "userId"
                "groupId" "SELECT * FROM user_groups WHERE userId = ?"
                "INSERT INTO user_groups (userId, groupId) VALUES (?, ?)"
                eq_refl (fun v => eq_refl) eq_refl eq_refl
                ltac:(distinct_columns)
                (fun x y amb => conj eq_refl (conj eq_refl eq_refl))
                (fun vx vy => eq_refl) eq_refl x ys tb s Ht Hc Hu Hs)
      as [s' [E [Hrows Hother]]].
    exists s'. split; [exact E|].
    destruct (@replaced_rows "userId" "groupId" ltac:(distinct_columns)
                (seq tb) x ys (table_rows tb)) as [Hmine Hrest].
    unfold Grants.memberships_of_user.
    rewrite Hrows, (PermissionFacts.stored_rows_of _ _ Ht).
    split; [exact Hmine|]. split; [exact Hrest | exact Hother].
  - intros [tb [Ht Hc]] Hu Hs. simpl in Ht, Hc.
    rewrite (PermissionFacts.stored_rows_of _ _ Ht) in Hu, Hs.
    destruct (@replace_runs AuthModels.UserPermission "user_permissions"
                "userId" "permissionId"
                "SELECT * FROM user_permissions WHERE userId = ?"
                "INSERT INTO user_permissions (userId, permissionId) VALUES (?, ?)"
                eq_refl (fun v => eq_refl) eq_refl eq_refl
                ltac:(distinct_columns)
                (fun x y amb => conj eq_refl (conj eq_refl eq_refl))
                (fun vx vy => eq_refl) eq_refl x ys tb s Ht Hc Hu Hs)
      as [s' [E [Hrows Hother]]].
    exists s'. split; [exact E|].
    destruct (@replaced_rows "userId" "permissionId"
                ltac:(distinct_columns)
                (seq tb) x ys (table_rows tb)) as [Hmine Hrest].
    unfold Grants.links_of_user.
    rewrite Hrows, (PermissionFacts.stored_rows_of _ _ Ht).
    split; [exact Hmine|]. split; [exact Hrest | exact Hother].
  - intros [tb [Ht Hc]] Hu Hs. simpl in Ht, Hc.
    rewrite (PermissionFacts.stored_rows_of _ _ Ht) in Hu, Hs.
    destruct (@replace_runs AuthModels.GroupPermission "group_permissions"
                "groupId" "permissionId"
                "SELECT * FROM group_permissions WHERE groupId = ?"
                "INSERT INTO group_permissions (groupId, permissionId) VALUES (?, ?)"
                eq_refl (fun v => eq_refl) eq_refl eq_refl
                ltac:(distinct_columns)
                (fun x y amb => conj eq_refl (conj eq_refl eq_refl))
                (fun vx vy => eq_refl) eq_refl x ys tb s Ht Hc Hu Hs)
      as [s' [E [Hrows Hother]]].
    exists s'. split; [exact E|].
    destruct (@replaced_rows "groupId" "permissionId"
                ltac:(distinct_columns)
                (seq tb) x ys (table_rows tb)) as [Hmine Hrest].
    unfold Grants.links_of_group.
    rewrite Hrows, (PermissionFacts.stored_rows_of _ _ Ht).
    split; [exact Hmine|]. split; [exact Hrest | exact Hother].
Qed.

Section Cleanup.
Variable greater_than_zero : value -> bool.
Hypothesis on_numbers :
  forall z, greater_than_zero (VNum (Num z)) = Z.ltb 0 z.

Local Abbreviation count_stale m :=
  (@mkCall Ambient StmtGet
     "SELECT COUNT(*) as count FROM permissions WHERE modelName = ?"
     [VStr m]).

Local Abbreviation delete_all_stale m :=
  (@mkCall Ambient StmtRun "DELETE FROM permissions WHERE modelName = ?"
     [VStr m]).

(** One block of the cleanup on the store. *)
Lemma delete_stale_runs (m : string) (tb : Table) (s : Session D) :
  obj_lookup (db s) "permissions" = Some tb ->
  columns tb = ["id"; "name"; "codename"; "modelName"] ->
  PermissionsCleanup.delete_stale greater_than_zero D m s
  = (Normal tt,
     if existsb (Stored.has_model m) (table_rows tb) then
       Stored.wrote (Stored.asked s (count_stale m)) (delete_all_stale m)
         (obj_set (db s) "permissions"
            (with_rows tb
               (List.filter (fun r => negb (Stored.has_model m r))
                            (table_rows tb))))
     else Stored.asked s (count_stale m)).
Proof.
  intros Ht Hc. unfold PermissionsCleanup.delete_stale, bind at 1.
  unfold QuerySet.count.
  change (QuerySet.count_query
            (Model.objects_filter (@AuthModels.Permission Ambient)
               [("modelName", VStr m)]))
    with ("SELECT COUNT(*) as count FROM permissions WHERE modelName = ?",
          [@VStr Ambient m]).
  cbv beta iota. unfold bind at 1, statement.
  cbn [exec D Sqlite.driver]. unfold execute. cbn [sql params mode].
  change (parse "SELECT COUNT(*) as count FROM permissions WHERE modelName = ?")
    with (Some (SCount "permissions" ["modelName"])).
  cbn [bind_params bind_param]. unfold run. rewrite Ht.
  assert (Hk : known tb ["modelName"] = true)
    by (unfold known; rewrite Hc; reflexivity).
  rewrite Hk. cbn [negb List.length Nat.eqb reads rows obj_get].
  unfold ret at 1. cbn [String.eqb Ascii.eqb Bool.eqb obj_get].
  rewrite on_numbers.
  rewrite (List.filter_ext (matches ["modelName"] [SText m])
             (Stored.has_model m))
    by (intros r; apply PermissionFacts.matches_one).
  destruct (existsb (Stored.has_model m) (table_rows tb)) eqn:Hex.
  - assert (Hpos : (0 <? Z.of_nat
                            (List.length
                               (List.filter (Stored.has_model m)
                                            (table_rows tb))))%Z = true).
    { apply existsb_exists in Hex. destruct Hex as [r [Hin Hr]].
      assert (In r (List.filter (Stored.has_model m) (table_rows tb)))
        by (apply filter_In; now split).
      destruct (List.filter (Stored.has_model m) (table_rows tb));
        [contradiction|].
      apply Z.ltb_lt. simpl. lia. }
    rewrite Hpos. unfold bind at 1. unfold QuerySet.delete.
    change (QuerySet.delete_query
              (Model.objects_filter (@AuthModels.Permission Ambient)
                 [("modelName", VStr m)]))
      with ("DELETE FROM permissions WHERE modelName = ?",
            [@VStr Ambient m]).
    cbv beta iota. unfold bind at 1, statement.
    cbn [exec D Sqlite.driver]. unfold execute. cbn [sql params mode].
    change (parse "DELETE FROM permissions WHERE modelName = ?")
      with (Some (SDelete "permissions" ["modelName"])).
    cbn [bind_params bind_param]. unfold run.
    cbn [db]. rewrite Ht, Hk. cbn [negb List.length Nat.eqb].
    unfold ret. cbn [fst snd]. unfold Stored.wrote, Stored.asked.
    cbn [ambient db executed].
    do 4 f_equal. apply List.filter_ext. intros r.
    now rewrite PermissionFacts.matches_one.
  - rewrite (filter_none _ _ Hex). reflexivity.
Qed.

Lemma delete_stale_effect (m : string) (tb : Table) (s : Session D) :
  obj_lookup (db s) "permissions" = Some tb ->
  columns tb = ["id"; "name"; "codename"; "modelName"] ->
  exists s1 tb1,
    PermissionsCleanup.delete_stale greater_than_zero D m s = (Normal tt, s1)
    /\ obj_lookup (db s1) "permissions" = Some tb1
    /\ columns tb1 = columns tb
    /\ table_rows tb1
       = List.filter (fun r => negb (Stored.has_model m r)) (table_rows tb)
    /\ (forall t, t <> "permissions" ->
          obj_lookup (db s1) t = obj_lookup (db s) t)
    /\ (existsb (Stored.has_model m) (table_rows tb) = false ->
        db s1 = db s).
Proof.
  intros Ht Hc. rewrite (delete_stale_runs m s Ht Hc).
  destruct (existsb (Stored.has_model m) (table_rows tb)) eqn:Hex.
  - eexists. eexists. split; [reflexivity|].
    split; [apply ObjFacts.lookup_set_same|].
    split; [reflexivity|]. split; [reflexivity|]. split; [|discriminate].
    intros t Hne. now apply ObjFacts.lookup_set_other.
  - eexists. exists tb. split; [reflexivity|]. split; [exact Ht|].
    split; [reflexivity|]. split; [|split; reflexivity].
    symmetry. apply filter_every.
    clear - Hex. induction (table_rows tb) as [|r l IH]; simpl in *;
      [reflexivity|].
    apply orb_false_iff in Hex. destruct Hex as [-> Hex]. simpl.
    now apply IH.
Qed.

(** X23.  The cleanup script removes the permissions of the model names
    [Product] and [product] and nothing else: on a database with the
    [permissions] table it ends without an error, the rows whose
    [modelName] is neither of the two stay, in order, every other table is
    as before, and when no row has either model name the database is left
    as it was.  Each block removes the rows of its own model name only. *)
Theorem cleanup_removes_stale_permissions (s : Session D) :
  Grants.laid_out (db s) (@AuthModels.Permission Ambient) ->
  (forall m, exists s1,
      PermissionsCleanup.delete_stale greater_than_zero D m s
      = (Normal tt, s1)
      /\ Grants.stored_rows (db s1) "permissions"
         = List.filter (fun r => negb (Stored.has_model m r))
                       (Grants.stored_rows (db s) "permissions"))
  /\ exists s2,
       PermissionsCleanup.cleanup greater_than_zero D s = (Normal tt, s2)
       /\ Grants.stored_rows (db s2) "permissions"
          = List.filter
              (fun r => negb (Stored.has_model "Product" r)
                        && negb (Stored.has_model "product" r))
              (Grants.stored_rows (db s) "permissions")
       /\ (forall t, t <> "permissions" ->
             obj_lookup (db s2) t = obj_lookup (db s) t)
       /\ (existsb (fun r => Stored.has_model "Product" r
                             || Stored.has_model "product" r)
                   (Grants.stored_rows (db s) "permissions") = false ->
           db s2 = db s).
Proof.
  intros [tb [Ht Hc]]. simpl in Ht, Hc.
  rewrite (PermissionFacts.stored_rows_of _ _ Ht). split.
  - intros m. destruct (delete_stale_effect m s Ht Hc)
      as [s1 [tb1 [E [Ht1 [_ [Hrows _]]]]]].
    exists s1. split; [exact E|].
    now rewrite (PermissionFacts.stored_rows_of _ _ Ht1).
  - destruct (delete_stale_effect "Product" s Ht Hc)
      as [s1 [tb1 [E1 [Ht1 [Hc1 [Hrows1 [Hother1 Hsame1]]]]]]].
    rewrite Hc in Hc1.
    destruct (delete_stale_effect "product" s1 Ht1 Hc1)
      as [s2 [tb2 [E2 [Ht2 [Hc2 [Hrows2 [Hother2 Hsame2]]]]]]].
    exists s2. split.
    { unfold PermissionsCleanup.cleanup, PermissionsCleanup.try_catch, bind.
      rewrite E1. now rewrite E2. }
    rewrite (PermissionFacts.stored_rows_of _ _ Ht2), Hrows2, Hrows1.
    split.
    { clear. induction (table_rows tb) as [|r l IH]; simpl;
        [reflexivity|].
      destruct (Stored.has_model "Product" r); simpl; [exact IH|].
      destruct (Stored.has_model "product" r); simpl; [exact IH|].
      now rewrite IH. }
    split.
    { intros t Hne. now rewrite (Hother2 t Hne), (Hother1 t Hne). }
    intros Hnone.
    assert (H1 : existsb (Stored.has_model "Product") (table_rows tb) = false
                 /\ existsb (Stored.has_model "product") (table_rows tb)
                    = false).
    { clear - Hnone. induction (table_rows tb) as [|r l IH]; simpl in *;
        [split; reflexivity|].
      apply orb_false_iff in Hnone. destruct Hnone as [Hr Hl].
      apply orb_false_iff in Hr. destruct Hr as [-> ->].
      simpl. now apply IH. }
    destruct H1 as [Hp Hl].
    specialize (Hsame1 Hp). rewrite Hsame1 in *.
    assert (tb1 = tb) by congruence. subst tb1.
    rewrite (Hsame2 Hl). reflexivity.
Qed.

End Cleanup.

End Facts.
End ServiceFacts.

(* ================================================================== *)
(** ** The further properties at work on the scenarios *)
(* ================================================================== *)

Module MoreExamples.

Import Sqlite Scenario AuthScenario.

Lemma auth_schema_of_auth_db : Grants.auth_schema now (db auth_start).
Proof. repeat split; try (eexists; split; reflexivity). Qed.

Lemma ann_is_plain : Grants.plain_user (db auth_start) 1.
Proof.
  exists (user_row 1 "ann" 0). split; [now left | split; reflexivity].
Qed.

Lemma bob_is_plain : Grants.plain_user (db auth_start) 2.
Proof.
  exists (user_row 2 "bob" 0).
  split; [right; now left | split; reflexivity].
Qed.

Lemma cy_is_plain : Grants.plain_user (db auth_start) 3.
Proof.
  exists (user_row 3 "cy" 0).
  split; [right; right; now left | split; reflexivity].
Qed.

Lemma filter_merges_by_key_witness :
  NoDup (obj_keys [("title", @VStr Clock "b"); ("subtitle", VStr "c")])
  /\ obj_keys
       (QuerySet.filters
          (QuerySet.filter
             (QuerySet.filter (QuerySet.new Post) [("title", VStr "a")])
             [("title", VStr "b"); ("subtitle", VStr "c")]))
     = ["title"; "subtitle"].
Proof.
  assert (Hnd : NoDup (obj_keys [("title", @VStr Clock "b");
                                 ("subtitle", VStr "c")])).
  { simpl. repeat constructor; simpl; intuition discriminate. }
  split; [exact Hnd|].
  destruct (@QueryMore.filter_merges_by_key Clock Post
              [Chain.Filter [("title", VStr "a")]]
              [("title", VStr "b"); ("subtitle", VStr "c")] Hnd)
    as (_ & Hkeys & _).
  exact Hkeys.
Defined.

Lemma toJSON_of_hydrated_row_witness :
  NoDup (obj_keys [("id", @VNum Clock (Num 1)); ("title", VStr "x")])
  /\ obj_lookup
       (ModelMore.toJSON
          (QuerySet.hydrate Post [("id", VNum (Num 1)); ("title", VStr "x")]))
       "title"
     = Some (VStr "x")
  /\ obj_lookup
       (ModelMore.toJSON
          (QuerySet.hydrate Post [("id", VNum (Num 1)); ("title", VStr "x")]))
       "createdAt"
     = None.
Proof.
  assert (Hnd : NoDup (obj_keys [("id", @VNum Clock (Num 1));
                                 ("title", VStr "x")])).
  { simpl. repeat constructor; simpl; intuition discriminate. }
  assert (Hser : forall k v,
            In (k, v) [("id", @VNum Clock (Num 1)); ("title", VStr "x")] ->
            ModelMore.serialised v = true).
  { intros k v [H|[H|[]]]; inversion H; reflexivity. }
  assert (Hfields : forall k v,
            In (k, v) (ModelStatic.declared Post) ->
            instanceof_Field v = true).
  { intros k v [H|[H|[H|[H|[]]]]]; inversion H; reflexivity. }
  split; [exact Hnd|]. split.
  - exact (@ModelMoreFacts.toJSON_of_hydrated_row Clock Post _ Hnd Hser
             Hfields "title").
  - exact (@ModelMoreFacts.toJSON_of_hydrated_row Clock Post _ Hnd Hser
             Hfields "createdAt").
Defined.

Lemma create_follows_id_of_data_witness :
  NoDup (obj_keys [("id", @VNum Clock (Num 5)); ("title", VStr "x")])
  /\ ModelStatic.get
       (ModelStatic.assign (ModelStatic.construct Post)
          [("id", VNum (Num 5)); ("title", VStr "x")]) "id"
     = VNum (Num 5).
Proof.
  assert (Hnd : NoDup (obj_keys [("id", @VNum Clock (Num 5));
                                 ("title", VStr "x")])).
  { simpl. repeat constructor; simpl; intuition discriminate. }
  split; [exact Hnd|].
  destruct (@ModelMoreFacts.create_follows_id_of_data Clock sqlite Post
              [("id", VNum (Num 5)); ("title", VStr "x")] start Hnd)
    as (Hid & _).
  exact Hid.
Defined.

Lemma delete_ignores_order_and_bounds_witness :
  (forall fs, ~ In (Chain.Filter fs) [@Chain.Limit Clock (Num 1)])
  /\ map sql
       (executed
          (snd (QuerySet.delete sqlite
                  (QuerySet.limit (QuerySet.new Post) (Num 1)) start)))
     = ["DELETE FROM posts"].
Proof.
  assert (Hnone : forall fs,
            ~ In (Chain.Filter fs) [@Chain.Limit Clock (Num 1)]).
  { intros fs [H|[]]. discriminate. }
  split; [exact Hnone|].
  destruct (@QueryMore.delete_ignores_order_and_bounds Clock sqlite Post
              [Chain.Limit (Num 1)] start) as (Hexec & _ & Hsql).
  cbv zeta in Hexec, Hsql. specialize (Hsql Hnone).
  change (Chain.build (QuerySet.new Post) [Chain.Limit (Num 1)])
    with (QuerySet.limit (QuerySet.new Post) (Num 1)) in Hexec.
  rewrite Hexec. exact (f_equal (fun x => [x]) Hsql).
Defined.

Lemma safe_data_drops_excluded_witness :
  In "password"
     (AdminData.excluded_of
        {| ModelRegistry.opt_appName := None;
           ModelRegistry.opt_displayName := None;
           ModelRegistry.opt_icon := None;
           ModelRegistry.opt_permissions := None;
           ModelRegistry.opt_listDisplay := None;
           ModelRegistry.opt_searchFields := None;
           ModelRegistry.opt_filterFields := None;
           ModelRegistry.opt_orderBy := None;
           ModelRegistry.opt_readonly := None;
           ModelRegistry.opt_excludeFields := Some ["password"] |})
  /\ obj_lookup
       (AdminData.safe_data
          {| ModelRegistry.opt_appName := None;
             ModelRegistry.opt_displayName := None;
             ModelRegistry.opt_icon := None;
             ModelRegistry.opt_permissions := None;
             ModelRegistry.opt_listDisplay := None;
             ModelRegistry.opt_searchFields := None;
             ModelRegistry.opt_filterFields := None;
             ModelRegistry.opt_orderBy := None;
             ModelRegistry.opt_readonly := None;
             ModelRegistry.opt_excludeFields := Some ["password"] |}
          (QuerySet.hydrate (AuthModels.User now)
             [("id", VNum (Num 1)); ("password", VStr "x")]))
       "password"
     = None.
Proof.
  assert (Hin : In "password" ["password"]) by now left.
  split; [exact Hin|].
  destruct (@ModelMoreFacts.safe_data_drops_excluded Clock
              {| ModelRegistry.opt_appName := None;
                 ModelRegistry.opt_displayName := None;
                 ModelRegistry.opt_icon := None;
                 ModelRegistry.opt_permissions := None;
                 ModelRegistry.opt_listDisplay := None;
                 ModelRegistry.opt_searchFields := None;
                 ModelRegistry.opt_filterFields := None;
                 ModelRegistry.opt_orderBy := None;
                 ModelRegistry.opt_readonly := None;
                 ModelRegistry.opt_excludeFields := Some ["password"] |}
              (QuerySet.hydrate (AuthModels.User now)
                 [("id", VNum (Num 1)); ("password", VStr "x")])
              "password") as (Hgone & _).
  exact (Hgone Hin).
Defined.

Lemma unregisterModel_removes_one_name_witness :
  ModelRegistry.hasModel registry "Shop" = false
  /\ RegistryMore.unregisterModel registry "Shop" = registry
  /\ ModelRegistry.getModelNames (RegistryMore.unregisterModel registry "Post")
     = ["User"].
Proof.
  split; [reflexivity|].
  destruct (@RegistryMoreFacts.unregisterModel_removes_one_name Clock
              registry "Shop") as (_ & _ & _ & _ & Hsame & _).
  split; [exact (Hsame eq_refl)|].
  destruct (@RegistryMoreFacts.unregisterModel_removes_one_name Clock
              registry "Post") as (_ & _ & _ & Hnames & _).
  exact Hnames.
Defined.

Lemma users_laid_out_with_root :
  Grants.laid_out (db root_start) (AuthModels.User now).
Proof. eexists; split; reflexivity. Qed.

Lemma hasPermission_decided_by_user_row_witness :
  Grants.laid_out (db auth_start) (AuthModels.User now)
  /\ fst (PermissionService.hasPermission now sqlite (Num 9) "add_post"
            auth_start) = Normal false
  /\ Grants.falsy (cell (user_row 4 "root" 1) "isSuperuser") = false
  /\ fst (PermissionService.hasPermission now sqlite (Num 4) "no_such_code"
            root_start) = Normal true.
Proof.
  assert (Hl : Grants.laid_out (db auth_start) (AuthModels.User now))
    by apply auth_schema_of_auth_db.
  split; [exact Hl|]. split.
  - exact (f_equal fst
             (@ServiceFacts.hasPermission_decided_by_user_row Clock now 9
                "add_post" auth_start Hl)).
  - split; [reflexivity|].
    exact (f_equal fst
             (@ServiceFacts.hasPermission_decided_by_user_row Clock now 4
                "no_such_code" root_start users_laid_out_with_root
                eq_refl)).
Defined.

Lemma getUserPermissions_decided_by_user_row_witness :
  Grants.laid_out (db root_start) (AuthModels.User now)
  /\ List.length
       (match fst (PermissionMore.getUserPermissions now sqlite (Num 4)
                     root_start) with
        | Normal ps => ps
        | Throw _ => []
        end) = 2%nat
  /\ fst (PermissionMore.getUserPermissions now sqlite (Num 9) root_start)
     = Normal [].
Proof.
  split; [exact users_laid_out_with_root|]. split.
  - unfold sqlite.
    rewrite (@ServiceFacts.getUserPermissions_decided_by_user_row Clock now
               4 root_start users_laid_out_with_root _ eq_refl eq_refl).
    reflexivity.
  - exact (f_equal fst
             (@ServiceFacts.getUserPermissions_decided_by_user_row Clock now
                9 root_start users_laid_out_with_root _ eq_refl)).
Defined.

Lemma assignPermission_links_once_witness :
  Grants.laid_out (db auth_start) (@AuthModels.UserPermission Clock)
  /\ exists s1 s2,
       PermissionMore.assignPermission sqlite (Num 3) (Num 2) auth_start
       = (Normal tt, s1)
       /\ PermissionMore.assignPermission sqlite (Num 3) (Num 2) s1
          = (Normal tt, s2)
       /\ db s2 = db s1.
Proof.
  assert (Hl : Grants.laid_out (db auth_start)
                 (@AuthModels.UserPermission Clock))
    by apply auth_schema_of_auth_db.
  split; [exact Hl|].
  destruct (@ServiceFacts.assignPermission_links_once Clock 3 2 auth_start
              Hl) as (tb & s1 & s2 & _ & E1 & _ & _ & _ & E2 & Hdb).
  exists s1, s2. split; [exact E1|]. split; [exact E2 | exact Hdb].
Defined.

Lemma assignPermission_then_hasPermission_witness :
  Grants.auth_schema now (db auth_start)
  /\ Grants.plain_user (db auth_start) 3
  /\ exists s1 s2,
       PermissionMore.assignPermission sqlite (Num 3) (Num 2) auth_start
       = (Normal tt, s1)
       /\ PermissionService.hasPermission now sqlite (Num 3) "change_post" s1
          = (Normal true, s2).
Proof.
  split; [exact auth_schema_of_auth_db|]. split; [exact cy_is_plain|].
  destruct (@ServiceFacts.assignPermission_then_hasPermission Clock now 3 2
              "change_post" auth_start auth_schema_of_auth_db cy_is_plain)
    as (s1 & s2 & E1 & E2 & _).
  - exists [("id", SInt 2); ("name", SText "Can change Post");
            ("codename", SText "change_post"); ("modelName", SText "Post")].
    split; [right; now left | split; reflexivity].
  - exists s1, s2. split; [exact E1 | exact E2].
Defined.

Lemma revokePermission_removes_first_link_witness :
  Grants.laid_out (db auth_start) (@AuthModels.UserPermission Clock)
  /\ Grants.unique_ids (Grants.stored_rows (db auth_start) "user_permissions")
     = true
  /\ Stored.ids_set (Grants.stored_rows (db auth_start) "user_permissions")
     = true
  /\ exists s1,
       PermissionMore.revokePermission sqlite (Num 1) (Num 1) auth_start
       = (Normal tt, s1)
       /\ Grants.stored_rows (db s1) "user_permissions" = [].
Proof.
  assert (Hl : Grants.laid_out (db auth_start)
                 (@AuthModels.UserPermission Clock))
    by apply auth_schema_of_auth_db.
  split; [exact Hl|]. split; [reflexivity|]. split; [reflexivity|].
  destruct (@ServiceFacts.revokePermission_removes_first_link Clock 1 1
              auth_start Hl eq_refl eq_refl) as (s1 & E & Hrows & _).
  exists s1. split; [exact E | exact Hrows].
Defined.

Lemma revokePermission_undoes_assignPermission_witness :
  obj_lookup (db auth_start) "user_permissions" = Some user_links
  /\ existsb (Stored.links "userId" "permissionId" 3 2)
             (table_rows user_links) = false
  /\ Stored.next_id_free user_links = true
  /\ (0 <= seq user_links)%Z
  /\ exists s1 s2,
       PermissionMore.assignPermission sqlite (Num 3) (Num 2) auth_start
       = (Normal tt, s1)
       /\ PermissionMore.revokePermission sqlite (Num 3) (Num 2) s1
          = (Normal tt, s2)
       /\ Grants.stored_rows (db s2) "user_permissions"
          = table_rows user_links.
Proof.
  assert (Hseq : (0 <= seq user_links)%Z) by (simpl; lia).
  split; [reflexivity|]. split; [reflexivity|]. split; [reflexivity|].
  split; [exact Hseq|].
  destruct (@ServiceFacts.revokePermission_undoes_assignPermission Clock 3 2
              user_links auth_start eq_refl eq_refl eq_refl eq_refl Hseq)
    as (s1 & s2 & E1 & E2 & Hrows & _).
  exists s1, s2. split; [exact E1|]. split; [exact E2 | exact Hrows].
Defined.

Lemma createModelPermissions_idempotent_witness :
  Grants.laid_out (db auth_start) (@AuthModels.Permission Clock)
  /\ exists s1 s2,
       PermissionMore.createModelPermissions sqlite "Product" "Products"
         auth_start = (Normal tt, s1)
       /\ PermissionMore.createModelPermissions sqlite "Product" "Products"
            s1 = (Normal tt, s2)
       /\ db s2 = db s1.
Proof.
  assert (Hl : Grants.laid_out (db auth_start)
                 (@AuthModels.Permission Clock))
    by apply auth_schema_of_auth_db.
  split; [exact Hl|].
  destruct (@ServiceFacts.createModelPermissions_idempotent Clock "Product"
              "Products" auth_start Hl)
    as (s1 & s2 & extra & E1 & _ & _ & _ & _ & _ & E2 & Hdb & _).
  exists s1, s2. split; [exact E1|]. split; [exact E2 | exact Hdb].
Defined.

Lemma getUserPermissions_agrees_with_hasPermission_witness :
  Grants.auth_schema now (db auth_start)
  /\ Grants.plain_user (db auth_start) 2
  /\ exists ps s',
       PermissionMore.getUserPermissions now sqlite (Num 2) auth_start
       = (Normal ps, s')
       /\ fst (PermissionService.hasPermission now sqlite (Num 2)
                 "change_post" auth_start)
          = Normal
              (existsb
                 (fun p =>
                    PermissionService.strict_equal_string
                      (ModelStatic.get p "codename") "change_post") ps)
       /\ NoDup (map (fun p => ModelStatic.get p "id") ps).
Proof.
  split; [exact auth_schema_of_auth_db|]. split; [exact bob_is_plain|].
  destruct (@ServiceFacts.getUserPermissions_agrees_with_hasPermission Clock
              now 2 auth_start auth_schema_of_auth_db bob_is_plain)
    as (ps & s' & E & _ & Hagree & _ & Hnd).
  exists ps, s'. split; [exact E|]. split; [apply Hagree | exact Hnd].
Defined.

Lemma assignGroup_then_hasPermission_witness :
  Grants.auth_schema now (db auth_start)
  /\ Grants.plain_user (db auth_start) 3
  /\ exists s1 s2,
       PermissionMore.assignGroup sqlite (Num 3) (Num 7) auth_start
       = (Normal tt, s1)
       /\ PermissionService.hasPermission now sqlite (Num 3) "change_post" s1
          = (Normal true, s2).
Proof.
  split; [exact auth_schema_of_auth_db|]. split; [exact cy_is_plain|].
  destruct (@ServiceFacts.assignGroup_then_hasPermission Clock now 3 7
              "change_post" auth_start auth_schema_of_auth_db cy_is_plain)
    as (s1 & s2 & s3 & E1 & E2 & _).
  - exists [("id", SInt 1); ("groupId", SInt 7); ("permissionId", SInt 2)],
           [("id", SInt 2); ("name", SText "Can change Post");
            ("codename", SText "change_post"); ("modelName", SText "Post")].
    split; [now left|]. split; [reflexivity|].
    split; [right; now left|]. split; reflexivity.
  - exists s1, s2. split; [exact E1 | exact E2].
Defined.

Lemma removeFromGroup_undoes_assignGroup_witness :
  obj_lookup (db auth_start) "user_groups" = Some memberships
  /\ existsb (Stored.links "userId" "groupId" 3 7) (table_rows memberships)
     = false
  /\ Stored.next_id_free memberships = true
  /\ (0 <= seq memberships)%Z
  /\ exists s1 s2,
       PermissionMore.assignGroup sqlite (Num 3) (Num 7) auth_start
       = (Normal tt, s1)
       /\ PermissionMore.removeFromGroup sqlite (Num 3) (Num 7) s1
          = (Normal tt, s2)
       /\ Grants.stored_rows (db s2) "user_groups"
          = table_rows memberships.
Proof.
  assert (Hseq : (0 <= seq memberships)%Z) by (simpl; lia).
  split; [reflexivity|]. split; [reflexivity|]. split; [reflexivity|].
  split; [exact Hseq|].
  destruct (@ServiceFacts.removeFromGroup_undoes_assignGroup Clock 3 7
              memberships auth_start eq_refl eq_refl eq_refl eq_refl Hseq)
    as (s1 & s2 & E1 & E2 & Hrows & _).
  exists s1, s2. split; [exact E1|]. split; [exact E2 | exact Hrows].
Defined.

Lemma permissions_laid_out_in_shop :
  Grants.laid_out (db shop_start) (@AuthModels.Permission Clock).
Proof. eexists; split; reflexivity. Qed.

Lemma cleanup_removes_stale_permissions_witness :
  (forall z, positive (VNum (Num z)) = Z.ltb 0 z)
  /\ Grants.laid_out (db shop_start) (@AuthModels.Permission Clock)
  /\ List.length (Grants.stored_rows (db shop_start) "permissions") = 6%nat
  /\ exists s2,
       PermissionsCleanup.cleanup positive sqlite shop_start = (Normal tt, s2)
       /\ Grants.stored_rows (db s2) "permissions"
          = Grants.stored_rows (db auth_start) "permissions".
Proof.
  assert (Hpos : forall z, positive (VNum (Num z)) = Z.ltb 0 z)
    by reflexivity.
  split; [exact Hpos|]. split; [exact permissions_laid_out_in_shop|].
  split; [reflexivity|].
  destruct (@ServiceFacts.cleanup_removes_stale_permissions Clock positive
              Hpos shop_start permissions_laid_out_in_shop)
    as (_ & s2 & E & Hrows & _).
  exists s2. split; [exact E | exact Hrows].
Defined.

Lemma list_models_lists_granted_models_witness :
  Grants.auth_schema now (db auth_start)
  /\ Grants.plain_user (db auth_start) 1
  /\ fst (AdminRoutes.list_models now sqlite registry root_token auth_start)
     = Normal (map (@AdminRoutes.summary Clock)
                   (ModelRegistry.getAllModels registry))
  /\ exists listed s',
       AdminRoutes.list_models now sqlite registry ann_token auth_start
       = (Normal (map (@AdminRoutes.summary Clock) listed), s')
       /\ map (fun m => ModelStatic.name (ModelRegistry.meta_model m)) listed
          = ["Post"].
Proof.
  split; [exact auth_schema_of_auth_db|]. split; [exact ann_is_plain|].
  destruct (@ServiceFacts.list_models_lists_granted_models Clock now registry
              root_token 4 auth_start) as (Hroot & _).
  destruct (@ServiceFacts.list_models_lists_granted_models Clock now registry
              ann_token 1 auth_start) as (_ & Hann).
  split; [exact (f_equal fst (Hroot eq_refl))|].
  destruct (Hann eq_refl eq_refl auth_schema_of_auth_db ann_is_plain)
    as (listed & s' & E & _ & Hl & _).
  exists listed, s'. split; [exact E|]. rewrite Hl. reflexivity.
Defined.

Lemma model_metadata_gated_by_any_action_witness :
  Grants.auth_schema now (db auth_start)
  /\ Grants.plain_user (db auth_start) 1
  /\ fst (AdminRoutes.model_metadata now sqlite registry ann_token "Shop"
            auth_start)
     = Normal (404%nat, @AdminRoutes.ErrorBody Clock "Model not found")
  /\ (exists s',
        AdminRoutes.model_metadata now sqlite registry ann_token "User"
          auth_start
        = (Normal (403%nat, @AdminRoutes.ErrorBody Clock "Permission denied"),
           s')).
Proof.
  split; [exact auth_schema_of_auth_db|]. split; [exact ann_is_plain|].
  split.
  - exact (f_equal fst
             (@ServiceFacts.model_metadata_gated_by_any_action Clock now
                registry ann_token 1 "Shop" auth_start)).
  - destruct (@ServiceFacts.model_metadata_gated_by_any_action Clock now
                registry ann_token 1 "User" auth_start eq_refl
                auth_schema_of_auth_db ann_is_plain) as (s' & E & _).
    exists s'. exact E.
Defined.

Lemma update_handlers_replace_links_witness :
  Grants.laid_out (db auth_start) (@AuthModels.UserPermission Clock)
  /\ Grants.unique_ids (Grants.stored_rows (db auth_start) "user_permissions")
     = true
  /\ Stored.ids_set (Grants.stored_rows (db auth_start) "user_permissions")
     = true
  /\ exists s',
       PermissionsRoutes.update_user_permissions sqlite (Num 1)
         [Num 2; Num 2] auth_start = (Normal true, s')
       /\ map (fun r => cell r "permissionId")
              (Grants.links_of_user (db s') 1) = [SInt 2; SInt 2].
Proof.
  assert (Hl : Grants.laid_out (db auth_start)
                 (@AuthModels.UserPermission Clock))
    by apply auth_schema_of_auth_db.
  split; [exact Hl|]. split; [reflexivity|]. split; [reflexivity|].
  destruct (@ServiceFacts.update_handlers_replace_links Clock 1 [2; 2]%Z
              auth_start) as (_ & Hperm & _).
  destruct (Hperm Hl eq_refl eq_refl) as (s' & E & Hmine & _).
  exists s'. split; [exact E | exact Hmine].
Defined.

End MoreExamples.
